(** * Vigilo: baseline store, event filter and diff engine

    A shallow embedding of the state store and event pipeline of the
    Vigilo file-integrity monitor ([logger.py], [FileWatcher.py],
    [file_monitoring.py]) together with the properties its design
    document states about them, followed by the commands of [main.py],
    the construction of the watcher and the alert modes of
    [alert_manager.py] with properties read off the code.

    Conventions.
    - Python values that travel through [json.loads]/[json.dumps] are the
      inductive type [json]; dictionaries are association lists in
      insertion order, as Python keeps them.  Floating point numbers are
      outside the model.
    - Text is [string]; [str.strip] and the line iteration of a text file
      are modelled on the ASCII range.  A file is read as the text it
      holds: the model covers files whose bytes decode, which is the case
      of all the program writes ([json.dumps] writes ASCII only).  On
      other bytes a text-mode read raises [UnicodeDecodeError] in Python,
      and [str.strip] also removes the white space beyond ASCII; a
      statement that depends on it has [is_ascii] as a hypothesis.
    - A library call raises what the model gives it: [json.loads] a
      [JSONDecodeError], [os.stat] an [OSError], [datetime.fromisoformat]
      a [ValueError], the subtraction of a [relativedelta] what
      [minus_years] says.  Exhausted resources ([RecursionError],
      [MemoryError]) and a modification time [datetime.fromtimestamp]
      rejects (see [timestamp_in_range]) are outside the model.
    - Functions that may raise return an [outcome]; functions that touch
      files run in the [io] monad over a [world] holding the files, a
      fault oracle (which of the next system calls fail with [OSError]),
      the trace of system calls made so far and the console output.
    - Library functions ([json.loads], [json.dumps], [os.path.abspath],
      [datetime], [os.stat], ...) are fields of the records [pylib] and
      [osview]; every general theorem holds for all of them. *)

From Stdlib Require Import ZArith String Ascii List Bool Lia.
From stdpp Require Import base option gmap strings list fin_maps.

Import ListNotations.
Set Warnings "-register-all".
Local Open Scope string_scope.
Local Open Scope Z_scope.

(* ===================================================================== *)
(** * Exceptions and results *)
(* ===================================================================== *)

(** The exception classes the modelled code can meet.  [OSError] also
    stands for its subclasses ([FileNotFoundError], [PermissionError])
    and for [IOError], which is an alias of it; [ValueError] is what
    [datetime.fromisoformat] raises on a text that is no date. *)
Inductive exn : Type :=
| OSError
| AttributeError
| TypeError
| KeyError
| ValueError.

Inductive outcome (A : Type) : Type :=
| Ret (a : A)
| Raise (e : exn).
Arguments Ret {A} a.
Arguments Raise {A} e.

Definition obind {A B : Type} (m : outcome A) (k : A → outcome B) : outcome B :=
  match m with
  | Ret a => k a
  | Raise e => Raise e
  end.

Declare Scope py_scope.
Delimit Scope py_scope with py.
Notation "'let?' x ':=' m 'in' k" := (obind m (fun x => k))
  (at level 10, x pattern, m at level 100, k at level 200) : py_scope.
Local Open Scope py_scope.

(* ===================================================================== *)
(** * Python values *)
(* ===================================================================== *)

Inductive json : Type :=
| JNull
| JBool (b : bool)
| JInt (n : Z)
| JStr (s : string)
| JList (l : list json)
| JDict (d : list (string * json)).

Definition str_eqb (a b : string) : bool := bool_decide (a = b).

(** [d.get(k)] on the entries of a dictionary. *)
Fixpoint dict_get (k : string) (d : list (string * json)) : option json :=
  match d with
  | [] => None
  | (k', v) :: d' => if str_eqb k k' then Some v else dict_get k d'
  end.

(** [d[k] = v]: the value of an existing key is replaced in place, a new
    key goes to the end. *)
Fixpoint dict_set (k : string) (v : json) (d : list (string * json))
  : list (string * json) :=
  match d with
  | [] => [(k, v)]
  | (k', v') :: d' =>
      if str_eqb k k' then (k', v) :: d' else (k', v') :: dict_set k v d'
  end.

Definition dict_keys (d : list (string * json)) : list string := map fst d.

(** Python's [==] on these values: [True == 1], lists are compared
    element by element, dictionaries key by key whatever the order. *)
Fixpoint py_eq (a b : json) {struct a} : bool :=
  match a, b with
  | JNull, JNull => true
  | JBool x, JBool y => Bool.eqb x y
  | JBool x, JInt n => Z.eqb (Z.b2z x) n
  | JInt n, JBool x => Z.eqb n (Z.b2z x)
  | JInt n, JInt m => Z.eqb n m
  | JStr s, JStr t => str_eqb s t
  | JList l, JList m =>
      (fix go (l m : list json) : bool :=
         match l, m with
         | [], [] => true
         | x :: l', y :: m' => py_eq x y && go l' m'
         | _, _ => false
         end) l m
  | JDict d, JDict e =>
      Nat.eqb (length d) (length e) &&
      (fix go (d : list (string * json)) : bool :=
         match d with
         | [] => true
         | (k, v) :: d' =>
             match dict_get k e with
             | Some w => py_eq v w
             | None => false
             end && go d'
         end) d
  | _, _ => false
  end.

(** Truth value of a Python object ([if x:], [not x]). *)
Definition truthy (v : json) : bool :=
  match v with
  | JNull => false
  | JBool b => b
  | JInt n => negb (Z.eqb n 0)
  | JStr s => negb (str_eqb s "")
  | JList l => match l with [] => false | _ => true end
  | JDict d => match d with [] => false | _ => true end
  end.

(** [obj.get(key, dflt)]: only dictionaries have a [get]. *)
Definition py_get (obj : json) (key : string) (dflt : json) : outcome json :=
  match obj with
  | JDict d => Ret (default dflt (dict_get key d))
  | _ => Raise AttributeError
  end.

(** [obj.get(key)], whose default is [None]. *)
Definition py_get1 (obj : json) (key : string) : outcome json :=
  py_get obj key JNull.

(** [data.get("file", {}).get("path")], the identity of a record. *)
Definition record_path (data : json) : outcome json :=
  let? f := py_get data "file" (JDict []) in
  py_get1 f "path".

(** Iterating a Python object ([for x in obj]): a dictionary yields its
    keys, a list its elements, a string its characters; the other values
    are not iterable. *)
Fixpoint chars_of (s : string) : list json :=
  match s with
  | EmptyString => []
  | String c s' => JStr (String c EmptyString) :: chars_of s'
  end.

Definition py_iter (obj : json) : outcome (list json) :=
  match obj with
  | JDict d => Ret (map (fun kv => JStr (fst kv)) d)
  | JList l => Ret l
  | JStr s => Ret (chars_of s)
  | _ => Raise TypeError
  end.

(** [len(obj)]. *)
Definition py_len (obj : json) : outcome nat :=
  match obj with
  | JDict d => Ret (length d)
  | JList l => Ret (length l)
  | JStr s => Ret (String.length s)
  | _ => Raise TypeError
  end.

Fixpoint substring_of (sub s : string) : bool :=
  String.prefix sub s ||
  match s with
  | EmptyString => false
  | String _ s' => substring_of sub s'
  end.

(** [x in obj] for a string [x]: membership in a list (by [==]), key of a
    dictionary, substring of a string. *)
Definition py_in (x : string) (obj : json) : outcome bool :=
  match obj with
  | JList l => Ret (existsb (fun y => py_eq (JStr x) y) l)
  | JDict d => Ret (existsb (fun kv => str_eqb x (fst kv)) d)
  | JStr s => Ret (substring_of x s)
  | _ => Raise TypeError
  end.

(* ===================================================================== *)
(** * Text: stripping and line iteration *)
(* ===================================================================== *)

Definition nl : string := String "010"%char EmptyString.

(** [str.isspace] on the ASCII range: tab, line feed, vertical tab, form
    feed, carriage return, the four separators 28..31 and the space. *)
Definition is_space (c : ascii) : bool :=
  let n := nat_of_ascii c in
  ((9 <=? n) && (n <=? 13) || (28 <=? n) && (n <=? 32))%nat.

Fixpoint lstrip (s : string) : string :=
  match s with
  | EmptyString => EmptyString
  | String c s' => if is_space c then lstrip s' else s
  end.

(** Drops the trailing white space: a character is kept when something
    that is not white space follows or it is not white space itself. *)
Fixpoint rstrip (s : string) : string :=
  match s with
  | EmptyString => EmptyString
  | String c s' =>
      match rstrip s' with
      | EmptyString => if is_space c then EmptyString else String c EmptyString
      | r => String c r
      end
  end.

(** [line.strip()] on a text of the ASCII range. *)
Definition strip (s : string) : string := rstrip (lstrip s).

(** The lines a text file yields when iterated in text mode with universal
    newlines: [\n], [\r\n] and [\r] all end a line.  The terminator is
    not kept (every caller strips the line first); [cur] is the line being
    read, in reverse. *)
Fixpoint read_lines_aux (s : string) (cur : list ascii) : list string :=
  match s with
  | EmptyString =>
      match cur with
      | [] => []
      | _ => [string_of_list_ascii (rev cur)]
      end
  | String c s' =>
      if Ascii.eqb c "010"%char then
        string_of_list_ascii (rev cur) :: read_lines_aux s' []
      else if Ascii.eqb c "013"%char then
        string_of_list_ascii (rev cur) ::
        match s' with
        | String c' s'' =>
            if Ascii.eqb c' "010"%char then read_lines_aux s'' []
            else read_lines_aux s' []
        | EmptyString => []
        end
      else read_lines_aux s' (c :: cur)
  end.

Definition read_lines (content : string) : list string :=
  read_lines_aux content [].

(** What [for line in lines: f.write(line + "\n")] leaves in a file. *)
Fixpoint unlines (lines : list string) : string :=
  match lines with
  | [] => ""
  | l :: ls => l ++ nl ++ unlines ls
  end.

(* ===================================================================== *)
(** * The library and the observed file tree *)
(* ===================================================================== *)

(** A [datetime] object: a point on the time line and whether it carries a
    time zone (comparing a naive with an aware one raises [TypeError]). *)
Record datetime : Type := Datetime { ticks : Z; aware : bool }.

(** The functions of the Python library the code calls. *)
Record pylib : Type := Pylib {
  (** [json.loads]; [None] stands for [JSONDecodeError] *)
  loads : string → option json;
  (** [json.dumps(obj)] *)
  dumps : json → string;
  (** the text [json.dump(obj, f, indent=4)] writes *)
  dump_indent : json → string;
  (** [os.path.abspath] *)
  abspath : string → string;
  (** [os.path.basename] *)
  basename : string → string;
  (** iteration order of a [set] holding the given elements *)
  set_order : list json → list json;
  (** [datetime.fromisoformat]; [None] stands for [ValueError] *)
  fromisoformat : string → option datetime;
  (** [dt - relativedelta(years=n)]; it raises when the year leaves the
      range of [datetime] ([ValueError] for a year outside 1..9999) *)
  minus_years : datetime → Z → outcome datetime;
  (** [stat.filemode] *)
  filemode : Z → string;
  (** [datetime.fromtimestamp(t).isoformat()] *)
  timestamp_iso : Z → string;
  (** [str(n)] for an integer *)
  str_of_int : Z → string;
  (** the mode a file created by [open(p, "w")] gets *)
  create_mode : Z
}.

Record stat_result : Type := StatResult {
  st_size : Z; st_uid : Z; st_gid : Z; st_mode : Z; st_mtime : Z
}.

(** What the process sees of the monitored tree and of the clock while one
    operation runs.  The fields are independent, so a path may exist for
    [os.path.exists] and be gone for [os.stat] (the race of a file that
    vanishes in between). *)
Record osview : Type := Osview {
  path_exists : string → bool;
  os_stat : string → option stat_result;
  isfile : string → bool;
  isdir : string → bool;
  getpwuid : Z → option string;
  getgrgid : Z → option string;
  (** SHA-256 of the content, [None] when reading raises an [OSError] *)
  sha256_file : string → option string;
  (** [datetime.now()] and its [isoformat()] *)
  now : datetime;
  now_iso : string
}.

(* ===================================================================== *)
(** * Files, system calls and the [io] monad *)
(* ===================================================================== *)

Record file : Type := File { f_content : string; f_mode : Z }.

(** The calls on files a trace can record.  [SysFsync] is among them so
    that a trace can be said to hold none: no function of the source calls
    [os.fsync] or [flush]. *)
Inductive syscall : Type :=
| SysOpenRead (p : string)
| SysOpenWrite (p : string)
| SysWrite (p : string) (data : string)
| SysClose (p : string)
| SysFsync (p : string)
| SysChmod (p : string) (mode : Z)
| SysReplace (src dst : string)
| SysRemove (p : string).

(** What the functions print. *)
Inductive message : Type :=
| MsgErrorSavingHistory
| MsgDeleted (count : Z)
| MsgErrorCleaningHistory
| MsgErrorRemoving
| MsgErrorUpdatingConfiguration
| MsgErrorRegenerating
| MsgErrorUpdatingState
| MsgEventDetected (event path : string)
| MsgNoBaseline.

(** [faults] tells, for the system calls to come, which ones fail (an
    exhausted list means no further failure); [trace] lists the calls made
    with their success; [alerts] the reports handed to the alert router. *)
Record world : Type := World {
  fs : gmap string file;
  faults : list bool;
  trace : list (syscall * bool);
  console : list message;
  alerts : list (json * json)
}.

Definition io (A : Type) : Type := world → outcome A * world.

Definition ret {A : Type} (a : A) : io A := fun w => (Ret a, w).

Definition raise {A : Type} (e : exn) : io A := fun w => (Raise e, w).

Definition bind {A B : Type} (m : io A) (k : A → io B) : io B :=
  fun w =>
    match m w with
    | (Ret a, w') => k a w'
    | (Raise e, w') => (Raise e, w')
    end.

Notation "x <- m ;; k" := (bind m (fun x => k))
  (at level 100, m at next level, right associativity) : py_scope.
Notation "m ;; k" := (bind m (fun _ => k))
  (at level 100, right associativity) : py_scope.

Definition lift {A : Type} (o : outcome A) : io A := fun w => (o, w).

(** [try: m  except (OSError, IOError): h]. *)
Definition try_os {A : Type} (m : io A) (h : io A) : io A :=
  fun w =>
    match m w with
    | (Raise OSError, w') => h w'
    | r => r
    end.

(** [try: m  except Exception: h]. *)
Definition try_any {A : Type} (m : io A) (h : io A) : io A :=
  fun w =>
    match m w with
    | (Raise _, w') => h w'
    | r => r
    end.

Definition print (m : message) : io unit :=
  fun w => (Ret tt, World (fs w) (faults w) (trace w) (console w ++ [m])%list (alerts w)).

Definition set_fs (w : world) (g : gmap string file) : world :=
  World g (faults w) (trace w) (console w) (alerts w).

Definition log_call (c : syscall) (ok : bool) (w : world) : world :=
  World (fs w) (faults w) (trace w ++ [(c, ok)])%list (console w) (alerts w).

Definition pop_fault (w : world) : bool * world :=
  match faults w with
  | [] => (false, w)
  | b :: rest => (b, World (fs w) rest (trace w) (console w) (alerts w))
  end.

(** One system call: it fails when the oracle says so or when [effect]
    is undefined on the current files (a missing file); otherwise the
    files are updated.  Either way the call is logged. *)
Definition sys {A : Type} (c : syscall)
    (effect : gmap string file → option (A * gmap string file)) : io A :=
  fun w =>
    let '(bad, w1) := pop_fault w in
    match (if bad then None else effect (fs w1)) with
    | Some (a, g) => (Ret a, log_call c true (set_fs w1 g))
    | None => (Raise OSError, log_call c false w1)
    end.

(** [os.path.exists] on the files of the store. *)
Definition sys_exists (p : string) : io bool :=
  fun w => (Ret (bool_decide (is_Some (fs w !! p))), w).

(** [open(p, "r")] followed by reading the whole file.  The content is
    handed over as the text it is: the decoding of bytes that are no
    text, which raises [UnicodeDecodeError], is not modelled. *)
Definition sys_read (p : string) : io string :=
  sys (SysOpenRead p) (fun g => f ← g !! p; Some (f_content f, g)).

(** [open(p, "w")]: creates the file or truncates it. *)
Definition sys_open_write (L : pylib) (p : string) : io unit :=
  sys (SysOpenWrite p)
      (fun g =>
         let m := match g !! p with Some f => f_mode f | None => create_mode L end in
         Some (tt, <[p := File "" m]> g)).

(** [f.write(data)]; a write that fails leaves nothing of [data]. *)
Definition sys_write (p : string) (data : string) : io unit :=
  sys (SysWrite p data)
      (fun g => f ← g !! p; Some (tt, <[p := File (f_content f ++ data) (f_mode f)]> g)).

Definition sys_close (p : string) : io unit :=
  sys (SysClose p) (fun g => Some (tt, g)).

Definition sys_chmod (p : string) (mode : Z) : io unit :=
  sys (SysChmod p mode)
      (fun g => f ← g !! p; Some (tt, <[p := File (f_content f) mode]> g)).

(** [os.replace(src, dst)]: atomic rename over the destination. *)
Definition sys_replace (src dst : string) : io unit :=
  sys (SysReplace src dst)
      (fun g => f ← g !! src; Some (tt, <[dst := f]> (delete src g))).

Definition sys_remove (p : string) : io unit :=
  sys (SysRemove p) (fun g => _ ← g !! p; Some (tt, delete p g)).

(** [with open(p, "w") as f: body].  The file is closed on the way out,
    also when [body] raises; closing after a successful body flushes the
    buffers and can itself fail. *)
Definition with_open_write (L : pylib) (p : string) (body : io unit) : io unit :=
  sys_open_write L p;;
  fun w =>
    match body w with
    | (Ret _, w') => sys_close p w'
    | (Raise e, w') => (Raise e, log_call (SysClose p) true w')
    end.

Fixpoint write_each (p : string) (lines : list string) : io unit :=
  match lines with
  | [] => ret tt
  | l :: ls => sys_write p (l ++ nl);; write_each p ls
  end.

(** The clean-up every writer runs in its [except] branch:
    [if os.path.exists(temp): try: os.remove(temp) except OSError: pass]. *)
Definition cleanup_temp (temp : string) : io unit :=
  e <- sys_exists temp;;
  if e then try_os (sys_remove temp) (ret tt) else ret tt.

Definition mode_600 : Z := 384.

(** The body of the [try] block that rewrites the store: the lines go to
    the temporary file, its mode becomes 0o600, it replaces the store. *)
Definition write_store_block (L : pylib) (temp target : string)
    (lines : list string) : io unit :=
  with_open_write L temp (write_each temp lines);;
  sys_chmod temp mode_600;;
  sys_replace temp target.

(** The same for a file holding one JSON document ([indent=4]). *)
Definition write_json_block (L : pylib) (temp target : string)
    (doc : json) : io unit :=
  with_open_write L temp (sys_write temp (dump_indent L doc));;
  sys_chmod temp mode_600;;
  sys_replace temp target.

Definition tmp_of (p : string) : string := p ++ ".tmp".

Fixpoint ofold {A B : Type} (f : A → B → outcome A) (l : list B) (a : A)
  : outcome A :=
  match l with
  | [] => Ret a
  | x :: l' => let? a' := f a x in ofold f l' a'
  end.

(* ===================================================================== *)
(** * file_monitoring.py *)
(* ===================================================================== *)

(** The attributes of a [MonitoredFile] object; [JNull] is [None]. *)
Record MonitoredFile : Type := MkMonitoredFile {
  mf_path : string;
  mf_type : json;
  mf_file_name : json;
  mf_size : json;
  mf_owner : json;
  mf_group : json;
  mf_permissions : json;
  mf_last_modified : json;
  mf_checksum : json
}.

(** [MonitoredFile.file_type] *)
Definition file_type (V : osview) (path : string) : string :=
  if isfile V path then "file"
  else if isdir V path then "directory"
  else "other".

(** [MonitoredFile.compute_checksum]: every failure to read gives [None]. *)
Definition compute_checksum (V : osview) (type path : string) : json :=
  if negb (str_eqb type "file") then JNull
  else match sha256_file V path with
       | Some h => JStr h
       | None => JNull
       end.

(** [MonitoredFile.format_json] *)
Definition format_json (m : MonitoredFile) : json :=
  JDict [
    ("file", JDict [
       ("name", mf_file_name m);
       ("path", JStr (mf_path m));
       ("type", mf_type m)]);
    ("metadata", JDict [
       ("size", mf_size m);
       ("permissions", mf_permissions m);
       ("owner", mf_owner m);
       ("group", mf_group m);
       ("last_modified", mf_last_modified m);
       ("checksum", mf_checksum m)])
  ].

(** The object [load_file_info] leaves behind when [os.stat] succeeds. *)
Definition stat_file (L : pylib) (V : osview) (path : string)
    (stats : stat_result) : MonitoredFile :=
  let type := file_type V path in
  MkMonitoredFile
    path
    (JStr type)
    (JStr (basename L path))
    (JInt (st_size stats))
    (JStr (match getpwuid V (st_uid stats) with
           | Some name => name
           | None => str_of_int L (st_uid stats)
           end))
    (JStr (match getgrgid V (st_gid stats) with
           | Some name => name
           | None => str_of_int L (st_gid stats)
           end))
    (JStr (filemode L (st_mode stats)))
    (JStr (timestamp_iso L (st_mtime stats)))
    (compute_checksum V type path).

(** [MonitoredFile(path).load_file_info()]; the constructor makes the path
    absolute, a failing [os.stat] is raised again.  The modification time
    is taken to be one [datetime.fromtimestamp] accepts. *)
Definition load_file_info (L : pylib) (V : osview) (path : string)
  : outcome json :=
  let path := abspath L path in
  match os_stat V path with
  | None => Raise OSError
  | Some stats => Ret (format_json (stat_file L V path stats))
  end.

Definition deleted_marker (path : string) : json :=
  JDict [("file", JDict [("path", JStr path)]); ("deleted", JBool true)].

(** [MonitoredFile(path).get_current_info()], for a modification time
    [datetime.fromtimestamp] accepts. *)
Definition get_current_info (L : pylib) (V : osview) (path : string) : json :=
  let self_path := abspath L path in
  if negb (path_exists V self_path) then deleted_marker self_path
  else match load_file_info L V self_path with
       | Ret info => info
       | Raise _ => deleted_marker self_path
       end.

Definition forbidden_patterns : list string :=
  ["/etc/shadow"; "/etc/passwd"; "/root/.ssh"; "/proc"; "/sys"].

(** [validate_path(path, allowed_dirs)]; [allowed_dirs] is [None] or a
    list of directories. *)
Definition validate_path (L : pylib) (path : string)
    (allowed_dirs : option (list string)) : bool :=
  let abs_path := abspath L path in
  let allowed :=
    match allowed_dirs with
    | Some (d :: ds) => existsb (fun d' => String.prefix d' abs_path) (d :: ds)
    | _ => true
    end in
  if negb allowed then false
  else negb (existsb (fun pattern => String.prefix pattern abs_path)
                     forbidden_patterns).

(* ===================================================================== *)
(** * logger.py *)
(* ===================================================================== *)

Definition history_file : string := "/opt/vigilo/alert_history.json".

(** [isinstance(v, list)] *)
Definition is_list (v : json) : bool :=
  match v with JList _ => true | _ => false end.

(** [save_log_history(report, file)]; reading the old history, [json.load]
    returns or raises [JSONDecodeError]. *)
Definition save_log_history (L : pylib) (report : json) (file : string)
  : io json :=
  e <- sys_exists file;;
  all_reports <-
    (if e then
       try_os
         (content <- sys_read file;;
          match loads L content with
          | Some (JList l) => ret l
          | Some _ => ret []
          | None => ret []
          end)
         (ret [])
     else ret []);;
  let all_reports := (all_reports ++ [report])%list in
  let temp_file := tmp_of file in
  try_os
    (write_json_block L temp_file file (JList all_reports))
    (cleanup_temp temp_file;; print MsgErrorSavingHistory);;
  ret JNull.

(** [alert["Time"]]: the value of the key, [KeyError] when a dictionary
    lacks it, [TypeError] on anything that is not a dictionary. *)
Definition alert_time_field (alert : json) : outcome json :=
  match alert with
  | JDict d =>
      match dict_get "Time" d with
      | Some v => Ret v
      | None => Raise KeyError
      end
  | _ => Raise TypeError
  end.

(** [datetime.fromisoformat(v)]: [TypeError] unless [v] is a string,
    [ValueError] when the string is not a date. *)
Definition py_fromisoformat (L : pylib) (v : json) : outcome datetime :=
  match v with
  | JStr s =>
      match fromisoformat L s with
      | Some t => Ret t
      | None => Raise ValueError
      end
  | _ => Raise TypeError
  end.

(** [a >= b] on [datetime] objects. *)
Definition datetime_ge (a b : datetime) : outcome bool :=
  if Bool.eqb (aware a) (aware b) then Ret (ticks b <=? ticks a)
  else Raise TypeError.

(** One turn of the loop of [delete_old_log_history]: the alert is kept
    when its time is within the retention period, and also when reading
    the time raises [KeyError] or [ValueError]. *)
Definition prune_step (L : pylib) (expiration_date : datetime)
    (kept_alerts : list json) (alert : json) : outcome (list json) :=
  match (let? v := alert_time_field alert in
         let? alert_time := py_fromisoformat L v in
         datetime_ge alert_time expiration_date) with
  | Ret true => Ret (kept_alerts ++ [alert])%list
  | Ret false => Ret kept_alerts
  | Raise KeyError => Ret (kept_alerts ++ [alert])%list
  | Raise ValueError => Ret (kept_alerts ++ [alert])%list
  | Raise e => Raise e
  end.

(** [delete_old_log_history(file, retention_years)]; the expiration date
    is computed outside any [try], so what the subtraction raises leaves
    the function. *)
Definition delete_old_log_history (L : pylib) (V : osview) (file : string)
    (retention_years : Z) : io json :=
  e <- sys_exists file;;
  if negb e then ret JNull else
  r <- try_os (content <- sys_read file;; ret (Some content)) (ret None);;
  match r with
  | None => ret JNull
  | Some content =>
      match loads L content with
      | None => ret JNull
      | Some all_alerts =>
          expiration_date <- lift (minus_years L (now V) retention_years);;
          items <- lift (py_iter all_alerts);;
          kept_alerts <- lift (ofold (prune_step L expiration_date) items []);;
          let temp_file := tmp_of file in
          try_os
            (write_json_block L temp_file file (JList kept_alerts);;
             n <- lift (py_len all_alerts);;
             print (MsgDeleted (Z.of_nat n - Z.of_nat (length kept_alerts))))
            (cleanup_temp temp_file;; print MsgErrorCleaningHistory);;
          ret JNull
      end
  end.

(** A dictionary built by the code itself, whose keys may be any hashable
    value (a store line may give a record any JSON value as its path). *)
Definition pydict : Type := list (json * json).

Definition hashable (v : json) : bool :=
  match v with
  | JList _ | JDict _ => false
  | _ => true
  end.

Fixpoint pd_get (k : json) (d : pydict) : option json :=
  match d with
  | [] => None
  | (k', v) :: d' => if py_eq k k' then Some v else pd_get k d'
  end.

Fixpoint pd_set (k v : json) (d : pydict) : pydict :=
  match d with
  | [] => [(k, v)]
  | (k', v') :: d' =>
      if py_eq k k' then (k', v) :: d' else (k', v') :: pd_set k v d'
  end.

Fixpoint pd_pop (k : json) (d : pydict) : pydict :=
  match d with
  | [] => []
  | (k', v') :: d' => if py_eq k k' then d' else (k', v') :: pd_pop k d'
  end.

(** [d[k] = v] for such a dictionary: an unhashable key is a [TypeError]. *)
Definition pd_setitem (k v : json) (d : pydict) : outcome pydict :=
  if hashable k then Ret (pd_set k v d) else Raise TypeError.

(** The object [json.dump] writes for it: keys that are not strings are
    written as text. *)
Definition key_text (L : pylib) (k : json) : string :=
  match k with
  | JStr s => s
  | JInt n => str_of_int L n
  | JBool true => "true"
  | JBool false => "false"
  | _ => "null"
  end.

Definition json_of_pydict (L : pylib) (d : pydict) : json :=
  JDict (map (fun kv => (key_text L (fst kv), snd kv)) d).

(** [obj[k] = v] with a string key: only a dictionary accepts it. *)
Definition py_setitem (obj : json) (k : string) (v : json) : outcome json :=
  match obj with
  | JDict d => Ret (JDict (dict_set k v d))
  | _ => Raise TypeError
  end.

(** ** Removal *)

(** One turn of the loop of [remove_monitored_file_info]. *)
Definition remove_step (L : pylib) (path : string)
    (st : list string * bool) (raw : string) : outcome (list string * bool) :=
  let '(new_lines, removed) := st in
  let line := strip raw in
  if str_eqb line "" then Ret st
  else match loads L line with
       | None => Ret ((new_lines ++ [line])%list, removed)
       | Some data =>
           let? p := record_path data in
           if negb (py_eq p (JStr path))
           then Ret ((new_lines ++ [dumps L data])%list, removed)
           else Ret (new_lines, true)
       end.

(** [remove_monitored_file_info(path, file)] *)
Definition remove_monitored_file_info (L : pylib) (path file : string)
  : io json :=
  e <- sys_exists file;;
  if negb e then ret (JBool false) else
  let path := abspath L path in
  r <- try_os
         (content <- sys_read file;;
          st <- lift (ofold (remove_step L path) (read_lines content) ([], false));;
          ret (Some st))
         (ret None);;
  match r with
  | None => ret (JBool false)
  | Some (new_lines, removed) =>
      let temp_file := tmp_of file in
      ok <- try_os
              (write_store_block L temp_file file new_lines;; ret true)
              (cleanup_temp temp_file;; print MsgErrorRemoving;; ret false);;
      if ok then ret (JBool removed) else ret (JBool false)
  end.

(** ** The event index *)

(** One turn of the loop of [regenerate_event_index]. *)
Definition index_step (L : pylib) (monitored : pydict) (raw : string)
  : outcome pydict :=
  let line := strip raw in
  if str_eqb line "" then Ret monitored
  else match loads L line with
       | None => Ret monitored
       | Some data =>
           let? path := record_path data in
           let? monitoring := py_get data "monitoring" (JDict []) in
           if truthy path then
             let? we := py_get monitoring "watch_events" (JList []) in
             let? am := py_get1 monitoring "alert_mode" in
             pd_setitem path (JDict [("watch_events", we); ("alert_mode", am)])
                        monitored
           else Ret monitored
       end.

(** [regenerate_event_index(file_info, file_event)] *)
Definition regenerate_event_index (L : pylib) (file_info file_event : string)
  : io json :=
  e <- sys_exists file_info;;
  monitored <-
    (if e then
       try_os
         (content <- sys_read file_info;;
          lift (ofold (index_step L) (read_lines content) []))
         (ret [])
     else ret []);;
  let temp_file := tmp_of file_event in
  try_os
    (write_json_block L temp_file file_event (json_of_pydict L monitored))
    (cleanup_temp temp_file;; raise OSError);;
  ret JNull.

(** ** Configuration updates *)

Definition set_insert (x : json) (s : list json) : list json :=
  if existsb (py_eq x) s then s else (s ++ [x])%list.

(** [set(obj)]: the distinct elements, [TypeError] when [obj] cannot be
    iterated or holds a list or a dictionary. *)
Definition py_set (obj : json) : outcome (list json) :=
  let? items := py_iter obj in
  if forallb hashable items
  then Ret (fold_left (fun s x => set_insert x s) items [])
  else Raise TypeError.

Definition set_add (x : json) (s : list json) : outcome (list json) :=
  if hashable x then Ret (set_insert x s) else Raise TypeError.

Definition set_discard (x : json) (s : list json) : outcome (list json) :=
  if hashable x then Ret (filter (fun y => negb (py_eq x y)) s)
  else Raise TypeError.

(** The chain of [if]/[elif] of [set_conf] on the monitoring block of the
    record that matches. *)
Definition change_monitoring (L : pylib) (change_type : string)
    (new_events new_alert_mode : json) (monitoring : json) (updated : bool)
  : outcome (json * bool) :=
  if str_eqb change_type "SET_EVENTS" && is_list new_events then
    let? m := py_setitem monitoring "watch_events" new_events in
    Ret (m, true)
  else if str_eqb change_type "ADD_EVENT" && truthy new_events then
    let? ws := py_get monitoring "watch_events" (JList []) in
    let? events := py_set ws in
    let? events := set_add new_events events in
    let? m := py_setitem monitoring "watch_events" (JList (set_order L events)) in
    Ret (m, true)
  else if str_eqb change_type "REMOVE_EVENT" && truthy new_events then
    let? ws := py_get monitoring "watch_events" (JList []) in
    let? events := py_set ws in
    let? events := set_discard new_events events in
    let? m := py_setitem monitoring "watch_events" (JList (set_order L events)) in
    Ret (m, true)
  else if str_eqb change_type "SET_ALERT" && truthy new_alert_mode then
    let? m := py_setitem monitoring "alert_mode" new_alert_mode in
    Ret (m, true)
  else if str_eqb change_type "SET_ALL" then
    let? m1 := (if is_list new_events
                then py_setitem monitoring "watch_events" new_events
                else Ret monitoring) in
    let? m2 := (if truthy new_alert_mode
                then py_setitem m1 "alert_mode" new_alert_mode
                else Ret m1) in
    Ret (m2, true)
  else Ret (monitoring, updated).

(** One turn of the loop of [set_conf]. *)
Definition set_conf_step (L : pylib) (path change_type : string)
    (new_events new_alert_mode : json)
    (st : list string * bool) (raw : string) : outcome (list string * bool) :=
  let '(updated_lines, updated) := st in
  let line := strip raw in
  if str_eqb line "" then Ret st
  else match loads L line with
       | None => Ret ((updated_lines ++ [line])%list, updated)
       | Some data =>
           let? p := record_path data in
           let? r :=
             (if py_eq p (JStr path) then
                let? monitoring := py_get data "monitoring" (JDict []) in
                let? mu := change_monitoring L change_type new_events
                             new_alert_mode monitoring updated in
                let? data' := py_setitem data "monitoring" (fst mu) in
                Ret (data', snd mu)
              else Ret (data, updated)) in
           Ret ((updated_lines ++ [dumps L (fst r)])%list, snd r)
       end.

(** [set_conf(path, change_type, new_events, new_alert_mode, file_info,
    file_event)] *)
Definition set_conf (L : pylib) (path change_type : string)
    (new_events new_alert_mode : json) (file_info file_event : string)
  : io json :=
  let path := abspath L path in
  e <- sys_exists file_info;;
  if negb e then ret (JBool false) else
  r <- try_os
         (content <- sys_read file_info;;
          st <- lift (ofold (set_conf_step L path change_type new_events
                               new_alert_mode)
                            (read_lines content) ([], false));;
          ret (Some st))
         (ret None);;
  match r with
  | None => ret (JBool false)
  | Some (updated_lines, updated) =>
      if negb updated then ret (JBool false) else
      let temp_file := tmp_of file_info in
      ok <- try_os
              (write_store_block L temp_file file_info updated_lines;; ret true)
              (cleanup_temp temp_file;; print MsgErrorUpdatingConfiguration;;
               ret false);;
      if negb ok then ret (JBool false) else
      try_any
        (regenerate_event_index L file_info file_event;; ret (JBool true))
        (print MsgErrorRegenerating;; ret (JBool false))
  end.

(** ** Queries *)

(** The dictionary [show_file_monitored_info] returns for a record. *)
Definition file_details (data : json) : outcome json :=
  let? metadata := py_get data "metadata" (JDict []) in
  let? monitoring := py_get data "monitoring" (JDict []) in
  let? file_info := py_get data "file" (JDict []) in
  let? name := py_get1 file_info "name" in
  let? path := py_get1 file_info "path" in
  let? type := py_get1 file_info "type" in
  let? size := py_get1 metadata "size" in
  let? permissions := py_get1 metadata "permissions" in
  let? owner := py_get1 metadata "owner" in
  let? group := py_get1 metadata "group" in
  let? last_modified := py_get1 metadata "last_modified" in
  let? checksum := py_get1 metadata "checksum" in
  let? watch_events := py_get monitoring "watch_events" (JList []) in
  let? alert_mode := py_get1 monitoring "alert_mode" in
  let? added_on := py_get1 monitoring "added_on" in
  Ret (JDict [ ("file_name", name); ("path", path); ("type", type);
               ("size", size); ("permissions", permissions);
               ("owner", owner); ("group", group);
               ("last_modified", last_modified); ("checksum", checksum);
               ("watch_events", watch_events); ("alert_mode", alert_mode);
               ("added_on", added_on) ]).

(** The loop of [show_file_monitored_info]: the details of the first
    record of the path, [None] when there is none. *)
Fixpoint find_details (L : pylib) (abs_path : string) (lines : list string)
  : outcome json :=
  match lines with
  | [] => Ret JNull
  | raw :: rest =>
      let line := strip raw in
      if str_eqb line "" then find_details L abs_path rest
      else match loads L line with
           | None => find_details L abs_path rest
           | Some data =>
               let? p := record_path data in
               if py_eq p (JStr abs_path) then file_details data
               else find_details L abs_path rest
           end
  end.

(** [show_file_monitored_info(path, file)] *)
Definition show_file_monitored_info (L : pylib) (path file : string) : io json :=
  let abs_path := abspath L path in
  e <- sys_exists file;;
  if negb e then ret JNull else
  try_os
    (content <- sys_read file;;
     lift (find_details L abs_path (read_lines content)))
    (ret JNull).

(** One turn of the loop of [show_all_file_monitored]. *)
Definition show_all_step (L : pylib) (all_monitored : list json) (raw : string)
  : outcome (list json) :=
  let line := strip raw in
  if str_eqb line "" then Ret all_monitored
  else match loads L line with
       | None => Ret all_monitored
       | Some data =>
           let? monitoring := py_get data "monitoring" (JDict []) in
           let? file_info := py_get data "file" (JDict []) in
           let? name := py_get1 file_info "name" in
           let? path := py_get1 file_info "path" in
           let? type := py_get1 file_info "type" in
           let? watch_events := py_get monitoring "watch_events" (JList []) in
           let? alert_mode := py_get1 monitoring "alert_mode" in
           let? added_on := py_get1 monitoring "added_on" in
           Ret (all_monitored ++
                [JDict [ ("file_name", name); ("path", path); ("type", type);
                         ("watch_events", watch_events);
                         ("alert_mode", alert_mode);
                         ("added_on", added_on) ]])%list
       end.

(** [show_all_file_monitored(file)] *)
Definition show_all_file_monitored (L : pylib) (file : string) : io json :=
  e <- sys_exists file;;
  if negb e then ret (JList []) else
  try_os
    (content <- sys_read file;;
     l <- lift (ofold (show_all_step L) (read_lines content) []);;
     ret (JList l))
    (ret (JList [])).

(** The loop of [is_file_already_monitored]. *)
Fixpoint find_monitored (L : pylib) (abs_path : string) (lines : list string)
  : outcome bool :=
  match lines with
  | [] => Ret false
  | raw :: rest =>
      let line := strip raw in
      if str_eqb line "" then find_monitored L abs_path rest
      else match loads L line with
           | None => find_monitored L abs_path rest
           | Some data =>
               let? p := record_path data in
               if py_eq p (JStr abs_path) then Ret true
               else find_monitored L abs_path rest
           end
  end.

(** [is_file_already_monitored(path, file)] *)
Definition is_file_already_monitored (L : pylib) (path file : string)
  : io json :=
  let abs_path := abspath L path in
  e <- sys_exists file;;
  if negb e then ret (JBool false) else
  try_os
    (content <- sys_read file;;
     b <- lift (find_monitored L abs_path (read_lines content));;
     ret (JBool b))
    (ret (JBool false)).

(** One turn of the loop of [get_all_monitored_paths]. *)
Definition paths_step (L : pylib) (monitored_paths : list json) (raw : string)
  : outcome (list json) :=
  let line := strip raw in
  if str_eqb line "" then Ret monitored_paths
  else match loads L line with
       | None => Ret monitored_paths
       | Some data =>
           let? path := record_path data in
           if truthy path then set_add path monitored_paths
           else Ret monitored_paths
       end.

(** [get_all_monitored_paths(file)]: the elements of the set. *)
Definition get_all_monitored_paths (L : pylib) (file : string)
  : io (list json) :=
  e <- sys_exists file;;
  if negb e then ret [] else
  try_os
    (content <- sys_read file;;
     lift (ofold (paths_step L) (read_lines content) []))
    (ret []).

(** ** State updates called by the watcher *)

(** The refreshed line of a record: the current information of [target]
    with the monitoring block of the stored record. *)
Definition refreshed_line (L : pylib) (data new_data : json) : outcome string :=
  let? monitoring := py_get data "monitoring" (JDict []) in
  let? new_data' := py_setitem new_data "monitoring" monitoring in
  Ret (dumps L new_data').

(** One turn of the loop of [update_files_state]; [dest_path] is already
    absolute, or [None]. *)
Definition update_step (L : pylib) (V : osview) (event_type src_path : string)
    (dest_path : option string)
    (updated_lines : list string) (raw : string) : outcome (list string) :=
  let line := strip raw in
  if str_eqb line "" then Ret updated_lines
  else match loads L line with
       | None => Ret (updated_lines ++ [line])%list
       | Some data =>
           let? path := record_path data in
           let same := py_eq path (JStr src_path) in
           let dest := match dest_path with
                       | Some d => if str_eqb d "" then None else Some d
                       | None => None
                       end in
           if str_eqb event_type "delete" && same then
             Ret updated_lines
           else if str_eqb event_type "move" && same && bool_decide (is_Some dest) then
             match dest with
             | Some d =>
                 if path_exists V d then
                   match (let? new_data := load_file_info L V d in
                          refreshed_line L data new_data) with
                   | Ret l => Ret (updated_lines ++ [l])%list
                   | Raise OSError => Ret updated_lines
                   | Raise e => Raise e
                   end
                 else Ret updated_lines
             | None => Ret updated_lines
             end
           else if (str_eqb event_type "modify" || str_eqb event_type "add") && same then
             if path_exists V src_path then
               match (let? new_data := load_file_info L V src_path in
                      refreshed_line L data new_data) with
               | Ret l => Ret (updated_lines ++ [l])%list
               | Raise OSError => Ret (updated_lines ++ [dumps L data])%list
               | Raise e => Raise e
               end
             else Ret (updated_lines ++ [dumps L data])%list
           else Ret (updated_lines ++ [dumps L data])%list
       end.

(** [update_files_state(file_info_path, file_event_path, event_type,
    src_path, dest_path)] *)
Definition update_files_state (L : pylib) (V : osview)
    (file_info_path file_event_path event_type src_path : string)
    (dest_path : option string) : io json :=
  e <- sys_exists file_info_path;;
  if negb e then ret JNull else
  let src_path := abspath L src_path in
  let dest_path := match dest_path with
                   | Some d => if str_eqb d "" then None else Some (abspath L d)
                   | None => None
                   end in
  r <- try_os
         (content <- sys_read file_info_path;;
          ls <- lift (ofold (update_step L V event_type src_path dest_path)
                            (read_lines content) []);;
          ret (Some ls))
         (ret None);;
  match r with
  | None => ret JNull
  | Some updated_lines =>
      let temp_file := tmp_of file_info_path in
      ok <- try_os
              (write_store_block L temp_file file_info_path updated_lines;;
               ret true)
              (cleanup_temp temp_file;; print MsgErrorUpdatingState;; ret false);;
      if negb ok then ret JNull else
      try_any
        (regenerate_event_index L file_info_path file_event_path;; ret tt)
        (print MsgErrorRegenerating);;
      ret JNull
  end.

(* ===================================================================== *)
(** * FileWatcher.py *)
(* ===================================================================== *)

(** [FileWatcher.EVENT_MAPPING] *)
Definition EVENT_MAPPING : list (string * list string) :=
  [ ("modify", ["modified"]);
    ("delete", ["deleted"]);
    ("move", ["moved"]);
    ("permissions", ["metadata_changed"]);
    ("add", ["created"]) ].

(** The state of a [FileWatcher] object. *)
Record watcher : Type := Watcher {
  monitored_files_path : string;
  event_file_path : string;
  monitored : pydict;
  baseline_cache : pydict
}.

(** One turn of the loop of [load_files_monitored]. *)
Definition monitored_step (L : pylib) (monitored : pydict) (raw : string)
  : outcome pydict :=
  let line := strip raw in
  if str_eqb line "" then Ret monitored
  else match loads L line with
       | None => Ret monitored
       | Some data =>
           let? path := record_path data in
           let? config := py_get data "monitoring" (JDict []) in
           if truthy path && truthy config
           then pd_setitem path config monitored
           else Ret monitored
       end.

(** [FileWatcher.load_files_monitored] *)
Definition load_files_monitored (L : pylib) (monitored_files_path : string)
  : io pydict :=
  e <- sys_exists monitored_files_path;;
  if negb e then ret [] else
  try_os
    (content <- sys_read monitored_files_path;;
     lift (ofold (monitored_step L) (read_lines content) []))
    (ret []).

(** One turn of the loop of [load_all_baselines]. *)
Definition baseline_step (L : pylib) (cache : pydict) (raw : string)
  : outcome pydict :=
  let line := strip raw in
  if str_eqb line "" then Ret cache
  else match loads L line with
       | None => Ret cache
       | Some data =>
           let? path := record_path data in
           if truthy path then pd_setitem path data cache else Ret cache
       end.

(** [FileWatcher.load_all_baselines], on the cache. *)
Definition load_all_baselines (L : pylib) (W : watcher) : io watcher :=
  e <- sys_exists (monitored_files_path W);;
  if negb e then ret W else
  cache <- try_os
             (content <- sys_read (monitored_files_path W);;
              lift (ofold (baseline_step L) (read_lines content)
                          (baseline_cache W)))
             (ret (baseline_cache W));;
  ret (Watcher (monitored_files_path W) (event_file_path W) (monitored W) cache).

(** The scan of [load_baseline]: the first record of the path. *)
Fixpoint find_baseline (L : pylib) (path : string) (lines : list string)
  : outcome (option json) :=
  match lines with
  | [] => Ret None
  | raw :: rest =>
      let line := strip raw in
      if str_eqb line "" then find_baseline L path rest
      else match loads L line with
           | None => find_baseline L path rest
           | Some data =>
               let? p := record_path data in
               if py_eq p (JStr path) then Ret (Some data)
               else find_baseline L path rest
           end
  end.

(** [FileWatcher.load_baseline(path)]: the baseline ([JNull] when there is
    none) and the watcher with its cache filled. *)
Definition load_baseline (L : pylib) (W : watcher) (path : string)
  : io (json * watcher) :=
  match pd_get (JStr path) (baseline_cache W) with
  | Some data => ret (data, W)
  | None =>
      e <- sys_exists (monitored_files_path W);;
      if negb e then ret (JNull, W) else
      found <- try_os
                 (content <- sys_read (monitored_files_path W);;
                  lift (find_baseline L path (read_lines content)))
                 (ret None);;
      match found with
      | Some data =>
          ret (data, Watcher (monitored_files_path W) (event_file_path W)
                             (monitored W)
                             (pd_set (JStr path) data (baseline_cache W)))
      | None => ret (JNull, W)
      end
  end.

(** [FileWatcher.save_event_file]: the index written from the loaded
    configuration (no [chmod] here, and a failure is swallowed). *)
Definition save_event_file (L : pylib) (W : watcher) : io json :=
  monitored <- load_files_monitored L (monitored_files_path W);;
  index_file <-
    lift (ofold (fun acc kv =>
                   let? we := py_get (snd kv) "watch_events" (JList []) in
                   let? am := py_get1 (snd kv) "alert_mode" in
                   Ret (acc ++ [(fst kv, JDict [("watch_events", we);
                                                ("alert_mode", am)])])%list)
                monitored []);;
  let temp_path := tmp_of (event_file_path W) in
  try_os
    (with_open_write L temp_path
       (sys_write temp_path (dump_indent L (json_of_pydict L index_file)));;
     sys_replace temp_path (event_file_path W))
    (cleanup_temp temp_path);;
  ret JNull.

(** The loop of [compare_metadata] over the keys of the old metadata. *)
Fixpoint compare_keys (old_meta : list (string * json)) (new_meta : json)
    (keys : list string) (changes : list (string * json))
  : outcome (list (string * json)) :=
  match keys with
  | [] => Ret changes
  | key :: rest =>
      let old_value := default JNull (dict_get key old_meta) in
      let? new_value := py_get1 new_meta key in
      if negb (py_eq old_value new_value)
      then compare_keys old_meta new_meta rest
             (dict_set key (JDict [("before", old_value); ("after", new_value)])
                       changes)
      else compare_keys old_meta new_meta rest changes
  end.

(** [FileWatcher.compare_metadata(old, new)].  When the old metadata is not
    a dictionary the loop can only run zero times (an empty list or string)
    or fail: its elements have no [get], and other values cannot be
    iterated. *)
Definition compare_metadata (old new : json) : outcome json :=
  let? old_meta := py_get old "metadata" (JDict []) in
  let? new_meta := py_get new "metadata" (JDict []) in
  match old_meta with
  | JDict d =>
      let? changes := compare_keys d new_meta (dict_keys d) [] in
      Ret (JDict changes)
  | JList [] => Ret (JDict [])
  | JStr EmptyString => Ret (JDict [])
  | JList _ => Raise AttributeError
  | JStr _ => Raise AttributeError
  | _ => Raise TypeError
  end.

(** A notification of the backend. *)
Record fs_event : Type := FsEvent { src_path : string; event_type : string }.

(** The [if]/[elif] chain of [Handler.dispatch] from the backend's kinds
    to the kinds of the configuration; [None] when no branch applies. *)
Definition map_event_type (kind : string) : option string :=
  if str_eqb kind "modified" then Some "modify"
  else if str_eqb kind "deleted" then Some "delete"
  else if str_eqb kind "created" then Some "add"
  else if str_eqb kind "moved" then Some "move"
  else None.

(** [Handler.dispatch(event)] up to its last line: the arguments it passes
    to [handle_event], or [None] when it returns without calling it. *)
Definition dispatch (L : pylib) (monitored : pydict) (event : fs_event)
  : outcome (option (string * string)) :=
  let path := abspath L (src_path event) in
  match pd_get (JStr path) monitored with
  | None => Ret None
  | Some cfg =>
      let? user_events := py_get cfg "watch_events" (JList []) in
      match map_event_type (event_type event) with
      | None => Ret None
      | Some ev =>
          let? wanted := py_in ev user_events in
          if wanted then Ret (Some (ev, path)) else Ret None
      end
  end.

(** The pair of texts [handle_event] attaches to a kind of event. *)
Definition interpretation (user_event : string) : string * string :=
  if str_eqb user_event "modify" then
    ("File content or metadata was modified",
     "Review changes and verify legitimacy")
  else if str_eqb user_event "delete" then
    ("File was deleted from filesystem",
     "Restore from backup if unauthorized")
  else if str_eqb user_event "move" then
    ("File was moved or renamed",
     "Verify new location and update monitoring")
  else if str_eqb user_event "add" then
    ("New file was created",
     "Verify file origin and legitimacy")
  else
    ("Unknown event type",
     "Manual investigation required").

(** The call [AlertManager.dispatch(report, alert_mode)], the boundary of
    the alert router: the call is recorded. *)
Definition alert_manager_dispatch (report alert_mode : json) : io unit :=
  fun w =>
    (Ret tt,
     World (fs w) (faults w) (trace w) (console w)
           (alerts w ++ [(report, alert_mode)])%list).

Definition set_cache (W : watcher) (cache : pydict) : watcher :=
  Watcher (monitored_files_path W) (event_file_path W) (monitored W) cache.

(** The report [handle_event] builds. *)
Definition build_report (V : osview) (user_event path : string)
    (alert_mode owner permissions changes : json) : json :=
  JDict [
    ("File", JStr path);
    ("Event", JStr user_event);
    ("Time", JStr (now_iso V));
    ("AlertMode", alert_mode);
    ("Owner", owner);
    ("Permissions", permissions);
    ("Changes", changes);
    ("Interpretation", JStr (fst (interpretation user_event)));
    ("Recommendation", JStr (snd (interpretation user_event)))
  ].

(** [FileWatcher.handle_event(user_event, path)]; the result is the
    watcher with its cache as the call leaves it. *)
Definition handle_event (L : pylib) (V : osview) (W : watcher)
    (user_event path : string) : io watcher :=
  print (MsgEventDetected user_event path);;
  r <- load_baseline L W path;;
  let old_state := fst r in
  let W1 := snd r in
  if negb (truthy old_state) then (print MsgNoBaseline;; ret W1) else
  let new_state := get_current_info L V path in
  changes <- lift (compare_metadata old_state new_state);;
  if negb (truthy changes) && negb (str_eqb user_event "delete") then ret W1 else
  alert_mode <-
    lift (py_get (default (JDict []) (pd_get (JStr path) (monitored W1)))
                 "alert_mode" (JStr "log"));;
  owner <-
    lift (let? m := py_get new_state "metadata" (JDict []) in
          py_get m "owner" (JStr "unknown"));;
  permissions <-
    lift (let? m := py_get new_state "metadata" (JDict []) in
          py_get m "permissions" (JStr "unknown"));;
  let report :=
    build_report V user_event path alert_mode owner permissions changes in
  save_log_history L report history_file;;
  alert_manager_dispatch report alert_mode;;
  update_files_state L V (monitored_files_path W1) (event_file_path W1)
    user_event path None;;
  if str_eqb user_event "delete" then
    ret (set_cache W1 (pd_pop (JStr path) (baseline_cache W1)))
  else if path_exists V path then
    let new_baseline := get_current_info L V path in
    monitoring <- lift (py_get old_state "monitoring" (JDict []));;
    new_baseline' <- lift (py_setitem new_baseline "monitoring" monitoring);;
    ret (set_cache W1 (pd_set (JStr path) new_baseline' (baseline_cache W1)))
  else ret W1.

(** [Handler.dispatch(event)] as a whole. *)
Definition handler_dispatch (L : pylib) (V : osview) (W : watcher)
    (event : fs_event) : io watcher :=
  r <- lift (dispatch L (monitored W) event);;
  match r with
  | Some (ev, path) => handle_event L V W ev path
  | None => ret W
  end.

(* ===================================================================== *)
(** * A small JSON codec, to run the model on concrete files *)
(* ===================================================================== *)

(** The general theorems hold for every [pylib].  To evaluate the model on
    explicit store files this module gives one: a reader and two printers
    for the JSON texts made of objects, arrays, strings (with the escapes
    of the quote and the backslash), integers, [true], [false], [null]. *)
Module MiniJson.

Definition dquote : ascii := "034"%char.
Definition backslash : ascii := "092"%char.

Fixpoint escape (s : string) : string :=
  match s with
  | EmptyString => EmptyString
  | String c s' =>
      if Ascii.eqb c dquote || Ascii.eqb c backslash
      then String backslash (String c (escape s'))
      else String c (escape s')
  end.

Definition quoted (s : string) : string :=
  String dquote (escape s ++ String dquote EmptyString).

Fixpoint digits_of (fuel : nat) (n : N) (acc : string) : string :=
  match fuel with
  | O => acc
  | S fuel' =>
      let d := ascii_of_N (48 + n mod 10)%N in
      let acc' := String d acc in
      if (n <? 10)%N then acc' else digits_of fuel' (n / 10)%N acc'
  end.

Definition str_of_Z (n : Z) : string :=
  match n with
  | Z0 => "0"
  | Zpos p => digits_of (Pos.size_nat p) (Npos p) ""
  | Zneg p => String "-"%char (digits_of (Pos.size_nat p) (Npos p) "")
  end.

Fixpoint join (sep : string) (l : list string) : string :=
  match l with
  | [] => ""
  | [x] => x
  | x :: l' => x ++ sep ++ join sep l'
  end.

(** [json.dumps(v)] with the default separators. *)
Fixpoint dumps (v : json) : string :=
  match v with
  | JNull => "null"
  | JBool true => "true"
  | JBool false => "false"
  | JInt n => str_of_Z n
  | JStr s => quoted s
  | JList l => "[" ++ join ", " (map dumps l) ++ "]"
  | JDict d =>
      "{" ++ join ", " (map (fun kv => quoted (fst kv) ++ ": " ++ dumps (snd kv)) d)
          ++ "}"
  end.

Fixpoint spaces (n : nat) : string :=
  match n with
  | O => ""
  | S n' => String " "%char (spaces n')
  end.

(** [json.dumps(v, indent=4)], [level] being the depth of nesting. *)
Fixpoint dump_at (level : nat) (v : json) : string :=
  let inner := nl ++ spaces (4 * S level) in
  let close := nl ++ spaces (4 * level) in
  match v with
  | JList [] => "[]"
  | JDict [] => "{}"
  | JList l =>
      "[" ++ inner ++ join ("," ++ inner) (map (dump_at (S level)) l)
          ++ close ++ "]"
  | JDict d =>
      "{" ++ inner
          ++ join ("," ++ inner)
               (map (fun kv => quoted (fst kv) ++ ": " ++ dump_at (S level) (snd kv)) d)
          ++ close ++ "}"
  | _ => dumps v
  end.

Definition dump_indent (v : json) : string := dump_at 0 v.

Definition is_ws (c : ascii) : bool :=
  Ascii.eqb c " "%char || Ascii.eqb c "009"%char ||
  Ascii.eqb c "010"%char || Ascii.eqb c "013"%char.

Fixpoint skip_ws (s : list ascii) : list ascii :=
  match s with
  | c :: s' => if is_ws c then skip_ws s' else s
  | [] => []
  end.

Definition digit_of (c : ascii) : option Z :=
  let n := Z.of_nat (nat_of_ascii c) in
  if (48 <=? n) && (n <=? 57) then Some (n - 48) else None.

Fixpoint read_digits (s : list ascii) (acc : Z) : Z * list ascii :=
  match s with
  | c :: s' =>
      match digit_of c with
      | Some d => read_digits s' (10 * acc + d)
      | None => (acc, s)
      end
  | [] => (acc, [])
  end.

(** An integer without sign: at least one digit, no leading zero, and no
    fraction or exponent behind it. *)
Definition read_nat (s : list ascii) : option (Z * list ascii) :=
  match s with
  | c :: s' =>
      match digit_of c with
      | Some d =>
          let '(n, rest) := read_digits s' d in
          let leading_zero :=
            (d =? 0) && match s' with
                        | c' :: _ => bool_decide (is_Some (digit_of c'))
                        | [] => false
                        end in
          let float :=
            match rest with
            | c' :: _ => Ascii.eqb c' "."%char || Ascii.eqb c' "e"%char
                         || Ascii.eqb c' "E"%char
            | [] => false
            end in
          if leading_zero || float then None else Some (n, rest)
      | None => None
      end
  | [] => None
  end.

(** The text of a string up to its closing quote. *)
Fixpoint read_string (s : list ascii) (acc : list ascii)
  : option (string * list ascii) :=
  match s with
  | [] => None
  | c :: s' =>
      if Ascii.eqb c dquote then Some (string_of_list_ascii (rev acc), s')
      else if Ascii.eqb c backslash then
        match s' with
        | c' :: s'' =>
            if Ascii.eqb c' dquote || Ascii.eqb c' backslash
            then read_string s'' (c' :: acc)
            else None
        | [] => None
        end
      else if (nat_of_ascii c <? 32)%nat then None
      else read_string s' (c :: acc)
  end.

Definition expect (word : string) (v : json) (s : list ascii)
  : option (json * list ascii) :=
  let w := list_ascii_of_string word in
  if bool_decide (take (length w) s = w) then Some (v, drop (length w) s)
  else None.

(** Reading a value, the elements of an array after its bracket and the
    members of an object after its brace; [fuel] bounds the nesting and
    the number of elements read. *)
Fixpoint read_value (fuel : nat) (s : list ascii) : option (json * list ascii) :=
  match fuel with
  | O => None
  | S fuel' =>
      match skip_ws s with
      | [] => None
      | c :: s' =>
          if Ascii.eqb c dquote then
            match read_string s' [] with
            | Some (t, rest) => Some (JStr t, rest)
            | None => None
            end
          else if Ascii.eqb c "["%char then
            match skip_ws s' with
            | c' :: s'' =>
                if Ascii.eqb c' "]"%char then Some (JList [], s'')
                else read_elements fuel' s' []
            | [] => None
            end
          else if Ascii.eqb c "{"%char then
            match skip_ws s' with
            | c' :: s'' =>
                if Ascii.eqb c' "}"%char then Some (JDict [], s'')
                else read_members fuel' s' []
            | [] => None
            end
          else if Ascii.eqb c "-"%char then
            match read_nat s' with
            | Some (n, rest) => Some (JInt (- n), rest)
            | None => None
            end
          else if Ascii.eqb c "t"%char then expect "true" (JBool true) (c :: s')
          else if Ascii.eqb c "f"%char then expect "false" (JBool false) (c :: s')
          else if Ascii.eqb c "n"%char then expect "null" JNull (c :: s')
          else match read_nat (c :: s') with
               | Some (n, rest) => Some (JInt n, rest)
               | None => None
               end
      end
  end
with read_elements (fuel : nat) (s : list ascii) (acc : list json)
  : option (json * list ascii) :=
  match fuel with
  | O => None
  | S fuel' =>
      match read_value fuel' s with
      | Some (v, rest) =>
          match skip_ws rest with
          | c :: rest' =>
              if Ascii.eqb c ","%char then read_elements fuel' rest' (acc ++ [v])
              else if Ascii.eqb c "]"%char then Some (JList (acc ++ [v]), rest')
              else None
          | [] => None
          end
      | None => None
      end
  end
with read_members (fuel : nat) (s : list ascii) (acc : list (string * json))
  : option (json * list ascii) :=
  match fuel with
  | O => None
  | S fuel' =>
      match skip_ws s with
      | c :: s' =>
          if Ascii.eqb c dquote then
            match read_string s' [] with
            | Some (k, rest) =>
                match skip_ws rest with
                | c' :: rest' =>
                    if Ascii.eqb c' ":"%char then
                      match read_value fuel' rest' with
                      | Some (v, rest'') =>
                          match skip_ws rest'' with
                          | c'' :: rest''' =>
                              if Ascii.eqb c'' ","%char
                              then read_members fuel' rest''' (dict_set k v acc)
                              else if Ascii.eqb c'' "}"%char
                              then Some (JDict (dict_set k v acc), rest''')
                              else None
                          | [] => None
                          end
                      | None => None
                      end
                    else None
                | [] => None
                end
            | None => None
            end
          else None
      | [] => None
      end
  end.

(** [json.loads(text)]: one value and nothing but white space behind it. *)
Definition loads (text : string) : option json :=
  let s := list_ascii_of_string text in
  match read_value (S (length s)) s with
  | Some (v, rest) =>
      match skip_ws rest with
      | [] => Some v
      | _ => None
      end
  | None => None
  end.

(** ** Dates: the proleptic Gregorian calendar of [datetime] *)

Definition is_leap (y : Z) : bool :=
  (y mod 4 =? 0) && (negb (y mod 100 =? 0) || (y mod 400 =? 0)).

Definition days_in_month (y m : Z) : Z :=
  if m =? 2 then (if is_leap y then 29 else 28)
  else if (m =? 4) || (m =? 6) || (m =? 9) || (m =? 11) then 30
  else 31.

(** Days from 0001-01-01 to the first day of year [y]. *)
Definition days_before_year (y : Z) : Z :=
  let y' := y - 1 in y' * 365 + y' / 4 - y' / 100 + y' / 400.

(** Days from the first day of year [y] to the first day of its month. *)
Definition days_before_month (y m : Z) : Z :=
  fold_left (fun acc k => acc + days_in_month y (Z.of_nat k))
            (seq 1 (Z.to_nat (m - 1))) 0.

Definition usec_per_day : Z := 86400000000.

(** The ticks of a date and time: microseconds since 0001-01-01T00:00:00. *)
Definition ticks_of (y m d hh mm ss us : Z) : Z :=
  ((((days_before_year y + days_before_month y m + (d - 1)) * 24 + hh) * 60
    + mm) * 60 + ss) * 1000000 + us.

(** The month and the day (from 1) of day [n] (from 0) of year [y]. *)
Fixpoint month_of_day (fuel : nat) (y m n : Z) : Z * Z :=
  match fuel with
  | O => (m, n + 1)
  | S fuel' =>
      let dim := days_in_month y m in
      if n <? dim then (m, n + 1) else month_of_day fuel' y (m + 1) (n - dim)
  end.

(** Year, month and day of a number of days since 0001-01-01. *)
Definition civil_of_days (days : Z) : Z * Z * Z :=
  let n400 := days / 146097 in
  let n := days mod 146097 in
  let n100 := Z.min (n / 36524) 3 in
  let n := n - n100 * 36524 in
  let n4 := n / 1461 in
  let n := n mod 1461 in
  let n1 := Z.min (n / 365) 3 in
  let n := n - n1 * 365 in
  let y := 400 * n400 + 100 * n100 + 4 * n4 + n1 + 1 in
  let '(m, d) := month_of_day 11 y 1 n in
  (y, m, d).

(** Exactly [k] decimal digits. *)
Fixpoint read_fixed (k : nat) (s : list ascii) (acc : Z)
  : option (Z * list ascii) :=
  match k with
  | O => Some (acc, s)
  | S k' =>
      match s with
      | c :: s' =>
          match digit_of c with
          | Some d => read_fixed k' s' (acc * 10 + d)
          | None => None
          end
      | [] => None
      end
  end.

Definition starts_with (c : ascii) (s : list ascii) : bool :=
  match s with
  | c' :: _ => Ascii.eqb c c'
  | [] => false
  end.

Definition read_char (c : ascii) (s : list ascii) : option (list ascii) :=
  if starts_with c s then Some (tl s) else None.

(** [YYYY-MM-DD] *)
Definition read_date (s : list ascii) : option (Z * Z * Z * list ascii) :=
  '(y, s) ← read_fixed 4 s 0;
  s ← read_char "-" s;
  '(m, s) ← read_fixed 2 s 0;
  s ← read_char "-" s;
  '(d, s) ← read_fixed 2 s 0;
  if (1 <=? y) && (1 <=? m) && (m <=? 12) && (1 <=? d)
     && (d <=? days_in_month y m)
  then Some (y, m, d, s) else None.

(** The fraction of a second, in microseconds: three or six digits. *)
Definition read_fraction (s : list ascii) : option (Z * list ascii) :=
  if starts_with "." s then
    match read_fixed 6 (tl s) 0 with
    | Some r => Some r
    | None => '(ms, s') ← read_fixed 3 (tl s) 0; Some (ms * 1000, s')
    end
  else Some (0, s).

(** [HH[:MM[:SS[.fff[fff]]]]] *)
Definition read_time (s : list ascii) : option (Z * Z * Z * Z * list ascii) :=
  '(hh, s) ← read_fixed 2 s 0;
  '(mm, ss, us, s) ←
    (if starts_with ":" s then
       '(mm, s) ← read_fixed 2 (tl s) 0;
       if starts_with ":" s then
         '(ss, s) ← read_fixed 2 (tl s) 0;
         '(us, s) ← read_fraction s;
         Some (mm, ss, us, s)
       else Some (mm, 0, 0, s)
     else Some (0, 0, 0, s));
  if (hh <? 24) && (mm <? 60) && (ss <? 60) then Some (hh, mm, ss, us, s)
  else None.

(** The offset [+HH:MM] or [-HH:MM] in minutes, [None] when the text ends
    without one. *)
Definition read_offset (s : list ascii) : option (option Z) :=
  match s with
  | [] => Some None
  | c :: s' =>
      if Ascii.eqb c "+" || Ascii.eqb c "-" then
        '(h, s1) ← read_fixed 2 s' 0;
        s2 ← read_char ":" s1;
        '(m, s3) ← read_fixed 2 s2 0;
        match s3 with
        | [] =>
            if (h <? 24) && (m <? 60)
            then Some (Some ((if Ascii.eqb c "+" then 1 else -1) * (h * 60 + m)))
            else None
        | _ :: _ => None
        end
      else None
  end.

(** [datetime.fromisoformat] on the texts [isoformat()] writes: a date,
    then optionally one separating character, a time and an offset.  A
    text with an offset gives an aware [datetime], at its UTC instant. *)
Definition fromisoformat (text : string) : option datetime :=
  '(y, m, d, s) ← read_date (list_ascii_of_string text);
  match s with
  | [] => Some (Datetime (ticks_of y m d 0 0 0 0) false)
  | _ :: s' =>
      '(hh, mm, ss, us, s'') ← read_time s';
      off ← read_offset s'';
      match off with
      | None => Some (Datetime (ticks_of y m d hh mm ss us) false)
      | Some minutes =>
          Some (Datetime (ticks_of y m d hh mm ss us - minutes * 60000000) true)
      end
  end.

(** [dt - relativedelta(years=n)]: the same month, day and time in the
    year [n] earlier, the day brought back to the last of the month when
    the month is shorter there; [ValueError] outside the years 1..9999. *)
Definition minus_years (d : datetime) (n : Z) : outcome datetime :=
  let days := ticks d / usec_per_day in
  let rest := ticks d mod usec_per_day in
  let '(y, m, dd) := civil_of_days days in
  let y' := y - n in
  if (1 <=? y') && (y' <=? 9999) then
    Ret (Datetime
           ((days_before_year y' + days_before_month y' m
             + (Z.min dd (days_in_month y' m) - 1)) * usec_per_day + rest)
           (aware d))
  else Raise ValueError.

Definition pad2 (n : Z) : string :=
  if n <? 10 then "0" ++ str_of_Z n else str_of_Z n.

Definition pad4 (n : Z) : string :=
  if n <? 10 then "000" ++ str_of_Z n
  else if n <? 100 then "00" ++ str_of_Z n
  else if n <? 1000 then "0" ++ str_of_Z n
  else str_of_Z n.

(** [datetime.fromtimestamp(t).isoformat()] for whole seconds, the local
    time of the examples being UTC. *)
Definition timestamp_iso (t : Z) : string :=
  let '(y, m, d) := civil_of_days (719162 + t / 86400) in
  let sod := t mod 86400 in
  pad4 y ++ "-" ++ pad2 m ++ "-" ++ pad2 d ++ "T" ++
  pad2 (sod / 3600) ++ ":" ++ pad2 (sod mod 3600 / 60) ++ ":" ++ pad2 (sod mod 60).

(** A library for the examples: paths are taken to be absolute and
    normalised already, sets keep the order of insertion, the clock is
    UTC, and modes and identifiers are written as decimal numbers. *)
Definition lib : pylib :=
  Pylib
    loads
    dumps
    dump_indent
    (fun p => p)
    (fun p => p)
    (fun l => l)
    fromisoformat
    minus_years
    str_of_Z
    timestamp_iso
    str_of_Z
    420.

End MiniJson.

(** Concrete data for the examples: the record of [/tmp/a] as the store
    holds it, and what [load_file_info] returns once the permissions of
    the file have changed. *)
Module Example.

Definition meta_before : list (string * json) :=
  [ ("size", JInt 12);
    ("permissions", JStr "-rw-r--r--");
    ("owner", JStr "alice");
    ("group", JStr "staff");
    ("last_modified", JStr "2024-05-01T10:00:00");
    ("checksum", JStr "9f86d081884c7d65") ].

Definition meta_after : list (string * json) :=
  [ ("size", JInt 12);
    ("permissions", JStr "-rw-rw-r--");
    ("owner", JStr "alice");
    ("group", JStr "staff");
    ("last_modified", JStr "2024-05-01T10:00:00");
    ("checksum", JStr "9f86d081884c7d65") ].

Definition file_block : json :=
  JDict [("name", JStr "a"); ("path", JStr "/tmp/a"); ("type", JStr "file")].

Definition monitoring_block : json :=
  JDict [ ("watch_events", JList [JStr "modify"; JStr "delete"]);
          ("alert_mode", JStr "log");
          ("added_on", JStr "2024-05-01T09:00:00") ].

Definition baseline : json :=
  JDict [ ("file", file_block);
          ("metadata", JDict meta_before);
          ("monitoring", monitoring_block) ].

Definition current : json :=
  JDict [ ("file", file_block); ("metadata", JDict meta_after) ].

Definition record_b : json :=
  JDict [ ("file", JDict [("name", JStr "b"); ("path", JStr "/tmp/b");
                          ("type", JStr "file")]);
          ("metadata", JDict meta_before);
          ("monitoring", monitoring_block) ].

Definition line_a : string := MiniJson.dumps baseline.
Definition line_b : string := MiniJson.dumps record_b.

(** A store with the records of [/tmp/a] and [/tmp/b]. *)
Definition store_text : string := line_a ++ nl ++ line_b ++ nl.

(** The clock of the examples: noon of 1 June 2025. *)
Definition clock_text : string := "2025-06-01T12:00:00".

Definition clock : datetime :=
  Datetime (MiniJson.ticks_of 2025 6 1 12 0 0 0) false.

(** A view in which no monitored path exists any more. *)
Definition nothing : osview :=
  Osview (fun _ => false) (fun _ => None) (fun _ => false) (fun _ => false)
         (fun _ => None) (fun _ => None) (fun _ => None)
         clock clock_text.

(** Three entries of the history: one of January 2020, one of March 2025
    and one whose time is not a time; then one whose time is a number. *)
Definition entry (time : json) : json :=
  JDict [("File", JStr "/tmp/a"); ("Event", JStr "modify"); ("Time", time)].

Definition history : list json :=
  [ entry (JStr "2020-01-15T08:30:00");
    entry (JStr "2025-03-01T09:00:00");
    entry (JStr "yesterday") ].

Definition history_text : string := MiniJson.dump_indent (JList history).

Definition odd_history_text : string :=
  MiniJson.dump_indent (JList [entry (JStr "2020-01-15T08:30:00"); entry (JInt 5)]).

(** A view in which [/tmp/a] is a regular file of alice, and the record
    the store has of it when nothing has changed since. *)
Definition stats_a : stat_result := StatResult 12 1000 1000 420 1714557600.

Definition unchanged : osview :=
  Osview (fun p => str_eqb p "/tmp/a")
         (fun p => if str_eqb p "/tmp/a" then Some stats_a else None)
         (fun p => str_eqb p "/tmp/a")
         (fun _ => false)
         (fun _ => Some "alice")
         (fun _ => Some "staff")
         (fun _ => Some "9f86d081884c7d65")
         clock clock_text.

Definition baseline_now : json :=
  match format_json (stat_file MiniJson.lib unchanged "/tmp/a" stats_a) with
  | JDict d => JDict (d ++ [("monitoring", monitoring_block)])
  | v => v
  end.

(** A watcher of [/tmp/a] with that record in its cache. *)
Definition watcher_a : watcher :=
  Watcher "/db" "/idx"
          [(JStr "/tmp/a", monitoring_block)]
          [(JStr "/tmp/a", baseline_now)].

(** A world with the given files and pending failures. *)
Definition world_of (files : list (string * file)) (faults : list bool)
  : world :=
  World (list_to_map files) faults [] [] [].

End Example.

(* ===================================================================== *)
(** * Vocabulary of the properties *)

(** A value as [json.loads] builds it: no dictionary holds a key twice. *)
Fixpoint wf (v : json) : bool :=
  match v with
  | JList l => forallb wf l
  | JDict d =>
      bool_decide (NoDup (map fst d)) && forallb (fun kv => wf (snd kv)) d
  | _ => true
  end.

(** The five kinds of event of the configuration. *)
Definition domain_kinds : list string :=
  ["add"; "modify"; "delete"; "move"; "permissions"].

(** The value of a field of a metadata block, [None] when it is absent. *)
Definition field (k : string) (meta : list (string * json)) : json :=
  default JNull (dict_get k meta).

(** The entry of a change set for a field. *)
Definition change_entry (k : string) (om nm : list (string * json)) : json :=
  JDict [("before", field k om); ("after", field k nm)].

(** A monitoring block as the data model has it: an object whose watch
    events, when present, are a list. *)
Definition config_typed (cfg : json) : bool :=
  match cfg with
  | JDict d =>
      match dict_get "watch_events" d with
      | Some v => is_list v
      | None => true
      end
  | _ => false
  end.

(** The paths a system call may change. *)
Definition touched (c : syscall) : list string :=
  match c with
  | SysOpenRead _ => []
  | SysOpenWrite p => [p]
  | SysWrite p _ => [p]
  | SysClose p => [p]
  | SysFsync p => [p]
  | SysChmod p _ => [p]
  | SysReplace src dst => [src; dst]
  | SysRemove p => [p]
  end.

(** [frame S w w']: going from [w] to [w'] only files whose path is in
    [S] were touched, nothing was handed to the alert router, the trace
    grew at its end by calls on paths of [S], and no failure is pending
    when none was. *)
Definition frame (S : string → Prop) (w w' : world) : Prop :=
  (∀ q, ¬ S q → fs w' !! q = fs w !! q) ∧
  alerts w' = alerts w ∧
  (∃ t, trace w' = (trace w ++ t)%list ∧
        ∀ c ok q, In (c, ok) t → In q (touched c) → S q) ∧
  (faults w = [] → faults w' = []).

Definition respects {A : Type} (R : world → world → Prop) (m : io A) : Prop :=
  ∀ w r w', m w = (r, w') → R w w'.

(** The two files a writer works on. *)
Definition pair_of (file : string) (q : string) : Prop :=
  q = file ∨ q = tmp_of file.

(** The four files of the store and of its index. *)
Definition store_files (file_info file_event : string) (q : string) : Prop :=
  pair_of file_info q ∨ pair_of file_event q.

(** A system call on [temp] failed between [w] and [w']. *)
Definition failed_on (temp : string) (w w' : world) : Prop :=
  ∃ t c, trace w' = (trace w ++ t)%list ∧ In (c, false) t ∧ In temp (touched c).

(** The calls a successful rewrite makes, in order; [calls] are the writes
    of the data. *)
Definition rewrite_trace (temp target : string) (calls : list (syscall * bool))
  : list (syscall * bool) :=
  ((SysOpenWrite temp, true) :: calls ++
   [(SysClose temp, true); (SysChmod temp mode_600, true);
    (SysReplace temp target, true)])%list.

Definition line_writes (temp : string) (lines : list string)
  : list (syscall * bool) :=
  map (fun l => (SysWrite temp (l ++ nl), true)) lines.

(** What the body of a [with open(temp, "w")] block does when [temp] is
    there: it appends [data] through [calls], or a call on [temp] fails. *)
Definition appends (temp : string) (body : io unit) (data : string)
    (calls : list (syscall * bool)) : Prop :=
  ∀ w r w' c m, fs w !! temp = Some (File c m) → body w = (r, w') →
    console w' = console w ∧
    ((r = Ret tt ∧ fs w' = <[temp := File (c ++ data) m]> (fs w) ∧
      trace w' = (trace w ++ calls)%list) ∨
     (r = Raise OSError ∧ failed_on temp w w' ∧ faults w ≠ [])).

Definition step_fails (temp : string) (w w' : world) (r : outcome unit) : Prop :=
  r = Raise OSError ∧ (∀ q, q ≠ temp → fs w' !! q = fs w !! q) ∧
  failed_on temp w w' ∧ faults w ≠ [].

(** The rewrite did not happen: a call on the temporary file failed, the
    other files are as before, and the temporary file is gone unless its
    removal failed too. *)
Definition rewrite_failed (temp : string) (w w' : world) : Prop :=
  (∀ q, q ≠ temp → fs w' !! q = fs w !! q) ∧
  failed_on temp w w' ∧
  faults w ≠ [] ∧
  (fs w' !! temp = None ∨
   ∃ t, trace w' = (trace w ++ t)%list ∧ In (SysRemove temp, false) t).

(** How a call that may rewrite the store at [file] relates the world
    before and after it.  Either no call touched a file; or the rewrite
    failed ([failure] is returned); or the store was replaced: after
    reading it the call made exactly the calls of [rewrite_trace] (open
    the temporary file, write the lines, close, set mode 0o600, rename
    over the store), the store holds the new lines, which [scan] relates
    to the old content, the temporary file is gone, and whatever followed
    ([rest]) touched neither of the two. *)
Definition rewrite_discipline (file : string) (failure : json)
    (scan : string → list string → Prop)
    (w : world) (r : outcome json) (w' : world) : Prop :=
  (fs w' = fs w ∧
   ∃ t, trace w' = (trace w ++ t)%list ∧
        ∀ c ok, In (c, ok) t → touched c = []) ∨
  (r = Ret failure ∧ rewrite_failed (tmp_of file) w w') ∨
  (∃ f lines rest,
     fs w !! file = Some f ∧ scan (f_content f) lines ∧
     trace w' = (trace w ++ (SysOpenRead file, true) ::
                   rewrite_trace (tmp_of file) file
                     (line_writes (tmp_of file) lines) ++ rest)%list ∧
     fs w' !! file = Some (File (unlines lines) mode_600) ∧
     fs w' !! tmp_of file = None ∧
     ∀ c ok q, In (c, ok) rest → In q (touched c) →
               q ≠ file ∧ q ≠ tmp_of file).

(** The lines each writer makes of the content of the store. *)
Definition remove_scan (L : pylib) (path : string)
    (content : string) (lines : list string) : Prop :=
  ∃ removed, ofold (remove_step L (abspath L path)) (read_lines content)
                   ([], false) = Ret (lines, removed).

Definition set_conf_scan (L : pylib) (path change_type : string)
    (new_events new_alert_mode : json)
    (content : string) (lines : list string) : Prop :=
  ofold (set_conf_step L (abspath L path) change_type new_events new_alert_mode)
        (read_lines content) ([], false) = Ret (lines, true).

Definition abs_dest (L : pylib) (dest_path : option string) : option string :=
  match dest_path with
  | Some d => if str_eqb d "" then None else Some (abspath L d)
  | None => None
  end.

Definition update_scan (L : pylib) (V : osview) (event_type src_path : string)
    (dest_path : option string) (content : string) (lines : list string) : Prop :=
  ofold (update_step L V event_type (abspath L src_path) (abs_dest L dest_path))
        (read_lines content) [] = Ret lines.

(** The store and its index are kept in different files, none of which is
    the temporary file of the other. *)
Definition distinct_files (file_info file_event : string) : Prop :=
  file_event ≠ file_info ∧
  file_event ≠ tmp_of file_info ∧
  tmp_of file_event ≠ file_info.

(** A line of the store is corrupt when its text, stripped of the
    surrounding white space, is not empty and is not JSON. *)
Definition corrupt (L : pylib) (raw : string) : bool :=
  negb (str_eqb (strip raw) "") &&
  match loads L (strip raw) with None => true | Some _ => false end.






(** What the scan of a store file gives a reader that falls back on
    [dflt]: the result of the scan, [dflt] when there is no file. *)
Definition scan_or {A : Type} (scan : string → outcome A) (dflt : A)
    (o : option file) : outcome A :=
  match o with
  | Some f =>
      match scan (f_content f) with
      | Raise OSError => Ret dflt
      | x => x
      end
  | None => Ret dflt
  end.

(** The index [regenerate_event_index] derives from a store file. *)
Definition index_of (L : pylib) (store : option file) : outcome pydict :=
  scan_or (fun content => ofold (index_step L) (read_lines content) []) []
          store.

Definition index_text (L : pylib) (monitored : pydict) : string :=
  dump_indent L (json_of_pydict L monitored).

(** The record of [src] in a line of the store. *)
Definition record_of (L : pylib) (src : string) (raw : string) (data : json)
  : Prop :=
  strip raw ≠ "" ∧ loads L (strip raw) = Some data ∧
  record_path data = Ret (JStr src).

(** The path is gone when the store is refreshed: it does not exist, or
    it vanishes before [os.stat] is reached. *)
Definition vanished (L : pylib) (V : osview) (src : string) : Prop :=
  path_exists V src = false ∨ load_file_info L V src = Raise OSError.

(** After a call the store at [file] is as before, or it holds lines
    among which is [line]. *)
Definition store_keeps_line (file : string) (w w' : world) (line : string)
  : Prop :=
  fs w' !! file = fs w !! file ∨
  ∃ lines, fs w' !! file = Some (File (unlines lines) mode_600) ∧ In line lines.

(** The time of a history entry, when it has one that parses. *)
Definition entry_time (L : pylib) (alert : json) : option datetime :=
  match alert with
  | JDict d =>
      match dict_get "Time" d with
      | Some (JStr s) => fromisoformat L s
      | _ => None
      end
  | _ => None
  end.

(** The entry has a time and it is strictly before the cutoff. *)
Definition expired (L : pylib) (cutoff : datetime) (alert : json) : bool :=
  match entry_time L alert with
  | Some t => ticks t <? ticks cutoff
  | None => false
  end.

(** An entry as the watcher writes them: an object whose [Time], when it
    is there, is a string and, when it parses, has a time zone exactly
    when the cutoff has one. *)
Definition entry_typed (L : pylib) (cutoff : datetime) (alert : json) : bool :=
  match alert with
  | JDict d =>
      match dict_get "Time" d with
      | Some (JStr s) =>
          match fromisoformat L s with
          | Some t => Bool.eqb (aware t) (aware cutoff)
          | None => true
          end
      | Some _ => false
      | None => true
      end
  | _ => false
  end.

(** The entries [save_log_history] finds in the history file. *)
Definition previous_reports (L : pylib) (o : option file) : list json :=
  match o with
  | Some f =>
      match loads L (f_content f) with
      | Some (JList l) => l
      | _ => []
      end
  | None => []
  end.

(** The world once [handle_event] has announced the event. *)
Definition announced (user_event path : string) (w : world) : world :=
  snd (print (MsgEventDetected user_event path) w).

(* ===================================================================== *)
(** * The set-up, the command line, the watcher object and the alert modes *)
(* ===================================================================== *)

(** ** logger.py: the history shown and the set-up *)

(** [show_log_history(file)] *)
Definition show_log_history (L : pylib) (file : string) : io json :=
  e <- sys_exists file;;
  if negb e then ret (JList []) else
  try_os
    (content <- sys_read file;;
     match loads L content with
     | Some data => if is_list data then ret data else ret (JList [])
     | None => ret (JList [])
     end)
    (ret (JList [])).

(** [initialize_database(file_info, file_event)]: each file is created when
    it is not there, the store empty and the index as [{}]. *)
Definition initialize_database (L : pylib) (file_info file_event : string)
  : io json :=
  e <- sys_exists file_info;;
  (if negb e then
     with_open_write L file_info (ret tt);;
     sys_chmod file_info mode_600
   else ret tt);;
  e <- sys_exists file_event;;
  (if negb e then
     with_open_write L file_event (sys_write file_event (dumps L (JDict [])));;
     sys_chmod file_event mode_600
   else ret tt);;
  ret JNull.

(** ** file_monitoring.py: the first record of a file *)

Definition file_info_db : string := "/opt/vigilo/file_info.json".

(** [open(p, "a")]: creates the file when it is not there and leaves its
    content otherwise.  The trace records it as an [open] for writing. *)
Definition sys_open_append (L : pylib) (p : string) : io unit :=
  sys (SysOpenWrite p)
      (fun g =>
         Some (tt, match g !! p with
                   | Some _ => g
                   | None => <[p := File "" (create_mode L)]> g
                   end)).

(** [with open(p, "a") as f: body] *)
Definition with_open_append (L : pylib) (p : string) (body : io unit) : io unit :=
  sys_open_append L p;;
  fun w =>
    match body w with
    | (Ret _, w') => sys_close p w'
    | (Raise e, w') => (Raise e, log_call (SysClose p) true w')
    end.

(** [MonitoredFile(path).save_initial_info(watch_event, alert_mode)]: the
    record goes to the end of the store at its fixed place. *)
Definition save_initial_info (L : pylib) (V : osview) (path : string)
    (watch_event alert_mode : json) : io json :=
  data <- lift (load_file_info L V path);;
  data <- lift (py_setitem data "monitoring"
                  (JDict [ ("watch_events", watch_event);
                           ("alert_mode", alert_mode);
                           ("added_on", JStr (now_iso V)) ]));;
  with_open_append L file_info_db
    (sys_write file_info_db (dumps L data ++ nl));;
  ret JNull.

(** ** alert_manager.py: the alert modes *)

Definition valid_modes : list string :=
  ["system"; "log"; "email"; "remote"; "silent"].

(** [AlertManager.validate_alert_mode(mode)]: membership in a set, which
    hashes [mode] first. *)
Definition validate_alert_mode (mode : json) : outcome bool :=
  if hashable mode then Ret (existsb (py_eq mode) (map JStr valid_modes))
  else Raise TypeError.

(** The handlers of [AlertManager]. *)
Inductive channel : Type :=
| system_notification
| email_notification
| remote_notification.

(** [AlertManager.dispatch(report, alert_mode)]: the handler it calls with
    [report], [None] when it calls none. *)
Definition alert_route (report alert_mode : json) : option channel :=
  match report with
  | JDict _ =>
      match alert_mode with
      | JStr mode =>
          if str_eqb mode "system" then Some system_notification
          else if str_eqb mode "log" then None
          else if str_eqb mode "email" then Some email_notification
          else if str_eqb mode "remote" then Some remote_notification
          else if str_eqb mode "silent" then None
          else None
      | _ => None
      end
  | _ => None
  end.

(** What [get_available_modes] asks of the machine: the environment
    variables, and how [which notify-send] ends ([true] for exit code 0,
    [false] for the failures the code catches, an exception otherwise). *)
Record machine : Type := Machine {
  environ : string → option string;
  which_notify_send : outcome bool
}.

(** [os.environ.get(name)] taken as a truth value. *)
Definition env_set (M : machine) (name : string) : bool :=
  match environ M name with
  | Some v => negb (str_eqb v "")
  | None => false
  end.

(** [AlertManager.get_available_modes()] *)
Definition get_available_modes (M : machine) : outcome (list string) :=
  let available := ["log"; "silent"] in
  let? found := which_notify_send M in
  let available := if found then (available ++ ["system"])%list else available in
  let smtp_configured :=
    forallb (env_set M) ["SMTP_HOST"; "SMTP_USER"; "SMTP_PASS"; "ALERT_EMAIL_TO"] in
  let available :=
    if smtp_configured then (available ++ ["email"])%list else available in
  let remote_configured :=
    forallb (env_set M) ["REMOTE_ALERT_URL"; "REMOTE_ALERT_TOKEN"] in
  let available :=
    if remote_configured then (available ++ ["remote"])%list else available in
  Ret available.

(** ** The process level: exit codes, printed lines, locks *)

(** The lines the command line and the remaining functions print. *)
Inductive notice : Type :=
| NoteErrorUpdatingIndex
| NoteNoWatchEvents
| NoteWatchEventsUsage
| NoteInvalidAlertMode (mode : string)
| NoteValidModes
| NoteFileNotFound (path : string)
| NotePathNotAllowed (path : string)
| NoteAllowedDirectories
| NoteAlreadyMonitoring (path : string)
| NoteAdded (path : string)
| NoteEvents (events : list string)
| NoteAlertMode (mode : string)
| NoteCannotAccess (path : string)
| NoteError
| NoteAddedCount (count : Z)
| NoteNoFilesAdded
| NoteNotMonitored (path : string)
| NoteRemoved (path : string)
| NoteFailedToRemove (path : string)
| NoteNothingMonitored
| NoteAddFirst
| NoteStarting
| NoteRule
| NoteReloaded.

(** How a call ends: it returns, raises, leaves the process through
    [sys.exit(code)], or never comes back (a lock that is never freed). *)
Inductive ending (A : Type) : Type :=
| Returned (a : A)
| Raised (e : exn)
| Exited (code : Z)
| Blocked.
Arguments Returned {A} a.
Arguments Raised {A} e.
Arguments Exited {A} code.
Arguments Blocked {A}.

(** A computation of that level: its ending, the lines it printed and the
    world it leaves.  The messages of the logger stay in the console of the
    world. *)
Definition proc (A : Type) : Type := world → ending A * list notice * world.

Definition finish {A : Type} (a : A) : proc A := fun w => (Returned a, [], w).

Definition say (n : notice) : proc unit := fun w => (Returned tt, [n], w).

Definition sys_exit {A : Type} (code : Z) : proc A := fun w => (Exited code, [], w).

Definition run {A : Type} (m : io A) : proc A :=
  fun w =>
    match m w with
    | (Ret a, w') => (Returned a, [], w')
    | (Raise e, w') => (Raised e, [], w')
    end.

Definition pbind {A B : Type} (m : proc A) (k : A → proc B) : proc B :=
  fun w =>
    match m w with
    | (Returned a, out, w') =>
        let '(r, out', w'') := k a w' in (r, (out ++ out')%list, w'')
    | (Raised e, out, w') => (Raised e, out, w')
    | (Exited code, out, w') => (Exited code, out, w')
    | (Blocked, out, w') => (Blocked, out, w')
    end.

Notation "x <~ m ;; k" := (pbind m (fun x => k))
  (at level 100, m at next level, right associativity) : py_scope.

(** [try: m  except (OSError, IOError): h] at that level. *)
Definition ptry_os {A : Type} (m h : proc A) : proc A :=
  fun w =>
    match m w with
    | (Raised OSError, out, w') =>
        let '(r, out', w'') := h w' in (r, (out ++ out')%list, w'')
    | r => r
    end.

(** A loop whose body may print and leave. *)
Fixpoint pfold {A B : Type} (f : A → B → proc A) (l : list B) (a : A) : proc A :=
  match l with
  | [] => finish a
  | x :: l' => a' <~ f a x;; pfold f l' a'
  end.

(** ** logger.py: removal from the index *)

(** [del obj[k]] for a string [k]. *)
Definition py_delitem (obj : json) (k : string) : outcome json :=
  match obj with
  | JDict d =>
      if existsb (fun kv => str_eqb k (fst kv)) d
      then Ret (JDict (filter (fun kv => negb (str_eqb k (fst kv))) d))
      else Raise KeyError
  | _ => Raise TypeError
  end.

(** [remove_file_event(path, file)] *)
Definition remove_file_event (L : pylib) (path file : string) : proc json :=
  e <~ run (sys_exists file);;
  if negb e then finish (JBool false) else
  let path := abspath L path in
  r <~ run (try_os (content <- sys_read file;; ret (Some content)) (ret None));;
  match r with
  | None => finish (JBool false)
  | Some content =>
      match loads L content with
      | None => finish (JBool false)
      | Some data =>
          found <~ run (lift (py_in path data));;
          st <~ (if found
                 then data' <~ run (lift (py_delitem data path));;
                      finish (data', true)
                 else finish (data, false));;
          let temp_file := tmp_of file in
          ok <~ ptry_os
                  (_ <~ run (write_json_block L temp_file file (fst st));;
                   finish true)
                  (_ <~ run (cleanup_temp temp_file);;
                   _ <~ say NoteErrorUpdatingIndex;;
                   finish false);;
          if ok then finish (JBool (snd st)) else finish (JBool false)
      end
  end.

(** ** FileWatcher.py: construction and reloading *)

(** A lock attribute of the watcher as a method finds it: not created yet,
    free, or held by the thread that runs the method. *)
Inductive lock_state : Type :=
| LockMissing
| LockFree
| LockHeld.

(** [with self.lock: body] for a [threading.Lock], which is not
    reentrant: the attribute must exist, and taking a lock the thread
    holds never returns. *)
Definition with_lock {A : Type} (l : lock_state) (body : proc A) : proc A :=
  match l with
  | LockMissing => fun w => (Raised AttributeError, [], w)
  | LockHeld => fun w => (Blocked, [], w)
  | LockFree => body
  end.

(** [FileWatcher.load_all_baselines] with the state of [self.cache_lock]
    at the call. *)
Definition load_all_baselines_with (cache_lock : lock_state) (L : pylib)
    (W : watcher) : proc watcher :=
  e <~ run (sys_exists (monitored_files_path W));;
  if negb e then finish W else
  with_lock cache_lock
    (cache <~ run (try_os
                     (content <- sys_read (monitored_files_path W);;
                      lift (ofold (baseline_step L) (read_lines content)
                                  (baseline_cache W)))
                     (ret (baseline_cache W)));;
     finish (set_cache W cache)).

(** [FileWatcher.__init__]: the configuration is loaded, the baselines
    are loaded a first time, then the two locks are created and the
    baselines are loaded again. *)
Definition new_watcher (L : pylib) (monitored_files_path event_file_path : string)
  : proc watcher :=
  monitored <~ run (load_files_monitored L monitored_files_path);;
  let W := Watcher monitored_files_path event_file_path monitored [] in
  W <~ load_all_baselines_with LockMissing L W;;
  load_all_baselines_with LockFree L W.

(** [reload_watcher_config(watcher)]: everything runs inside
    [with watcher.cache_lock]. *)
Definition reload_watcher_config (L : pylib) (W : watcher) : proc watcher :=
  W <~ with_lock LockFree
         (monitored <~ run (load_files_monitored L (monitored_files_path W));;
          let W := Watcher (monitored_files_path W) (event_file_path W)
                           monitored [] in
          load_all_baselines_with LockHeld L W);;
  _ <~ say NoteReloaded;;
  finish W.

(** ** main.py *)

Definition FILE_INFO_DB : string := "/opt/vigilo/file_info.json".
Definition FILE_EVENT_DB : string := "/opt/vigilo/file_event.json".

Definition ALLOWED_DIRS : list string :=
  ["/home"; "/var/log"; "/opt"; "/srv"; "/tmp"].

(** [ensure_db_exists()] *)
Definition ensure_db_exists (L : pylib) : io json :=
  initialize_database L FILE_INFO_DB FILE_EVENT_DB.

(** The arguments of [vigilo add]. *)
Record add_args : Type := AddArgs {
  add_files : list string;
  add_modify : bool;
  add_delete : bool;
  add_move : bool;
  add_permissions : bool;
  add_add : bool;
  add_preset : option string;
  add_alert : string
}.

(** The watch events [command_add] makes of the flags and the preset. *)
Definition watch_events_of (args : add_args) : list string :=
  let watch_events :=
    ((if add_modify args then ["modify"] else []) ++
     (if add_delete args then ["delete"] else []) ++
     (if add_move args then ["move"] else []) ++
     (if add_permissions args then ["permissions"] else []) ++
     (if add_add args then ["add"] else []))%list in
  match add_preset args with
  | Some preset =>
      if str_eqb preset "full"
      then ["modify"; "delete"; "move"; "permissions"; "add"]
      else if str_eqb preset "default"
      then ["modify"; "delete"; "permissions"]
      else watch_events
  | None => watch_events
  end.

(** One turn of the loop of [command_add] over the files; the state is
    the set of monitored paths and the number of files added. *)
Definition add_step (L : pylib) (V : osview) (watch_events : list string)
    (alert : string) (st : list json * Z) (path : string)
  : proc (list json * Z) :=
  let '(existing_paths, added_count) := st in
  let abs_path := abspath L path in
  if negb (path_exists V abs_path) then
    _ <~ say (NoteFileNotFound abs_path);; finish st
  else if negb (validate_path L abs_path (Some ALLOWED_DIRS)) then
    _ <~ say (NotePathNotAllowed abs_path);;
    _ <~ say NoteAllowedDirectories;;
    finish st
  else if existsb (py_eq (JStr abs_path)) existing_paths then
    _ <~ say (NoteAlreadyMonitoring abs_path);; finish st
  else
    ptry_os
      (_ <~ run (save_initial_info L V abs_path
                   (JList (map JStr watch_events)) (JStr alert));;
       _ <~ say (NoteAdded abs_path);;
       _ <~ say (NoteEvents watch_events);;
       _ <~ say (NoteAlertMode alert);;
       finish (set_insert (JStr abs_path) existing_paths, added_count + 1))
      (_ <~ say (NoteCannotAccess abs_path);;
       _ <~ say NoteError;;
       finish st).

(** [command_add(args)] *)
Definition command_add (L : pylib) (V : osview) (args : add_args) : proc unit :=
  _ <~ run (ensure_db_exists L);;
  let watch_events := watch_events_of args in
  match watch_events with
  | [] =>
      _ <~ say NoteNoWatchEvents;;
      _ <~ say NoteWatchEventsUsage;;
      sys_exit 1
  | _ :: _ =>
      valid <~ run (lift (validate_alert_mode (JStr (add_alert args))));;
      if negb valid then
        _ <~ say (NoteInvalidAlertMode (add_alert args));;
        _ <~ say NoteValidModes;;
        sys_exit 1
      else
        existing_paths <~ run (get_all_monitored_paths L FILE_INFO_DB);;
        st <~ pfold (add_step L V watch_events (add_alert args))
                    (add_files args) (existing_paths, 0);;
        if 0 <? snd st then say (NoteAddedCount (snd st))
        else say NoteNoFilesAdded
  end.

(** [command_remove(args)], [file] being [args.file]. *)
Definition command_remove (L : pylib) (file : string) : proc unit :=
  _ <~ run (ensure_db_exists L);;
  let abs_path := abspath L file in
  monitored <~ run (is_file_already_monitored L abs_path FILE_INFO_DB);;
  if negb (truthy monitored) then
    _ <~ say (NoteNotMonitored abs_path);;
    sys_exit 1
  else
    removed_info <~ run (remove_monitored_file_info L abs_path FILE_INFO_DB);;
    removed_event <~ remove_file_event L abs_path FILE_EVENT_DB;;
    if truthy removed_info || truthy removed_event then
      say (NoteRemoved abs_path)
    else
      _ <~ say (NoteFailedToRemove abs_path);;
      sys_exit 1.

(** [command_start(args)] up to the construction of the watcher; [serve]
    is what follows it (the signal handlers and the blocking
    [fw.start()]). *)
Definition command_start (L : pylib) (serve : watcher → proc unit) : proc unit :=
  _ <~ run (ensure_db_exists L);;
  monitored_files <~ run (show_all_file_monitored L FILE_INFO_DB);;
  if negb (truthy monitored_files) then
    _ <~ say NoteNothingMonitored;;
    _ <~ say NoteAddFirst;;
    sys_exit 1
  else
    _ <~ say NoteStarting;;
    _ <~ say NoteRule;;
    fw <~ new_watcher L FILE_INFO_DB FILE_EVENT_DB;;
    serve fw.

(** Further data for the examples: the index of the store of [/tmp/a] and
    [/tmp/b], and a database at its fixed place. *)
Module Sample.

Definition index_entry : json :=
  JDict [ ("watch_events", JList [JStr "modify"; JStr "delete"]);
          ("alert_mode", JStr "log") ].

Definition index_entries : list (string * json) :=
  [("/tmp/a", index_entry); ("/tmp/b", index_entry)].

Definition index_text : string := MiniJson.dump_indent (JDict index_entries).

(** The store and its index where [main.py] keeps them. *)
Definition database : world :=
  Example.world_of [ (FILE_INFO_DB, File Example.store_text mode_600);
                     (FILE_EVENT_DB, File index_text mode_600) ] [].

(** The same with the record of [/tmp/b] only. *)
Definition database_b : world :=
  Example.world_of [ (FILE_INFO_DB, File (Example.line_b ++ nl) mode_600);
                     (FILE_EVENT_DB, File index_text mode_600) ] [].

End Sample.

(** ** Vocabulary of the further properties *)

(** A text without line terminator: what the iteration of a file gives
    back as one line. *)
Fixpoint one_line (s : string) : bool :=
  match s with
  | EmptyString => true
  | String c s' =>
      negb (Ascii.eqb c "010"%char) && negb (Ascii.eqb c "013"%char) && one_line s'
  end.

(** A text whose last line is ended: it is empty or ends with [\n]. *)
Definition complete (s : string) : Prop := s = "" ∨ ∃ s', s = s' ++ nl.

(** The library reads back the line it writes of [data]. *)
Definition round_trips (L : pylib) (data : json) : Prop :=
  loads L (dumps L data) = Some data ∧
  one_line (dumps L data) = true ∧
  strip (dumps L data) = dumps L data ∧
  dumps L data ≠ "".

(** Every record of a store is read back from its rewritten line. *)
Definition store_round_trips (L : pylib) (content : string) : Prop :=
  ∀ raw data, In raw (read_lines content) → loads L (strip raw) = Some data →
    round_trips L data.

(** A function that only reads [file]: it changes nothing but the trace,
    never fails on the file system, answers [dflt] when the file is not
    there or cannot be read, and [scan] of its content otherwise. *)
Definition reads_only {A : Type} (file : string) (dflt : A)
    (scan : string → outcome A) (m : io A) : Prop :=
  ∀ w r w', m w = (r, w') →
    fs w' = fs w ∧ console w' = console w ∧ alerts w' = alerts w ∧
    r ≠ Raise OSError ∧
    (fs w !! file = None → r = Ret dflt ∧ w' = w) ∧
    (∀ f, fs w !! file = Some f →
       (∃ ok, trace w' = (trace w ++ [(SysOpenRead file, ok)])%list) ∧
       (r = Ret dflt ∨ r = scan (f_content f)) ∧
       (faults w = [] → r = scan_or scan dflt (Some f))).

(** What three of the queries make of the content of their file. *)
Definition show_all_scan (L : pylib) (c : string) : outcome json :=
  let? l := ofold (show_all_step L) (read_lines c) [] in Ret (JList l).

Definition member_scan (L : pylib) (abs_path c : string) : outcome json :=
  let? b := find_monitored L abs_path (read_lines c) in Ret (JBool b).

Definition history_scan (L : pylib) (c : string) : outcome json :=
  Ret (JList (previous_reports L (Some (File c 0)))).

(** One of the branches of [set_conf] is taken for these arguments. *)
Definition change_applies (change_type : string)
    (new_events new_alert_mode : json) : bool :=
  str_eqb change_type "SET_EVENTS" && is_list new_events
  || (str_eqb change_type "ADD_EVENT" || str_eqb change_type "REMOVE_EVENT")
     && truthy new_events
  || str_eqb change_type "SET_ALERT" && truthy new_alert_mode
  || str_eqb change_type "SET_ALL".

(** [isinstance(v, str)] *)
Definition is_str (v : json) : bool :=
  match v with JStr _ => true | _ => false end.

(** [v is None] *)
Definition is_none (v : json) : bool :=
  match v with JNull => true | _ => false end.

(** A computation that prints nothing, hands nothing to the alert router
    and fails with [OSError] only. *)
Definition plain_io {A : Type} (m : io A) : Prop :=
  ∀ w r w', m w = (r, w') →
    console w' = console w ∧ alerts w' = alerts w ∧
    (faults w = [] → faults w' = []) ∧
    ∀ e, r = Raise e → e = OSError.

(** Going from [w] to [w'] no file that was there has been changed, but
    for the file at [p], which has at most been extended at its end. *)
Definition extended (p : string) (w w' : world) : Prop :=
  (∀ q f, q ≠ p → fs w !! q = Some f → fs w' !! q = Some f) ∧
  (∀ c m, fs w !! p = Some (File c m) →
          ∃ x, fs w' !! p = Some (File (c ++ x) m)).

(** The content of a file, empty when it is not there. *)
Definition content_of (o : option file) : string :=
  match o with Some f => f_content f | None => "" end.

(** The monitoring block [save_initial_info] gives a record. *)
Definition initial_monitoring (V : osview) (watch_event alert_mode : json)
  : json :=
  JDict [ ("watch_events", watch_event);
          ("alert_mode", alert_mode);
          ("added_on", JStr (now_iso V)) ].

(** Modification times [datetime.fromtimestamp] accepts whatever the time
    zone: from the epoch to the day before the end of year 9999.  Beyond
    the years 1..9999 it raises [ValueError] or [OverflowError], which
    [load_file_info] does not catch. *)
Definition timestamp_in_range (t : Z) : bool :=
  (0 <=? t) && (t <? 253402214400).

(** The fields [format_json] gives a metadata block, in its order. *)
Definition metadata_fields : list string :=
  ["size"; "permissions"; "owner"; "group"; "last_modified"; "checksum"].

(** A computation of the process level that changes no file that was
    there, but for the file at [p], which it at most extends. *)
Definition only_extends {A : Type} (p : string) (m : proc A) : Prop :=
  ∀ w r out w', m w = (r, out, w') → extended p w w'.

(** The arguments [vigilo add --preset default --alert log FILES]. *)
Definition add_default (files : list string) : add_args :=
  {| add_files := files; add_modify := false; add_delete := false;
     add_move := false; add_permissions := false; add_add := false;
     add_preset := Some "default"; add_alert := "log" |}.

(** A character that ends no line. *)
Definition plain (c : ascii) : bool :=
  negb (Ascii.eqb c "010"%char) && negb (Ascii.eqb c "013"%char).

(* ===================================================================== *)
(** * Decidable equality of values *)
(* ===================================================================== *)

(** Equality of values is decidable. *)
Lemma json_eq_dec : ∀ a b : json, {a = b} + {a ≠ b}.
Proof.
  fix IH 1. intros a b.
  destruct a as [ | x | n | s | l | d ], b as [ | y | m | t | l' | d' ];
    try (right; discriminate).
  - left; reflexivity.
  - destruct (Bool.bool_dec x y) as [-> | H];
      [ left; reflexivity | right; intros [= E]; exact (H E) ].
  - destruct (Z.eq_dec n m) as [-> | H];
      [ left; reflexivity | right; intros [= E]; exact (H E) ].
  - destruct (String.string_dec s t) as [-> | H];
      [ left; reflexivity | right; intros [= E]; exact (H E) ].
  - destruct (List.list_eq_dec IH l l') as [-> | H];
      [ left; reflexivity | right; intros [= E]; exact (H E) ].
  - assert (Hp : ∀ p q : string * json, {p = q} + {p ≠ q}).
    { intros [k v] [k' v'].
      destruct (String.string_dec k k') as [-> | H];
        [ | right; intros [= E _]; exact (H E) ].
      destruct (IH v v') as [-> | H];
        [ left; reflexivity | right; intros [= E]; exact (H E) ]. }
    destruct (List.list_eq_dec Hp d d') as [-> | H];
      [ left; reflexivity | right; intros [= E]; exact (H E) ].
Defined.

Global Instance json_eq_decision : EqDecision json := json_eq_dec.

(* ===================================================================== *)

(* ===================================================================== *)
(** * Facts about values and text *)

(* ===================================================================== *)

Lemma str_eqb_true (a b : string) : str_eqb a b = true ↔ a = b.
Proof. unfold str_eqb. apply bool_decide_eq_true. Qed.

Lemma str_eqb_false (a b : string) : str_eqb a b = false ↔ a ≠ b.
Proof. unfold str_eqb. apply bool_decide_eq_false. Qed.

Lemma str_eqb_refl (a : string) : str_eqb a a = true.
Proof. by apply str_eqb_true. Qed.

Lemma json_nested_ind (P : json → Prop) :
  P JNull →
  (∀ b, P (JBool b)) →
  (∀ n, P (JInt n)) →
  (∀ s, P (JStr s)) →
  (∀ l, Forall P l → P (JList l)) →
  (∀ d, Forall (fun kv => P (snd kv)) d → P (JDict d)) →
  ∀ v, P v.
Proof.
  intros HN HB HI HS HL HD.
  fix IH 1. intros [ | b | n | s | l | d ].
  - exact HN.
  - apply HB.
  - apply HI.
  - apply HS.
  - apply HL. induction l as [ | x l IHl ]; constructor; [ apply IH | exact IHl ].
  - apply HD. induction d as [ | [k x] d IHd ]; constructor;
      [ apply IH | exact IHd ].
Qed.

Lemma py_eq_str_l (s : string) (v : json) :
  py_eq (JStr s) v = true ↔ v = JStr s.
Proof.
  destruct v; simpl; try (split; [ discriminate | discriminate ]).
  rewrite str_eqb_true. split; [ intros ->; reflexivity | intros [= ->]; reflexivity ].
Qed.

Lemma py_eq_str_r (v : json) (s : string) :
  py_eq v (JStr s) = true ↔ v = JStr s.
Proof.
  destruct v; simpl; try (split; [ discriminate | discriminate ]).
  rewrite str_eqb_true. split; [ intros ->; reflexivity | intros [= ->]; reflexivity ].
Qed.

Lemma dict_get_in (k : string) (v : json) (d : list (string * json)) :
  NoDup (map fst d) → In (k, v) d → dict_get k d = Some v.
Proof.
  induction d as [ | [k' v'] d IH ]; simpl; [ intros _ [] | ].
  intros Hnd [Heq | Hin].
  - injection Heq as -> ->. by rewrite str_eqb_refl.
  - apply NoDup_cons in Hnd as [Hk Hnd].
    destruct (str_eqb k k') eqn:E.
    + apply str_eqb_true in E as ->. exfalso. apply Hk.
      apply list_elem_of_In. apply in_map_iff. by exists (k', v).
    + by apply IH.
Qed.

Lemma dict_get_some_in (k : string) (v : json) (d : list (string * json)) :
  dict_get k d = Some v → In (k, v) d.
Proof.
  induction d as [ | [k' v'] d IH ]; simpl; [ discriminate | ].
  destruct (str_eqb k k') eqn:E.
  - apply str_eqb_true in E as ->. intros [= ->]. by left.
  - intros H. right. by apply IH.
Qed.

Lemma dict_get_none (k : string) (d : list (string * json)) :
  dict_get k d = None ↔ k ∉ dict_keys d.
Proof.
  induction d as [ | [k' v'] d IH ]; simpl.
  - split; [ intros _; apply not_elem_of_nil | reflexivity ].
  - rewrite not_elem_of_cons. destruct (str_eqb k k') eqn:E.
    + apply str_eqb_true in E as ->. split; [ discriminate | intros [H _]; by destruct H ].
    + apply str_eqb_false in E. rewrite IH. unfold dict_keys. tauto.
Qed.

Lemma dict_get_set_eq (k : string) (v : json) (d : list (string * json)) :
  dict_get k (dict_set k v d) = Some v.
Proof.
  induction d as [ | [k' v'] d IH ]; simpl.
  - by rewrite str_eqb_refl.
  - destruct (str_eqb k k') eqn:E; simpl; rewrite E; [ reflexivity | exact IH ].
Qed.

Lemma dict_get_set_ne (k k' : string) (v : json) (d : list (string * json)) :
  k ≠ k' → dict_get k (dict_set k' v d) = dict_get k d.
Proof.
  intros Hne. induction d as [ | [k2 v2] d IH ]; simpl.
  - apply str_eqb_false in Hne. by rewrite Hne.
  - destruct (str_eqb k' k2) eqn:E; simpl.
    + apply str_eqb_true in E as <-.
      apply str_eqb_false in Hne. by rewrite Hne.
    + by rewrite IH.
Qed.

Lemma dict_keys_set (k : string) (v : json) (d : list (string * json)) :
  dict_keys (dict_set k v d) =
  if bool_decide (k ∈ dict_keys d) then dict_keys d
  else (dict_keys d ++ [k])%list.
Proof.
  unfold dict_keys.
  induction d as [ | [k' v'] d IH ]; cbn [dict_set map fst].
  - rewrite bool_decide_eq_false_2; [ reflexivity | apply not_elem_of_nil ].
  - destruct (str_eqb k k') eqn:E; cbn [map fst].
    + apply str_eqb_true in E as ->.
      rewrite bool_decide_eq_true_2 by apply list_elem_of_here. reflexivity.
    + apply str_eqb_false in E. rewrite IH.
      destruct (bool_decide (k ∈ map fst d)) eqn:B.
      * apply bool_decide_eq_true in B.
        rewrite bool_decide_eq_true_2 by (by apply list_elem_of_further).
        reflexivity.
      * apply bool_decide_eq_false in B.
        rewrite bool_decide_eq_false_2; [ reflexivity | ].
        rewrite not_elem_of_cons. tauto.
Qed.

Lemma dict_set_nodup (k : string) (v : json) (d : list (string * json)) :
  NoDup (dict_keys d) → NoDup (dict_keys (dict_set k v d)).
Proof.
  intros Hnd. rewrite dict_keys_set. case_bool_decide as H; [ exact Hnd | ].
  apply NoDup_app. split; [ exact Hnd | split ].
  - intros x Hx Hx'. apply list_elem_of_singleton in Hx'. by subst.
  - apply NoDup_singleton.
Qed.

Lemma py_eq_refl (v : json) : wf v = true → py_eq v v = true.
Proof.
  induction v as [ | b | n | s | l IH | d IH ] using json_nested_ind;
    simpl; intros Hwf.
  - reflexivity.
  - by destruct b.
  - apply Z.eqb_refl.
  - apply str_eqb_refl.
  - induction l as [ | x l IHl ]; [ reflexivity | ].
    simpl in Hwf. apply andb_true_iff in Hwf as [Hx Hl].
    apply Forall_cons in IH as [IHx IH].
    rewrite (IHx Hx). simpl. by apply IHl.
  - apply andb_true_iff in Hwf as [Hnd Hvs].
    apply bool_decide_eq_true in Hnd.
    rewrite Nat.eqb_refl. simpl.
    match goal with
    | |- ?go d = true =>
        assert (Hgo : ∀ d', (∀ k v, In (k, v) d' → In (k, v) d) →
                  Forall (fun kv => wf (snd kv) = true →
                                    py_eq (snd kv) (snd kv) = true) d' →
                  forallb (fun kv => wf (snd kv)) d' = true →
                  go d' = true)
    end.
    { induction d' as [ | [k x] d' IHd ]; intros Hsub IH' Hvs'; [ reflexivity | ].
      simpl in Hvs'. apply andb_true_iff in Hvs' as [Hx Hvs'].
      apply Forall_cons in IH' as [IHx IH'].
      rewrite (dict_get_in k x d Hnd) by (apply Hsub; by left).
      simpl in IHx. rewrite (IHx Hx). simpl.
      apply IHd; [ | exact IH' | exact Hvs' ].
      intros k' v' Hin. apply Hsub. by right. }
    apply Hgo; auto.
Qed.

Lemma wf_dict_get (k : string) (v : json) (d : list (string * json)) :
  wf (JDict d) = true → dict_get k d = Some v → wf v = true.
Proof.
  simpl. intros Hwf Hget. apply andb_true_iff in Hwf as [_ Hvs].
  apply dict_get_some_in in Hget.
  rewrite forallb_forall in Hvs. exact (Hvs (k, v) Hget).
Qed.

Lemma wf_field (k : string) (d : list (string * json)) :
  wf (JDict d) = true → wf (field k d) = true.
Proof.
  intros Hwf. unfold field. destruct (dict_get k d) as [v | ] eqn:E; simpl.
  - exact (wf_dict_get k v d Hwf E).
  - reflexivity.
Qed.

(** A dictionary without repeated keys is known by its lookups when it
    has a single key. *)
Lemma dict_single (f : string) (e : json) (d : list (string * json)) :
  NoDup (dict_keys d) →
  (∀ k, dict_get k d = if str_eqb k f then Some e else None) →
  d = [(f, e)].
Proof.
  intros Hnd Hget. destruct d as [ | [k1 v1] d ].
  - specialize (Hget f). rewrite str_eqb_refl in Hget. discriminate.
  - pose proof (Hget k1) as H1. simpl in H1. rewrite str_eqb_refl in H1.
    destruct (str_eqb k1 f) eqn:E; [ | discriminate ].
    apply str_eqb_true in E as ->. injection H1 as ->.
    destruct d as [ | [k2 v2] d ]; [ reflexivity | exfalso ].
    unfold dict_keys in Hnd. simpl in Hnd.
    apply NoDup_cons in Hnd as [Hk _]. apply not_elem_of_cons in Hk as [Hk _].
    pose proof (Hget k2) as H2. simpl in H2.
    assert (E2 : str_eqb k2 f = false) by (apply str_eqb_false; congruence).
    rewrite E2, str_eqb_refl in H2. discriminate.
Qed.

Lemma dict_empty (d : list (string * json)) :
  (∀ k, dict_get k d = None) → d = [].
Proof.
  destruct d as [ | [k v] d ]; [ reflexivity | ].
  intros H. specialize (H k). simpl in H. rewrite str_eqb_refl in H. discriminate.
Qed.

(* ===================================================================== *)
(** * The diff engine *)

(* ===================================================================== *)

Lemma compare_keys_spec (om nm : list (string * json)) (keys : list string) :
  ∀ changes, NoDup (dict_keys changes) →
    ∃ changes',
      compare_keys om (JDict nm) keys changes = Ret changes' ∧
      NoDup (dict_keys changes') ∧
      ∀ k, dict_get k changes' =
           if bool_decide (k ∈ keys) && negb (py_eq (field k om) (field k nm))
           then Some (change_entry k om nm)
           else dict_get k changes.
Proof.
  induction keys as [ | key rest IH ]; intros changes Hnd.
  - exists changes. split; [ reflexivity | split; [ exact Hnd | ] ].
    intros k. rewrite bool_decide_eq_false_2 by apply not_elem_of_nil.
    reflexivity.
  - cbn [compare_keys]. unfold py_get1, py_get. cbn [obind].
    fold (field key om). fold (field key nm).
    destruct (py_eq (field key om) (field key nm)) eqn:E; cbn [negb].
    + destruct (IH changes Hnd) as (ch & Hrun & Hnd' & Hget).
      exists ch. split; [ exact Hrun | split; [ exact Hnd' | ] ].
      intros k. rewrite Hget.
      destruct (decide (k = key)) as [-> | Hne].
      * rewrite E. cbn [negb]. by rewrite !andb_false_r.
      * destruct (bool_decide (k ∈ rest)) eqn:B.
        -- apply bool_decide_eq_true in B.
           rewrite bool_decide_eq_true_2 by (by apply list_elem_of_further).
           reflexivity.
        -- apply bool_decide_eq_false in B.
           rewrite bool_decide_eq_false_2; [ reflexivity | ].
           rewrite not_elem_of_cons. tauto.
    + fold (change_entry key om nm).
      destruct (IH (dict_set key (change_entry key om nm) changes)
                   (dict_set_nodup _ _ _ Hnd)) as (ch & Hrun & Hnd' & Hget).
      exists ch. split; [ exact Hrun | split; [ exact Hnd' | ] ].
      intros k. rewrite Hget.
      destruct (decide (k = key)) as [-> | Hne].
      * rewrite E. cbn [negb]. rewrite andb_true_r.
        rewrite (bool_decide_eq_true_2 (key ∈ key :: rest))
          by apply list_elem_of_here.
        rewrite dict_get_set_eq. by destruct (bool_decide (key ∈ rest)).
      * rewrite dict_get_set_ne by exact Hne.
        destruct (bool_decide (k ∈ rest)) eqn:B.
        -- apply bool_decide_eq_true in B.
           rewrite bool_decide_eq_true_2 by (by apply list_elem_of_further).
           reflexivity.
        -- apply bool_decide_eq_false in B.
           rewrite bool_decide_eq_false_2; [ reflexivity | ].
           rewrite not_elem_of_cons. tauto.
Qed.

Lemma field_absent (k : string) (d : list (string * json)) :
  k ∉ dict_keys d → field k d = JNull.
Proof.
  intros H. unfold field. apply dict_get_none in H. by rewrite H.
Qed.

Lemma py_get_metadata (s : json) (m : list (string * json)) :
  py_get s "metadata" (JDict []) = Ret (JDict m) →
  ∃ d, s = JDict d ∧ default (JDict []) (dict_get "metadata" d) = JDict m.
Proof.
  destruct s; simpl; try discriminate. intros [= H]. eauto.
Qed.

(** C4.  For two snapshots whose metadata blocks [om] and [nm] carry the
    same fields (every field of the new block is a field of the old one),
    [compare_metadata] returns a change set that holds exactly the fields
    whose values differ, each with its before/after pair: a field is a
    key of the result if and only if its two values differ under Python's
    [!=], and its entry is [{"before": old, "after": new}].  Only the
    metadata blocks count: every key of the result is a metadata field,
    and the result is the same when everything but the metadata is taken
    away from the snapshots.  Equal values everywhere give the empty
    change set, in particular a well-formed snapshot against itself, and
    when exactly one field differs the result is that single entry. *)
Theorem compare_metadata_exact (old new : json) (om nm : list (string * json)) :
  py_get old "metadata" (JDict []) = Ret (JDict om) →
  py_get new "metadata" (JDict []) = Ret (JDict nm) →
  (∀ k, k ∈ dict_keys nm → k ∈ dict_keys om) →
  ∃ changes,
    compare_metadata old new = Ret (JDict changes) ∧
    NoDup (dict_keys changes) ∧
    (∀ k, dict_get k changes =
          if py_eq (field k om) (field k nm) then None
          else Some (JDict [("before", field k om); ("after", field k nm)])) ∧
    (∀ k, k ∈ dict_keys changes → k ∈ dict_keys om) ∧
    compare_metadata (JDict [("metadata", JDict om)])
                     (JDict [("metadata", JDict nm)]) = Ret (JDict changes) ∧
    ((∀ k, py_eq (field k om) (field k nm) = true) → changes = []) ∧
    (wf old = true → new = old → changes = []) ∧
    (∀ f, (∀ k, py_eq (field k om) (field k nm) = false ↔ k = f) →
          changes = [(f, JDict [("before", field f om); ("after", field f nm)])]).
Proof.
  intros Hold Hnew Hincl.
  destruct (compare_keys_spec om nm (dict_keys om) [] (NoDup_nil_2))
    as (changes & Hrun & Hnd & Hget).
  assert (Hexact : ∀ k, dict_get k changes =
            if py_eq (field k om) (field k nm) then None
            else Some (JDict [("before", field k om); ("after", field k nm)])).
  { intros k. rewrite Hget. simpl.
    destruct (bool_decide (k ∈ dict_keys om)) eqn:B; simpl.
    - by destruct (py_eq (field k om) (field k nm)).
    - apply bool_decide_eq_false in B.
      assert (B' : k ∉ dict_keys nm) by (intros H; apply B; by apply Hincl).
      rewrite (field_absent k om B), (field_absent k nm B'). reflexivity. }
  assert (Hempty : (∀ k, py_eq (field k om) (field k nm) = true) → changes = []).
  { intros Hall. apply dict_empty. intros k. rewrite Hexact. by rewrite Hall. }
  exists changes. split; [ | split; [ exact Hnd | split; [ exact Hexact | ] ] ].
  { unfold compare_metadata. rewrite Hold, Hnew. cbn [obind].
    rewrite Hrun. reflexivity. }
  split; [ | split; [ | split; [ exact Hempty | split ] ] ].
  - intros k Hk. destruct (decide (k ∈ dict_keys om)) as [ | Hno ]; [ done | ].
    exfalso. assert (Hnone : dict_get k changes = None).
    { rewrite Hget. rewrite bool_decide_eq_false_2 by exact Hno. reflexivity. }
    apply dict_get_none in Hnone. by apply Hnone.
  - unfold compare_metadata. simpl py_get. cbn [obind]. rewrite Hrun. reflexivity.
  - intros Hwf ->. rewrite Hold in Hnew. injection Hnew as ->.
    apply Hempty. intros k. apply py_eq_refl. apply wf_field.
    apply py_get_metadata in Hold as (d & -> & Hm).
    destruct (dict_get "metadata" d) as [v | ] eqn:E; simpl in Hm.
    + subst v. exact (wf_dict_get _ _ _ Hwf E).
    + injection Hm as <-. reflexivity.
  - intros f Hone. apply dict_single; [ exact Hnd | ].
    intros k. rewrite Hexact.
    destruct (str_eqb k f) eqn:E.
    + apply str_eqb_true in E as ->.
      assert (H : py_eq (field f om) (field f nm) = false) by (by apply Hone).
      by rewrite H.
    + apply str_eqb_false in E.
      destruct (py_eq (field k om) (field k nm)) eqn:H; [ reflexivity | ].
      exfalso. apply E. by apply Hone.
Qed.

Lemma compare_metadata_exact_witness :
  py_get Example.baseline "metadata" (JDict []) = Ret (JDict Example.meta_before) ∧
  py_get Example.current "metadata" (JDict []) = Ret (JDict Example.meta_after) ∧
  (∀ k, k ∈ dict_keys Example.meta_after → k ∈ dict_keys Example.meta_before) ∧
  compare_metadata Example.baseline Example.current =
    Ret (JDict [("permissions",
                 JDict [("before", JStr "-rw-r--r--");
                        ("after", JStr "-rw-rw-r--")])]).
Proof.
  assert (H3 : ∀ k, k ∈ dict_keys Example.meta_after →
                    k ∈ dict_keys Example.meta_before) by (intros k H; exact H).
  split; [ reflexivity | split; [ reflexivity | split; [ exact H3 | ] ] ].
  destruct (compare_metadata_exact Example.baseline Example.current
              Example.meta_before Example.meta_after eq_refl eq_refl H3)
    as (changes & Hrun & _ & _ & _ & _ & _ & _ & Hone).
  rewrite Hrun. rewrite (Hone "permissions"); [ reflexivity | ].
  intros k. unfold field, Example.meta_before, Example.meta_after.
  cbn [dict_get].
  repeat match goal with
         | |- context [str_eqb k ?s] =>
             let E := fresh "E" in
             destruct (str_eqb k s) eqn:E;
             [ apply str_eqb_true in E; subst k; vm_compute;
               split; first [ discriminate | reflexivity ] | ]
         end.
  simpl. apply str_eqb_false in E0. split; [ discriminate | intros ->; by destruct E0 ].
Defined.

(* ===================================================================== *)
(** * The event filter *)

(* ===================================================================== *)

Lemma map_event_type_kinds (kind ev : string) :
  map_event_type kind = Some ev → ev ∈ domain_kinds.
Proof.
  unfold map_event_type, domain_kinds.
  repeat (destruct (str_eqb kind _); [ intros [= <-]; set_solver | ]).
  discriminate.
Qed.

(** The table [EVENT_MAPPING] and the chain of [dispatch] agree on four
    kinds; the fifth, [permissions], is in the table only: no kind of the
    backend is mapped to it. *)
Lemma map_event_type_table (kind ev : string) :
  map_event_type kind = Some ev ↔
  ev ≠ "permissions" ∧ In (ev, [kind]) EVENT_MAPPING.
Proof.
  unfold map_event_type, EVENT_MAPPING. split.
  - repeat match goal with
           | |- context [str_eqb kind ?s] =>
               let E := fresh "E" in
               destruct (str_eqb kind s) eqn:E;
               [ apply str_eqb_true in E; subst kind; intros [= <-];
                 split; [ discriminate | simpl; tauto ] | ]
           end.
    discriminate.
  - intros [Hne Hin]. simpl in Hin.
    destruct Hin as [H | [H | [H | [H | [H | []]]]]]; injection H as <- <-;
      first [ reflexivity | by destruct Hne ].
Qed.

Lemma py_in_list (ev : string) (l : list json) :
  py_in ev (JList l) = Ret (bool_decide (JStr ev ∈ l)).
Proof.
  unfold py_in. f_equal. induction l as [ | y l IH ]; cbn [existsb].
  - rewrite bool_decide_eq_false_2 by apply not_elem_of_nil. reflexivity.
  - rewrite IH. destruct (py_eq (JStr ev) y) eqn:E; cbn [orb].
    + apply py_eq_str_l in E as ->.
      rewrite bool_decide_eq_true_2 by apply list_elem_of_here. reflexivity.
    + destruct (bool_decide (JStr ev ∈ l)) eqn:B.
      * apply bool_decide_eq_true in B.
        rewrite bool_decide_eq_true_2 by (by apply list_elem_of_further).
        reflexivity.
      * apply bool_decide_eq_false in B.
        rewrite bool_decide_eq_false_2; [ reflexivity | ].
        rewrite not_elem_of_cons. split; [ | exact B ].
        intros <-. assert (H : py_eq (JStr ev) (JStr ev) = true)
          by (by apply py_eq_str_l).
        congruence.
Qed.

(** C7.  [dispatch] hands a notification to [handle_event], with the
    mapped kind and the absolute path, if and only if the absolute path
    is a key of the monitored configuration, the kind of the backend is
    mapped to a kind of the configuration (one of add, modify, delete,
    move, permissions), and that kind is in the watch events configured
    for the path.  Every other notification is dropped silently: when the
    path is not a key, or when the monitoring block is an object whose
    watch events are a list, [dispatch] returns without raising, and it
    calls the handler exactly when the mapped kind is an element of that
    list. *)
Theorem dispatch_filter (L : pylib) (monitored : pydict) (event : fs_event) :
  let path := abspath L (src_path event) in
  (∀ ev p,
     dispatch L monitored event = Ret (Some (ev, p)) ↔
     p = path ∧
     ∃ cfg user_events,
       pd_get (JStr path) monitored = Some cfg ∧
       py_get cfg "watch_events" (JList []) = Ret user_events ∧
       map_event_type (event_type event) = Some ev ∧
       ev ∈ domain_kinds ∧
       py_in ev user_events = Ret true) ∧
  (pd_get (JStr path) monitored = None →
     dispatch L monitored event = Ret None) ∧
  (∀ cfg, pd_get (JStr path) monitored = Some cfg → config_typed cfg = true →
     ∃ l, py_get cfg "watch_events" (JList []) = Ret (JList l) ∧
          dispatch L monitored event =
          Ret (match map_event_type (event_type event) with
               | Some ev =>
                   if bool_decide (JStr ev ∈ l) then Some (ev, path) else None
               | None => None
               end)).
Proof.
  intros path. split; [ | split ].
  - intros ev p. unfold dispatch. fold path. split.
    + destruct (pd_get (JStr path) monitored) as [cfg | ] eqn:Hcfg;
        [ | discriminate ].
      destruct (py_get cfg "watch_events" (JList [])) as [ue | e] eqn:Hue;
        cbn [obind]; [ | discriminate ].
      destruct (map_event_type (event_type event)) as [ev' | ] eqn:Hmap;
        [ | discriminate ].
      destruct (py_in ev' ue) as [[ | ] | e] eqn:Hin; cbn [obind];
        try discriminate.
      intros [= <- <-]. split; [ reflexivity | ].
      exists cfg, ue. repeat split; try done.
      by apply (map_event_type_kinds (event_type event)).
    + intros (-> & cfg & ue & Hcfg & Hue & Hmap & _ & Hin).
      rewrite Hcfg, Hue. cbn [obind]. rewrite Hmap, Hin. reflexivity.
  - intros Hnone. unfold dispatch. fold path. by rewrite Hnone.
  - intros cfg Hcfg Htyped. unfold dispatch. fold path. rewrite Hcfg.
    destruct cfg as [ | | | | | d ]; try discriminate.
    unfold config_typed in Htyped. simpl py_get.
    destruct (dict_get "watch_events" d) as [v | ] eqn:Hv; simpl default.
    + destruct v as [ | | | | l | ]; try discriminate.
      exists l. split; [ reflexivity | ]. cbn [obind].
      destruct (map_event_type (event_type event)) as [ev | ];
        [ | reflexivity ].
      rewrite py_in_list. cbn [obind]. by destruct (bool_decide (JStr ev ∈ l)).
    + exists []. split; [ reflexivity | ]. cbn [obind].
      destruct (map_event_type (event_type event)) as [ev | ];
        [ | reflexivity ].
      rewrite py_in_list. cbn [obind]. by destruct (bool_decide (JStr ev ∈ [])).
Qed.

(* ===================================================================== *)
(** * Path validation *)

(* ===================================================================== *)

Lemma existsb_prefix_false (ps : list string) (s : string) :
  existsb (fun p => String.prefix p s) ps = false ↔
  ∀ p, p ∈ ps → String.prefix p s = false.
Proof.
  induction ps as [ | q ps IH ]; simpl.
  - split; [ intros _ p Hp; by apply not_elem_of_nil in Hp | reflexivity ].
  - rewrite orb_false_iff, IH. split.
    + intros [Hq Hps] p Hp. apply elem_of_cons in Hp as [-> | Hp]; auto.
    + intros H. split; [ apply H, list_elem_of_here | ].
      intros p Hp. by apply H, list_elem_of_further.
Qed.

Lemma existsb_prefix_true (ps : list string) (s : string) :
  existsb (fun p => String.prefix p s) ps = true ↔
  ∃ p, p ∈ ps ∧ String.prefix p s = true.
Proof.
  rewrite existsb_exists. split; intros (p & Hp & H); exists p;
    (split; [ by apply list_elem_of_In | exact H ]).
Qed.

(** C10.  [validate_path] decides by string prefixes of the absolute
    path: it rejects exactly when a forbidden pattern is a prefix of it,
    or a non-empty allow-list is given none of whose entries is a prefix
    of it.  Without an allow-list ([None] or empty) every path outside the
    forbidden prefixes is accepted.  The tests are on characters, not on
    path components: [/home2/x] passes the allow-list [/home], and
    [/procfoo] is rejected because of [/proc]. *)
Theorem validate_path_prefix_tests (L : pylib) (path : string)
    (allowed_dirs : option (list string)) :
  let abs_path := abspath L path in
  (validate_path L path allowed_dirs = false ↔
     (∃ p, p ∈ forbidden_patterns ∧ String.prefix p abs_path = true) ∨
     (∃ ds, allowed_dirs = Some ds ∧ ds ≠ [] ∧
            ∀ d, d ∈ ds → String.prefix d abs_path = false)) ∧
  (allowed_dirs = None ∨ allowed_dirs = Some [] →
     (validate_path L path allowed_dirs = true ↔
      ∀ p, p ∈ forbidden_patterns → String.prefix p abs_path = false)) ∧
  (abs_path = "/home2/x" → validate_path L path (Some ["/home"]) = true) ∧
  (abs_path = "/procfoo" → validate_path L path allowed_dirs = false).
Proof.
  intros abs_path.
  assert (Hdeny : ∀ a, validate_path L path a = false ↔
            (∃ p, p ∈ forbidden_patterns ∧ String.prefix p abs_path = true) ∨
            (∃ ds, a = Some ds ∧ ds ≠ [] ∧
                   ∀ d, d ∈ ds → String.prefix d abs_path = false)).
  { intros a. unfold validate_path. fold abs_path.
    rewrite <- existsb_prefix_true.
    destruct a as [[ | d ds] | ].
    - cbn [negb]. rewrite negb_false_iff. split; [ by left | ].
      intros [H | (ds & [= <-] & Hne & _)]; [ exact H | by destruct Hne ].
    - destruct (existsb (fun d' => String.prefix d' abs_path) (d :: ds)) eqn:Ha;
        cbn [negb].
      + rewrite negb_false_iff. split; [ by left | ].
        intros [H | (ds' & [= <-] & _ & Hall)]; [ exact H | ].
        apply existsb_prefix_false in Hall. congruence.
      + split; [ intros _ | reflexivity ]. right. exists (d :: ds).
        split; [ reflexivity | split; [ discriminate | ] ].
        by apply existsb_prefix_false.
    - cbn [negb]. rewrite negb_false_iff. split; [ by left | ].
      intros [H | (ds & [=] & _)]; exact H. }
  split; [ apply Hdeny | split; [ | split ] ].
  - intros Hnone. unfold validate_path. fold abs_path.
    rewrite <- existsb_prefix_false.
    destruct Hnone as [Hn | Hn]; rewrite Hn; cbn [negb]; apply negb_true_iff.
  - intros Habs. unfold validate_path. fold abs_path. rewrite Habs. reflexivity.
  - intros Habs. apply Hdeny. left. exists "/proc". rewrite Habs.
    split; [ apply list_elem_of_In; simpl; tauto | reflexivity ].
Qed.

(* ===================================================================== *)
(** * Reasoning about [io] programs *)

(* ===================================================================== *)

Lemma append_cons (x : ascii) (a b : string) :
  (String x a ++ b)%string = String x (a ++ b).
Proof. reflexivity. Qed.

Lemma append_nil_l (b : string) : ("" ++ b)%string = b.
Proof. reflexivity. Qed.

Lemma append_assoc (a b c : string) : ((a ++ b) ++ c = a ++ (b ++ c))%string.
Proof.
  induction a as [ | x a IH ]; [ reflexivity | ].
  rewrite !append_cons. by f_equal.
Qed.

Lemma append_empty_r (a : string) : (a ++ "")%string = a.
Proof.
  induction a as [ | x a IH ]; [ reflexivity | ].
  rewrite append_cons. by f_equal.
Qed.

Lemma length_append (a b : string) :
  String.length (a ++ b) = (String.length a + String.length b)%nat.
Proof.
  induction a as [ | x a IH ]; [ reflexivity | ].
  rewrite append_cons. simpl. by rewrite IH.
Qed.

Lemma tmp_of_neq (p : string) : tmp_of p ≠ p.
Proof.
  unfold tmp_of. intros H. apply (f_equal String.length) in H.
  rewrite length_append in H. simpl in H. lia.
Qed.

Lemma append_inj_r (a b c : string) : (a ++ c = b ++ c)%string → a = b.
Proof.
  revert b. induction a as [ | x a IH ]; intros [ | y b ] H.
  - reflexivity.
  - apply (f_equal String.length) in H.
    rewrite append_cons, append_nil_l in H. simpl in H.
    rewrite length_append in H. lia.
  - apply (f_equal String.length) in H.
    rewrite append_cons, append_nil_l in H. simpl in H.
    rewrite length_append in H. lia.
  - rewrite !append_cons in H. injection H as -> H. f_equal. by apply IH.
Qed.

Lemma tmp_of_inj (p q : string) : tmp_of p = tmp_of q → p = q.
Proof. apply append_inj_r. Qed.

Lemma bind_inv {A B : Type} (m : io A) (k : A → io B) w r w' :
  bind m k w = (r, w') →
  (∃ a w1, m w = (Ret a, w1) ∧ k a w1 = (r, w')) ∨
  (∃ e, m w = (Raise e, w') ∧ r = Raise e).
Proof.
  unfold bind. destruct (m w) as [[a | e] w1].
  - intros H. left. by exists a, w1.
  - intros [= <- <-]. right. by exists e.
Qed.

Lemma try_os_inv {A : Type} (m h : io A) w r w' :
  try_os m h w = (r, w') →
  (∃ w1, m w = (Raise OSError, w1) ∧ h w1 = (r, w')) ∨
  (m w = (r, w') ∧ r ≠ Raise OSError).
Proof.
  unfold try_os. destruct (m w) as [[a | e] w1].
  - intros [= <- <-]. right. split; [ reflexivity | discriminate ].
  - destruct e; try (intros [= <- <-]; right; split;
                     [ reflexivity | discriminate ]).
    intros H. left. by exists w1.
Qed.

Lemma try_any_inv {A : Type} (m h : io A) w r w' :
  try_any m h w = (r, w') →
  (∃ e w1, m w = (Raise e, w1) ∧ h w1 = (r, w')) ∨
  (∃ a, m w = (Ret a, w') ∧ r = Ret a).
Proof.
  unfold try_any. destruct (m w) as [[a | e] w1].
  - intros [= <- <-]. right. by exists a.
  - intros H. left. by exists e, w1.
Qed.

(** What one system call does to the world. *)
Lemma sys_inv {A : Type} (c : syscall)
    (effect : gmap string file → option (A * gmap string file)) w r w' :
  sys c effect w = (r, w') →
  alerts w' = alerts w ∧ console w' = console w ∧
  faults w' = tail (faults w) ∧
  ((∃ a, r = Ret a ∧ effect (fs w) = Some (a, fs w') ∧
         trace w' = (trace w ++ [(c, true)])%list ∧
         hd false (faults w) = false) ∨
   (r = Raise OSError ∧ fs w' = fs w ∧
    trace w' = (trace w ++ [(c, false)])%list ∧
    (hd false (faults w) = true ∨ effect (fs w) = None))).
Proof.
  unfold sys, pop_fault.
  destruct w as [g fl tr co al]; simpl.
  destruct fl as [ | [ | ] fl ]; simpl.
  - destruct (effect g) as [[a g'] | ] eqn:E; intros [= <- <-]; simpl;
      repeat split; try done; [ left | right ]; eauto 10.
  - intros [= <- <-]; simpl. repeat split; try done. right. eauto 10.
  - destruct (effect g) as [[a g'] | ] eqn:E; intros [= <- <-]; simpl;
      repeat split; try done; [ left | right ]; eauto 10.
Qed.

(** ** Frames: what a program leaves alone *)

Lemma frame_refl S w : frame S w w.
Proof.
  repeat split; try done. exists []. split; [ by rewrite app_nil_r | ].
  by intros c ok q [].
Qed.

Lemma frame_trans S w1 w2 w3 : frame S w1 w2 → frame S w2 w3 → frame S w1 w3.
Proof.
  intros (Hf1 & Ha1 & (t1 & Ht1 & Hc1) & Hq1) (Hf2 & Ha2 & (t2 & Ht2 & Hc2) & Hq2).
  repeat split.
  - intros q Hq. rewrite Hf2, Hf1; done.
  - congruence.
  - exists (t1 ++ t2)%list. split; [ rewrite Ht2, Ht1; by rewrite app_assoc | ].
    intros c ok q Hin. apply in_app_or in Hin as [Hin | Hin]; eauto.
  - auto.
Qed.

Lemma frame_weaken (S S' : string → Prop) w w' :
  (∀ q, S q → S' q) → frame S w w' → frame S' w w'.
Proof.
  intros Hsub (Hf & Ha & (t & Ht & Hc) & Hq). repeat split; try done.
  - intros q Hn. apply Hf. intros H. apply Hn. by apply Hsub.
  - exists t. split; [ done | ]. intros c ok q Hin Hq'. apply Hsub. eauto.
Qed.

Lemma respects_weaken {A : Type} (S S' : string → Prop) (m : io A) :
  (∀ q, S q → S' q) → respects (frame S) m → respects (frame S') m.
Proof.
  intros Hsub H w r w' Hrun. eapply frame_weaken; [ exact Hsub | ].
  by eapply H.
Qed.

Lemma respects_ret {A : Type} S (a : A) : respects (frame S) (ret a).
Proof. intros w r w' [= <- <-]. apply frame_refl. Qed.

Lemma respects_raise {A : Type} S (e : exn) : respects (frame S) (@raise A e).
Proof. intros w r w' [= <- <-]. apply frame_refl. Qed.

Lemma respects_lift {A : Type} S (o : outcome A) : respects (frame S) (lift o).
Proof. intros w r w' [= <- <-]. apply frame_refl. Qed.

Lemma respects_bind {A B : Type} S (m : io A) (k : A → io B) :
  respects (frame S) m → (∀ a, respects (frame S) (k a)) →
  respects (frame S) (bind m k).
Proof.
  intros Hm Hk w r w' Hrun.
  apply bind_inv in Hrun as [(a & w1 & H1 & H2) | (e & H1 & _)].
  - eapply frame_trans; [ by eapply Hm | by eapply Hk ].
  - by eapply Hm.
Qed.

Lemma respects_try_os {A : Type} S (m h : io A) :
  respects (frame S) m → respects (frame S) h →
  respects (frame S) (try_os m h).
Proof.
  intros Hm Hh w r w' Hrun.
  apply try_os_inv in Hrun as [(w1 & H1 & H2) | [H1 _]].
  - eapply frame_trans; [ by eapply Hm | by eapply Hh ].
  - by eapply Hm.
Qed.

Lemma respects_try_any {A : Type} S (m h : io A) :
  respects (frame S) m → respects (frame S) h →
  respects (frame S) (try_any m h).
Proof.
  intros Hm Hh w r w' Hrun.
  apply try_any_inv in Hrun as [(e & w1 & H1 & H2) | (a & H1 & _)].
  - eapply frame_trans; [ by eapply Hm | by eapply Hh ].
  - by eapply Hm.
Qed.

Lemma respects_print S (m : message) : respects (frame S) (print m).
Proof.
  intros w r w' [= <- <-]. repeat split; try done.
  exists []. simpl. split; [ by rewrite app_nil_r | by intros c ok q [] ].
Qed.

Lemma respects_exists S (p : string) : respects (frame S) (sys_exists p).
Proof. intros w r w' [= <- <-]. apply frame_refl. Qed.

Lemma respects_sys {A : Type} (S : string → Prop) (c : syscall)
    (effect : gmap string file → option (A * gmap string file)) :
  (∀ q, In q (touched c) → S q) →
  (∀ g a g', effect g = Some (a, g') → ∀ q, ¬ S q → g' !! q = g !! q) →
  respects (frame S) (sys c effect).
Proof.
  intros Hc Heff w r w' Hrun.
  apply sys_inv in Hrun as (Ha & _ & Hfl & Hcase).
  repeat split.
  - destruct Hcase as [(a & _ & He & _) | (_ & -> & _)]; [ | done ].
    intros q Hq. by eapply Heff.
  - exact Ha.
  - destruct Hcase as [(a & _ & _ & Ht & _) | (_ & _ & Ht & _)];
      eexists; (split; [ exact Ht | ]);
      intros c' ok q [[= <- <-] | []]; apply Hc.
  - intros H. by rewrite Hfl, H.
Qed.

Lemma respects_read S (p : string) : respects (frame S) (sys_read p).
Proof.
  apply respects_sys; [ by intros q [] | ]. intros g a g' H q _.
  destruct (g !! p); simpl in H; [ | discriminate ]. by injection H as _ <-.
Qed.

Lemma respects_open_write S L (p : string) :
  S p → respects (frame S) (sys_open_write L p).
Proof.
  intros Hp. apply respects_sys; [ by intros q [<- | []] | ].
  intros g a g' [= _ <-] q Hq.
  apply lookup_insert_ne. by intros <-.
Qed.

Lemma respects_write S (p data : string) :
  S p → respects (frame S) (sys_write p data).
Proof.
  intros Hp. apply respects_sys; [ by intros q [<- | []] | ].
  intros g a g' H q Hq.
  destruct (g !! p); simpl in H; [ | discriminate ]. injection H as _ <-.
  apply lookup_insert_ne. by intros <-.
Qed.

Lemma respects_close S (p : string) : S p → respects (frame S) (sys_close p).
Proof.
  intros Hp. apply respects_sys; [ by intros q [<- | []] | ].
  by intros g a g' [= _ <-] q _.
Qed.

Lemma respects_chmod S (p : string) (mode : Z) :
  S p → respects (frame S) (sys_chmod p mode).
Proof.
  intros Hp. apply respects_sys; [ by intros q [<- | []] | ].
  intros g a g' H q Hq.
  destruct (g !! p); simpl in H; [ | discriminate ]. injection H as _ <-.
  apply lookup_insert_ne. by intros <-.
Qed.

Lemma respects_replace S (src dst : string) :
  S src → S dst → respects (frame S) (sys_replace src dst).
Proof.
  intros Hs Hd. apply respects_sys; [ by intros q [<- | [<- | []]] | ].
  intros g a g' H q Hq.
  destruct (g !! src); simpl in H; [ | discriminate ]. injection H as _ <-.
  rewrite lookup_insert_ne by (by intros <-).
  apply lookup_delete_ne. by intros <-.
Qed.

Lemma respects_remove S (p : string) :
  S p → respects (frame S) (sys_remove p).
Proof.
  intros Hp. apply respects_sys; [ by intros q [<- | []] | ].
  intros g a g' H q Hq.
  destruct (g !! p); simpl in H; [ | discriminate ]. injection H as _ <-.
  apply lookup_delete_ne. by intros <-.
Qed.

Lemma respects_with_open_write S L (p : string) (body : io unit) :
  S p → respects (frame S) body →
  respects (frame S) (with_open_write L p body).
Proof.
  intros Hp Hb. unfold with_open_write. apply respects_bind.
  - by apply respects_open_write.
  - intros _ w r w' Hrun.
    destruct (body w) as [[[] | e] w1] eqn:E.
    + eapply frame_trans; [ by eapply Hb | by eapply respects_close ].
    + injection Hrun as <- <-.
      eapply frame_trans; [ by eapply Hb | ].
      repeat split; try done. eexists. split; [ reflexivity | ].
      by intros c ok q [[= <- <-] | []] [<- | []].
Qed.

Lemma respects_write_each S (p : string) (lines : list string) :
  S p → respects (frame S) (write_each p lines).
Proof.
  intros Hp. induction lines as [ | l ls IH ]; simpl.
  - apply respects_ret.
  - apply respects_bind; [ by apply respects_write | by intros _ ].
Qed.

Lemma respects_cleanup S (temp : string) :
  S temp → respects (frame S) (cleanup_temp temp).
Proof.
  intros Hp. unfold cleanup_temp. apply respects_bind.
  - apply respects_exists.
  - intros [ | ]; [ | apply respects_ret ].
    apply respects_try_os; [ by apply respects_remove | apply respects_ret ].
Qed.

Lemma respects_write_store_block S L (temp target : string) lines :
  S temp → S target → respects (frame S) (write_store_block L temp target lines).
Proof.
  intros Ht Hg. unfold write_store_block.
  apply respects_bind; [ | intros _; apply respects_bind ].
  - apply respects_with_open_write; [ done | by apply respects_write_each ].
  - by apply respects_chmod.
  - intros _. by apply respects_replace.
Qed.

Lemma respects_write_json_block S L (temp target : string) doc :
  S temp → S target → respects (frame S) (write_json_block L temp target doc).
Proof.
  intros Ht Hg. unfold write_json_block.
  apply respects_bind; [ | intros _; apply respects_bind ].
  - apply respects_with_open_write; [ done | by apply respects_write ].
  - by apply respects_chmod.
  - intros _. by apply respects_replace.
Qed.

Ltac frame_step :=
  lazymatch goal with
  | |- respects _ (ret _) => apply respects_ret
  | |- respects _ (raise _) => apply respects_raise
  | |- respects _ (lift _) => apply respects_lift
  | |- respects _ (print _) => apply respects_print
  | |- respects _ (sys_exists _) => apply respects_exists
  | |- respects _ (sys_read _) => apply respects_read
  | |- respects _ (bind _ _) => apply respects_bind; [ | intros ? ]
  | |- respects _ (try_os _ _) => apply respects_try_os
  | |- respects _ (try_any _ _) => apply respects_try_any
  | |- respects _ (cleanup_temp _) => apply respects_cleanup
  | |- respects _ (write_store_block _ _ _ _) =>
      apply respects_write_store_block
  | |- respects _ (write_json_block _ _ _ _) =>
      apply respects_write_json_block
  | |- respects _ (if ?b then _ else _) => destruct b
  | |- respects _ (match ?x with _ => _ end) => destruct x
  | |- respects _ _ => progress cbv zeta
  end.

Ltac frame_auto := repeat frame_step; try (cbv beta; tauto).

Lemma respects_regenerate L (file_info file_event : string) :
  respects (frame (pair_of file_event))
           (regenerate_event_index L file_info file_event).
Proof. unfold regenerate_event_index, pair_of. frame_auto. Qed.

Lemma respects_remove_info L (path file : string) :
  respects (frame (pair_of file)) (remove_monitored_file_info L path file).
Proof. unfold remove_monitored_file_info, pair_of. frame_auto. Qed.

Lemma respects_set_conf L (path change_type : string) (ne na : json)
    (file_info file_event : string) :
  respects (frame (store_files file_info file_event))
           (set_conf L path change_type ne na file_info file_event).
Proof.
  unfold set_conf. frame_auto;
    try (unfold store_files, pair_of; cbv beta; tauto).
  eapply respects_weaken; [ | apply respects_regenerate ].
  unfold store_files. tauto.
Qed.

Lemma respects_update L V (fi fe ev src : string) (dest : option string) :
  respects (frame (store_files fi fe)) (update_files_state L V fi fe ev src dest).
Proof.
  unfold update_files_state. frame_auto;
    try (unfold store_files, pair_of; cbv beta; tauto).
  eapply respects_weaken; [ | apply respects_regenerate ].
  unfold store_files. tauto.
Qed.

Lemma respects_save_history L (report : json) (file : string) :
  respects (frame (pair_of file)) (save_log_history L report file).
Proof. unfold save_log_history, pair_of. frame_auto. Qed.

Lemma respects_prune L V (file : string) (years : Z) :
  respects (frame (pair_of file)) (delete_old_log_history L V file years).
Proof. unfold delete_old_log_history, pair_of. frame_auto. Qed.

Lemma respects_load_baseline L W (path : string) :
  respects (frame (fun _ => False)) (load_baseline L W path).
Proof. unfold load_baseline. frame_auto. Qed.

Lemma respects_load_files_monitored L (p : string) :
  respects (frame (fun _ => False)) (load_files_monitored L p).
Proof. unfold load_files_monitored. frame_auto. Qed.

Lemma respects_load_all_baselines L W :
  respects (frame (fun _ => False)) (load_all_baselines L W).
Proof. unfold load_all_baselines. frame_auto. Qed.

(** A program that touches no file leaves all of them as they were. *)
Lemma frame_nothing (w w' : world) :
  frame (fun _ => False) w w' →
  fs w' = fs w ∧
  ∃ t, trace w' = (trace w ++ t)%list ∧ ∀ c ok, In (c, ok) t → touched c = [].
Proof.
  intros (Hf & _ & (t & Ht & Hc) & _). split.
  - apply map_eq. intros q. apply Hf. tauto.
  - exists t. split; [ exact Ht | ]. intros c ok Hin.
    destruct (touched c) as [ | q l ] eqn:E; [ reflexivity | ].
    exfalso. apply (Hc c ok q Hin). rewrite E. by left.
Qed.

(** ** The write, mode change and rename of a temporary file *)

Lemma failed_on_later temp w w1 w2 :
  (∃ t, trace w1 = (trace w ++ t)%list) → failed_on temp w1 w2 →
  failed_on temp w w2.
Proof.
  intros [t1 H1] (t & c & Ht & Hin & Hc).
  exists (t1 ++ t)%list, c. split; [ | split; [ | exact Hc ] ].
  - by rewrite Ht, H1, app_assoc.
  - apply in_or_app. by right.
Qed.

Lemma failed_on_earlier temp w w1 w2 :
  failed_on temp w w1 → (∃ t, trace w2 = (trace w1 ++ t)%list) →
  failed_on temp w w2.
Proof.
  intros (t & c & Ht & Hin & Hc) [t2 H2].
  exists (t ++ t2)%list, c. split; [ | split; [ | exact Hc ] ].
  - by rewrite H2, Ht, app_assoc.
  - apply in_or_app. by left.
Qed.

Lemma sys_write_appends (temp data : string) :
  appends temp (sys_write temp data) data [(SysWrite temp data, true)].
Proof.
  intros w r w' c m Hfile Hrun.
  apply sys_inv in Hrun as (_ & Hco & _ & Hcase). split; [ exact Hco | ].
  rewrite Hfile in Hcase. simpl in Hcase.
  destruct Hcase as [(a & -> & [= <- Hfs] & Ht & _) | (-> & _ & Ht & Hwhy)].
  - left. auto.
  - right. split; [ reflexivity | split ].
    + exists [(SysWrite temp data, false)], (SysWrite temp data).
      split; [ exact Ht | split; by left ].
    + destruct Hwhy as [H | H]; [ | discriminate ].
      intros E. by rewrite E in H.
Qed.

Lemma write_each_appends (temp : string) (lines : list string) :
  appends temp (write_each temp lines) (unlines lines) (line_writes temp lines).
Proof.
  induction lines as [ | l ls IH ]; intros w r w' c m Hfile Hrun.
  - injection Hrun as <- <-. split; [ reflexivity | ]. left.
    split; [ reflexivity | split ].
    + simpl. rewrite append_empty_r. by rewrite insert_id.
    + simpl. by rewrite app_nil_r.
  - simpl in Hrun.
    apply bind_inv in Hrun as [(a & w1 & H1 & H2) | (e & H1 & ->)].
    + destruct (sys_write_appends temp (l ++ nl) w _ _ c m Hfile H1)
        as (Hco1 & [(_ & Hfs1 & Ht1) | ([=] & _)]).
      assert (Hfile1 : fs w1 !! temp = Some (File (c ++ (l ++ nl)) m)).
      { rewrite Hfs1. apply lookup_insert_eq. }
      destruct (IH w1 r w' _ m Hfile1 H2) as (Hco2 & Hcase).
      split; [ congruence | ].
      destruct Hcase as [(-> & Hfs2 & Ht2) | (-> & Hfail & Hfl)].
      * left. split; [ reflexivity | split ].
        -- rewrite Hfs2, Hfs1, insert_insert_eq. simpl.
           by rewrite !append_assoc.
        -- rewrite Ht2, Ht1. simpl. by rewrite <- app_assoc.
      * right. split; [ reflexivity | split ].
        -- eapply failed_on_later; [ | exact Hfail ]. eauto.
        -- apply sys_inv in H1 as (_ & _ & Hfl1 & _).
           intros E. rewrite E in Hfl1. simpl in Hfl1. by apply Hfl.
    + destruct (sys_write_appends temp (l ++ nl) w _ _ c m Hfile H1)
        as (Hco1 & [([=] & _) | ([= ->] & Hfail & Hfl)]).
      split; [ exact Hco1 | ]. right. auto.
Qed.

(** One call on the temporary file after a run [w .. wi] that touched
    nothing else: it succeeds, or [OSError] is raised with the other files
    still as in [w]. *)
Lemma sys_step {A : Type} (temp : string) (c : syscall)
    (effect : gmap string file → option (A * gmap string file)) w wi r w' :
  frame (fun q => q = temp) w wi →
  console wi = console w →
  In temp (touched c) →
  sys c effect wi = (r, w') →
  console w' = console w ∧
  ((∃ a, r = Ret a ∧ effect (fs wi) = Some (a, fs w') ∧
         trace w' = (trace wi ++ [(c, true)])%list) ∨
   (r = Raise OSError ∧ (∀ q, q ≠ temp → fs w' !! q = fs w !! q) ∧
    failed_on temp w w' ∧ (effect (fs wi) ≠ None → faults w ≠ []))).
Proof.
  intros (Hf & _ & (t & Ht & _) & Hfl) Hco Hc Hrun.
  apply sys_inv in Hrun as (_ & Hco' & _ & Hcase).
  split; [ congruence | ].
  destruct Hcase as [(a & -> & He & Ht' & _) | (-> & Hfs & Ht' & Hwhy)].
  - left. eauto.
  - right. split; [ reflexivity | split; [ | split ] ].
    + intros q Hq. rewrite Hfs. by apply Hf.
    + exists (t ++ [(c, false)])%list, c. split; [ | split; [ | exact Hc ] ].
      * by rewrite Ht', Ht, app_assoc.
      * apply in_or_app. right. by left.
    + intros Hdef E. destruct Hwhy as [Hhd | Hnone]; [ | by apply Hdef ].
      rewrite (Hfl E) in Hhd. discriminate.
Qed.

Lemma open_write_step L (temp : string) w wi r w' :
  frame (fun q => q = temp) w wi → console wi = console w →
  sys_open_write L temp wi = (r, w') →
  console w' = console w ∧
  ((r = Ret tt ∧ (∃ m, fs w' = <[temp := File "" m]> (fs wi)) ∧
    trace w' = (trace wi ++ [(SysOpenWrite temp, true)])%list) ∨
   step_fails temp w w' r).
Proof.
  intros F C H.
  destruct (sys_step temp (SysOpenWrite temp) _ w wi _ _ F C (or_introl eq_refl) H)
    as (C' & [(a & -> & [= <- E] & T) | (R & X & Y & Z)]).
  - split; [ exact C' | left ]. split; [ reflexivity | split; [ | exact T ] ].
    eexists. symmetry. exact E.
  - split; [ exact C' | right ]. repeat split; try done. by apply Z.
Qed.

Lemma close_step (temp : string) w wi r w' :
  frame (fun q => q = temp) w wi → console wi = console w →
  sys_close temp wi = (r, w') →
  console w' = console w ∧
  ((r = Ret tt ∧ fs w' = fs wi ∧
    trace w' = (trace wi ++ [(SysClose temp, true)])%list) ∨
   step_fails temp w w' r).
Proof.
  intros F C H.
  destruct (sys_step temp (SysClose temp) _ w wi _ _ F C (or_introl eq_refl) H)
    as (C' & [(a & -> & [= <- E] & T) | (R & X & Y & Z)]).
  - split; [ exact C' | left ]. auto.
  - split; [ exact C' | right ]. repeat split; try done. by apply Z.
Qed.

Lemma chmod_step (temp : string) (mode : Z) (f : file) w wi r w' :
  frame (fun q => q = temp) w wi → console wi = console w →
  fs wi !! temp = Some f →
  sys_chmod temp mode wi = (r, w') →
  console w' = console w ∧
  ((r = Ret tt ∧ fs w' = <[temp := File (f_content f) mode]> (fs wi) ∧
    trace w' = (trace wi ++ [(SysChmod temp mode, true)])%list) ∨
   step_fails temp w w' r).
Proof.
  intros F C Hf H.
  destruct (sys_step temp (SysChmod temp mode) _ w wi _ _ F C (or_introl eq_refl) H)
    as (C' & [(a & -> & E & T) | (R & X & Y & Z)]).
  - rewrite Hf in E. simpl in E. injection E as <- E.
    split; [ exact C' | left ]. auto.
  - split; [ exact C' | right ]. repeat split; try done. apply Z.
    by rewrite Hf.
Qed.

Lemma replace_step (temp target : string) (f : file) w wi r w' :
  frame (fun q => q = temp) w wi → console wi = console w →
  fs wi !! temp = Some f →
  sys_replace temp target wi = (r, w') →
  console w' = console w ∧
  ((r = Ret tt ∧ fs w' = <[target := f]> (delete temp (fs wi)) ∧
    trace w' = (trace wi ++ [(SysReplace temp target, true)])%list) ∨
   step_fails temp w w' r).
Proof.
  intros F C Hf H.
  destruct (sys_step temp (SysReplace temp target) _ w wi _ _ F C (or_introl eq_refl) H)
    as (C' & [(a & -> & E & T) | (R & X & Y & Z)]).
  - rewrite Hf in E. simpl in E. injection E as <- E.
    split; [ exact C' | left ]. auto.
  - split; [ exact C' | right ]. repeat split; try done. apply Z.
    by rewrite Hf.
Qed.

Lemma atomic_block_inv L (temp target : string) (body : io unit)
    (data : string) (calls : list (syscall * bool)) w r w' :
  temp ≠ target →
  appends temp body data calls →
  respects (frame (fun q => q = temp)) body →
  (with_open_write L temp body;;
   sys_chmod temp mode_600;;
   sys_replace temp target) w = (r, w') →
  console w' = console w ∧
  frame (fun q => q = temp ∨ q = target) w w' ∧
  ((r = Ret tt ∧
    fs w' = <[target := File data mode_600]> (delete temp (fs w)) ∧
    trace w' = (trace w ++ rewrite_trace temp target calls)%list) ∨
   step_fails temp w w' r).
Proof.
  intros Hne Hbody Hframe Hrun.
  assert (Hfr : frame (fun q => q = temp ∨ q = target) w w').
  { revert Hrun. generalize w r w'.
    change (respects (frame (fun q => q = temp ∨ q = target))
              (with_open_write L temp body;; sys_chmod temp mode_600;;
               sys_replace temp target)).
    frame_auto.
    - apply respects_with_open_write; [ by left | ].
      eapply respects_weaken; [ | exact Hframe ]. by left.
    - apply respects_chmod. by left.
    - apply respects_replace; [ by left | by right ]. }
  cut (console w' = console w ∧
       ((r = Ret tt ∧
         fs w' = <[target := File data mode_600]> (delete temp (fs w)) ∧
         trace w' = (trace w ++ rewrite_trace temp target calls)%list) ∨
        step_fails temp w w' r)); [ tauto | ].
  (* where the run stops *)
  assert (Hwith : ∀ w3 r3, with_open_write L temp body w = (r3, w3) →
            console w3 = console w ∧
            ((r3 = Ret tt ∧ frame (fun q => q = temp) w w3 ∧
              (∃ m, fs w3 = <[temp := File data m]> (fs w)) ∧
              trace w3 = (trace w ++ (SysOpenWrite temp, true) :: calls
                                  ++ [(SysClose temp, true)])%list) ∨
             step_fails temp w w3 r3)).
  { intros w3 r3 Hopen. unfold with_open_write in Hopen.
    apply bind_inv in Hopen as [([] & w1 & H1 & Hbc) | (e1 & H1 & ->)].
    - pose proof (respects_open_write (fun q => q = temp) L temp eq_refl
                    _ _ _ H1) as F1.
      destruct (open_write_step L temp w w _ _ (frame_refl _ w) eq_refl H1)
        as (C1 & [(_ & [m E1] & T1) | ([=] & _)]).
      assert (Hfile1 : fs w1 !! temp = Some (File "" m))
        by (rewrite E1; apply lookup_insert_eq).
      destruct (body w1) as [[[] | eb] w2] eqn:Hb.
      + pose proof (frame_trans _ _ _ _ F1 (Hframe _ _ _ Hb)) as F2.
        destruct (Hbody w1 _ _ _ _ Hfile1 Hb)
          as (C2 & [(_ & E2 & T2) | ([=] & _)]).
        rewrite append_nil_l in E2.
        assert (C2' : console w2 = console w) by congruence.
        destruct (close_step temp w w2 _ _ F2 C2' Hbc)
          as (C3 & [(-> & E3 & T3) | Hfail]).
        * split; [ exact C3 | left ].
          split; [ reflexivity | split; [ | split ] ].
          -- eapply frame_trans; [ exact F2 | ].
             by eapply (respects_close (fun q => q = temp) temp eq_refl).
          -- exists m. by rewrite E3, E2, E1, insert_insert_eq.
          -- rewrite T3, T2, T1. by rewrite <- !app_assoc.
        * split; [ exact C3 | by right ].
      + injection Hbc as <- <-.
        destruct (Hbody w1 _ _ _ _ Hfile1 Hb)
          as (C2 & [([=] & _) | ([= ->] & Y2 & Z2)]).
        split; [ simpl; congruence | right ].
        destruct (Hframe _ _ _ Hb) as (Hf2 & _ & [t2 [Ht2 _]] & _).
        destruct F1 as (Hf1 & _ & [t1 [Ht1 _]] & Hq1).
        split; [ reflexivity | split; [ | split ] ].
        -- intros q Hq. simpl. rewrite Hf2, Hf1; done.
        -- eapply failed_on_later; [ by exists t1 | ].
           eapply failed_on_earlier; [ exact Y2 | ].
           exists [(SysClose temp, true)]. reflexivity.
        -- intros E. apply Z2. by apply Hq1.
    - destruct (open_write_step L temp w w _ _ (frame_refl _ w) eq_refl H1)
        as (C1 & [([=] & _) | Hfail]).
      split; [ exact C1 | right ].
      destruct Hfail as ([= ->] & ?). split; [ reflexivity | done ]. }
  apply bind_inv in Hrun as [([] & w3 & Hopen & Hrest) | (e & Hopen & ->)].
  - destruct (Hwith _ _ Hopen) as (C3 & [(_ & F3 & [m E3] & T3) | ([=] & _)]).
    assert (Hfile3 : fs w3 !! temp = Some (File data m))
      by (rewrite E3; apply lookup_insert_eq).
    apply bind_inv in Hrest as [([] & w4 & Hchmod & Hrepl) | (e & Hchmod & ->)].
    + destruct (chmod_step temp _ _ w w3 _ _ F3 C3 Hfile3 Hchmod)
        as (C4 & [(_ & E4 & T4) | ([=] & _)]).
      simpl in E4.
      assert (F4 : frame (fun q => q = temp) w w4).
      { eapply frame_trans; [ exact F3 | ].
        by eapply (respects_chmod (fun q => q = temp) temp _ eq_refl). }
      assert (Hfile4 : fs w4 !! temp = Some (File data mode_600))
        by (rewrite E4; apply lookup_insert_eq).
      destruct (replace_step temp target _ w w4 _ _ F4 C4 Hfile4 Hrepl)
        as (C5 & [(-> & E5 & T5) | Hfail]).
      * split; [ exact C5 | left ]. split; [ reflexivity | split ].
        -- rewrite E5, E4, E3. by rewrite insert_insert_eq, delete_insert_eq.
        -- rewrite T5, T4, T3. unfold rewrite_trace.
           rewrite <- !app_assoc. f_equal. simpl. f_equal.
           rewrite <- app_assoc. reflexivity.
      * split; [ exact C5 | by right ].
    + destruct (chmod_step temp _ _ w w3 _ _ F3 C3 Hfile3 Hchmod)
        as (C4 & [([=] & _) | Hfail]).
      split; [ exact C4 | right ].
      destruct Hfail as ([= ->] & ?). split; [ reflexivity | done ].
  - destruct (Hwith _ _ Hopen) as (C3 & [([=] & _) | Hfail]).
    split; [ exact C3 | right ].
    destruct Hfail as ([= ->] & ?). split; [ reflexivity | done ].
Qed.

Lemma cleanup_inv (temp : string) w r w' :
  cleanup_temp temp w = (r, w') →
  r = Ret tt ∧ console w' = console w ∧
  frame (fun q => q = temp) w w' ∧
  (fs w' !! temp = None ∨
   trace w' = (trace w ++ [(SysRemove temp, false)])%list).
Proof.
  intros Hrun.
  assert (F : frame (fun q => q = temp) w w')
    by (eapply (respects_cleanup (fun q => q = temp) temp eq_refl); exact Hrun).
  unfold cleanup_temp in Hrun.
  apply bind_inv in Hrun as [(e & w1 & [= <- <-] & Hrun) | (e & [=] & _)].
  case_bool_decide as Hex.
  - apply try_os_inv in Hrun as [(w1 & Hrm & [= <- <-]) | [Hrm Hne]].
    + apply sys_inv in Hrm as (_ & Hco & _ & [(a & [=] & _) | (_ & _ & Ht & _)]).
      split; [ reflexivity | split; [ exact Hco | split; [ exact F | ] ] ].
      by right.
    + apply sys_inv in Hrm as (_ & Hco & _ & [(a & -> & He & _) | (-> & _)]);
        [ | by destruct Hne ].
      destruct a.
      split; [ reflexivity | split; [ exact Hco | split; [ exact F | ] ] ].
      left. destruct (fs w !! temp); simpl in He; [ | discriminate ].
      injection He as <-. apply lookup_delete_eq.
  - injection Hrun as <- <-.
    split; [ reflexivity | split; [ reflexivity | split; [ exact F | ] ] ].
    left. by apply eq_None_not_Some.
Qed.

Lemma failed_then_cleanup (temp : string) w w1 w2 r1 :
  step_fails temp w w1 r1 →
  frame (fun q => q = temp) w1 w2 →
  (fs w2 !! temp = None ∨
   trace w2 = (trace w1 ++ [(SysRemove temp, false)])%list) →
  rewrite_failed temp w w2.
Proof.
  intros (_ & Hfs & Hfail & Hfl) (Hf2 & _ & (t2 & Ht2 & _) & _) Hgone.
  split; [ | split; [ | split; [ exact Hfl | ] ] ].
  - intros q Hq. rewrite Hf2 by exact Hq. by apply Hfs.
  - eapply failed_on_earlier; [ exact Hfail | by exists t2 ].
  - destruct Hgone as [H | H]; [ by left | right ].
    destruct Hfail as (t & c & Ht & _).
    exists (t ++ [(SysRemove temp, false)])%list.
    split; [ by rewrite H, Ht, app_assoc | ].
    apply in_or_app. right. by left.
Qed.

(** The guarded rewrite of the store, as the three writers run it. *)
Lemma store_rewrite_inv L (file : string) (lines : list string)
    (msg : message) w r w' :
  try_os (write_store_block L (tmp_of file) file lines;; ret true)
         (cleanup_temp (tmp_of file);; print msg;; ret false) w = (r, w') →
  frame (pair_of file) w w' ∧
  ((r = Ret true ∧
    fs w' = <[file := File (unlines lines) mode_600]>
              (delete (tmp_of file) (fs w)) ∧
    trace w' = (trace w ++ rewrite_trace (tmp_of file) file
                             (line_writes (tmp_of file) lines))%list ∧
    console w' = console w) ∨
   (r = Ret false ∧ rewrite_failed (tmp_of file) w w' ∧
    console w' = (console w ++ [msg])%list)).
Proof.
  intros Hrun.
  assert (F : frame (pair_of file) w w').
  { revert Hrun. generalize w r w'.
    change (respects (frame (pair_of file))
              (try_os (write_store_block L (tmp_of file) file lines;; ret true)
                 (cleanup_temp (tmp_of file);; print msg;; ret false))).
    unfold pair_of. frame_auto. }
  split; [ exact F | ].
  apply try_os_inv in Hrun as [(w1 & Hblock & Hclean) | [Hblock Hne]].
  - apply bind_inv in Hblock as [(a & w2 & _ & [=]) | (e & Hblock & _)].
    destruct (atomic_block_inv L (tmp_of file) file _ _ _ _ _ _
                (tmp_of_neq file) (write_each_appends _ lines)
                (respects_write_each _ _ lines eq_refl) Hblock)
      as (C1 & _ & [([=] & _) | Hfail]).
    apply bind_inv in Hclean as [([] & w2 & Hcl & Hrest) | (e' & Hcl & _)].
    + destruct (cleanup_inv _ _ _ _ Hcl) as (_ & C2 & F2 & Hgone).
      apply bind_inv in Hrest as [([] & w3 & [= <-] & [= <- <-]) | (e' & [=] & _)].
      right. split; [ reflexivity | split ].
      * destruct (failed_then_cleanup _ _ _ _ _ Hfail F2 Hgone)
          as (H1 & H2 & H3 & H4).
        repeat split; try done.
      * simpl. by rewrite C2, C1.
    + destruct (cleanup_inv _ _ _ _ Hcl) as ([=] & _).
  - apply bind_inv in Hblock as [([] & w2 & Hblock & [= <- <-]) | (e & Hblock & ->)].
    + destruct (atomic_block_inv L (tmp_of file) file _ _ _ _ _ _
                  (tmp_of_neq file) (write_each_appends _ lines)
                  (respects_write_each _ _ lines eq_refl) Hblock)
        as (C1 & _ & [(_ & E & T) | ([=] & _)]).
      left. auto.
    + destruct (atomic_block_inv L (tmp_of file) file _ _ _ _ _ _
                  (tmp_of_neq file) (write_each_appends _ lines)
                  (respects_write_each _ _ lines eq_refl) Hblock)
        as (_ & _ & [([=] & _) | ([= ->] & _)]).
      by destruct Hne.
Qed.

(** ** The read phase of the writers *)

(** [try: with open(file) as f: scan  except OSError: give up]: the file
    is read and scanned, or the attempt is given up, or the scan raises
    something that is not an [OSError]; no file changes. *)
Lemma read_phase_inv {A : Type} (file : string) (scan : string → outcome A)
    w r w' :
  try_os (content <- sys_read file;; st <- lift (scan content);; ret (Some st))
         (ret None) w = (r, w') →
  fs w' = fs w ∧ console w' = console w ∧ alerts w' = alerts w ∧
  faults w' = tail (faults w) ∧
  ((∃ f st, r = Ret (Some st) ∧ fs w !! file = Some f ∧
            scan (f_content f) = Ret st ∧
            trace w' = (trace w ++ [(SysOpenRead file, true)])%list) ∨
   (r = Ret None ∧
    ∃ ok, trace w' = (trace w ++ [(SysOpenRead file, ok)])%list) ∨
   (∃ e, r = Raise e ∧ e ≠ OSError ∧
         trace w' = (trace w ++ [(SysOpenRead file, true)])%list)).
Proof.
  intros Hrun.
  apply try_os_inv in Hrun as [(w1 & Hbody & [= <- <-]) | [Hbody Hne]].
  - apply bind_inv in Hbody as [(content & w2 & Hread & Hscan) | (e & Hread & _)].
    + apply sys_inv in Hread
        as (Hal & Hco & Hfl & [(a & [= <-] & He & Ht & _) | ([=] & _)]).
      destruct (fs w !! file) as [f | ] eqn:Hf; simpl in He; [ | discriminate ].
      injection He as _ Hfs.
      apply bind_inv in Hscan as [(st & w3 & _ & [=]) | (e & [= _ <-] & _)].
      repeat split; try done. right. left. eauto.
    + apply sys_inv in Hread
        as (Hal & Hco & Hfl & [(a & [=] & _) | (_ & Hfs & Ht & _)]).
      repeat split; try done. right. left. eauto.
  - apply bind_inv in Hbody as [(content & w2 & Hread & Hscan) | (e & Hread & ->)].
    + apply sys_inv in Hread
        as (Hal & Hco & Hfl & [(a & [= <-] & He & Ht & _) | ([=] & _)]).
      destruct (fs w !! file) as [f | ] eqn:Hf; simpl in He; [ | discriminate ].
      injection He as <- Hfs.
      apply bind_inv in Hscan as [(st & w3 & [= Hst <-] & [= <- <-]) | (e & [= Hst <-] & ->)].
      * repeat split; try done. left. eauto 10.
      * repeat split; try done. right. right. exists e.
        split; [ reflexivity | split; [ | exact Ht ] ].
        intros ->. by apply Hne.
    + apply sys_inv in Hread
        as (_ & _ & _ & [(a & [=] & _) | ([= ->] & _)]).
      by destruct Hne.
Qed.

Lemma rewrite_failed_after (temp : string) w w1 w' :
  fs w1 = fs w →
  (∃ t, trace w1 = (trace w ++ t)%list) →
  faults w1 = tail (faults w) →
  rewrite_failed temp w1 w' → rewrite_failed temp w w'.
Proof.
  intros Hfs [t1 Ht1] Hfl (H1 & H2 & H3 & H4).
  split; [ | split; [ | split ] ].
  - intros q Hq. rewrite <- Hfs. by apply H1.
  - eapply failed_on_later; [ by exists t1 | exact H2 ].
  - intros E. apply H3. by rewrite Hfl, E.
  - destruct H4 as [H | (t & Ht & Hin)]; [ by left | right ].
    exists (t1 ++ t)%list. split; [ by rewrite Ht, Ht1, app_assoc | ].
    apply in_or_app. by right.
Qed.

Lemma discipline_early (file : string) (failure : json) scan w r w'
    (t : list (syscall * bool)) :
  fs w' = fs w → trace w' = (trace w ++ t)%list →
  (∀ c ok, In (c, ok) t → touched c = []) →
  rewrite_discipline file failure scan w r w'.
Proof. intros. left. eauto. Qed.

Lemma remove_info_discipline L (path file : string) w r w' :
  remove_monitored_file_info L path file w = (r, w') →
  rewrite_discipline file (JBool false) (remove_scan L path) w r w'.
Proof.
  unfold remove_monitored_file_info. intros Hrun.
  apply bind_inv in Hrun as [(e & w0 & [= <- <-] & Hrun) | (e & [=] & _)].
  destruct (negb _).
  { injection Hrun as <- <-.
    apply (discipline_early _ _ _ _ _ _ []); [ done | by rewrite app_nil_r | ].
    by intros c ok []. }
  apply bind_inv in Hrun as [(st & w1 & Hread & Hrun) | (e & Hread & ->)].
  - apply (read_phase_inv file
             (fun content => ofold (remove_step L (abspath L path))
                               (read_lines content) ([], false)))
      in Hread as (Hfs & _ & _ & Hfl & [(f & st' & [= ->] & Hf & Hscan & Ht)
                                       | [([= ->] & ok & Ht) | (e & [=] & _)]]).
    + destruct st' as [new_lines removed].
      apply bind_inv in Hrun as [(ok & w2 & Hwrite & Hrun) | (e & Hwrite & ->)].
      * apply store_rewrite_inv in Hwrite
          as (F & [([= ->] & E & T & _) | ([= ->] & Hfail & _)]).
        -- injection Hrun as <- <-. right. right.
           exists f, new_lines, []. rewrite app_nil_r.
           split; [ exact Hf | split; [ by exists removed | ] ].
           split; [ rewrite T, Ht; by rewrite <- app_assoc | ].
           split; [ rewrite E; apply lookup_insert_eq | ].
           split; [ | by intros c ok q [] ].
           rewrite E, lookup_insert_ne by (intros H; by apply (tmp_of_neq file)).
           apply lookup_delete_eq.
        -- injection Hrun as <- <-. right. left.
           split; [ reflexivity | ].
           eapply rewrite_failed_after; eauto.
      * apply store_rewrite_inv in Hwrite
          as (_ & [([=] & _) | ([=] & _)]).
    + injection Hrun as <- <-.
      apply (discipline_early _ _ _ _ _ _ [(SysOpenRead file, ok)]);
        [ done | done | ].
      by intros c ok' [[= <- <-] | []].
  - apply (read_phase_inv file
             (fun content => ofold (remove_step L (abspath L path))
                               (read_lines content) ([], false)))
      in Hread as (Hfs & _ & _ & Hfl & [(f & st' & [=] & _)
                                       | [([=] & _) | (e' & _ & _ & Ht)]]).
    apply (discipline_early _ _ _ _ _ _ [(SysOpenRead file, true)]);
      [ done | done | ].
    by intros c ok' [[= <- <-] | []].
Qed.

Lemma discipline_success (store fe : string) (failure : json) scan
    (f : file) (lines : list string) w w1 w2 w' r :
  distinct_files store fe →
  fs w !! store = Some f → scan (f_content f) lines →
  fs w1 = fs w →
  trace w1 = (trace w ++ [(SysOpenRead store, true)])%list →
  fs w2 = <[store := File (unlines lines) mode_600]> (delete (tmp_of store) (fs w1)) →
  trace w2 = (trace w1 ++ rewrite_trace (tmp_of store) store
                            (line_writes (tmp_of store) lines))%list →
  frame (pair_of fe) w2 w' →
  rewrite_discipline store failure scan w r w'.
Proof.
  intros (D1 & D2 & D3) Hfile Hscan Hfs1 Ht1 Hfs2 Ht2
         (Hf & _ & (rest & Ht & Hc) & _).
  assert (Hout : ∀ q, pair_of fe q → q ≠ store ∧ q ≠ tmp_of store).
  { intros q [-> | ->]; split; try done.
    intros H. apply D1. by apply tmp_of_inj. }
  right. right. exists f, lines, rest.
  split; [ exact Hfile | split; [ exact Hscan | ] ].
  split; [ | split; [ | split ] ].
  - rewrite Ht, Ht2, Ht1. rewrite <- !app_assoc. reflexivity.
  - rewrite Hf, Hfs2; [ apply lookup_insert_eq | ].
    intros H. by destruct (Hout _ H).
  - rewrite Hf, Hfs2.
    + rewrite lookup_insert_ne by (intros H; by apply (tmp_of_neq store)).
      apply lookup_delete_eq.
    + intros H. by destruct (Hout _ H).
  - intros c ok q Hin Hq. apply Hout. eauto.
Qed.

Lemma set_conf_discipline L (path change_type : string) (ne na : json)
    (file_info file_event : string) w r w' :
  distinct_files file_info file_event →
  set_conf L path change_type ne na file_info file_event w = (r, w') →
  rewrite_discipline file_info (JBool false)
    (set_conf_scan L path change_type ne na) w r w'.
Proof.
  unfold set_conf. intros D Hrun.
  apply bind_inv in Hrun as [(e & w0 & [= <- <-] & Hrun) | (e & [=] & _)].
  destruct (negb _).
  { injection Hrun as <- <-.
    apply (discipline_early _ _ _ _ _ _ []); [ done | by rewrite app_nil_r | ].
    by intros c ok []. }
  apply bind_inv in Hrun as [(st & w1 & Hread & Hrun) | (e & Hread & ->)].
  - apply (read_phase_inv file_info
             (fun content =>
                ofold (set_conf_step L (abspath L path) change_type ne na)
                      (read_lines content) ([], false)))
      in Hread as (Hfs & _ & _ & Hfl & [(f & st' & [= ->] & Hf & Hscan & Ht)
                                       | [([= ->] & ok & Ht) | (e & [=] & _)]]).
    + destruct st' as [updated_lines updated].
      destruct updated; cbn [negb] in Hrun; cycle 1.
      { injection Hrun as <- <-.
        apply (discipline_early _ _ _ _ _ _ [(SysOpenRead file_info, true)]);
          [ done | done | ].
        by intros c ok' [[= <- <-] | []]. }
      apply bind_inv in Hrun as [(ok & w2 & Hwrite & Hrun) | (e & Hwrite & ->)].
      * apply store_rewrite_inv in Hwrite
          as (F & [([= ->] & E & T & _) | ([= ->] & Hfail & _)]).
        -- cbn [negb] in Hrun.
           eapply (discipline_success file_info file_event _ _ f); eauto.
           revert Hrun. generalize w2 r w'.
           change (respects (frame (pair_of file_event))
                     (try_any
                        (regenerate_event_index L file_info file_event;;
                         ret (JBool true))
                        (print MsgErrorRegenerating;; ret (JBool false)))).
           frame_auto. apply respects_regenerate.
        -- injection Hrun as <- <-. right. left.
           split; [ reflexivity | ].
           eapply rewrite_failed_after; eauto.
      * apply store_rewrite_inv in Hwrite
          as (_ & [([=] & _) | ([=] & _)]).
    + injection Hrun as <- <-.
      apply (discipline_early _ _ _ _ _ _ [(SysOpenRead file_info, ok)]);
        [ done | done | ].
      by intros c ok' [[= <- <-] | []].
  - apply (read_phase_inv file_info
             (fun content =>
                ofold (set_conf_step L (abspath L path) change_type ne na)
                      (read_lines content) ([], false)))
      in Hread as (Hfs & _ & _ & Hfl & [(f & st' & [=] & _)
                                       | [([=] & _) | (e' & _ & _ & Ht)]]).
    apply (discipline_early _ _ _ _ _ _ [(SysOpenRead file_info, true)]);
      [ done | done | ].
    by intros c ok' [[= <- <-] | []].
Qed.

Lemma update_discipline L V (fi fe ev src : string) (dest : option string)
    w r w' :
  distinct_files fi fe →
  update_files_state L V fi fe ev src dest w = (r, w') →
  rewrite_discipline fi JNull (update_scan L V ev src dest) w r w'.
Proof.
  unfold update_files_state. intros D Hrun.
  apply bind_inv in Hrun as [(e & w0 & [= <- <-] & Hrun) | (e & [=] & _)].
  destruct (negb _).
  { injection Hrun as <- <-.
    apply (discipline_early _ _ _ _ _ _ []); [ done | by rewrite app_nil_r | ].
    by intros c ok []. }
  cbv zeta in Hrun.
  apply bind_inv in Hrun as [(st & w1 & Hread & Hrun) | (e & Hread & ->)].
  - match type of Hread with
    | try_os (bind _ (fun content => bind (lift (@?scan content)) _)) _ _ = _ =>
        apply (read_phase_inv fi scan) in Hread
          as (Hfs & _ & _ & Hfl & [(f & st' & [= ->] & Hf & Hscan & Ht)
                                  | [([= ->] & ok & Ht) | (e & [=] & _)]])
    end.
    + apply bind_inv in Hrun as [(ok & w2 & Hwrite & Hrun) | (e & Hwrite & ->)].
      * apply store_rewrite_inv in Hwrite
          as (F & [([= ->] & E & T & _) | ([= ->] & Hfail & _)]).
        -- cbn [negb] in Hrun.
           eapply (discipline_success fi fe _ _ f); eauto.
           revert Hrun. generalize w2 r w'.
           change (respects (frame (pair_of fe))
                     (try_any
                        (regenerate_event_index L fi fe;; ret tt)
                        (print MsgErrorRegenerating);;
                      ret JNull)).
           frame_auto. apply respects_regenerate.
        -- injection Hrun as <- <-. right. left.
           split; [ reflexivity | ].
           eapply rewrite_failed_after; eauto.
      * apply store_rewrite_inv in Hwrite
          as (_ & [([=] & _) | ([=] & _)]).
    + injection Hrun as <- <-.
      apply (discipline_early _ _ _ _ _ _ [(SysOpenRead fi, ok)]);
        [ done | done | ].
      by intros c ok' [[= <- <-] | []].
  - match type of Hread with
    | try_os (bind _ (fun content => bind (lift (@?scan content)) _)) _ _ = _ =>
        apply (read_phase_inv fi scan) in Hread
          as (Hfs & _ & _ & Hfl & [(f & st' & [=] & _)
                                  | [([=] & _) | (e' & _ & _ & Ht)]])
    end.
    apply (discipline_early _ _ _ _ _ _ [(SysOpenRead fi, true)]);
      [ done | done | ].
    by intros c ok' [[= <- <-] | []].
Qed.

(** When a call on the temporary file failed, the store is as it was and
    the temporary file is gone unless removing it failed as well. *)
Lemma discipline_failure (file : string) (failure : json) scan w r w' :
  rewrite_discipline file failure scan w r w' →
  failed_on (tmp_of file) w w' →
  r = Ret failure ∧
  fs w' !! file = fs w !! file ∧
  (fs w' !! tmp_of file = None ∨
   ∃ t, trace w' = (trace w ++ t)%list ∧ In (SysRemove (tmp_of file), false) t).
Proof.
  intros [(Hfs & t & Ht & Hnone) | [(-> & Hfs & _ & _ & Hgone)
                                   | (f & lines & rest & _ & _ & Ht & _ & _ & Hrest)]]
         (t' & c & Ht' & Hin & Hc).
  - exfalso. rewrite Ht in Ht'. apply app_inv_head in Ht' as <-.
    rewrite (Hnone c false Hin) in Hc. destruct Hc.
  - split; [ reflexivity | split; [ | exact Hgone ] ].
    apply Hfs. intros H. by apply (tmp_of_neq file).
  - exfalso. rewrite Ht in Ht'. apply app_inv_head in Ht' as <-.
    destruct Hin as [[=] | Hin].
    apply in_app_or in Hin as [Hin | Hin].
    + unfold rewrite_trace in Hin. destruct Hin as [[=] | Hin].
      apply in_app_or in Hin as [Hin | Hin].
      * unfold line_writes in Hin. apply in_map_iff in Hin as (l & [=] & _).
      * simpl in Hin. destruct Hin as [[=] | [[=] | [[=] | []]]].
    + destruct (Hrest c false _ Hin Hc) as [_ H]. by apply H.
Qed.

(* ===================================================================== *)
(** * The rewrites of the store *)

(* ===================================================================== *)

(** C1 (amended).  Every call of [remove_monitored_file_info], [set_conf]
    and [update_files_state] follows [rewrite_discipline]: it touches no
    file at all; or a call on the temporary sibling file failed and the
    failure value is returned with every other file, the store among
    them, as before; or the store was replaced, and then the calls made
    after reading the store are exactly: open the temporary file, write
    the new lines to it, close it, set its mode to 0o600, rename it over
    the store (no fsync is among them), after which the store holds the
    new lines and the temporary file is gone.  Whenever a call on the
    temporary file fails, the store is byte for byte as before and the
    temporary file has been deleted, unless its removal failed too.  For
    [set_conf] and [update_files_state] the store and its index are
    distinct files. *)
Theorem store_rewrite_discipline (L : pylib) (V : osview) :
  (∀ path file w r w',
     remove_monitored_file_info L path file w = (r, w') →
     rewrite_discipline file (JBool false) (remove_scan L path) w r w') ∧
  (∀ path change_type new_events new_alert_mode file_info file_event w r w',
     distinct_files file_info file_event →
     set_conf L path change_type new_events new_alert_mode
              file_info file_event w = (r, w') →
     rewrite_discipline file_info (JBool false)
       (set_conf_scan L path change_type new_events new_alert_mode) w r w') ∧
  (∀ file_info file_event event_type src_path dest_path w r w',
     distinct_files file_info file_event →
     update_files_state L V file_info file_event event_type src_path
                        dest_path w = (r, w') →
     rewrite_discipline file_info JNull
       (update_scan L V event_type src_path dest_path) w r w') ∧
  (∀ file failure scan w r w',
     rewrite_discipline file failure scan w r w' →
     failed_on (tmp_of file) w w' →
     r = Ret failure ∧
     fs w' !! file = fs w !! file ∧
     (fs w' !! tmp_of file = None ∨
      ∃ t, trace w' = (trace w ++ t)%list ∧
           In (SysRemove (tmp_of file), false) t)).
Proof.
  split; [ | split; [ | split ] ].
  - intros. by eapply remove_info_discipline.
  - intros. by eapply set_conf_discipline.
  - intros. by eapply update_discipline.
  - intros. by eapply discipline_failure.
Qed.

(** C1, as stated, fails twice.  A rewrite that goes through makes no
    call to [fsync] between the writes and the rename: the calls are
    open, write, close, chmod, replace.  And when the write fails and the
    removal of the temporary file fails too, the temporary file stays
    (the store is untouched). *)
Lemma store_rewrite_counterexample :
  (let w0 := Example.world_of [("/db", File Example.store_text 420)] [] in
   let w' := snd (remove_monitored_file_info MiniJson.lib "/tmp/a" "/db" w0) in
   fst (remove_monitored_file_info MiniJson.lib "/tmp/a" "/db" w0)
     = Ret (JBool true) ∧
   fs w' !! "/db" = Some (File (Example.line_b ++ nl) mode_600) ∧
   trace w' =
     [ (SysOpenRead "/db", true);
       (SysOpenWrite "/db.tmp", true);
       (SysWrite "/db.tmp" (Example.line_b ++ nl), true);
       (SysClose "/db.tmp", true);
       (SysChmod "/db.tmp" mode_600, true);
       (SysReplace "/db.tmp" "/db", true) ] ∧
   ∀ p ok, ¬ In (SysFsync p, ok) (trace w')) ∧
  (let w0 := Example.world_of [("/db", File Example.store_text 420)]
                              [false; false; true; true] in
   let w' := snd (remove_monitored_file_info MiniJson.lib "/tmp/a" "/db" w0) in
   fst (remove_monitored_file_info MiniJson.lib "/tmp/a" "/db" w0)
     = Ret (JBool false) ∧
   fs w' !! "/db" = Some (File Example.store_text 420) ∧
   fs w' !! "/db.tmp" = Some (File "" 420)).
Proof.
  split.
  - assert (T : trace (snd (remove_monitored_file_info MiniJson.lib "/tmp/a" "/db"
                    (Example.world_of [("/db", File Example.store_text 420)] [])))
      = [ (SysOpenRead "/db", true);
          (SysOpenWrite "/db.tmp", true);
          (SysWrite "/db.tmp" (Example.line_b ++ nl), true);
          (SysClose "/db.tmp", true);
          (SysChmod "/db.tmp" mode_600, true);
          (SysReplace "/db.tmp" "/db", true) ]) by (vm_compute; reflexivity).
    cbv zeta. split; [ vm_compute; reflexivity | ].
    split; [ vm_compute; reflexivity | ].
    split; [ exact T | ].
    intros p ok. rewrite T. simpl.
    intros [H | [H | [H | [H | [H | [H | []]]]]]]; discriminate.
  - cbv zeta. repeat split; vm_compute; reflexivity.
Qed.

Lemma corrupt_inv L raw :
  corrupt L raw = true ↔ strip raw ≠ "" ∧ loads L (strip raw) = None.
Proof.
  unfold corrupt. rewrite andb_true_iff, negb_true_iff, str_eqb_false.
  destruct (loads L (strip raw)); split; intros [H1 H2]; split; done.
Qed.






Lemma update_step_lines L V (ev src : string) (dest : option string)
    lines raw lines' :
  update_step L V ev src dest lines raw = Ret lines' →
  ∃ extra, lines' = (lines ++ extra)%list ∧
           (corrupt L raw = true → extra = [strip raw]).
Proof.
  unfold update_step. intros H.
  destruct (str_eqb (strip raw) "") eqn:Hblank.
  { injection H as <-. exists []. split; [ by rewrite app_nil_r | ].
    intros Hc. apply corrupt_inv in Hc as [Hc _].
    by apply str_eqb_true in Hblank. }
  destruct (loads L (strip raw)) as [data | ] eqn:Hload.
  - assert (Hnc : corrupt L raw = true → ∀ x : list string, x = [strip raw]).
    { intros Hc; apply corrupt_inv in Hc as [_ Hc]; congruence. }
    destruct (record_path data) as [p | e]; simpl in H; [ | discriminate ].
    repeat match type of H with
           | context [if ?b then _ else _] => destruct b; simpl in H
           | context [match ?x with _ => _ end] => destruct x; simpl in H
           end;
      try discriminate; injection H as <-;
      first [ (exists []; split; [ by rewrite app_nil_r | by auto ])
            | (eexists [_]; split; [ reflexivity | by auto ]) ].
  - injection H as <-. by exists [strip raw].
Qed.







(** ** The event index *)

Lemma json_block_inv L (temp target : string) (doc : json) w r w' :
  temp ≠ target →
  write_json_block L temp target doc w = (r, w') →
  console w' = console w ∧
  frame (fun q => q = temp ∨ q = target) w w' ∧
  ((r = Ret tt ∧
    fs w' = <[target := File (dump_indent L doc) mode_600]> (delete temp (fs w)) ∧
    trace w' = (trace w ++ rewrite_trace temp target
                      [(SysWrite temp (dump_indent L doc), true)])%list) ∨
   step_fails temp w w' r).
Proof.
  intros Hne Hrun.
  exact (atomic_block_inv L temp target _ _ _ _ _ _ Hne
           (sys_write_appends temp _)
           (respects_write _ temp _ eq_refl) Hrun).
Qed.

(** [try: with open(file) as f: scan  except OSError: dflt] when the
    result of the scan is the result of the block. *)
Lemma read_scan_inv {A : Type} (file : string) (scan : string → outcome A)
    (dflt : A) w r w' :
  try_os (content <- sys_read file;; lift (scan content)) (ret dflt) w = (r, w') →
  fs w' = fs w ∧ console w' = console w ∧ alerts w' = alerts w ∧
  faults w' = tail (faults w) ∧
  (∃ ok, trace w' = (trace w ++ [(SysOpenRead file, ok)])%list) ∧
  r ≠ Raise OSError ∧
  (r = scan_or scan dflt (fs w !! file) ∨ (r = Ret dflt ∧ faults w ≠ [])).
Proof.
  intros Hrun.
  apply try_os_inv in Hrun as [(w1 & Hbody & [= <- <-]) | [Hbody Hne]].
  - apply bind_inv in Hbody as [(content & w2 & Hread & [= Hscan <-]) | (e & Hread & _)].
    + apply sys_inv in Hread
        as (Hal & Hco & Hfl & [(a & [= <-] & He & Ht & _) | ([=] & _)]).
      destruct (fs w !! file) as [f | ] eqn:Hf; simpl in He; [ | discriminate ].
      injection He as <- Hfs.
      repeat split; try done; [ by eexists | ].
      left. simpl. by rewrite Hscan.
    + apply sys_inv in Hread
        as (Hal & Hco & Hfl & [(a & [=] & _) | (_ & Hfs & Ht & Hwhy)]).
      repeat split; try done; [ by eexists | ].
      destruct (fs w !! file) as [f | ] eqn:Hf; simpl in Hwhy.
      * right. split; [ reflexivity | ].
        destruct Hwhy as [H | [=]]. intros E. by rewrite E in H.
      * by left.
  - apply bind_inv in Hbody as [(content & w2 & Hread & [= Hscan <-]) | (e & Hread & ->)].
    + apply sys_inv in Hread
        as (Hal & Hco & Hfl & [(a & [= <-] & He & Ht & _) | ([=] & _)]).
      destruct (fs w !! file) as [f | ] eqn:Hf; simpl in He; [ | discriminate ].
      injection He as <- Hfs.
      repeat split; try done; [ by eexists | ].
      left. simpl. rewrite Hscan. destruct r as [a | []]; try done.
    + apply sys_inv in Hread
        as (_ & _ & _ & [(a & [=] & _) | ([= ->] & _)]).
      by destruct Hne.
Qed.

Lemma rewrite_failed_later (temp : string) w w1 w' :
  fs w1 = fs w →
  (∃ t, trace w1 = (trace w ++ t)%list) →
  (faults w = [] → faults w1 = []) →
  rewrite_failed temp w1 w' → rewrite_failed temp w w'.
Proof.
  intros Hfs [t1 Ht1] Hfl (H1 & H2 & H3 & H4).
  split; [ | split; [ | split ] ].
  - intros q Hq. rewrite <- Hfs. by apply H1.
  - eapply failed_on_later; [ by exists t1 | exact H2 ].
  - intros E. apply H3. by apply Hfl.
  - destruct H4 as [H | (t & Ht & Hin)]; [ by left | right ].
    exists (t1 ++ t)%list. split; [ by rewrite Ht, Ht1, app_assoc | ].
    apply in_or_app. by right.
Qed.

(** A run of [regenerate_event_index]: the index file holds the text of
    an index, which is the index of the store unless reading the store
    failed; or writing the index failed and [OSError] is raised; or the
    scan of the store raised and no file changed. *)
Lemma regenerate_inv L (file_info file_event : string) w r w' :
  regenerate_event_index L file_info file_event w = (r, w') →
  frame (pair_of file_event) w w' ∧
  ((∃ monitored,
      r = Ret JNull ∧
      fs w' = <[file_event := File (index_text L monitored) mode_600]>
                (delete (tmp_of file_event) (fs w)) ∧
      (faults w = [] → index_of L (fs w !! file_info) = Ret monitored)) ∨
   (r = Raise OSError ∧ rewrite_failed (tmp_of file_event) w w') ∨
   (∃ e, r = Raise e ∧ e ≠ OSError ∧ fs w' = fs w ∧
         (faults w = [] → index_of L (fs w !! file_info) = Raise e))).
Proof.
  intros Hrun. split; [ by eapply respects_regenerate | ].
  unfold regenerate_event_index in Hrun.
  apply bind_inv in Hrun as [(e & w0 & [= <- <-] & Hrun) | (e & [=] & _)].
  apply bind_inv in Hrun as [(monitored & w1 & Hread & Hrun) | (e & Hread & ->)].
  - assert (Hr : fs w1 = fs w ∧ (faults w = [] → faults w1 = []) ∧
                 (∃ t, trace w1 = (trace w ++ t)%list) ∧
                 (faults w = [] → index_of L (fs w !! file_info) = Ret monitored)).
    { case_bool_decide as Hex.
      - apply (read_scan_inv file_info
                 (fun content => ofold (index_step L) (read_lines content) []))
          in Hread as (Hfs & _ & _ & Hfl & [ok Ht] & _ & Hres).
        split; [ done | split; [ | split; [ by eexists | ] ] ].
        { intros E. by rewrite Hfl, E. }
        intros E. destruct Hres as [H | [_ H]]; [ by symmetry | by destruct H ].
      - injection Hread as <- <-.
        split; [ done | split; [ done | split ] ].
        + exists []. by rewrite app_nil_r.
        + intros _. apply eq_None_not_Some in Hex. by rewrite Hex. }
    destruct Hr as (Hfs1 & Hfl1 & Ht1 & Hidx).
    apply bind_inv in Hrun as [([] & w2 & Hwrite & [= <- <-]) | (e & Hwrite & ->)].
    + apply try_os_inv in Hwrite as [(w3 & Hblock & Hclean) | [Hblock _]].
      * apply bind_inv in Hclean as [(a & w4 & _ & [=]) | (e & Hclean & [=])].
      * apply (json_block_inv L _ _ _ _ _ _ (tmp_of_neq _)) in Hblock
          as (_ & _ & [(_ & E & _) | ([=] & _)]).
        left. exists monitored. rewrite E, Hfs1. auto.
    + apply try_os_inv in Hwrite as [(w3 & Hblock & Hclean) | [Hblock Hne]].
      * apply (json_block_inv L _ _ _ _ _ _ (tmp_of_neq _)) in Hblock
          as (_ & _ & [([=] & _) | Hfail]).
        apply bind_inv in Hclean as [([] & w4 & Hcl & [= <- <-]) | (e' & Hcl & _)].
        -- destruct (cleanup_inv _ _ _ _ Hcl) as (_ & _ & F & Hgone).
           right. left. split; [ reflexivity | ].
           eapply rewrite_failed_later; eauto.
           eapply failed_then_cleanup; eauto.
        -- destruct (cleanup_inv _ _ _ _ Hcl) as ([=] & _).
      * apply (json_block_inv L _ _ _ _ _ _ (tmp_of_neq _)) in Hblock
          as (_ & _ & [([=] & _) | ([= ->] & _)]).
        by destruct Hne.
  - right. right. exists e.
    case_bool_decide as Hex; [ | discriminate ].
    apply (read_scan_inv file_info
             (fun content => ofold (index_step L) (read_lines content) []))
      in Hread as (Hfs & _ & _ & Hfl & [ok Ht] & Hne & Hres).
    repeat split; try done.
    + intros ->. by apply Hne.
    + intros E. destruct Hres as [H | [[=] _]]. by symmetry.
Qed.

(** C8.  When no system call fails and the store is neither the index
    file nor its temporary file, running [regenerate_event_index] a
    second time right after a first run gives the same result and leaves
    every file as the first run left it: the index file holds the same
    text, byte for byte, which is the text of the index of the store. *)
Theorem regenerate_idempotent (L : pylib) (file_info file_event : string)
    (w w1 : world) (r : outcome json) :
  faults w = [] →
  file_info ≠ file_event →
  file_info ≠ tmp_of file_event →
  regenerate_event_index L file_info file_event w = (r, w1) →
  ∃ w2,
    regenerate_event_index L file_info file_event w1 = (r, w2) ∧
    fs w2 = fs w1 ∧
    (r = Ret JNull →
     ∃ monitored,
       index_of L (fs w !! file_info) = Ret monitored ∧
       fs w1 !! file_event = Some (File (index_text L monitored) mode_600) ∧
       fs w2 !! file_event = Some (File (index_text L monitored) mode_600)).
Proof.
  intros Hfl D1 D2 Hrun1.
  destruct (regenerate_event_index L file_info file_event w1) as [r2 w2] eqn:Hrun2.
  exists w2.
  apply regenerate_inv in Hrun1 as (F1 & Hcase1).
  apply regenerate_inv in Hrun2 as (F2 & Hcase2).
  destruct F1 as (Hf1 & _ & _ & Hfl1).
  assert (Hstore : fs w1 !! file_info = fs w !! file_info).
  { apply Hf1. by intros [H | H]. }
  specialize (Hfl1 Hfl).
  destruct Hcase1 as [(m1 & -> & E1 & I1) | [(_ & _ & _ & H & _) | (e1 & -> & Hne1 & E1 & I1)]];
    [ | by destruct H | ];
    destruct Hcase2 as [(m2 & -> & E2 & I2) | [(_ & _ & _ & H & _) | (e2 & -> & Hne2 & E2 & I2)]];
    try (by destruct H);
    specialize (I1 Hfl); specialize (I2 Hfl1); rewrite Hstore, I1 in I2;
    try discriminate.
  - injection I2 as <-.
    assert (Hsame : fs w2 = fs w1).
    { rewrite E2, E1.
      rewrite delete_insert_ne by apply tmp_of_neq.
      rewrite delete_delete_eq. by rewrite insert_insert_eq. }
    split; [ reflexivity | split; [ exact Hsame | ] ].
    intros _. exists m1. split; [ exact I1 | ].
    rewrite Hsame, E1. split; apply lookup_insert_eq.
  - injection I2 as <-. split; [ reflexivity | split; [ exact E2 | ] ].
    discriminate.
Qed.

Lemma regenerate_idempotent_witness :
  let w := Example.world_of [("/db", File Example.store_text 420)] [] in
  let run := regenerate_event_index MiniJson.lib "/db" "/idx" w in
  faults w = [] ∧ "/db" ≠ "/idx" ∧ "/db" ≠ tmp_of "/idx" ∧
  ∃ w2,
    regenerate_event_index MiniJson.lib "/db" "/idx" (snd run) = (fst run, w2) ∧
    fs w2 = fs (snd run).
Proof.
  cbv zeta.
  assert (H1 : "/db" ≠ "/idx") by discriminate.
  assert (H2 : "/db" ≠ tmp_of "/idx") by discriminate.
  split; [ reflexivity | split; [ exact H1 | split; [ exact H2 | ] ] ].
  destruct (regenerate_idempotent MiniJson.lib "/db" "/idx"
              (Example.world_of [("/db", File Example.store_text 420)] [])
              _ _ eq_refl H1 H2 (surjective_pairing _))
    as (w2 & Hrun & Hfs & _).
  exists w2. split; [ exact Hrun | exact Hfs ].
Defined.

(** ** Configuration updates and the index *)



(** ** State updates and vanished paths *)

(** Every line a scan has appended is among the lines it ends with. *)
Lemma ofold_appended {St : Type} (lines_of : St → list string)
    (step : St → string → outcome St) :
  (∀ st raw st', step st raw = Ret st' →
     ∃ extra, lines_of st' = (lines_of st ++ extra)%list) →
  ∀ raws st st' raw, In raw raws → ofold step raws st = Ret st' →
    ∃ st1 st2, step st1 raw = Ret st2 ∧
               ∀ x, In x (lines_of st2) → In x (lines_of st').
Proof.
  intros Hstep.
  assert (Hmono : ∀ raws st st', ofold step raws st = Ret st' →
            ∀ x, In x (lines_of st) → In x (lines_of st')).
  { induction raws as [ | raw raws IH ]; intros st st' Hrun x Hx.
    - by injection Hrun as <-.
    - simpl in Hrun. destruct (step st raw) as [st1 | e] eqn:E; [ | discriminate ].
      simpl in Hrun. apply (IH _ _ Hrun).
      destruct (Hstep _ _ _ E) as [extra ->]. apply in_or_app. by left. }
  induction raws as [ | raw' raws IH ]; intros st st' raw Hin Hrun; [ destruct Hin | ].
  simpl in Hrun. destruct (step st raw') as [st1 | e] eqn:E; [ | discriminate ].
  simpl in Hrun. destruct Hin as [-> | Hin].
  - exists st, st1. split; [ exact E | ]. exact (Hmono _ _ _ Hrun).
  - exact (IH _ _ _ Hin Hrun).
Qed.

Lemma update_step_record L V (ev src : string) (dest : option string)
    (lines : list string) (raw : string) (data : json) :
  record_of L src raw data →
  (ev = "delete" → update_step L V ev src dest lines raw = Ret lines) ∧
  ((ev = "modify" ∨ ev = "add") → vanished L V src →
     update_step L V ev src dest lines raw = Ret (lines ++ [dumps L data])%list) ∧
  (ev = "move" → ∀ d, dest = Some d → d ≠ "" →
     (path_exists V d = false ∨ load_file_info L V d = Raise OSError →
        update_step L V ev src dest lines raw = Ret lines) ∧
     (∀ new_data, path_exists V d = true → load_file_info L V d = Ret new_data →
        ∃ l, refreshed_line L data new_data = Ret l ∧
             update_step L V ev src dest lines raw = Ret (lines ++ [l])%list)) ∧
  (ev ≠ "delete" → ev ≠ "modify" → ev ≠ "add" →
   (ev = "move" → dest = None ∨ dest = Some "") →
     update_step L V ev src dest lines raw = Ret (lines ++ [dumps L data])%list).
Proof.
  intros (Hne & Hload & Hpath). apply str_eqb_false in Hne.
  assert (Hsame : py_eq (JStr src) (JStr src) = true) by (by apply py_eq_str_l).
  unfold update_step. rewrite Hne, Hload, Hpath. cbn [obind]. rewrite Hsame.
  split; [ | split; [ | split ] ].
  - intros ->. reflexivity.
  - intros Hev Hgone.
    assert (E1 : str_eqb ev "delete" = false)
      by (apply str_eqb_false; destruct Hev as [-> | ->]; discriminate).
    assert (E2 : str_eqb ev "move" = false)
      by (apply str_eqb_false; destruct Hev as [-> | ->]; discriminate).
    assert (E3 : str_eqb ev "modify" || str_eqb ev "add" = true)
      by (destruct Hev as [-> | ->]; reflexivity).
    rewrite E1, E2, E3. cbn [andb].
    destruct Hgone as [Hex | Hstat].
    + by rewrite Hex.
    + rewrite Hstat. cbn [obind]. by destruct (path_exists V src).
  - intros -> d -> Hd. apply str_eqb_false in Hd. rewrite Hd.
    cbn [str_eqb andb]. rewrite bool_decide_eq_true_2 by eauto.
    change (str_eqb "move" "delete") with false.
    change (str_eqb "move" "move") with true. cbn [andb].
    split.
    + intros [Hex | Hstat]; [ by rewrite Hex | ].
      rewrite Hstat. cbn [obind]. by destruct (path_exists V d).
    + intros new_data Hex Hstat. rewrite Hex, Hstat. cbn [obind].
      unfold refreshed_line.
      assert (Hd' : ∃ dd, data = JDict dd).
      { destruct data; try discriminate. eauto. }
      destruct Hd' as [dd ->]. cbn [py_get obind].
      unfold load_file_info in Hstat.
      destruct (os_stat V (abspath L d)); [ | discriminate ].
      injection Hstat as <-. cbn [format_json py_setitem obind].
      eexists. split; reflexivity.
  - intros N1 N2 N3 Hmove.
    apply str_eqb_false in N1, N2, N3. rewrite N1, N2, N3. cbn [andb orb].
    destruct (str_eqb ev "move") eqn:Em; [ | reflexivity ].
    apply str_eqb_true in Em. destruct (Hmove Em) as [-> | ->]; reflexivity.
Qed.

(** C9 (amended).  Take a line of the store that holds the record of the
    source path.  After a modify or add event, when the path does not
    exist or vanishes before its metadata can be read, the refresh writes
    the stored record again (the parsed record, serialised): the record
    is kept, and so it is in the store after [update_files_state].  After
    a delete event the line is dropped.  After a move event with a
    destination the record of the source path goes as well: nothing is
    written when the destination cannot be read, the record of the
    destination otherwise.  After any other event, and after a move
    without destination, the stored record is written again. *)
Theorem vanished_path_keeps_record (L : pylib) (V : osview) :
  (∀ ev src dest lines raw data,
     record_of L src raw data →
     (ev = "delete" → update_step L V ev src dest lines raw = Ret lines) ∧
     ((ev = "modify" ∨ ev = "add") → vanished L V src →
        update_step L V ev src dest lines raw
          = Ret (lines ++ [dumps L data])%list) ∧
     (ev = "move" → ∀ d, dest = Some d → d ≠ "" →
        (path_exists V d = false ∨ load_file_info L V d = Raise OSError →
           update_step L V ev src dest lines raw = Ret lines) ∧
        (∀ new_data, path_exists V d = true →
           load_file_info L V d = Ret new_data →
           ∃ l, refreshed_line L data new_data = Ret l ∧
                update_step L V ev src dest lines raw
                  = Ret (lines ++ [l])%list)) ∧
     (ev ≠ "delete" → ev ≠ "modify" → ev ≠ "add" →
      (ev = "move" → dest = None ∨ dest = Some "") →
        update_step L V ev src dest lines raw
          = Ret (lines ++ [dumps L data])%list)) ∧
  (∀ file_info file_event ev src dest w r w' f raw data,
     distinct_files file_info file_event →
     ev = "modify" ∨ ev = "add" →
     vanished L V (abspath L src) →
     update_files_state L V file_info file_event ev src dest w = (r, w') →
     fs w !! file_info = Some f →
     In raw (read_lines (f_content f)) →
     record_of L (abspath L src) raw data →
     store_keeps_line file_info w w' (dumps L data)).
Proof.
  split.
  - intros. by apply update_step_record.
  - intros fi fe ev src dest w r w' f raw data D Hev Hgone Hrun Hf Hin Hrec.
    apply (update_discipline L V fi fe ev src dest w r w' D) in Hrun
      as [(Hfs & _) | [(_ & Hfs & _) | (f' & lines & rest & Hf' & Hscan & _ & Hnew & _)]].
    + left. by rewrite Hfs.
    + left. apply Hfs. intros H. by apply (tmp_of_neq fi).
    + right. exists lines. split; [ exact Hnew | ].
      rewrite Hf in Hf'. injection Hf' as <-.
      destruct (ofold_appended (fun l => l)
                  (update_step L V ev (abspath L src) (abs_dest L dest))
                  (fun st raw st' H =>
                     match update_step_lines L V _ _ _ _ _ _ H with
                     | ex_intro _ extra (conj Hl _) => ex_intro _ extra Hl
                     end)
                  _ _ _ raw Hin Hscan) as (st1 & st2 & Hstep & Hmono).
      apply Hmono.
      destruct (update_step_record L V ev (abspath L src) (abs_dest L dest)
                  st1 raw data Hrec) as (_ & Hkeep & _).
      rewrite (Hkeep Hev Hgone) in Hstep. injection Hstep as <-.
      apply in_or_app. right. by left.
Qed.

(** C9, as stated, fails: delete is not the only kind of event that
    removes the record.  A move event with a destination that does not
    exist drops the record of the source path from the store. *)
Lemma move_removes_record :
  let w0 := Example.world_of [("/db", File Example.store_text 420)] [] in
  let w' := snd (update_files_state MiniJson.lib Example.nothing "/db" "/idx"
                   "move" "/tmp/a" (Some "/tmp/c") w0) in
  record_of MiniJson.lib "/tmp/a" Example.line_a Example.baseline ∧
  In Example.line_a (read_lines Example.store_text) ∧
  fs w' !! "/db" = Some (File (Example.line_b ++ nl) mode_600) ∧
  ¬ In Example.line_a (read_lines (Example.line_b ++ nl)).
Proof.
  cbv zeta. split; [ | split; [ | split ] ].
  - split; [ | split ]; [ vm_compute; discriminate | vm_compute; reflexivity .. ].
  - vm_compute. by left.
  - vm_compute. reflexivity.
  - vm_compute. intros [H | []]. discriminate.
Qed.

(** ** Runs without failure *)

Lemma bind_ok {A B : Type} (m : io A) (k : A → io B) w a w1 :
  m w = (Ret a, w1) → bind m k w = k a w1.
Proof. unfold bind. by intros ->. Qed.

Lemma try_os_ok {A : Type} (m h : io A) w a w1 :
  m w = (Ret a, w1) → try_os m h w = (Ret a, w1).
Proof. unfold try_os. by intros ->. Qed.

Lemma sys_read_ok (p : string) (f : file) w :
  faults w = [] → fs w !! p = Some f →
  sys_read p w = (Ret (f_content f), log_call (SysOpenRead p) true w).
Proof.
  intros Hfl Hf. unfold sys_read, sys, pop_fault. rewrite Hfl, Hf. simpl.
  by destruct w.
Qed.

(** Without a pending failure the block of a writer goes through. *)
Lemma json_block_ok L (temp target : string) (doc : json) w :
  faults w = [] → temp ≠ target →
  ∃ w', write_json_block L temp target doc w = (Ret tt, w') ∧
        fs w' = <[target := File (dump_indent L doc) mode_600]>
                  (delete temp (fs w)) ∧
        trace w' = (trace w ++ rewrite_trace temp target
                          [(SysWrite temp (dump_indent L doc), true)])%list ∧
        console w' = console w ∧ alerts w' = alerts w ∧ faults w' = [].
Proof.
  intros Hfl Hne.
  destruct (write_json_block L temp target doc w) as [r w'] eqn:Hrun.
  exists w'.
  destruct (json_block_inv L _ _ _ _ _ _ Hne Hrun)
    as (Hco & (_ & Hal & _ & Hfl') & [(-> & E & T) | (_ & _ & _ & H)]);
    [ | by destruct H ].
  repeat split; auto.
Qed.

Lemma store_block_ok L (temp target : string) (lines : list string) w :
  faults w = [] → temp ≠ target →
  ∃ w', write_store_block L temp target lines w = (Ret tt, w') ∧
        fs w' = <[target := File (unlines lines) mode_600]>
                  (delete temp (fs w)) ∧
        trace w' = (trace w ++ rewrite_trace temp target
                          (line_writes temp lines))%list ∧
        console w' = console w ∧ alerts w' = alerts w ∧ faults w' = [].
Proof.
  intros Hfl Hne.
  destruct (write_store_block L temp target lines w) as [r w'] eqn:Hrun.
  exists w'.
  destruct (atomic_block_inv L temp target _ _ _ _ _ _ Hne
              (write_each_appends _ lines)
              (respects_write_each _ _ lines eq_refl) Hrun)
    as (Hco & (_ & Hal & _ & Hfl') & [(-> & E & T) | (_ & _ & _ & H)]);
    [ | by destruct H ].
  repeat split; auto.
Qed.

(** ** Retention of the history *)

Lemma prune_step_typed L (cutoff : datetime) (kept : list json) (alert : json) :
  entry_typed L cutoff alert = true →
  prune_step L cutoff kept alert =
  Ret (if expired L cutoff alert then kept else (kept ++ [alert])%list).
Proof.
  unfold entry_typed, prune_step, expired, entry_time, alert_time_field.
  destruct alert as [ | | | | | d ]; try discriminate.
  destruct (dict_get "Time" d) as [[ | | | s | | ] | ]; try discriminate;
    [ | reflexivity ].
  cbn [obind py_fromisoformat].
  destruct (fromisoformat L s) as [t | ]; [ | reflexivity ].
  cbn [obind]. unfold datetime_ge. intros ->.
  rewrite Z.ltb_antisym. by destruct (ticks cutoff <=? ticks t).
Qed.

Lemma prune_fold_typed L (cutoff : datetime) (alerts kept : list json) :
  Forall (fun a => entry_typed L cutoff a = true) alerts →
  ofold (prune_step L cutoff) alerts kept =
  Ret (kept ++ filter (fun a => expired L cutoff a = false) alerts)%list.
Proof.
  intros Hall. revert kept.
  induction Hall as [ | a alerts Ha Hall IH ]; intros kept.
  - simpl. by rewrite app_nil_r.
  - simpl. rewrite (prune_step_typed _ _ _ _ Ha). cbn [obind].
    rewrite IH, filter_cons.
    destruct (expired L cutoff a); case_decide; try done.
    by rewrite <- app_assoc.
Qed.

Lemma filter_split_length {A : Type} (P : A → bool) (l : list A) :
  (length (filter (fun a => P a = true) l) +
   length (filter (fun a => P a = false) l))%nat = length l.
Proof.
  induction l as [ | x l IH ]; [ reflexivity | ].
  rewrite !filter_cons. destruct (P x); repeat case_decide; try done;
    simpl; lia.
Qed.

(** C5 (amended).  Let the history file hold a JSON array of entries and
    let no system call fail.  When the subtraction of the retention period
    from now raises (the year leaves 1..9999), [delete_old_log_history]
    raises the same and leaves every file and the console as they are.
    Otherwise, the entries being as the watcher writes them (objects
    whose [Time], when present, is a string and, when it parses, is a
    naive time stamp like the cutoff), it keeps exactly the entries that
    are not strictly older than the cutoff (now minus the retention
    period), among them every entry whose time is missing or does not
    parse; it writes them to the temporary file, sets its mode and
    renames it over the history; it prints the number of entries removed,
    and it returns [None]. *)
Theorem prune_history (L : pylib) (V : osview) (history : string)
    (retention_years : Z) (w : world) (f : file) (alerts : list json) :
  faults w = [] →
  fs w !! history = Some f →
  loads L (f_content f) = Some (JList alerts) →
  match minus_years L (now V) retention_years with
  | Raise e =>
      ∃ w',
        delete_old_log_history L V history retention_years w = (Raise e, w') ∧
        fs w' = fs w ∧ console w' = console w
  | Ret cutoff =>
      Forall (fun a => entry_typed L cutoff a = true) alerts →
      let kept := filter (fun a => expired L cutoff a = false) alerts in
      let text := dump_indent L (JList kept) in
      ∃ w',
        delete_old_log_history L V history retention_years w = (Ret JNull, w') ∧
        fs w' = <[history := File text mode_600]> (delete (tmp_of history) (fs w)) ∧
        trace w' =
          (trace w ++ (SysOpenRead history, true) ::
             rewrite_trace (tmp_of history) history
               [(SysWrite (tmp_of history) text, true)])%list ∧
        console w' =
          (console w ++
           [MsgDeleted (Z.of_nat (length alerts) - Z.of_nat (length kept))])%list ∧
        (∀ a, In a kept ↔
              In a alerts ∧
              ¬ ∃ t, entry_time L a = Some t ∧ ticks t < ticks cutoff) ∧
        (∀ a, In a alerts → entry_time L a = None → In a kept) ∧
        Z.of_nat (length alerts) - Z.of_nat (length kept) =
        Z.of_nat (length (filter (fun a => expired L cutoff a = true) alerts))
  end.
Proof.
  intros Hfl Hf Hload.
  set (w1 := log_call (SysOpenRead history) true w).
  assert (Hread : ∀ k : option string → io json,
            (r <- try_os (content <- sys_read history;; ret (Some content))
                         (ret None);; k r) w
            = k (Some (f_content f)) w1).
  { intros k. erewrite bind_ok; [ reflexivity | ].
    apply try_os_ok. erewrite bind_ok by (by apply sys_read_ok). reflexivity. }
  destruct (minus_years L (now V) retention_years) as [cutoff | e] eqn:Hcut.
  2: { exists w1. split; [ | by split ].
       unfold delete_old_log_history.
       erewrite bind_ok by reflexivity.
       rewrite bool_decide_eq_true_2 by (by rewrite Hf). cbn [negb].
       rewrite Hread, Hload. unfold bind, lift. by rewrite Hcut. }
  intros Htyped kept text.
  assert (Hkept : ∀ a, In a kept ↔
            In a alerts ∧
            ¬ ∃ t, entry_time L a = Some t ∧ ticks t < ticks cutoff).
  { intros a. unfold kept. rewrite <- !list_elem_of_In, list_elem_of_filter.
    unfold expired. split.
    - intros [He Hin]. split; [ exact Hin | ]. intros (t & Ht & Hlt).
      rewrite Ht in He. apply Z.ltb_ge in He. lia.
    - intros [Hin Hno]. split; [ | exact Hin ].
      destruct (entry_time L a) as [t | ]; [ | reflexivity ].
      apply Z.ltb_ge. destruct (Z.lt_ge_cases (ticks t) (ticks cutoff)); [ | lia ].
      exfalso. apply Hno. eauto. }
  destruct (json_block_ok L (tmp_of history) history (JList kept) w1 Hfl
              (tmp_of_neq history))
    as (w2 & Hblock & E2 & T2 & C2 & _ & _).
  eexists. split; [ | split; [ | split; [ | split; [ | split; [ exact Hkept | split ] ] ] ] ].
  - unfold delete_old_log_history.
    erewrite bind_ok by reflexivity.
    rewrite bool_decide_eq_true_2 by (by rewrite Hf). cbn [negb].
    rewrite Hread, Hload.
    erewrite bind_ok by (unfold lift; rewrite Hcut; reflexivity).
    erewrite bind_ok by reflexivity.
    erewrite bind_ok
      by (unfold lift; rewrite (prune_fold_typed L cutoff alerts [] Htyped);
          reflexivity).
    cbn [app]. fold kept.
    erewrite bind_ok;
      [ reflexivity
      | apply try_os_ok; erewrite bind_ok by exact Hblock;
        erewrite bind_ok by reflexivity; reflexivity ].
  - simpl. exact E2.
  - simpl. rewrite T2. unfold w1. simpl. by rewrite <- app_assoc.
  - simpl. rewrite C2. reflexivity.
  - intros a Hin Hnone. apply Hkept. split; [ exact Hin | ].
    intros (t & Ht & _). congruence.
  - pose proof (filter_split_length (expired L cutoff) alerts) as H.
    fold kept in H. lia.
Qed.

Lemma prune_history_witness :
  let w := Example.world_of [("/h", File Example.history_text mode_600)] [] in
  let cutoff := Datetime (MiniJson.ticks_of 2023 6 1 12 0 0 0) false in
  faults w = [] ∧
  fs w !! "/h" = Some (File Example.history_text mode_600) ∧
  MiniJson.loads Example.history_text = Some (JList Example.history) ∧
  minus_years MiniJson.lib (now Example.nothing) 2 = Ret cutoff ∧
  Forall (fun a => entry_typed MiniJson.lib cutoff a = true) Example.history ∧
  ∃ w',
    delete_old_log_history MiniJson.lib Example.nothing "/h" 2 w
      = (Ret JNull, w') ∧
    console w' = [MsgDeleted 1].
Proof.
  cbv zeta.
  assert (H2 : fs (Example.world_of [("/h", File Example.history_text mode_600)] [])
                 !! "/h" = Some (File Example.history_text mode_600))
    by (vm_compute; reflexivity).
  assert (H3 : loads MiniJson.lib
                 (f_content (File Example.history_text mode_600))
               = Some (JList Example.history)) by (vm_compute; reflexivity).
  assert (Hcut : minus_years MiniJson.lib (now Example.nothing) 2
                 = Ret (Datetime (MiniJson.ticks_of 2023 6 1 12 0 0 0) false))
    by (vm_compute; reflexivity).
  assert (H4 : Forall (fun a => entry_typed MiniJson.lib
                          (Datetime (MiniJson.ticks_of 2023 6 1 12 0 0 0) false) a
                        = true) Example.history)
    by (repeat constructor).
  split; [ reflexivity | split; [ exact H2 | split; [ exact H3 | ] ] ].
  split; [ exact Hcut | split; [ exact H4 | ] ].
  pose proof (prune_history MiniJson.lib Example.nothing "/h" 2
                (Example.world_of [("/h", File Example.history_text mode_600)] [])
                _ _ eq_refl H2 H3) as H.
  rewrite Hcut in H.
  destruct (H H4) as (w' & Hrun & _ & _ & Hco & _).
  exists w'. split; [ exact Hrun | exact Hco ].
Defined.

(** C5, as stated, fails: the function returns [None], not the number of
    entries removed (it prints that number).  An entry whose time is a
    number, which does not parse as a time stamp either, is not kept by a
    rewrite: the call raises [TypeError] and nothing is pruned.  And not
    every retention period has a cutoff: 3000 years before 2025 there is
    no date, the call raises [ValueError] and nothing is pruned. *)
Lemma prune_returns_none :
  (let w := Example.world_of [("/h", File Example.history_text mode_600)] [] in
   let run := delete_old_log_history MiniJson.lib Example.nothing "/h" 2 w in
   fst run = Ret JNull ∧
   fst run ≠ Ret (JInt 1) ∧
   console (snd run) = [MsgDeleted 1] ∧
   fs (snd run) !! "/h" =
     Some (File (MiniJson.dump_indent
                   (JList [Example.entry (JStr "2025-03-01T09:00:00");
                           Example.entry (JStr "yesterday")])) mode_600)) ∧
  (let w := Example.world_of [("/h", File Example.odd_history_text mode_600)] [] in
   let run := delete_old_log_history MiniJson.lib Example.nothing "/h" 2 w in
   fst run = Raise TypeError ∧
   fs (snd run) = fs w) ∧
  (let w := Example.world_of [("/h", File Example.history_text mode_600)] [] in
   let run := delete_old_log_history MiniJson.lib Example.nothing "/h" 3000 w in
   fst run = Raise ValueError ∧
   fs (snd run) = fs w).
Proof.
  split; [ | split ]; cbv zeta.
  - assert (H : fst (delete_old_log_history MiniJson.lib Example.nothing "/h" 2
                  (Example.world_of [("/h", File Example.history_text mode_600)] []))
                = Ret JNull) by (vm_compute; reflexivity).
    split; [ exact H | split; [ rewrite H; discriminate | ] ].
    split; vm_compute; reflexivity.
  - split; vm_compute; reflexivity.
  - split; vm_compute; reflexivity.
Qed.

(** ** Spurious events *)

Lemma save_log_history_ok L (report : json) (file : string) w :
  faults w = [] →
  ∃ w',
    save_log_history L report file w = (Ret JNull, w') ∧
    fs w' = <[file := File (dump_indent L
                              (JList (previous_reports L (fs w !! file)
                                      ++ [report]))) mode_600]>
              (delete (tmp_of file) (fs w)) ∧
    alerts w' = alerts w ∧ faults w' = [].
Proof.
  intros Hfl. unfold save_log_history.
  erewrite bind_ok by reflexivity.
  assert (Hread : ∃ w1,
    (if bool_decide (is_Some (fs w !! file))
     then try_os
            (content <- sys_read file;;
             match loads L content with
             | Some (JList l) => ret l
             | Some _ => ret []
             | None => ret []
             end) (ret [])
     else ret []) w = (Ret (previous_reports L (fs w !! file)), w1) ∧
    fs w1 = fs w ∧ alerts w1 = alerts w ∧ faults w1 = []).
  { case_bool_decide as Hex.
    - destruct Hex as [f Hf]. rewrite Hf. simpl previous_reports.
      exists (log_call (SysOpenRead file) true w).
      split; [ | by repeat split ].
      apply try_os_ok. erewrite bind_ok by (by apply sys_read_ok).
      by destruct (loads L (f_content f)) as [[ | | | | | ] | ].
    - apply eq_None_not_Some in Hex. rewrite Hex. by exists w. }
  destruct Hread as (w1 & Hread & Hfs1 & Hal1 & Hfl1).
  erewrite bind_ok by exact Hread.
  destruct (json_block_ok L (tmp_of file) file
              (JList (previous_reports L (fs w !! file) ++ [report])) w1 Hfl1
              (tmp_of_neq file))
    as (w2 & Hblock & E2 & _ & _ & Hal2 & Hfl2).
  exists w2. split; [ | split; [ by rewrite E2, Hfs1 | split; congruence ] ].
  erewrite bind_ok by (apply try_os_ok; exact Hblock). reflexivity.
Qed.

Lemma get_current_info_metadata L V (path : string) :
  ∃ m, py_get (get_current_info L V path) "metadata" (JDict []) = Ret (JDict m).
Proof.
  unfold get_current_info, load_file_info.
  destruct (negb _); [ by exists [] | ].
  destruct (os_stat V _); [ | by exists [] ].
  simpl. eauto.
Qed.

(** C3.  Let [handle_event] find the baseline [old_state] of the path and
    let the change set it computes against the current state be empty.
    If the kind of the event is not delete, the call returns at once: no
    file has changed (neither the history nor the store), nothing was
    handed to the alert router, and no system call touched a file.  If
    the kind is delete and there is a baseline, the call goes on to
    report: provided no system call fails, the history file ends with the
    report of the event, whose change set is empty, and that report is
    handed to the alert router. *)
Theorem spurious_event_dropped (L : pylib) (V : osview) (W W1 : watcher)
    (user_event path : string) (w w1 : world) (old_state : json) :
  load_baseline L W path (announced user_event path w)
    = (Ret (old_state, W1), w1) →
  compare_metadata old_state (get_current_info L V path) = Ret (JDict []) →
  (user_event ≠ "delete" →
   ∃ w', handle_event L V W user_event path w = (Ret W1, w') ∧
         fs w' = fs w ∧ alerts w' = alerts w ∧
         ∃ t, trace w' = (trace w ++ t)%list ∧
              ∀ c ok, In (c, ok) t → touched c = []) ∧
  (user_event = "delete" →
   truthy old_state = true →
   faults w1 = [] →
   ¬ store_files (monitored_files_path W1) (event_file_path W1) history_file →
   ∀ alert_mode,
     py_get (default (JDict []) (pd_get (JStr path) (monitored W1)))
            "alert_mode" (JStr "log") = Ret alert_mode →
     ∃ r w' owner permissions,
       let report := build_report V "delete" path alert_mode owner
                                  permissions (JDict []) in
       handle_event L V W user_event path w = (r, w') ∧
       alerts w' = (alerts w ++ [(report, alert_mode)])%list ∧
       fs w' !! history_file =
         Some (File (dump_indent L
                       (JList (previous_reports L (fs w !! history_file)
                               ++ [report]))) mode_600)).
Proof.
  intros Hload Hcmp.
  pose proof (respects_load_baseline L W path _ _ _ Hload) as Fl.
  destruct (frame_nothing _ _ Fl) as (Hfs1 & t1 & Ht1 & Hreads).
  destruct Fl as (_ & Hal1 & _ & _).
  unfold announced in *. simpl in Hfs1, Hal1, Ht1.
  split.
  - intros Hne. apply str_eqb_false in Hne.
    unfold handle_event. erewrite bind_ok by reflexivity.
    erewrite bind_ok by exact Hload. cbn [fst snd].
    destruct (truthy old_state).
    + cbn [negb]. unfold lift at 1. unfold bind at 1. rewrite Hcmp.
      cbn [truthy negb andb]. rewrite Hne. cbn [negb].
      exists w1. repeat split; try done. by exists t1.
    + cbn [negb]. eexists. split; [ reflexivity | ].
      simpl. repeat split; try done. by exists t1.
  - intros -> Htruthy Hfl Hdist alert_mode Hmode.
    destruct (get_current_info_metadata L V path) as [m Hm].
    set (owner := default (JStr "unknown") (dict_get "owner" m)).
    set (permissions := default (JStr "unknown") (dict_get "permissions" m)).
    set (report := build_report V "delete" path alert_mode owner permissions
                                (JDict [])).
    destruct (save_log_history_ok L report history_file w1 Hfl)
      as (w2 & Hsave & E2 & Hal2 & Hfl2).
    set (w3 := snd (alert_manager_dispatch report alert_mode w2)).
    destruct (update_files_state L V (monitored_files_path W1)
                (event_file_path W1) "delete" path None w3)
      as [r4 w4] eqn:Hupd.
    pose proof (respects_update L V _ _ _ _ _ _ _ _ Hupd) as (Hf4 & Hal4 & _).
    assert (Hrun : ∃ r, handle_event L V W "delete" path w = (r, w4)).
    { unfold handle_event. erewrite bind_ok by reflexivity.
      erewrite bind_ok by exact Hload. cbn [fst snd].
      rewrite Htruthy. cbn [negb].
      unfold lift at 1. unfold bind at 1. rewrite Hcmp.
      cbn [truthy negb andb str_eqb].
      change (str_eqb "delete" "delete") with true. cbn [negb andb].
      erewrite bind_ok by (unfold lift; rewrite Hmode; reflexivity).
      erewrite bind_ok by (unfold lift; rewrite Hm; reflexivity).
      erewrite bind_ok by (unfold lift; rewrite Hm; reflexivity).
      fold owner permissions report.
      erewrite bind_ok by exact Hsave.
      erewrite bind_ok by reflexivity.
      change {| fs := fs w2; faults := faults w2; trace := trace w2;
                console := console w2;
                alerts := (alerts w2 ++ [(report, alert_mode)])%list |}
        with w3.
      unfold bind at 1. rewrite Hupd.
      destruct r4; eauto. }
    destruct Hrun as [r Hrun].
    exists r, w4, owner, permissions. cbv zeta. fold report.
    split; [ exact Hrun | split ].
    + rewrite Hal4. unfold w3. simpl. by rewrite Hal2, Hal1.
    + rewrite Hf4 by exact Hdist. unfold w3. simpl.
      rewrite E2, lookup_insert_eq. by rewrite Hfs1.
Qed.

Lemma spurious_event_dropped_witness :
  let w := Example.world_of
             [("/db", File (MiniJson.dumps Example.baseline_now ++ nl) 420)] [] in
  load_baseline MiniJson.lib Example.watcher_a "/tmp/a"
                (announced "modify" "/tmp/a" w)
    = (Ret (Example.baseline_now, Example.watcher_a),
       announced "modify" "/tmp/a" w) ∧
  compare_metadata Example.baseline_now
      (get_current_info MiniJson.lib Example.unchanged "/tmp/a")
    = Ret (JDict []) ∧
  ∃ w', handle_event MiniJson.lib Example.unchanged Example.watcher_a
                     "modify" "/tmp/a" w = (Ret Example.watcher_a, w') ∧
        fs w' = fs w ∧ alerts w' = alerts w.
Proof.
  cbv zeta.
  assert (H1 : load_baseline MiniJson.lib Example.watcher_a "/tmp/a"
                 (announced "modify" "/tmp/a"
                    (Example.world_of
                       [("/db", File (MiniJson.dumps Example.baseline_now ++ nl) 420)]
                       []))
               = (Ret (Example.baseline_now, Example.watcher_a),
                  announced "modify" "/tmp/a"
                    (Example.world_of
                       [("/db", File (MiniJson.dumps Example.baseline_now ++ nl) 420)]
                       []))) by (vm_compute; reflexivity).
  assert (H2 : compare_metadata Example.baseline_now
                 (get_current_info MiniJson.lib Example.unchanged "/tmp/a")
               = Ret (JDict [])) by (vm_compute; reflexivity).
  split; [ exact H1 | split; [ exact H2 | ] ].
  destruct (spurious_event_dropped MiniJson.lib Example.unchanged
              Example.watcher_a Example.watcher_a "modify" "/tmp/a"
              _ _ _ H1 H2) as [Hdrop _].
  assert (Hne : "modify" ≠ "delete") by discriminate.
  destruct (Hdrop Hne) as (w' & Hrun & Hfs & Hal & _).
  exists w'. auto.
Defined.

(* ===================================================================== *)
(** * Lines written and lines read *)
(* ===================================================================== *)

Lemma nl_cons (s : string) : (nl ++ s)%string = String "010"%char s.
Proof. reflexivity. Qed.

Lemma read_lines_aux_line (l rest : string) :
  one_line l = true →
  ∀ cur, read_lines_aux (l ++ nl ++ rest) cur =
         string_of_list_ascii (rev cur ++ list_ascii_of_string l)
         :: read_lines_aux rest [].
Proof.
  induction l as [|c l IH]; intros Hl cur.
  - rewrite append_nil_l, nl_cons. cbn [read_lines_aux list_ascii_of_string].
    rewrite Ascii.eqb_refl. by rewrite app_nil_r.
  - cbn [one_line] in Hl.
    apply andb_prop in Hl as [Hc Hl]. apply andb_prop in Hc as [Hlf Hcr].
    apply negb_true_iff in Hlf, Hcr.
    rewrite append_cons. cbn [read_lines_aux]. rewrite Hlf, Hcr.
    rewrite (IH Hl). cbn [rev list_ascii_of_string].
    by rewrite <- app_assoc.
Qed.

Lemma read_lines_unlines (lines : list string) :
  Forall (fun l => one_line l = true) lines →
  read_lines (unlines lines) = lines.
Proof.
  induction 1 as [|l ls Hl _ IH]; [done|].
  unfold read_lines in *. cbn [unlines].
  rewrite (read_lines_aux_line _ _ Hl). cbn [rev app].
  by rewrite string_of_list_ascii_of_string, IH.
Qed.

Lemma one_line_of_list (l : list ascii) :
  forallb plain l = true → one_line (string_of_list_ascii l) = true.
Proof.
  induction l as [|c l IH]; [done|]. cbn [forallb string_of_list_ascii one_line].
  unfold plain at 1. intros [Hc Hl]%andb_prop. rewrite Hc. by apply IH.
Qed.

Lemma forallb_rev {A : Type} (P : A → bool) (l : list A) :
  forallb P l = true → forallb P (rev l) = true.
Proof.
  rewrite !forallb_forall. intros H x Hx. apply H. by apply in_rev.
Qed.

Lemma read_lines_aux_one_line (n : nat) :
  ∀ s cur, (String.length s ≤ n)%nat → forallb plain cur = true →
    Forall (fun l => one_line l = true) (read_lines_aux s cur).
Proof.
  induction n as [|n IH]; intros s cur Hn Hcur.
  - destruct s; [|simpl in Hn; lia]. simpl. destruct cur; [constructor|].
    constructor; [|constructor]. by apply one_line_of_list, forallb_rev.
  - destruct s as [|c s].
    + simpl. destruct cur; [constructor|].
      constructor; [|constructor]. by apply one_line_of_list, forallb_rev.
    + simpl in Hn. cbn [read_lines_aux].
      destruct (Ascii.eqb c "010"%char) eqn:Hlf.
      { constructor; [by apply one_line_of_list, forallb_rev|].
        apply IH; [lia|done]. }
      destruct (Ascii.eqb c "013"%char) eqn:Hcr.
      { constructor; [by apply one_line_of_list, forallb_rev|].
        destruct s as [|c' s']; [constructor|].
        simpl in Hn. destruct (Ascii.eqb c' "010"%char).
        - apply IH; [lia|done].
        - apply IH; [simpl; lia|done]. }
      apply IH; [lia|]. cbn [forallb]. unfold plain at 1. by rewrite Hlf, Hcr.
Qed.

Lemma read_lines_one_line (content : string) :
  Forall (fun l => one_line l = true) (read_lines content).
Proof. by apply (read_lines_aux_one_line (String.length content)). Qed.

Lemma one_line_lstrip (s : string) : one_line s = true → one_line (lstrip s) = true.
Proof.
  induction s as [|c s IH]; [done|]. intros H. cbn [lstrip].
  destruct (is_space c); [|done].
  cbn [one_line] in H. apply andb_prop in H as [_ H]. by apply IH.
Qed.

Lemma one_line_rstrip (s : string) : one_line s = true → one_line (rstrip s) = true.
Proof.
  induction s as [|c s IH]; [done|]. intros H. cbn [one_line] in H.
  apply andb_prop in H as [Hc H]. specialize (IH H). cbn [rstrip].
  destruct (rstrip s) as [|d r].
  - destruct (is_space c); [done|]. cbn [one_line]. by rewrite Hc.
  - cbn [one_line] in *. by rewrite Hc, IH.
Qed.

Lemma one_line_strip (s : string) : one_line s = true → one_line (strip s) = true.
Proof. intros. by apply one_line_rstrip, one_line_lstrip. Qed.

Lemma rstrip_idem (s : string) : rstrip (rstrip s) = rstrip s.
Proof.
  induction s as [|c s IH]; [done|]. cbn [rstrip].
  destruct (rstrip s) as [|d r] eqn:Hr.
  - destruct (is_space c) eqn:Hc; [done|]. cbn [rstrip]. by rewrite Hc.
  - cbn [rstrip] in *. destruct (rstrip r) as [|d' r'] eqn:Hr'.
    + destruct (is_space d); [done|]. by rewrite IH.
    + by rewrite IH.
Qed.

Lemma lstrip_head (s : string) :
  lstrip s = "" ∨ ∃ c t, lstrip s = String c t ∧ is_space c = false.
Proof.
  induction s as [|c s IH]; [by left|]. cbn [lstrip].
  destruct (is_space c) eqn:Hc; [done|]. right. eauto.
Qed.

Lemma rstrip_head (c : ascii) (s : string) :
  is_space c = false → ∃ t, rstrip (String c s) = String c t.
Proof.
  intros Hc. cbn [rstrip]. destruct (rstrip s); [|eauto]. rewrite Hc. eauto.
Qed.

Lemma strip_idem (s : string) : strip (strip s) = strip s.
Proof.
  unfold strip. destruct (lstrip_head s) as [->|(c & t & -> & Hc)]; [done|].
  destruct (rstrip_head c t Hc) as [t' Ht]. rewrite Ht.
  cbn [lstrip]. rewrite Hc, <- Ht. apply rstrip_idem.
Qed.

(** Text appended to a store whose last line is ended starts a line of
    its own. *)
Lemma read_lines_aux_app (n : nat) :
  ∀ a b cur, (String.length a ≤ n)%nat →
    read_lines_aux (a ++ nl ++ b) cur =
    (read_lines_aux (a ++ nl) cur ++ read_lines_aux b [])%list.
Proof.
  induction n as [|n IH]; intros a b cur Hn.
  - destruct a; [|simpl in Hn; lia].
    rewrite !append_nil_l, nl_cons. unfold nl. cbn [read_lines_aux].
    by rewrite Ascii.eqb_refl.
  - destruct a as [|c a].
    { rewrite !append_nil_l, nl_cons. unfold nl. cbn [read_lines_aux].
      by rewrite Ascii.eqb_refl. }
    simpl in Hn. rewrite !append_cons. cbn [read_lines_aux].
    destruct (Ascii.eqb c "010"%char).
    { rewrite IH by lia. done. }
    destruct (Ascii.eqb c "013"%char).
    { destruct a as [|c' a'].
      - rewrite !append_nil_l, nl_cons. unfold nl.
        rewrite Ascii.eqb_refl. done.
      - simpl in Hn. rewrite !append_cons. destruct (Ascii.eqb c' "010"%char).
        + rewrite IH by lia. done.
        + rewrite <- !append_cons. rewrite IH by (simpl; lia). done. }
    by rewrite IH by lia.
Qed.

Lemma read_lines_app (a b : string) :
  complete a → read_lines (a ++ b) = (read_lines a ++ read_lines b)%list.
Proof.
  intros [->|[a' ->]]; [done|]. unfold read_lines.
  rewrite append_assoc. by apply (read_lines_aux_app (String.length a')).
Qed.

Lemma complete_unlines (lines : list string) : complete (unlines lines).
Proof.
  induction lines as [|l ls IH]; [by left|]. right. cbn [unlines].
  destruct IH as [->|[s' ->]].
  - exists l. by rewrite append_empty_r.
  - exists (l ++ nl ++ s'). by rewrite !append_assoc.
Qed.

(* ===================================================================== *)
(** * The queries *)
(* ===================================================================== *)

(** A query: the file is looked for, read, and its content scanned. *)
Lemma sys_exists_eq (p : string) w :
  sys_exists p w = (Ret (bool_decide (is_Some (fs w !! p))), w).
Proof. reflexivity. Qed.

Lemma try_os_read_ext {A : Type} (file : string) (k k' : string → io A)
    (h : io A) w :
  (∀ c w1, k c w1 = k' c w1) →
  try_os (content <- sys_read file;; k content) h w =
  try_os (content <- sys_read file;; k' content) h w.
Proof.
  intros Hk. unfold try_os, bind.
  destruct (sys_read file w) as [[c|e] w1]; [by rewrite Hk|done].
Qed.

Lemma query_reads_only {A : Type} (file : string) (dflt : A)
    (scan : string → outcome A) (k : string → io A) :
  (∀ c w1, k c w1 = lift (scan c) w1) →
  reads_only file dflt scan
    (e <- sys_exists file;;
     if negb e then ret dflt
     else try_os (content <- sys_read file;; k content) (ret dflt)).
Proof.
  intros Hk w r w' Hrun. unfold bind at 1 in Hrun.
  rewrite sys_exists_eq in Hrun.
  destruct (fs w !! file) as [f|] eqn:Hf.
  - rewrite bool_decide_eq_true_2 in Hrun by eauto. cbn [negb] in Hrun.
    rewrite (try_os_read_ext _ _ _ _ _ Hk) in Hrun.
    apply read_scan_inv in Hrun
      as (Hfs & Hc & Ha & Hfl & Htr & Hne & Hr).
    rewrite Hf in Hr. split; [done|]. split; [done|]. split; [done|].
    split; [done|]. split; [done|].
    intros f' [= <-]. split; [done|]. split.
    + destruct Hr as [->|[-> _]]; [|by left]. cbn [scan_or].
      destruct (scan (f_content f)) as [a|[]]; auto.
    + intros Hno. destruct Hr as [->|[_ Hbad]]; [done|]. by rewrite Hno in Hbad.
  - rewrite bool_decide_eq_false_2 in Hrun by (by intros [? ?]).
    cbn [negb] in Hrun. injection Hrun as <- <-.
    repeat split; try done.
Qed.

(** The value of a query on a world without pending failure. *)
Lemma query_ok {A : Type} (file : string) (dflt : A)
    (scan : string → outcome A) (k : string → io A) w :
  (∀ c w1, k c w1 = lift (scan c) w1) →
  faults w = [] →
  (e <- sys_exists file;;
   if negb e then ret dflt
   else try_os (content <- sys_read file;; k content) (ret dflt)) w =
  match fs w !! file with
  | Some f => (scan_or scan dflt (Some f), log_call (SysOpenRead file) true w)
  | None => (Ret dflt, w)
  end.
Proof.
  intros Hk Hno. unfold bind at 1. rewrite sys_exists_eq.
  destruct (fs w !! file) as [f|] eqn:Hf.
  - rewrite bool_decide_eq_true_2 by eauto. cbn [negb].
    rewrite (try_os_read_ext _ _ _ _ _ Hk).
    unfold try_os, bind. rewrite (sys_read_ok _ f) by done.
    unfold lift. cbn [scan_or]. by destruct (scan (f_content f)) as [a|[]].
  - rewrite bool_decide_eq_false_2 by (by intros [? ?]). done.
Qed.

Lemma show_all_query (L : pylib) c w1 :
  (l <- lift (ofold (show_all_step L) (read_lines c) []);; ret (JList l)) w1 =
  lift (show_all_scan L c) w1.
Proof.
  unfold bind, lift, ret, show_all_scan.
  by destruct (ofold (show_all_step L) (read_lines c) []).
Qed.

Lemma member_query (L : pylib) (abs_path : string) c w1 :
  (b <- lift (find_monitored L abs_path (read_lines c));; ret (JBool b)) w1 =
  lift (member_scan L abs_path c) w1.
Proof.
  unfold bind, lift, ret, member_scan.
  by destruct (find_monitored L abs_path (read_lines c)).
Qed.

Lemma history_query (L : pylib) c w1 :
  match loads L c with
  | Some data => if is_list data then ret data else ret (JList [])
  | None => ret (JList [])
  end w1 = lift (history_scan L c) w1.
Proof.
  unfold history_scan, previous_reports, lift, ret. cbn [f_content].
  destruct (loads L c) as [[]|]; done.
Qed.

Lemma show_details_reads_only L (path file : string) :
  reads_only file JNull (fun c => find_details L (abspath L path) (read_lines c))
             (show_file_monitored_info L path file).
Proof. unfold show_file_monitored_info. by apply query_reads_only. Qed.

Lemma show_all_reads_only L (file : string) :
  reads_only file (JList []) (show_all_scan L) (show_all_file_monitored L file).
Proof.
  unfold show_all_file_monitored. apply query_reads_only, show_all_query.
Qed.

Lemma member_reads_only L (path file : string) :
  reads_only file (JBool false) (member_scan L (abspath L path))
             (is_file_already_monitored L path file).
Proof.
  unfold is_file_already_monitored. apply query_reads_only, member_query.
Qed.

Lemma paths_reads_only L (file : string) :
  reads_only file [] (fun c => ofold (paths_step L) (read_lines c) [])
             (get_all_monitored_paths L file).
Proof. unfold get_all_monitored_paths. by apply query_reads_only. Qed.

Lemma history_reads_only L (file : string) :
  reads_only file (JList []) (history_scan L) (show_log_history L file).
Proof.
  unfold show_log_history. apply query_reads_only, history_query.
Qed.

(** X1.  The five queries of the logger ([show_file_monitored_info],
    [show_all_file_monitored], [is_file_already_monitored],
    [get_all_monitored_paths], [show_log_history]) only read: they change
    no file, print nothing and hand nothing to the alert router, and they
    never raise an [OSError].  When the file is missing they give their
    empty answer without any system call; when it is there they open it
    once, and their answer is the empty one or depends on the content of
    the file alone. *)
Theorem queries_read_only (L : pylib) (path file : string) :
  (∃ scan, reads_only file JNull scan (show_file_monitored_info L path file)) ∧
  (∃ scan, reads_only file (JList []) scan (show_all_file_monitored L file)) ∧
  (∃ scan, reads_only file (JBool false) scan
             (is_file_already_monitored L path file)) ∧
  (∃ scan, reads_only file [] scan (get_all_monitored_paths L file)) ∧
  (∃ scan, reads_only file (JList []) scan (show_log_history L file)).
Proof.
  split; [eexists; apply show_details_reads_only|].
  split; [eexists; apply show_all_reads_only|].
  split; [eexists; apply member_reads_only|].
  split; [eexists; apply paths_reads_only|].
  eexists; apply history_reads_only.
Qed.

(** The values of the queries when nothing fails. *)
Lemma member_ok L (path file : string) w :
  faults w = [] →
  is_file_already_monitored L path file w =
  match fs w !! file with
  | Some f => (scan_or (member_scan L (abspath L path)) (JBool false) (Some f),
               log_call (SysOpenRead file) true w)
  | None => (Ret (JBool false), w)
  end.
Proof.
  unfold is_file_already_monitored. apply query_ok, member_query.
Qed.

Lemma paths_ok L (file : string) w :
  faults w = [] →
  get_all_monitored_paths L file w =
  match fs w !! file with
  | Some f => (scan_or (fun c => ofold (paths_step L) (read_lines c) []) []
                       (Some f),
               log_call (SysOpenRead file) true w)
  | None => (Ret [], w)
  end.
Proof. unfold get_all_monitored_paths. by apply query_ok. Qed.

Lemma show_details_ok L (path file : string) w :
  faults w = [] →
  show_file_monitored_info L path file w =
  match fs w !! file with
  | Some f => (scan_or (fun c => find_details L (abspath L path) (read_lines c))
                       JNull (Some f),
               log_call (SysOpenRead file) true w)
  | None => (Ret JNull, w)
  end.
Proof. unfold show_file_monitored_info. by apply query_ok. Qed.

Lemma show_all_ok L (file : string) w :
  faults w = [] →
  show_all_file_monitored L file w =
  match fs w !! file with
  | Some f => (scan_or (show_all_scan L) (JList []) (Some f),
               log_call (SysOpenRead file) true w)
  | None => (Ret (JList []), w)
  end.
Proof. unfold show_all_file_monitored. apply query_ok, show_all_query. Qed.

Lemma history_ok L (file : string) w :
  faults w = [] →
  show_log_history L file w =
  match fs w !! file with
  | Some f => (Ret (JList (previous_reports L (Some f))),
               log_call (SysOpenRead file) true w)
  | None => (Ret (JList []), w)
  end.
Proof.
  intros Hno. unfold show_log_history.
  rewrite (query_ok _ _ _ _ _ (history_query L) Hno).
  destruct (fs w !! file) as [[c m]|]; done.
Qed.

Lemma scan_or_ret {A : Type} (scan : string → outcome A) (dflt a : A) (f : file) :
  scan (f_content f) = Ret a → scan_or scan dflt (Some f) = Ret a.
Proof. cbn [scan_or]. by intros ->. Qed.

(* ===================================================================== *)
(** * How the scans of the store agree *)
(* ===================================================================== *)

Lemma py_get_raise (obj : json) (k : string) (dflt : json) (e : exn) :
  py_get obj k dflt = Raise e → e = AttributeError.
Proof. destruct obj; cbn; congruence. Qed.

Lemma record_path_raise (data : json) (e : exn) :
  record_path data = Raise e → e = AttributeError.
Proof.
  unfold record_path, py_get1.
  destruct (py_get data "file" (JDict [])) as [f|e'] eqn:Hf; cbn [obind].
  - apply py_get_raise.
  - intros [= <-]. by apply py_get_raise in Hf.
Qed.

(** The flag of [remove_monitored_file_info] is the answer of
    [is_file_already_monitored]. *)
Lemma remove_fold_member L (p : string) (lines : list string) :
  ∀ acc r0 out removed,
    ofold (remove_step L p) lines (acc, r0) = Ret (out, removed) →
    ∃ b, find_monitored L p lines = Ret b ∧ removed = r0 || b.
Proof.
  induction lines as [|raw lines IH]; intros acc r0 out removed H.
  - cbn in H. injection H as <- <-. exists false. by rewrite orb_false_r.
  - cbn [ofold find_monitored] in *. unfold remove_step in H.
    destruct (str_eqb (strip raw) "") eqn:He; cbn [obind] in H; [eauto|].
    destruct (loads L (strip raw)) as [data|]; cbn [obind] in H; [|eauto].
    destruct (record_path data) as [pth|e]; cbn [obind] in *; [|done].
    destruct (py_eq pth (JStr p)); cbn [negb obind] in *; [|eauto].
    apply IH in H as (b & _ & ->). exists true. by rewrite orb_true_r.
Qed.

Lemma remove_fold_raise L (p : string) (lines : list string) :
  ∀ st e, ofold (remove_step L p) lines st = Raise e → e = AttributeError.
Proof.
  induction lines as [|raw lines IH]; intros [acc r0] e H; [done|].
  cbn [ofold] in H. unfold remove_step in H.
  destruct (str_eqb (strip raw) ""); cbn [obind] in H; [eauto|].
  destruct (loads L (strip raw)) as [data|]; cbn [obind] in H; [|eauto].
  destruct (record_path data) as [pth|e'] eqn:Hp; cbn [obind] in *.
  - destruct (py_eq pth (JStr p)); cbn [negb obind] in *; eauto.
  - injection H as <-. by apply record_path_raise in Hp.
Qed.

(** The set of [get_all_monitored_paths] holds a path exactly when
    [is_file_already_monitored] finds it. *)
Lemma existsb_set_insert_str (p : string) (y : json) (s : list json) :
  existsb (py_eq (JStr p)) (set_insert y s) =
  existsb (py_eq (JStr p)) s || py_eq (JStr p) y.
Proof.
  unfold set_insert. destruct (existsb (py_eq y) s) eqn:Hy.
  - destruct (py_eq (JStr p) y) eqn:Hxy; [|by rewrite orb_false_r].
    rewrite orb_true_r. apply py_eq_str_l in Hxy as ->. done.
  - rewrite existsb_app. cbn [existsb]. by rewrite orb_false_r.
Qed.

Lemma py_eq_str_sym (p : string) (v : json) :
  py_eq v (JStr p) = py_eq (JStr p) v.
Proof.
  destruct (py_eq (JStr p) v) eqn:H.
  - apply py_eq_str_l in H as ->. apply py_eq_str_r. done.
  - destruct (py_eq v (JStr p)) eqn:H'; [|done].
    apply py_eq_str_r in H' as ->. cbn in H. by rewrite str_eqb_refl in H.
Qed.

Lemma paths_fold_member L (p : string) (lines : list string) :
  p ≠ "" →
  ∀ s0 s, ofold (paths_step L) lines s0 = Ret s →
    ∃ b, find_monitored L p lines = Ret b ∧
         existsb (py_eq (JStr p)) s = existsb (py_eq (JStr p)) s0 || b.
Proof.
  intros Hp. induction lines as [|raw lines IH]; intros s0 s H.
  - cbn in H. injection H as <-. exists false. by rewrite orb_false_r.
  - cbn [ofold find_monitored] in *. unfold paths_step in H.
    destruct (str_eqb (strip raw) "") eqn:He; cbn [obind] in H; [eauto|].
    destruct (loads L (strip raw)) as [data|]; cbn [obind] in H; [|eauto].
    destruct (record_path data) as [pth|e]; cbn [obind] in *; [|done].
    destruct (py_eq pth (JStr p)) eqn:Heq.
    + apply py_eq_str_r in Heq as ->. cbn [truthy] in H.
      rewrite (proj2 (str_eqb_false p "") Hp) in H. cbn [negb] in H.
      unfold set_add in H. cbn [hashable obind] in H.
      apply IH in H as (b & _ & ->). exists true.
      rewrite existsb_set_insert_str. cbn [py_eq]. rewrite str_eqb_refl.
      by rewrite !orb_true_r.
    + destruct (truthy pth); [|eauto]. unfold set_add in H.
      destruct (hashable pth); cbn [obind] in H; [|done].
      apply IH in H as (b & Hb & ->). exists b. split; [done|].
      rewrite existsb_set_insert_str, <- py_eq_str_sym, Heq.
      by rewrite orb_false_r.
Qed.

(** The details [show_file_monitored_info] returns for a record. *)
Lemma file_details_truthy (data v : json) :
  file_details data = Ret v → truthy v = true.
Proof.
  unfold file_details.
  repeat match goal with
  | |- obind ?m _ = _ → _ => destruct m; cbn [obind]; [|done]
  end.
  by intros [= <-].
Qed.

Lemma details_fold_member L (p : string) (lines : list string) (v : json) :
  find_details L p lines = Ret v →
  find_monitored L p lines = Ret (truthy v).
Proof.
  induction lines as [|raw lines IH]; intros H.
  - cbn in H. by injection H as <-.
  - cbn [find_details find_monitored] in *.
    destruct (str_eqb (strip raw) ""); [eauto|].
    destruct (loads L (strip raw)) as [data|]; [|eauto].
    destruct (record_path data) as [pth|e]; cbn [obind] in *; [|done].
    destruct (py_eq pth (JStr p)); [|eauto].
    by rewrite (file_details_truthy _ _ H).
Qed.

(** A record that is not the one looked for leaves the flag of [set_conf]
    as it is. *)
Lemma set_conf_fold_absent L (p ct : string) (ne na : json)
    (lines : list string) :
  find_monitored L p lines = Ret false →
  ∀ acc u0, ∃ out,
    ofold (set_conf_step L p ct ne na) lines (acc, u0) = Ret (out, u0).
Proof.
  induction lines as [|raw lines IH]; intros H acc u0; [by eexists|].
  cbn [ofold find_monitored] in *. unfold set_conf_step.
  destruct (str_eqb (strip raw) ""); cbn [obind]; [eauto|].
  destruct (loads L (strip raw)) as [data|]; cbn [obind]; [|eauto].
  destruct (record_path data) as [pth|e]; cbn [obind] in *; [|done].
  destruct (py_eq pth (JStr p)); [done|]. cbn [obind fst snd]. eauto.
Qed.

Lemma find_monitored_raise L (p : string) (lines : list string) (e : exn) :
  find_monitored L p lines = Raise e → e = AttributeError.
Proof.
  induction lines as [|raw lines IH]; [done|]. cbn [find_monitored].
  destruct (str_eqb (strip raw) ""); [done|].
  destruct (loads L (strip raw)) as [data|]; [|done].
  destruct (record_path data) as [pth|e'] eqn:Hp; cbn [obind].
  - by destruct (py_eq pth (JStr p)).
  - intros [= <-]. by apply record_path_raise in Hp.
Qed.

(* ===================================================================== *)
(** * Removal and the queries *)
(* ===================================================================== *)

Lemma exists_true (p : string) (f : file) w :
  fs w !! p = Some f → sys_exists p w = (Ret true, w).
Proof. intros H. rewrite sys_exists_eq, bool_decide_eq_true_2; eauto. Qed.

Lemma exists_false (p : string) w :
  fs w !! p = None → sys_exists p w = (Ret false, w).
Proof.
  intros H. rewrite sys_exists_eq, bool_decide_eq_false_2; [done|].
  rewrite H. by intros [? ?].
Qed.

(** The read phase of the writers when nothing fails. *)
Lemma read_phase_ok {A : Type} (store : string) (scan : string → outcome A)
    (f : file) (st : A) w :
  faults w = [] → fs w !! store = Some f → scan (f_content f) = Ret st →
  try_os (content <- sys_read store;; st <- lift (scan content);; ret (Some st))
         (ret None) w
  = (Ret (Some st), log_call (SysOpenRead store) true w).
Proof.
  intros Hno Hf Hscan. apply try_os_ok.
  rewrite (bind_ok _ _ _ _ _ (sys_read_ok _ _ _ Hno Hf)).
  unfold bind, lift, ret. by rewrite Hscan.
Qed.

Lemma read_phase_raise {A : Type} (store : string) (scan : string → outcome A)
    (f : file) (e : exn) w :
  faults w = [] → fs w !! store = Some f → scan (f_content f) = Raise e →
  e ≠ OSError →
  try_os (content <- sys_read store;; st <- lift (scan content);; ret (Some st))
         (ret None) w
  = (Raise e, log_call (SysOpenRead store) true w).
Proof.
  intros Hno Hf Hscan He. unfold try_os.
  rewrite (bind_ok _ _ _ _ _ (sys_read_ok _ _ _ Hno Hf)).
  unfold bind, lift, ret. rewrite Hscan. by destruct e.
Qed.

Lemma remove_info_ok L (path store : string) (f : file)
    (lines : list string) (removed : bool) w :
  faults w = [] → fs w !! store = Some f →
  ofold (remove_step L (abspath L path)) (read_lines (f_content f)) ([], false)
    = Ret (lines, removed) →
  ∃ w', remove_monitored_file_info L path store w = (Ret (JBool removed), w') ∧
        fs w' = <[store := File (unlines lines) mode_600]>
                  (delete (tmp_of store) (fs w)) ∧
        faults w' = [] ∧ console w' = console w ∧ alerts w' = alerts w.
Proof.
  intros Hno Hf Hfold. unfold remove_monitored_file_info.
  rewrite (bind_ok _ _ _ _ _ (exists_true _ _ _ Hf)). cbn [negb].
  rewrite (bind_ok _ _ _ _ _
             (read_phase_ok store
                (fun c => ofold (remove_step L (abspath L path)) (read_lines c)
                                ([], false)) f _ w Hno Hf Hfold)).
  set (w1 := log_call (SysOpenRead store) true w).
  destruct (store_block_ok L (tmp_of store) store lines w1)
    as (w2 & Hrun & Hfs & _ & Hc & Ha & Hno2); [done|apply tmp_of_neq|].
  exists w2. cbv zeta.
  rewrite (bind_ok _ _ _ _ _
             (try_os_ok _ _ _ _ _ (bind_ok _ (fun _ => ret true) _ _ _ Hrun))).
  done.
Qed.

Lemma remove_info_raise L (path store : string) (f : file) (e : exn) w :
  faults w = [] → fs w !! store = Some f →
  ofold (remove_step L (abspath L path)) (read_lines (f_content f)) ([], false)
    = Raise e →
  remove_monitored_file_info L path store w
  = (Raise e, log_call (SysOpenRead store) true w).
Proof.
  intros Hno Hf Hfold. unfold remove_monitored_file_info.
  rewrite (bind_ok _ _ _ _ _ (exists_true _ _ _ Hf)). cbn [negb].
  unfold bind at 1.
  rewrite (read_phase_raise store
             (fun c => ofold (remove_step L (abspath L path)) (read_lines c)
                             ([], false)) f e w Hno Hf Hfold); [done|].
  apply remove_fold_raise in Hfold. by subst.
Qed.

(** X2.  When nothing fails, the flag [remove_monitored_file_info]
    returns is the answer [is_file_already_monitored] gives for the same
    path on the store as it was before: True exactly when a record of
    the path was there. *)
Theorem removal_reports_membership (L : pylib) (path file : string)
    (w w' : world) (b : bool) :
  faults w = [] →
  remove_monitored_file_info L path file w = (Ret (JBool b), w') →
  ∃ w1, is_file_already_monitored L path file w = (Ret (JBool b), w1).
Proof.
  intros Hno Hrun. rewrite (member_ok L path file w Hno).
  destruct (fs w !! file) as [f|] eqn:Hf.
  - destruct (ofold (remove_step L (abspath L path))
                (read_lines (f_content f)) ([], false))
      as [[lines removed]|e] eqn:Hfold.
    + destruct (remove_info_ok L path file f lines removed w Hno Hf Hfold)
        as (w2 & Hrun' & _).
      rewrite Hrun' in Hrun. injection Hrun as -> _.
      apply remove_fold_member in Hfold as (b' & Hfind & ->).
      eexists. f_equal. apply scan_or_ret. unfold member_scan.
      by rewrite Hfind.
    + rewrite (remove_info_raise L path file f e w Hno Hf Hfold) in Hrun.
      done.
  - unfold remove_monitored_file_info in Hrun.
    rewrite (bind_ok _ _ _ _ _ (exists_false _ _ Hf)) in Hrun.
    cbn [negb] in Hrun. injection Hrun as <- <-. eauto.
Qed.

Lemma removal_reports_membership_witness :
  let w := Example.world_of [("/db", File Example.store_text 420)] [] in
  faults w = [] ∧
  ∃ w1, is_file_already_monitored MiniJson.lib "/tmp/a" "/db" w
        = (Ret (JBool true), w1).
Proof.
  split; [reflexivity|].
  apply (removal_reports_membership MiniJson.lib "/tmp/a" "/db"
           (Example.world_of [("/db", File Example.store_text 420)] [])
           (snd (remove_monitored_file_info MiniJson.lib "/tmp/a" "/db"
                   (Example.world_of [("/db", File Example.store_text 420)] [])))
           true).
  - reflexivity.
  - vm_compute. reflexivity.
Defined.

(** X3.  When nothing fails, a path is in the set
    [get_all_monitored_paths] returns exactly when
    [is_file_already_monitored] answers True for it. *)
Theorem paths_agree_with_membership (L : pylib) (path file : string)
    (w w1 : world) (s : list json) :
  faults w = [] →
  abspath L path ≠ "" →
  get_all_monitored_paths L file w = (Ret s, w1) →
  ∃ w2, is_file_already_monitored L path file w
        = (Ret (JBool (existsb (py_eq (JStr (abspath L path))) s)), w2).
Proof.
  intros Hno Hp Hrun. rewrite (member_ok L path file w Hno).
  rewrite (paths_ok L file w Hno) in Hrun.
  destruct (fs w !! file) as [f|] eqn:Hf.
  - injection Hrun as Hscan _. cbn [scan_or] in Hscan.
    destruct (ofold (paths_step L) (read_lines (f_content f)) [])
      as [s'|e] eqn:Hfold.
    + injection Hscan as ->.
      apply (paths_fold_member L _ _ Hp) in Hfold as (b & Hfind & ->).
      eexists. f_equal. apply scan_or_ret. unfold member_scan.
      by rewrite Hfind.
    + exfalso. destruct e; try done.
      clear Hscan. revert Hfold. generalize (@nil json).
      induction (read_lines (f_content f)) as [|raw lines IH]; [done|].
      intros s0. cbn [ofold]. unfold paths_step.
      destruct (str_eqb (strip raw) ""); cbn [obind]; [eauto|].
      destruct (loads L (strip raw)) as [data|]; cbn [obind]; [|eauto].
      destruct (record_path data) as [pth|e] eqn:Hpth; cbn [obind].
      * destruct (truthy pth); [|eauto]. unfold set_add.
        destruct (hashable pth); cbn [obind]; [eauto|done].
      * intros [= ->]. by apply record_path_raise in Hpth.
  - injection Hrun as <- <-. eauto.
Qed.

Lemma paths_agree_with_membership_witness :
  let w := Example.world_of [("/db", File Example.store_text 420)] [] in
  faults w = [] ∧ abspath MiniJson.lib "/tmp/b" ≠ "" ∧
  ∃ w2, is_file_already_monitored MiniJson.lib "/tmp/b" "/db" w
        = (Ret (JBool true), w2).
Proof.
  split; [reflexivity|]. split; [done|].
  apply (paths_agree_with_membership MiniJson.lib "/tmp/b" "/db"
           (Example.world_of [("/db", File Example.store_text 420)] [])
           (snd (get_all_monitored_paths MiniJson.lib "/db"
                   (Example.world_of [("/db", File Example.store_text 420)] [])))
           [JStr "/tmp/a"; JStr "/tmp/b"]).
  - reflexivity.
  - done.
  - vm_compute. reflexivity.
Defined.

(** X4.  When nothing fails and [show_file_monitored_info] returns, it
    returns the details of a record exactly when
    [is_file_already_monitored] answers True, and [None] exactly when it
    answers False. *)
Theorem details_agree_with_membership (L : pylib) (path file : string)
    (w w1 : world) (v : json) :
  faults w = [] →
  show_file_monitored_info L path file w = (Ret v, w1) →
  (∃ w2, is_file_already_monitored L path file w
         = (Ret (JBool (truthy v)), w2)) ∧
  (truthy v = false → v = JNull).
Proof.
  intros Hno Hrun. rewrite (member_ok L path file w Hno).
  rewrite (show_details_ok L path file w Hno) in Hrun.
  destruct (fs w !! file) as [f|] eqn:Hf.
  - injection Hrun as Hscan _. cbn [scan_or] in Hscan.
    destruct (find_details L (abspath L path) (read_lines (f_content f)))
      as [v'|e] eqn:Hfind.
    + injection Hscan as ->. split.
      * apply details_fold_member in Hfind.
        eexists. f_equal. apply scan_or_ret. unfold member_scan.
        by rewrite Hfind.
      * clear Hf. revert Hfind.
        induction (read_lines (f_content f)) as [|raw lines IH].
        { by intros [= <-]. }
        cbn [find_details].
        destruct (str_eqb (strip raw) ""); [eauto|].
        destruct (loads L (strip raw)) as [data|]; [|eauto].
        destruct (record_path data) as [pth|e]; cbn [obind]; [|done].
        destruct (py_eq pth (JStr (abspath L path))); [|eauto].
        intros Hd Hv. apply file_details_truthy in Hd. congruence.
    + destruct e; try done. exfalso. clear Hscan Hf. revert Hfind.
      induction (read_lines (f_content f)) as [|raw lines IH]; [done|].
      cbn [find_details].
      destruct (str_eqb (strip raw) ""); [eauto|].
      destruct (loads L (strip raw)) as [data|]; [|eauto].
      destruct (record_path data) as [pth|e] eqn:Hpth; cbn [obind].
      * destruct (py_eq pth (JStr (abspath L path))); [|eauto].
        unfold file_details.
        repeat match goal with
        | |- obind ?m _ = _ → _ =>
            let H := fresh in
            destruct m eqn:H; cbn [obind];
            [|intros [= ->]; by apply py_get_raise in H]
        end.
        done.
      * intros [= ->]. by apply record_path_raise in Hpth.
  - injection Hrun as <- <-. split; [eauto|done].
Qed.

Lemma details_agree_with_membership_witness :
  let w := Example.world_of [("/db", File Example.store_text 420)] [] in
  faults w = [] ∧
  (∃ w2, is_file_already_monitored MiniJson.lib "/tmp/c" "/db" w
         = (Ret (JBool false), w2)).
Proof.
  split; [reflexivity|].
  apply (details_agree_with_membership MiniJson.lib "/tmp/c" "/db"
           (Example.world_of [("/db", File Example.store_text 420)] [])
           (snd (show_file_monitored_info MiniJson.lib "/tmp/c" "/db"
                   (Example.world_of [("/db", File Example.store_text 420)] [])))
           JNull).
  - reflexivity.
  - vm_compute. reflexivity.
Defined.

(* ===================================================================== *)
(** * Configuration changes that change nothing *)
(* ===================================================================== *)

Lemma change_monitoring_inert L (ct : string) (ne na m : json) (u : bool) :
  change_applies ct ne na = false →
  change_monitoring L ct ne na m u = Ret (m, u).
Proof.
  unfold change_applies, change_monitoring.
  destruct (str_eqb ct "SET_EVENTS"), (str_eqb ct "ADD_EVENT"),
    (str_eqb ct "REMOVE_EVENT"), (str_eqb ct "SET_ALERT"),
    (str_eqb ct "SET_ALL"), (is_list ne), (truthy ne), (truthy na);
    cbn; done.
Qed.

Lemma set_conf_fold_inert L (p ct : string) (ne na : json)
    (lines : list string) :
  change_applies ct ne na = false →
  ∀ acc u out u',
    ofold (set_conf_step L p ct ne na) lines (acc, u) = Ret (out, u') → u' = u.
Proof.
  intros Hct. induction lines as [|raw lines IH]; intros acc u out u' H.
  - cbn in H. by injection H as _ <-.
  - cbn [ofold] in H. unfold set_conf_step in H.
    destruct (str_eqb (strip raw) ""); cbn [obind] in H; [eauto|].
    destruct (loads L (strip raw)) as [data|]; cbn [obind] in H; [|eauto].
    destruct (record_path data) as [pth|e]; cbn [obind] in H; [|done].
    destruct (py_eq pth (JStr p)); cbn [obind fst snd] in H; [|eauto].
    destruct (py_get data "monitoring" (JDict [])) as [mon|e];
      cbn [obind] in H; [|done].
    rewrite (change_monitoring_inert L _ _ _ _ _ Hct) in H.
    cbn [obind fst snd] in H.
    destruct (py_setitem data "monitoring" mon); cbn [obind fst snd] in H;
      [eauto|done].
Qed.

(** [set_conf] when its scan leaves the flag down: the store is read and
    nothing is written. *)
Lemma set_conf_not_updated L (path ct : string) (ne na : json)
    (fi fe : string) w r w' :
  (∀ f out u, fs w !! fi = Some f →
     ofold (set_conf_step L (abspath L path) ct ne na)
           (read_lines (f_content f)) ([], false) = Ret (out, u) → u = false) →
  set_conf L path ct ne na fi fe w = (r, w') →
  fs w' = fs w ∧ (r = Ret (JBool false) ∨ ∃ e, r = Raise e).
Proof.
  intros Hflag Hrun. unfold set_conf in Hrun. cbv zeta in Hrun.
  apply bind_inv in Hrun as [(e & w0 & He & Hk)|(e & He & _)];
    [|by rewrite sys_exists_eq in He].
  rewrite sys_exists_eq in He. injection He as <- <-.
  destruct (bool_decide (is_Some (fs w !! fi))); cbn [negb] in Hk.
  2: { injection Hk as <- <-. auto. }
  apply bind_inv in Hk as [(st & w1 & Hread & Hk)|(e & Hread & ->)].
  - apply read_phase_inv in Hread as (Hfs & _ & _ & _ & Hcase).
    destruct Hcase as [(f & st' & [= ->] & Hf & Hscan & _)|[([= ->] & _)|(e & ? & _)]];
      [| |done].
    + destruct st' as [out u]. apply (Hflag f) in Hscan as ->; [|done].
      cbn [negb] in Hk. injection Hk as <- <-. auto.
    + injection Hk as <- <-. auto.
  - apply read_phase_inv in Hread as (Hfs & _). eauto.
Qed.

(** X5.  [set_conf] rewrites nothing and does not return True when none of
    its branches applies to the arguments (an unknown change type,
    SET_EVENTS without a list, an empty event or alert mode), and, when
    nothing fails, returns False without writing when
    [is_file_already_monitored] answers False for the path. *)
Theorem set_conf_without_effect (L : pylib) (path change_type : string)
    (new_events new_alert_mode : json) (file_info file_event : string)
    (w w' : world) (r : outcome json) :
  set_conf L path change_type new_events new_alert_mode file_info file_event w
    = (r, w') →
  (change_applies change_type new_events new_alert_mode = false →
   fs w' = fs w ∧ r ≠ Ret (JBool true)) ∧
  (faults w = [] →
   (∃ w1, is_file_already_monitored L path file_info w
          = (Ret (JBool false), w1)) →
   fs w' = fs w ∧ r = Ret (JBool false)).
Proof.
  intros Hrun. split.
  - intros Hct.
    apply set_conf_not_updated in Hrun as [Hfs Hr].
    + split; [done|]. by destruct Hr as [->|[e ->]].
    + intros f out u _ H. apply (set_conf_fold_inert L _ _ _ _ _ Hct) in H. exact H.
  - intros Hno [w1 Hmem]. rewrite (member_ok L path file_info w Hno) in Hmem.
    destruct (fs w !! file_info) as [f|] eqn:Hf.
    + injection Hmem as Hscan _. cbn [scan_or] in Hscan. unfold member_scan in Hscan.
      destruct (find_monitored L (abspath L path) (read_lines (f_content f)))
        as [b|e] eqn:Hfind; cbn [obind] in Hscan.
      2: { apply find_monitored_raise in Hfind as ->. done. }
      injection Hscan as ->.
      destruct (set_conf_fold_absent L _ change_type new_events new_alert_mode
                  _ Hfind [] false) as [out Hfold].
      unfold set_conf in Hrun. cbv zeta in Hrun.
      rewrite (bind_ok _ _ _ _ _ (exists_true _ _ _ Hf)) in Hrun.
      cbn [negb] in Hrun.
      rewrite (bind_ok _ _ _ _ _
                 (read_phase_ok file_info
                    (fun c => ofold (set_conf_step L (abspath L path) change_type
                                       new_events new_alert_mode)
                                    (read_lines c) ([], false))
                    f _ w Hno Hf Hfold)) in Hrun.
      cbn [negb] in Hrun. injection Hrun as <- <-. done.
    + unfold set_conf in Hrun. cbv zeta in Hrun.
      rewrite (bind_ok _ _ _ _ _ (exists_false _ _ Hf)) in Hrun.
      cbn [negb] in Hrun. injection Hrun as <- <-. done.
Qed.

Lemma set_conf_without_effect_witness :
  let w := Example.world_of [("/db", File Example.store_text 420)] [] in
  let run := set_conf MiniJson.lib "/tmp/a" "RENAME" JNull (JStr "email")
               "/db" "/idx" w in
  change_applies "RENAME" JNull (JStr "email") = false ∧
  fs (snd run) = fs w ∧ fst run ≠ Ret (JBool true).
Proof.
  split; [reflexivity|].
  apply (set_conf_without_effect MiniJson.lib "/tmp/a" "RENAME" JNull
           (JStr "email") "/db" "/idx"
           (Example.world_of [("/db", File Example.store_text 420)] [])
           (snd (set_conf MiniJson.lib "/tmp/a" "RENAME" JNull (JStr "email")
                   "/db" "/idx"
                   (Example.world_of [("/db", File Example.store_text 420)] [])))
           (fst (set_conf MiniJson.lib "/tmp/a" "RENAME" JNull (JStr "email")
                   "/db" "/idx"
                   (Example.world_of [("/db", File Example.store_text 420)] [])))).
  - by destruct (set_conf _ _ _ _ _ _ _ _).
  - reflexivity.
Defined.

(* ===================================================================== *)
(** * The cache of baselines *)
(* ===================================================================== *)

Lemma pd_get_set_str (p : string) (v : json) (d : pydict) :
  pd_get (JStr p) (pd_set (JStr p) v d) = Some v.
Proof.
  induction d as [|[k x] d IH]; cbn [pd_set pd_get].
  - cbn [py_eq]. by rewrite str_eqb_refl.
  - destruct (py_eq (JStr p) k) eqn:Hk; cbn [pd_get]; by rewrite Hk.
Qed.

Lemma find_baseline_truthy L (path : string) (lines : list string) (data : json) :
  find_baseline L path lines = Ret (Some data) →
  record_path data = Ret (JStr path) ∧ truthy data = true.
Proof.
  induction lines as [|raw lines IH]; [done|]. cbn [find_baseline].
  destruct (str_eqb (strip raw) ""); [done|].
  destruct (loads L (strip raw)) as [d|]; [|done].
  destruct (record_path d) as [pth|e] eqn:Hp; cbn [obind]; [|done].
  destruct (py_eq pth (JStr path)) eqn:Heq; [|done].
  intros [= <-]. apply py_eq_str_r in Heq as ->. split; [done|].
  unfold record_path in Hp. destruct d as [| | | | |[|kv d]]; try done.
Qed.

(** What [load_baseline] does to the world and to the watcher. *)
Lemma load_baseline_inv L W (path : string) w old W1 w1 :
  load_baseline L W path w = (Ret (old, W1), w1) →
  fs w1 = fs w ∧ console w1 = console w ∧ alerts w1 = alerts w ∧
  (faults w = [] → faults w1 = []) ∧
  monitored_files_path W1 = monitored_files_path W ∧
  event_file_path W1 = event_file_path W ∧
  monitored W1 = monitored W ∧
  (truthy old = true ∨ pd_get (JStr path) (baseline_cache W) = Some old →
   pd_get (JStr path) (baseline_cache W1) = Some old) ∧
  (pd_get (JStr path) (baseline_cache W) = None → truthy old = false →
   old = JNull ∧ W1 = W).
Proof.
  unfold load_baseline.
  destruct (pd_get (JStr path) (baseline_cache W)) as [data|] eqn:Hc.
  - intros [= <- <- <-]. repeat split; try done; try by intros [?|?].
  - intros Hrun.
    apply bind_inv in Hrun as [(e & w0 & He & Hk)|(e & He & _)];
      [|by rewrite sys_exists_eq in He].
    rewrite sys_exists_eq in He. injection He as <- <-.
    destruct (bool_decide (is_Some (fs w !! monitored_files_path W)));
      cbn [negb] in Hk.
    2: { injection Hk as <- <- <-. repeat split; try done; try by intros [?|?]. }
    apply bind_inv in Hk as [(found & w2 & Hread & Hk)|(e & Hread & ?)];
      [|done].
    apply read_scan_inv in Hread as (Hfs & Hco & Ha & Hfl & _ & _ & Hr).
    assert (Hfaults : faults w = [] → faults w2 = []).
    { intros H. by rewrite Hfl, H. }
    destruct found as [data|].
    + injection Hk as <- <- <-.
      cbn [monitored_files_path event_file_path monitored baseline_cache].
      do 7 (split; [done|]). split.
      * intros _. apply pd_get_set_str.
      * intros _ Hfalse. exfalso.
        destruct Hr as [Hr|[Hr _]]; [|done].
        destruct (fs w !! monitored_files_path W) as [f|]; [|done].
        cbn [scan_or] in Hr.
        destruct (find_baseline L path (read_lines (f_content f)))
          as [[d|]|e] eqn:Hfind; try done.
        { injection Hr as ->. apply find_baseline_truthy in Hfind as [_ Ht].
          congruence. }
        by destruct e.
    + injection Hk as <- <- <-. repeat split; try done; try by intros [?|?].
Qed.

(** [load_baseline] only reads, however it ends. *)
Lemma load_baseline_frame L W (path : string) w r w1 :
  load_baseline L W path w = (r, w1) →
  fs w1 = fs w ∧ console w1 = console w ∧ alerts w1 = alerts w.
Proof.
  unfold load_baseline.
  destruct (pd_get (JStr path) (baseline_cache W)) as [data|].
  - by intros [= <- <-].
  - intros Hrun.
    apply bind_inv in Hrun as [(e & w0 & He & Hk)|(e & He & _)];
      [|by rewrite sys_exists_eq in He].
    rewrite sys_exists_eq in He. injection He as <- <-.
    destruct (bool_decide (is_Some (fs w !! monitored_files_path W)));
      cbn [negb] in Hk.
    2: { by injection Hk as <- <-. }
    apply bind_inv in Hk as [(found & w2 & Hread & Hk)|(e & Hread & _)].
    + apply read_scan_inv in Hread as (Hfs & Hco & Ha & _).
      by destruct found; injection Hk as <- <-.
    + by apply read_scan_inv in Hread as (Hfs & Hco & Ha & _).
Qed.

(** X6.  No call of [load_baseline], however it ends, changes a file,
    prints or hands anything to the alert router.  A baseline it has
    found is in the cache afterwards: the next call for the path returns
    it again without any system call, whatever the files then hold; and
    a call answered from the cache leaves the watcher and the world as
    they are. *)
Theorem load_baseline_cached (L : pylib) (W : watcher) (path : string)
    (w w1 : world) (r : outcome (json * watcher)) :
  load_baseline L W path w = (r, w1) →
  fs w1 = fs w ∧ console w1 = console w ∧ alerts w1 = alerts w ∧
  ∀ old W1,
    r = Ret (old, W1) →
    truthy old = true →
    (∀ w2, load_baseline L W1 path w2 = (Ret (old, W1), w2)) ∧
    (pd_get (JStr path) (baseline_cache W) = Some old → W1 = W ∧ w1 = w).
Proof.
  intros Hrun.
  destruct (load_baseline_frame _ _ _ _ _ _ Hrun) as (Hfs & Hco & Ha).
  do 3 (split; [done|]). intros old W1 -> Ht.
  pose proof (load_baseline_inv _ _ _ _ _ _ _ Hrun)
    as (_ & _ & _ & _ & _ & _ & _ & Hcache & _).
  split.
  - intros w2. unfold load_baseline. rewrite Hcache by auto. done.
  - intros Hc. unfold load_baseline in Hrun. rewrite Hc in Hrun.
    by injection Hrun as <- <-.
Qed.

Lemma load_baseline_cached_witness :
  let w := Example.world_of
             [("/db", File (MiniJson.dumps Example.baseline_now ++ nl) 420)] [] in
  let W := Watcher "/db" "/idx" [] [] in
  let W1 := Watcher "/db" "/idx" [] [(JStr "/tmp/a", Example.baseline_now)] in
  fst (load_baseline MiniJson.lib W "/tmp/a" w) = Ret (Example.baseline_now, W1) ∧
  truthy Example.baseline_now = true ∧
  fs (snd (load_baseline MiniJson.lib W "/tmp/a" w)) = fs w ∧
  ∀ w2, load_baseline MiniJson.lib W1 "/tmp/a" w2
        = (Ret (Example.baseline_now, W1), w2).
Proof.
  cbv zeta.
  destruct (load_baseline_cached MiniJson.lib (Watcher "/db" "/idx" [] [])
              "/tmp/a"
              (Example.world_of
                 [("/db", File (MiniJson.dumps Example.baseline_now ++ nl) 420)] [])
              (snd (load_baseline MiniJson.lib (Watcher "/db" "/idx" [] [])
                      "/tmp/a"
                      (Example.world_of
                         [("/db", File (MiniJson.dumps Example.baseline_now ++ nl)
                                       420)] [])))
              (Ret (Example.baseline_now,
                    Watcher "/db" "/idx" [] [(JStr "/tmp/a", Example.baseline_now)])))
    as (Hfs & _ & _ & Hcached).
  - vm_compute. reflexivity.
  - split; [vm_compute; reflexivity|]. split; [reflexivity|].
    split; [exact Hfs|]. by apply (Hcached _ _ eq_refl).
Defined.

(* ===================================================================== *)
(** * Events on a path without baseline *)
(* ===================================================================== *)

(** X7.  When [load_baseline] finds no baseline for the path,
    [handle_event] prints the event and the warning and returns: no file
    is changed and nothing is handed to the alert router. *)
Theorem event_without_baseline (L : pylib) (V : osview) (W W1 : watcher)
    (user_event path : string) (w w1 : world) (old_state : json) :
  load_baseline L W path (announced user_event path w)
    = (Ret (old_state, W1), w1) →
  truthy old_state = false →
  ∃ w', handle_event L V W user_event path w = (Ret W1, w') ∧
        fs w' = fs w ∧ alerts w' = alerts w ∧
        console w' =
          (console w ++ [MsgEventDetected user_event path; MsgNoBaseline])%list ∧
        (pd_get (JStr path) (baseline_cache W) = None → W1 = W).
Proof.
  intros Hload Ht. unfold handle_event.
  assert (Hprint : print (MsgEventDetected user_event path) w
                   = (Ret tt, announced user_event path w)) by reflexivity.
  rewrite (bind_ok _ _ _ _ _ Hprint), (bind_ok _ _ _ _ _ Hload).
  cbn [fst snd]. rewrite Ht. cbn [negb].
  eexists. split; [reflexivity|].
  apply load_baseline_inv in Hload
    as (Hfs & Hco & Ha & _ & _ & _ & _ & _ & Hsame).
  cbn [fs alerts console]. rewrite Hfs, Ha, Hco. cbn.
  split; [done|]. split; [done|]. split.
  - by rewrite <- app_assoc.
  - intros Hc. by apply Hsame.
Qed.

Lemma event_without_baseline_witness :
  let w := Example.world_of [("/db", File Example.store_text 420)] [] in
  let W := Watcher "/db" "/idx" [] [] in
  truthy JNull = false ∧
  ∃ w', handle_event MiniJson.lib Example.nothing W "modify" "/tmp/c" w
        = (Ret W, w') ∧
        fs w' = fs w ∧ alerts w' = alerts w.
Proof.
  split; [reflexivity|].
  destruct (event_without_baseline MiniJson.lib Example.nothing
              (Watcher "/db" "/idx" [] []) (Watcher "/db" "/idx" [] [])
              "modify" "/tmp/c"
              (Example.world_of [("/db", File Example.store_text 420)] [])
              (snd (load_baseline MiniJson.lib (Watcher "/db" "/idx" [] [])
                      "/tmp/c"
                      (announced "modify" "/tmp/c"
                         (Example.world_of
                            [("/db", File Example.store_text 420)] []))))
              JNull)
    as (w' & Hrun & Hfs & Ha & _).
  - vm_compute. reflexivity.
  - reflexivity.
  - exists w'. auto.
Defined.

(* ===================================================================== *)
(** * The current state of a path *)
(* ===================================================================== *)

Lemma py_eq_none (v : json) : py_eq v JNull = is_none v.
Proof. by destruct v. Qed.

Lemma marker_metadata (p : string) :
  py_get (deleted_marker p) "metadata" (JDict []) = Ret (JDict []).
Proof. reflexivity. Qed.

Lemma format_json_path (m : MonitoredFile) :
  record_path (format_json m) = Ret (JStr (mf_path m)).
Proof. reflexivity. Qed.

Lemma format_json_metadata (m : MonitoredFile) :
  py_get (format_json m) "metadata" (JDict []) =
  Ret (JDict [ ("size", mf_size m); ("permissions", mf_permissions m);
               ("owner", mf_owner m); ("group", mf_group m);
               ("last_modified", mf_last_modified m);
               ("checksum", mf_checksum m) ]).
Proof. reflexivity. Qed.

(** X8.  For a path [os.path.abspath] leaves as it is:
    [get_current_info] gives the deleted marker when the path does not
    exist or [os.stat] fails, and comparing a baseline with the marker
    reports every stored field whose value is not [None], each with
    [after] set to [None].  When the path exists, [os.stat] succeeds and
    the modification time is one [datetime.fromtimestamp] accepts, it
    gives a record of the path, not the marker, whose metadata block has
    the six fields of [format_json]. *)
Theorem current_info_cases (L : pylib) (V : osview) (path : string) :
  let p := abspath L path in
  abspath L p = p →
  (path_exists V p = false ∨ os_stat V p = None →
   get_current_info L V path = deleted_marker p ∧
   ∀ old om,
     py_get old "metadata" (JDict []) = Ret (JDict om) →
     ∃ changes,
       compare_metadata old (get_current_info L V path) = Ret (JDict changes) ∧
       NoDup (dict_keys changes) ∧
       ∀ k, dict_get k changes =
            if is_none (field k om) then None
            else Some (JDict [("before", field k om); ("after", JNull)])) ∧
  (path_exists V p = true →
   ∀ stats, os_stat V p = Some stats →
   timestamp_in_range (st_mtime stats) = true →
   get_current_info L V path ≠ deleted_marker p ∧
   record_path (get_current_info L V path) = Ret (JStr p) ∧
   ∃ meta,
     py_get (get_current_info L V path) "metadata" (JDict []) = Ret (JDict meta) ∧
     dict_keys meta = metadata_fields).
Proof.
  intros p Hidem. split.
  - intros Hgone.
    assert (Hcur : get_current_info L V path = deleted_marker p).
    { unfold get_current_info, load_file_info. fold p. rewrite Hidem.
      destruct (path_exists V p); cbn [negb]; [|done].
      destruct Hgone as [?| ->]; done. }
    split; [done|]. intros old om Hold. rewrite Hcur.
    destruct (compare_keys_spec om [] (dict_keys om) [])
      as (changes & Hcmp & Hnd & Hget); [constructor|].
    exists changes. split; [|split; [done|]].
    + unfold compare_metadata. rewrite Hold, marker_metadata. cbn [obind].
      by rewrite Hcmp.
    + intros k. rewrite Hget. replace (field k []) with JNull by done.
      rewrite py_eq_none. unfold change_entry.
      replace (field k []) with JNull by done.
      destruct (bool_decide (k ∈ dict_keys om)) eqn:Hk; cbn [andb].
      * by destruct (is_none (field k om)).
      * apply bool_decide_eq_false in Hk. by rewrite (field_absent _ _ Hk).
  - intros Hex stats Hstat _. unfold get_current_info, load_file_info. fold p.
    rewrite Hidem, Hex, Hstat. cbn [negb].
    split; [done|]. split; [apply format_json_path|].
    eexists. split; [apply format_json_metadata|reflexivity].
Qed.

Lemma current_info_cases_witness :
  abspath MiniJson.lib (abspath MiniJson.lib "/tmp/a")
    = abspath MiniJson.lib "/tmp/a" ∧
  get_current_info MiniJson.lib Example.nothing "/tmp/a"
    = deleted_marker "/tmp/a" ∧
  os_stat Example.unchanged "/tmp/a" = Some Example.stats_a ∧
  timestamp_in_range (st_mtime Example.stats_a) = true ∧
  get_current_info MiniJson.lib Example.unchanged "/tmp/a"
    ≠ deleted_marker "/tmp/a".
Proof.
  split; [reflexivity|]. split.
  - apply (current_info_cases MiniJson.lib Example.nothing "/tmp/a").
    + reflexivity.
    + left. reflexivity.
  - split; [reflexivity|]. split; [reflexivity|].
    destruct (current_info_cases MiniJson.lib Example.unchanged "/tmp/a" eq_refl)
      as [_ H].
    by destruct (H eq_refl Example.stats_a eq_refl eq_refl) as [? _].
Defined.

(* ===================================================================== *)
(** * Adding and removing a watch event *)
(* ===================================================================== *)

Lemma existsb_py_eq_str (p : string) (s : list json) :
  existsb (py_eq (JStr p)) s = bool_decide (JStr p ∈ s).
Proof. pose proof (py_in_list p s) as H. cbn [py_in] in H. by injection H. Qed.

Lemma set_insert_str (a : string) (s : list json) :
  NoDup s →
  NoDup (set_insert (JStr a) s) ∧
  ∀ y, y ∈ set_insert (JStr a) s ↔ y ∈ s ∨ y = JStr a.
Proof.
  intros Hnd. unfold set_insert. rewrite existsb_py_eq_str.
  case_bool_decide as Hin.
  - split; [done|]. intros y. split; [auto|]. by intros [?| ->].
  - split.
    + apply NoDup_app. split; [done|]. split; [|apply NoDup_singleton].
      intros y Hy ->%list_elem_of_singleton. done.
    + intros y. rewrite elem_of_app, list_elem_of_singleton. done.
Qed.

Lemma fold_insert_strings (ws : list json) :
  Forall (fun x => is_str x = true) ws →
  ∀ s0, NoDup s0 →
    NoDup (fold_left (fun s x => set_insert x s) ws s0) ∧
    ∀ y, y ∈ fold_left (fun s x => set_insert x s) ws s0 ↔ y ∈ s0 ∨ y ∈ ws.
Proof.
  induction 1 as [|x ws Hx _ IH]; intros s0 Hnd; cbn [fold_left].
  - split; [done|]. intros y. rewrite elem_of_nil. tauto.
  - destruct x as [| | |a| |]; try done.
    destruct (set_insert_str a s0 Hnd) as [Hnd' Hin].
    destruct (IH _ Hnd') as [Hnd'' Hin'']. split; [done|].
    intros y. rewrite Hin'', Hin, elem_of_cons. tauto.
Qed.

Lemma py_set_strings (ws : list json) :
  Forall (fun x => is_str x = true) ws →
  ∃ s, py_set (JList ws) = Ret s ∧ NoDup s ∧ ∀ y, y ∈ s ↔ y ∈ ws.
Proof.
  intros Hws. unfold py_set. cbn [py_iter obind].
  replace (forallb hashable ws) with true.
  - destruct (fold_insert_strings ws Hws [] (NoDup_nil_2)) as [Hnd Hin].
    eexists. split; [done|]. split; [done|].
    intros y. rewrite Hin, elem_of_nil. tauto.
  - symmetry. apply forallb_forall. intros x Hx%list_elem_of_In.
    rewrite Forall_forall in Hws. apply Hws in Hx. by destruct x.
Qed.

(** X9.  On a monitoring block whose watch events are a list of strings,
    the ADD_EVENT branch of [set_conf] leaves the events without
    duplicates and holding exactly the old events and the new one, and
    the REMOVE_EVENT branch leaves exactly the old events other than the
    removed one; the other entries of the block are untouched.  (The
    order of the events is the iteration order of a Python set.) *)
Theorem event_changes_are_set_operations (L : pylib) (event : string)
    (new_alert_mode : json) (m : list (string * json)) (ws : list json)
    (updated : bool) :
  (∀ s, set_order L s ≡ₚ s) →
  event ≠ "" →
  default (JList []) (dict_get "watch_events" m) = JList ws →
  Forall (fun x => is_str x = true) ws →
  (∃ l,
     change_monitoring L "ADD_EVENT" (JStr event) new_alert_mode (JDict m) updated
       = Ret (JDict (dict_set "watch_events" (JList l) m), true) ∧
     NoDup l ∧ ∀ x, x ∈ l ↔ x ∈ ws ∨ x = JStr event) ∧
  (∃ l,
     change_monitoring L "REMOVE_EVENT" (JStr event) new_alert_mode (JDict m)
                       updated
       = Ret (JDict (dict_set "watch_events" (JList l) m), true) ∧
     NoDup l ∧ ∀ x, x ∈ l ↔ x ∈ ws ∧ x ≠ JStr event).
Proof.
  intros Horder He Hws Hstr.
  destruct (py_set_strings ws Hstr) as (s & Hset & Hnd & Hin).
  assert (Ht : truthy (JStr event) = true).
  { cbn [truthy]. by rewrite (proj2 (str_eqb_false event "") He). }
  split.
  - destruct (set_insert_str event s Hnd) as [Hnd' Hin'].
    exists (set_order L (set_insert (JStr event) s)).
    split; [|split].
    + unfold change_monitoring.
      change (str_eqb "ADD_EVENT" "SET_EVENTS") with false.
      change (str_eqb "ADD_EVENT" "ADD_EVENT") with true.
      rewrite Ht. cbn [andb py_get obind]. rewrite Hws, Hset. cbn [obind].
      unfold set_add. cbn [hashable obind py_setitem]. done.
    + by rewrite Horder.
    + intros x. rewrite Horder, Hin', Hin. done.
  - exists (set_order L (filter (fun y => negb (py_eq (JStr event) y)) s)).
    split; [|split].
    + unfold change_monitoring.
      change (str_eqb "REMOVE_EVENT" "SET_EVENTS") with false.
      change (str_eqb "REMOVE_EVENT" "ADD_EVENT") with false.
      change (str_eqb "REMOVE_EVENT" "REMOVE_EVENT") with true.
      rewrite Ht. cbn [andb py_get obind]. rewrite Hws, Hset. cbn [obind].
      unfold set_discard. cbn [hashable obind py_setitem]. done.
    + rewrite Horder. by apply NoDup_filter.
    + intros x. rewrite Horder, list_elem_of_filter, Hin.
      split.
      * intros [Hne Hx]. split; [done|]. intros ->.
        cbn [py_eq] in Hne. by rewrite str_eqb_refl in Hne.
      * intros [Hx Hne]. split; [|done].
        destruct (py_eq (JStr event) x) eqn:Heq; [|done].
        by apply py_eq_str_l in Heq.
Qed.

Lemma event_changes_are_set_operations_witness :
  (∀ s, set_order MiniJson.lib s ≡ₚ s) ∧
  "delete" ≠ "" ∧
  ∃ l,
    change_monitoring MiniJson.lib "ADD_EVENT" (JStr "delete") JNull
                      Example.monitoring_block false
      = Ret (JDict (dict_set "watch_events" (JList l)
                      [ ("watch_events", JList [JStr "modify"; JStr "delete"]);
                        ("alert_mode", JStr "log");
                        ("added_on", JStr "2024-05-01T09:00:00") ]), true) ∧
    NoDup l ∧
    ∀ x, x ∈ l ↔ x ∈ [JStr "modify"; JStr "delete"] ∨ x = JStr "delete".
Proof.
  split; [done|]. split; [done|].
  apply (event_changes_are_set_operations MiniJson.lib "delete" JNull
           [ ("watch_events", JList [JStr "modify"; JStr "delete"]);
             ("alert_mode", JStr "log");
             ("added_on", JStr "2024-05-01T09:00:00") ]
           [JStr "modify"; JStr "delete"] false).
  - done.
  - done.
  - reflexivity.
  - repeat constructor.
Defined.

(* ===================================================================== *)
(** * The lines of the store *)
(* ===================================================================== *)

(** X10.  The lines the writers put into the store, one [write] of the
    line and a line feed each, are the lines the readers get back, as
    long as no line holds a line terminator; and a line as the readers
    get and strip it holds none and is not changed by stripping it
    again. *)
Theorem store_lines_round_trip (lines : list string) :
  Forall (fun l => one_line l = true) lines →
  read_lines (unlines lines) = lines ∧
  complete (unlines lines) ∧
  ∀ content,
    Forall (fun l => one_line (strip l) = true ∧ strip (strip l) = strip l)
           (read_lines content).
Proof.
  intros Hlines. split; [by apply read_lines_unlines|].
  split; [apply complete_unlines|].
  intros content. eapply Forall_impl; [apply read_lines_one_line|].
  intros l Hl. split; [by apply one_line_strip|apply strip_idem].
Qed.

Lemma store_lines_round_trip_witness :
  Forall (fun l => one_line l = true) [Example.line_a; "{bad"; Example.line_b] ∧
  read_lines (unlines [Example.line_a; "{bad"; Example.line_b])
    = [Example.line_a; "{bad"; Example.line_b].
Proof.
  assert (H : Forall (fun l => one_line l = true)
                     [Example.line_a; "{bad"; Example.line_b]).
  { repeat constructor. }
  split; [exact H|].
  apply (store_lines_round_trip [Example.line_a; "{bad"; Example.line_b] H).
Defined.

(* ===================================================================== *)
(** * The store after a removal *)
(* ===================================================================== *)

(** How the search of [is_file_already_monitored] goes over one line. *)
Lemma find_monitored_corrupt L (q : string) (l : string) (rest : list string) :
  loads L (strip l) = None →
  find_monitored L q (l :: rest) = find_monitored L q rest.
Proof.
  intros H. cbn [find_monitored]. rewrite H. by destruct (str_eqb (strip l) "").
Qed.

Lemma find_monitored_record L (q : string) (data pth : json)
    (rest : list string) :
  round_trips L data → record_path data = Ret pth →
  find_monitored L q (dumps L data :: rest) =
  if py_eq pth (JStr q) then Ret true else find_monitored L q rest.
Proof.
  intros (Hload & _ & Hstrip & Hne) Hp. cbn [find_monitored].
  rewrite Hstrip, (proj2 (str_eqb_false _ _) Hne), Hload, Hp. done.
Qed.

Lemma remove_fold_lines L (p : string) (raws : list string) :
  Forall (fun raw => one_line raw = true ∧
                     ∀ data, loads L (strip raw) = Some data →
                             round_trips L data) raws →
  ∀ acc r0 out removed,
    ofold (remove_step L p) raws (acc, r0) = Ret (out, removed) →
    ∃ new, out = (acc ++ new)%list ∧
           Forall (fun l => one_line l = true) new ∧
           find_monitored L p new = Ret false ∧
           ∀ q, q ≠ p → find_monitored L q new = find_monitored L q raws.
Proof.
  induction 1 as [|raw raws [Hone Hrt] _ IH]; intros acc r0 out removed H.
  - cbn in H. injection H as <- <-. exists []. by rewrite app_nil_r.
  - cbn [ofold] in H. unfold remove_step in H.
    destruct (str_eqb (strip raw) "") eqn:He; cbn [obind] in H.
    { apply IH in H as (new & -> & Hnew & Hp & Hq). exists new.
      split; [done|]. split; [done|]. split; [done|].
      intros q Hne. rewrite (Hq q Hne). cbn [find_monitored]. by rewrite He. }
    destruct (loads L (strip raw)) as [data|] eqn:Hload; cbn [obind] in H.
    2: { apply IH in H as (new & -> & Hnew & Hp & Hq).
         exists (strip raw :: new). rewrite <- app_assoc.
         assert (Hl : loads L (strip (strip raw)) = None) by by rewrite strip_idem.
         split; [done|]. split; [constructor; [by apply one_line_strip|done]|].
         split.
         - by rewrite (find_monitored_corrupt L p _ _ Hl).
         - intros q Hne. rewrite (find_monitored_corrupt L q _ _ Hl), (Hq q Hne).
           cbn [find_monitored]. by rewrite He, Hload. }
    destruct (record_path data) as [pth|e] eqn:Hpth; cbn [obind] in H; [|done].
    specialize (Hrt data eq_refl).
    destruct (py_eq pth (JStr p)) eqn:Heq; cbn [negb] in H.
    + apply IH in H as (new & -> & Hnew & Hp & Hq). exists new.
      split; [done|]. split; [done|]. split; [done|].
      intros q Hne. rewrite (Hq q Hne). cbn [find_monitored].
      rewrite He, Hload, Hpth. cbn [obind].
      apply py_eq_str_r in Heq as ->. cbn [py_eq].
      by rewrite (proj2 (str_eqb_false p q)) by done.
    + apply IH in H as (new & -> & Hnew & Hp & Hq).
      exists (dumps L data :: new). rewrite <- app_assoc.
      split; [done|]. split; [constructor; [apply Hrt|done]|]. split.
      * by rewrite (find_monitored_record L p data pth new Hrt Hpth), Heq.
      * intros q Hne.
        rewrite (find_monitored_record L q data pth new Hrt Hpth), (Hq q Hne).
        cbn [find_monitored]. by rewrite He, Hload, Hpth.
Qed.

Lemma store_round_trips_lines L (content : string) :
  store_round_trips L content →
  Forall (fun raw => one_line raw = true ∧
                     ∀ data, loads L (strip raw) = Some data →
                             round_trips L data) (read_lines content).
Proof.
  intros Hrt. apply Forall_forall. intros raw Hin. split.
  - pose proof (read_lines_one_line content) as H.
    rewrite Forall_forall in H. by apply H.
  - intros data. apply Hrt. by apply list_elem_of_In.
Qed.

(** X11.  After [remove_monitored_file_info] has returned, on a store
    whose records are read back from the lines written for them and when
    nothing fails, [is_file_already_monitored] answers False for the
    removed path, and for every other path what it answered before. *)
Theorem removed_path_is_gone (L : pylib) (path store : string)
    (w w' : world) (f : file) (v : json) :
  faults w = [] →
  fs w !! store = Some f →
  store_round_trips L (f_content f) →
  remove_monitored_file_info L path store w = (Ret v, w') →
  fst (is_file_already_monitored L path store w') = Ret (JBool false) ∧
  ∀ q, abspath L q ≠ abspath L path →
       fst (is_file_already_monitored L q store w') =
       fst (is_file_already_monitored L q store w).
Proof.
  intros Hno Hf Hrt Hrun.
  destruct (ofold (remove_step L (abspath L path))
              (read_lines (f_content f)) ([], false))
    as [[lines removed]|e] eqn:Hfold.
  2: { by rewrite (remove_info_raise L path store f e w Hno Hf Hfold) in Hrun. }
  destruct (remove_info_ok L path store f lines removed w Hno Hf Hfold)
    as (w2 & Hrun' & Hfs & Hno' & _).
  rewrite Hrun' in Hrun. injection Hrun as _ <-.
  apply (remove_fold_lines L _ _ (store_round_trips_lines L _ Hrt)) in Hfold
    as (new & Hnew & Hone & Hp & Hq).
  cbn [app] in Hnew. subst new.
  assert (Hf' : fs w2 !! store = Some (File (unlines lines) mode_600)).
  { rewrite Hfs. apply lookup_insert_eq. }
  split.
  - rewrite (member_ok L path store w2 Hno'), Hf'. cbn [fst scan_or f_content].
    unfold member_scan. by rewrite (read_lines_unlines _ Hone), Hp.
  - intros q Hne.
    rewrite (member_ok L q store w2 Hno'), (member_ok L q store w Hno), Hf', Hf.
    cbn [fst scan_or f_content]. unfold member_scan.
    by rewrite (read_lines_unlines _ Hone), (Hq _ Hne).
Qed.

Lemma example_store_round_trips :
  store_round_trips MiniJson.lib Example.store_text.
Proof.
  intros raw data Hin Hload. vm_compute in Hin.
  destruct Hin as [<-|[<-|[]]]; vm_compute in Hload; injection Hload as <-;
    (split; [vm_compute; reflexivity|]);
    (split; [vm_compute; reflexivity|]);
    (split; [vm_compute; reflexivity|]); vm_compute; discriminate.
Defined.

Lemma removed_path_is_gone_witness :
  let w := Example.world_of [("/db", File Example.store_text 420)] [] in
  let w' := snd (remove_monitored_file_info MiniJson.lib "/tmp/a" "/db" w) in
  faults w = [] ∧
  fs w !! "/db" = Some (File Example.store_text 420) ∧
  store_round_trips MiniJson.lib Example.store_text ∧
  fst (is_file_already_monitored MiniJson.lib "/tmp/a" "/db" w')
    = Ret (JBool false).
Proof.
  split; [reflexivity|]. split; [reflexivity|].
  split; [exact example_store_round_trips|].
  apply (removed_path_is_gone MiniJson.lib "/tmp/a" "/db"
           (Example.world_of [("/db", File Example.store_text 420)] [])
           (snd (remove_monitored_file_info MiniJson.lib "/tmp/a" "/db"
                   (Example.world_of [("/db", File Example.store_text 420)] [])))
           (File Example.store_text 420) (JBool true)).
  - reflexivity.
  - reflexivity.
  - exact example_store_round_trips.
  - vm_compute. reflexivity.
Defined.

(* ===================================================================== *)
(** * The alert history *)
(* ===================================================================== *)

Lemma history_read_query L c w1 :
  match loads L c with
  | Some (JList l) => ret l
  | Some _ => ret []
  | None => ret []
  end w1 = lift (Ret (previous_reports L (Some (File c 0)))) w1.
Proof.
  unfold previous_reports, lift, ret. cbn [f_content].
  destruct (loads L c) as [[]|]; done.
Qed.

Lemma previous_reports_content L (f : file) :
  previous_reports L (Some f) = previous_reports L (Some (File (f_content f) 0)).
Proof. done. Qed.

(** X12.  Whenever [save_log_history] returns, it returns [None] and has
    handed nothing to the alert router.  Either the write failed, the
    history file is as it was and the failure is printed; or the history
    file now holds, with mode 0o600, the list of the reports read from it
    followed by the new report, nothing is printed and the temporary
    file is gone.  The reports read are the elements of the old file when
    it holds a JSON list, and none when it is missing, could not be read
    or holds anything else.  (A history that [json.load] cannot decode
    makes the function raise instead of returning.) *)
Theorem history_save_is_all_or_nothing (L : pylib) (report : json)
    (history : string) (w w' : world) (v : json) :
  save_log_history L report history w = (Ret v, w') →
  v = JNull ∧ alerts w' = alerts w ∧
  ((fs w' !! history = fs w !! history ∧
    console w' = (console w ++ [MsgErrorSavingHistory])%list) ∨
   (∃ prev,
      fs w' !! history =
        Some (File (dump_indent L (JList (prev ++ [report]))) mode_600) ∧
      fs w' !! tmp_of history = None ∧
      console w' = console w ∧
      (prev = previous_reports L (fs w !! history) ∨
       (prev = [] ∧ faults w ≠ [])))).
Proof.
  intros Hrun. remember (Ret v) as r eqn:Hv. unfold save_log_history in Hrun.
  apply bind_inv in Hrun as [(e & w0 & He & Hk)|(e & He & _)];
    [|by rewrite sys_exists_eq in He].
  rewrite sys_exists_eq in He. injection He as <- <-.
  assert (Hread : ∃ prev w1,
            fs w1 = fs w ∧ console w1 = console w ∧ alerts w1 = alerts w ∧
            (prev = previous_reports L (fs w !! history) ∨
             (prev = [] ∧ faults w ≠ [])) ∧
            (try_os (write_json_block L (tmp_of history) history
                       (JList (prev ++ [report])))
                    (cleanup_temp (tmp_of history);;
                     print MsgErrorSavingHistory);;
             ret JNull) w1 = (r, w')).
  { apply bind_inv in Hk as [(prev & w1 & Hread & Hk)|(e & Hread & ->)].
    - exists prev, w1.
      destruct (fs w !! history) as [f|] eqn:Hf.
      + rewrite bool_decide_eq_true_2 in Hread by eauto.
        rewrite (try_os_read_ext _ _ _ _ _ (history_read_query L)) in Hread.
        apply (read_scan_inv history
                 (fun c => Ret (previous_reports L (Some (File c 0)))))
          in Hread as (Hfs & Hco & Ha & _ & _ & _ & Hr).
        rewrite Hf in Hr. cbn [scan_or] in Hr.
        do 3 (split; [done|]). split; [|done].
        destruct Hr as [[= ->]|[[= ->] ?]]; [left|right]; done.
      + rewrite bool_decide_eq_false_2 in Hread by (by intros [? ?]).
        injection Hread as <- <-. do 3 (split; [done|]). split; [by left|done].
    - exfalso. destruct (fs w !! history) as [f|] eqn:Hf.
      + rewrite bool_decide_eq_true_2 in Hread by eauto.
        rewrite (try_os_read_ext _ _ _ _ _ (history_read_query L)) in Hread.
        apply (read_scan_inv history
                 (fun c => Ret (previous_reports L (Some (File c 0)))))
          in Hread as (_ & _ & _ & _ & _ & _ & Hr).
        rewrite Hf in Hr. cbn [scan_or] in Hr. by destruct Hr as [?|[? _]].
      + rewrite bool_decide_eq_false_2 in Hread by (by intros [? ?]). done. }
  destruct Hread as (prev & w1 & Hfs & Hco & Ha & Hprev & Hwrite).
  clear Hk.
  apply bind_inv in Hwrite as [(u & w2 & Htry & Hret)|(e & Htry & ->)].
  - injection Hret as <- <-. split; [congruence|].
    apply try_os_inv in Htry as [(w3 & Hblock & Hh)|[Hblock _]].
    + apply (json_block_inv L _ _ _ _ _ _ (tmp_of_neq _)) in Hblock
        as (Hco3 & Hfr3 & Hcase).
      destruct Hcase as [(? & _)|(_ & Hkeep & _)]; [done|].
      apply bind_inv in Hh as [(u' & w4 & Hclean & Hprint)|(e & Hclean & ?)];
        [|by apply cleanup_inv in Hclean as (? & _)].
      apply cleanup_inv in Hclean as (_ & Hco4 & Hfr4 & _).
      injection Hprint as _ <-. cbn [alerts fs console].
      destruct Hfr3 as (_ & Ha3 & _). destruct Hfr4 as (Hfs4 & Ha4 & _).
      split; [congruence|]. left. split.
      * rewrite Hfs4 by (intros ?; by apply (tmp_of_neq history)).
        rewrite Hkeep by (intros ?; by apply (tmp_of_neq history)).
        by rewrite Hfs.
      * congruence.
    + apply (json_block_inv L _ _ _ _ _ _ (tmp_of_neq _)) in Hblock
        as (Hco3 & Hfr3 & Hcase).
      destruct Hfr3 as (_ & Ha3 & _). split; [congruence|].
      destruct Hcase as [(_ & Hfs3 & _)|(? & _)]; [|done].
      right. exists prev. split; [|split; [|split; [congruence|]]].
      * rewrite Hfs3. apply lookup_insert_eq.
      * rewrite Hfs3, lookup_insert_ne by (intros ?; by apply (tmp_of_neq history)).
        apply lookup_delete_eq.
      * done.
  - exfalso. apply try_os_inv in Htry as [(w3 & Hblock & Hh)|[Hblock Hne]].
    + apply bind_inv in Hh as [(u' & w4 & Hclean & Hprint)|(e' & Hclean & ?)];
        [done|by apply cleanup_inv in Hclean as (? & _)].
    + apply (json_block_inv L _ _ _ _ _ _ (tmp_of_neq _)) in Hblock
        as (_ & _ & [(? & _)|(? & _)]); congruence.
Qed.

Lemma history_save_is_all_or_nothing_witness :
  let w := Example.world_of [("/h", File Example.history_text mode_600)]
                            [false; false; true] in
  let report := Example.entry (JStr Example.clock_text) in
  let run := save_log_history MiniJson.lib report "/h" w in
  fst run = Ret JNull ∧
  fs (snd run) !! "/h" = Some (File Example.history_text mode_600) ∧
  console (snd run) = [MsgErrorSavingHistory] ∧
  alerts (snd run) = [].
Proof.
  cbv zeta.
  destruct (history_save_is_all_or_nothing MiniJson.lib
              (Example.entry (JStr Example.clock_text)) "/h"
              (Example.world_of [("/h", File Example.history_text mode_600)]
                                [false; false; true])
              (snd (save_log_history MiniJson.lib
                      (Example.entry (JStr Example.clock_text)) "/h"
                      (Example.world_of
                         [("/h", File Example.history_text mode_600)]
                         [false; false; true])))
              JNull)
    as (_ & Ha & _).
  - vm_compute. reflexivity.
  - split; [vm_compute; reflexivity|]. split; [vm_compute; reflexivity|].
    split; [vm_compute; reflexivity|]. exact Ha.
Defined.

(** X13.  When nothing fails and the library reads back the list it
    writes, [show_log_history] shows after [save_log_history(report)]
    exactly what it showed before, followed by [report]. *)
Theorem saved_report_is_shown (L : pylib) (report : json) (history : string)
    (w w0 : world) (prev : list json) :
  faults w = [] →
  show_log_history L history w = (Ret (JList prev), w0) →
  loads L (dump_indent L (JList (prev ++ [report])))
    = Some (JList (prev ++ [report])) →
  ∃ w1 w2,
    save_log_history L report history w = (Ret JNull, w1) ∧
    show_log_history L history w1 = (Ret (JList (prev ++ [report])), w2).
Proof.
  intros Hno Hshow Hload.
  assert (Hprev : prev = previous_reports L (fs w !! history)).
  { rewrite (history_ok L history w Hno) in Hshow.
    destruct (fs w !! history) as [f|]; by injection Hshow as <-. }
  destruct (save_log_history_ok L report history w Hno)
    as (w1 & Hsave & Hfs & _ & Hno1).
  exists w1. eexists. split; [done|].
  rewrite (history_ok L history w1 Hno1), Hfs, lookup_insert_eq.
  f_equal. f_equal. f_equal. unfold previous_reports at 1. cbn [f_content].
  by rewrite <- Hprev, Hload.
Qed.

Lemma saved_report_is_shown_witness :
  let w := Example.world_of [("/h", File Example.history_text mode_600)] [] in
  let report := Example.entry (JStr "7") in
  faults w = [] ∧
  MiniJson.loads (MiniJson.dump_indent (JList (Example.history ++ [report])))
    = Some (JList (Example.history ++ [report])) ∧
  ∃ w1 w2,
    save_log_history MiniJson.lib report "/h" w = (Ret JNull, w1) ∧
    show_log_history MiniJson.lib "/h" w1
      = (Ret (JList (Example.history ++ [report])), w2).
Proof.
  split; [reflexivity|]. split; [vm_compute; reflexivity|].
  apply (saved_report_is_shown MiniJson.lib (Example.entry (JStr "7")) "/h"
           (Example.world_of [("/h", File Example.history_text mode_600)] [])
           (snd (show_log_history MiniJson.lib "/h"
                   (Example.world_of
                      [("/h", File Example.history_text mode_600)] [])))
           Example.history).
  - reflexivity.
  - vm_compute. reflexivity.
  - vm_compute. reflexivity.
Defined.

(* ===================================================================== *)
(** * System calls that succeed, computations that print nothing *)
(* ===================================================================== *)

Lemma sys_ok {A : Type} (c : syscall)
    (effect : gmap string file → option (A * gmap string file))
    (a : A) (g : gmap string file) w :
  faults w = [] → effect (fs w) = Some (a, g) →
  ∃ w', sys c effect w = (Ret a, w') ∧ fs w' = g ∧ faults w' = [] ∧
        console w' = console w ∧ alerts w' = alerts w ∧
        trace w' = (trace w ++ [(c, true)])%list.
Proof.
  intros Hno He. unfold sys, pop_fault. rewrite Hno, He.
  eexists. split; [reflexivity|]. done.
Qed.

Lemma plain_ret {A : Type} (a : A) : plain_io (ret a).
Proof. intros w r w' [= <- <-]. repeat split; try done. Qed.

Lemma plain_lift_ret {A : Type} (a : A) : plain_io (lift (Ret a)).
Proof. intros w r w' [= <- <-]. repeat split; try done. Qed.

Lemma plain_exists (p : string) : plain_io (sys_exists p).
Proof. intros w r w' [= <- <-]. repeat split; try done. Qed.

Lemma plain_sys {A : Type} (c : syscall)
    (effect : gmap string file → option (A * gmap string file)) :
  plain_io (sys c effect).
Proof.
  intros w r w' H. apply sys_inv in H as (Ha & Hc & Hf & Hcase).
  split; [done|]. split; [done|]. split.
  - intros Hno. by rewrite Hf, Hno.
  - intros e ->. by destruct Hcase as [(a & ? & _)|([= <-] & _)].
Qed.

Lemma plain_bind {A B : Type} (m : io A) (k : A → io B) :
  plain_io m → (∀ a, plain_io (k a)) → plain_io (bind m k).
Proof.
  intros Hm Hk w r w' H.
  apply bind_inv in H as [(a & w1 & H1 & H2)|(e & H1 & ->)].
  - apply Hm in H1 as (Hc1 & Ha1 & Hf1 & _).
    apply Hk in H2 as (Hc2 & Ha2 & Hf2 & He2).
    split; [congruence|]. split; [congruence|]. split; [auto|done].
  - apply Hm in H1 as (Hc1 & Ha1 & Hf1 & He1).
    split; [done|]. split; [done|]. split; [done|].
    intros e' [= <-]. by apply He1.
Qed.

Lemma plain_closing (p : string) (body : io unit) :
  plain_io body →
  plain_io (fun w =>
              match body w with
              | (Ret _, w') => sys_close p w'
              | (Raise e, w') => (Raise e, log_call (SysClose p) true w')
              end).
Proof.
  intros Hb w r w' H. destruct (body w) as [[u|e] w1] eqn:Hbody.
  - apply Hb in Hbody as (Hc1 & Ha1 & Hf1 & _).
    apply plain_sys in H as (Hc2 & Ha2 & Hf2 & He2).
    split; [congruence|]. split; [congruence|]. split; [auto|done].
  - injection H as <- <-. apply Hb in Hbody as (Hc1 & Ha1 & Hf1 & He1).
    cbn [console alerts faults log_call]. split; [done|]. split; [done|].
    split; [done|]. intros e' [= <-]. by apply He1.
Qed.

Lemma plain_with_open_write L (p : string) (body : io unit) :
  plain_io body → plain_io (with_open_write L p body).
Proof.
  intros Hb. unfold with_open_write. apply plain_bind; [apply plain_sys|].
  intros _. by apply plain_closing.
Qed.

Lemma plain_with_open_append L (p : string) (body : io unit) :
  plain_io body → plain_io (with_open_append L p body).
Proof.
  intros Hb. unfold with_open_append. apply plain_bind; [apply plain_sys|].
  intros _. by apply plain_closing.
Qed.

(** A file created, filled and closed when nothing fails. *)
Lemma closing_ok (p : string) (body : io unit) w w1 :
  faults w1 = [] → body w = (Ret tt, w1) →
  ∃ w2, match body w with
        | (Ret _, w') => sys_close p w'
        | (Raise e, w') => (Raise e, log_call (SysClose p) true w')
        end = (Ret tt, w2) ∧
        fs w2 = fs w1 ∧ faults w2 = [] ∧ console w2 = console w1 ∧
        alerts w2 = alerts w1.
Proof.
  intros Hno ->.
  destruct (sys_ok (SysClose p) (fun g => Some (tt, g)) tt (fs w1) w1 Hno eq_refl)
    as (w2 & Hrun & ? & ? & ? & ? & _).
  exists w2. done.
Qed.

Lemma create_ok L (p data : string) (body : io unit) w :
  faults w = [] → fs w !! p = None →
  (∀ w1, faults w1 = [] → fs w1 !! p = Some (File "" (create_mode L)) →
     ∃ w2, body w1 = (Ret tt, w2) ∧
           fs w2 = <[p := File data (create_mode L)]> (fs w1) ∧
           faults w2 = [] ∧ console w2 = console w1 ∧ alerts w2 = alerts w1) →
  ∃ w', (with_open_write L p body;; sys_chmod p mode_600) w = (Ret tt, w') ∧
        fs w' = <[p := File data mode_600]> (fs w) ∧ faults w' = [] ∧
        console w' = console w ∧ alerts w' = alerts w.
Proof.
  intros Hno Hp Hbody. unfold with_open_write.
  destruct (sys_ok (SysOpenWrite p)
              (fun g =>
                 let m := match g !! p with
                          | Some f => f_mode f
                          | None => create_mode L
                          end in
                 Some (tt, <[p := File "" m]> g))
              tt (<[p := File "" (create_mode L)]> (fs w)) w Hno)
    as (w1 & Hopen & Hfs1 & Hno1 & Hc1 & Ha1 & _).
  { cbv zeta. by rewrite Hp. }
  destruct (Hbody w1 Hno1) as (w2 & Hb & Hfs2 & Hno2 & Hc2 & Ha2).
  { rewrite Hfs1. apply lookup_insert_eq. }
  destruct (closing_ok p body w1 w2 Hno2 Hb)
    as (w3 & Hclose & Hfs3 & Hno3 & Hc3 & Ha3).
  destruct (sys_ok (SysChmod p mode_600)
              (fun g => f ← g !! p; Some (tt, <[p := File (f_content f) mode_600]> g))
              tt (<[p := File data mode_600]> (fs w3)) w3 Hno3)
    as (w4 & Hchmod & Hfs4 & Hno4 & Hc4 & Ha4 & _).
  { rewrite Hfs3, Hfs2, lookup_insert_eq. done. }
  exists w4. split.
  - change (sys_open_write L p w = (Ret tt, w1)) in Hopen.
    unfold bind. rewrite Hopen, Hclose. exact Hchmod.
  - split; [|split; [done|split; congruence]].
    rewrite Hfs4, Hfs3, Hfs2, Hfs1. by rewrite !insert_insert_eq.
Qed.

(* ===================================================================== *)
(** * Setting up the database *)
(* ===================================================================== *)

Lemma create_block_keeps L (p : string) (body : io unit) w r w' :
  fs w !! p = None →
  respects (frame (fun q => q = p)) body →
  (with_open_write L p body;; sys_chmod p mode_600) w = (r, w') →
  ∀ q f, fs w !! q = Some f → fs w' !! q = Some f.
Proof.
  intros Hp Hbody Hrun q f Hq.
  assert (Hfr : respects (frame (fun q => q = p))
                  (with_open_write L p body;; sys_chmod p mode_600)).
  { apply respects_bind; [by apply respects_with_open_write|].
    intros _. by apply respects_chmod. }
  apply Hfr in Hrun as (Hfs & _). rewrite Hfs; [done|].
  intros ->. congruence.
Qed.

Lemma write_body_ok (p text : string) (m : Z) w1 :
  faults w1 = [] → fs w1 !! p = Some (File "" m) →
  ∃ w2, sys_write p text w1 = (Ret tt, w2) ∧
        fs w2 = <[p := File text m]> (fs w1) ∧
        faults w2 = [] ∧ console w2 = console w1 ∧ alerts w2 = alerts w1.
Proof.
  intros Hno Hp.
  destruct (sys_ok (SysWrite p text)
              (fun g => f ← g !! p;
                        Some (tt, <[p := File (f_content f ++ text) (f_mode f)]> g))
              tt (<[p := File text m]> (fs w1)) w1 Hno)
    as (w2 & Hrun & ? & ? & ? & ? & _).
  { rewrite Hp. done. }
  exists w2. done.
Qed.

Lemma ret_body_ok (p : string) (m : Z) w1 :
  faults w1 = [] → fs w1 !! p = Some (File "" m) →
  ∃ w2, ret tt w1 = (Ret tt, w2) ∧
        fs w2 = <[p := File "" m]> (fs w1) ∧
        faults w2 = [] ∧ console w2 = console w1 ∧ alerts w2 = alerts w1.
Proof.
  intros Hno Hp. exists w1. split; [done|]. split; [|done].
  by rewrite insert_id.
Qed.

(** One of the two blocks of [initialize_database], after its test. *)
Lemma init_block_inv L (p : string) (body : io unit) w r w' :
  respects (frame (fun q => q = p)) body → plain_io body →
  (if negb (bool_decide (is_Some (fs w !! p)))
   then with_open_write L p body;; sys_chmod p mode_600
   else ret tt) w = (r, w') →
  (∀ q f, fs w !! q = Some f → fs w' !! q = Some f) ∧
  console w' = console w ∧ alerts w' = alerts w ∧
  (r = Ret tt ∨ r = Raise OSError).
Proof.
  intros Hfr Hpl Hk.
  destruct (fs w !! p) as [f|] eqn:Hp.
  - rewrite bool_decide_eq_true_2 in Hk by eauto. injection Hk as <- <-. auto.
  - rewrite bool_decide_eq_false_2 in Hk by (by intros [? ?]).
    cbn [negb] in Hk. split; [by eapply create_block_keeps|].
    assert (Hplain : plain_io (with_open_write L p body;; sys_chmod p mode_600)).
    { apply plain_bind; [by apply plain_with_open_write|].
      intros _. apply plain_sys. }
    apply Hplain in Hk as (Hc & Ha & _ & He). split; [done|]. split; [done|].
    destruct r as [[]|e]; [by left|right]. f_equal. by apply He.
Qed.

Lemma init_block_ok L (p data : string) (body : io unit) w :
  faults w = [] →
  (∀ w1, faults w1 = [] → fs w1 !! p = Some (File "" (create_mode L)) →
     ∃ w2, body w1 = (Ret tt, w2) ∧
           fs w2 = <[p := File data (create_mode L)]> (fs w1) ∧
           faults w2 = [] ∧ console w2 = console w1 ∧ alerts w2 = alerts w1) →
  ∃ w', (if negb (bool_decide (is_Some (fs w !! p)))
         then with_open_write L p body;; sys_chmod p mode_600
         else ret tt) w = (Ret tt, w') ∧
        fs w' = <[p := default (File data mode_600) (fs w !! p)]> (fs w) ∧
        faults w' = [].
Proof.
  intros Hno Hbody. destruct (fs w !! p) as [f|] eqn:Hp.
  - exists w. rewrite bool_decide_eq_true_2 by eauto.
    cbn [negb default]. split; [done|]. split; [|done]. by rewrite insert_id.
  - destruct (create_ok L p data body w Hno Hp Hbody)
      as (w' & Hrun & Hfs & Hno' & _).
    exists w'. rewrite bool_decide_eq_false_2 by (by intros [? ?]).
    cbn [negb default]. done.
Qed.

Lemma initialize_database_inv L (file_info file_event : string) w r w' :
  initialize_database L file_info file_event w = (r, w') →
  (∀ p f, fs w !! p = Some f → fs w' !! p = Some f) ∧
  console w' = console w ∧ alerts w' = alerts w ∧
  (r = Ret JNull ∨ r = Raise OSError).
Proof.
  intros Hrun. unfold initialize_database in Hrun.
  pose proof (respects_ret (fun q => q = file_info) tt) as Hfr1.
  pose proof (plain_ret tt) as Hpl1.
  pose proof (respects_write (fun q => q = file_event) file_event
                (dumps L (JDict [])) eq_refl) as Hfr2.
  pose proof (plain_sys (SysWrite file_event (dumps L (JDict [])))
                (fun g => f ← g !! file_event;
                          Some (tt, <[file_event :=
                                        File (f_content f ++ dumps L (JDict []))
                                             (f_mode f)]> g))) as Hpl2.
  apply bind_inv in Hrun as [(e & w0 & He & Hk)|(e & He & _)];
    [|by rewrite sys_exists_eq in He].
  rewrite sys_exists_eq in He. injection He as <- <-.
  apply bind_inv in Hk as [(u & w1 & H1 & Hk)|(e & H1 & ->)].
  2: { apply (init_block_inv L _ _ _ _ _ Hfr1 Hpl1) in H1
         as (Hk1 & Hc1 & Ha1 & Hr1).
       destruct Hr1 as [?|[= ->]]; [done|]. auto. }
  apply (init_block_inv L _ _ _ _ _ Hfr1 Hpl1) in H1 as (Hk1 & Hc1 & Ha1 & _).
  apply bind_inv in Hk as [(e & w0 & He & Hk)|(e & He & _)];
    [|by rewrite sys_exists_eq in He].
  rewrite sys_exists_eq in He. injection He as <- <-.
  apply bind_inv in Hk as [(u' & w2 & H2 & Hk)|(e & H2 & ->)].
  - injection Hk as <- <-.
    apply (init_block_inv L _ _ _ _ _ Hfr2 Hpl2) in H2 as (Hk2 & Hc2 & Ha2 & _).
    split; [auto|]. split; [congruence|]. split; [congruence|]. by left.
  - apply (init_block_inv L _ _ _ _ _ Hfr2 Hpl2) in H2 as (Hk2 & Hc2 & Ha2 & Hr2).
    split; [auto|]. split; [congruence|]. split; [congruence|].
    destruct Hr2 as [?|[= ->]]; [done|]. auto.
Qed.

Lemma initialize_database_ok L (file_info file_event : string) w :
  faults w = [] →
  ∃ w', initialize_database L file_info file_event w = (Ret JNull, w') ∧
        fs w' = <[file_event := default (File (dumps L (JDict [])) mode_600)
                                        (<[file_info :=
                                             default (File "" mode_600)
                                                     (fs w !! file_info)]>
                                           (fs w) !! file_event)]>
                  (<[file_info := default (File "" mode_600) (fs w !! file_info)]>
                     (fs w)) ∧
        faults w' = [].
Proof.
  intros Hno. unfold initialize_database.
  rewrite (bind_ok _ _ _ _ _ (sys_exists_eq file_info w)).
  destruct (init_block_ok L file_info "" (ret tt) w Hno)
    as (w1 & H1 & Hfs1 & Hno1).
  { intros w1 ? ?. by apply ret_body_ok. }
  rewrite (bind_ok _ _ _ _ _ H1).
  rewrite (bind_ok _ _ _ _ _ (sys_exists_eq file_event w1)).
  destruct (init_block_ok L file_event (dumps L (JDict []))
              (sys_write file_event (dumps L (JDict []))) w1 Hno1)
    as (w2 & H2 & Hfs2 & Hno2).
  { intros w2 ? ?. by apply write_body_ok. }
  rewrite (bind_ok _ _ _ _ _ H2).
  exists w2. split; [done|]. split; [|done]. by rewrite Hfs2, Hfs1.
Qed.

(** X14.  [initialize_database] never changes a file that exists, prints
    nothing and fails with [OSError] only.  When nothing fails it returns
    with both files there: a missing store is created empty, a missing
    index as the text of [{}], both with mode 0o600; and calling it again
    then changes nothing at all. *)
Theorem initialize_database_keeps_existing (L : pylib)
    (file_info file_event : string) (w w' : world) (r : outcome json) :
  initialize_database L file_info file_event w = (r, w') →
  (∀ p f, fs w !! p = Some f → fs w' !! p = Some f) ∧
  console w' = console w ∧ alerts w' = alerts w ∧
  (r = Ret JNull ∨ r = Raise OSError) ∧
  (faults w = [] → file_info ≠ file_event →
   r = Ret JNull ∧
   fs w' = <[file_event := default (File (dumps L (JDict [])) mode_600)
                                   (fs w !! file_event)]>
             (<[file_info := default (File "" mode_600) (fs w !! file_info)]>
                (fs w)) ∧
   initialize_database L file_info file_event w' = (Ret JNull, w')).
Proof.
  intros Hrun.
  destruct (initialize_database_inv _ _ _ _ _ _ Hrun) as (Hk & Hc & Ha & Hr).
  do 4 (split; [done|]). intros Hno Hne.
  destruct (initialize_database_ok L file_info file_event w Hno)
    as (w1 & Hrun1 & Hfs1 & Hno1).
  rewrite Hrun1 in Hrun. injection Hrun as <- <-. split; [done|].
  rewrite lookup_insert_ne in Hfs1 by done. split; [done|].
  destruct (initialize_database_ok L file_info file_event w1 Hno1)
    as (w2 & Hrun2 & Hfs2 & Hno2).
  assert (Hi : is_Some (fs w1 !! file_info)).
  { rewrite Hfs1, lookup_insert_ne, lookup_insert_eq by done. eauto. }
  assert (He : is_Some (fs w1 !! file_event)).
  { rewrite Hfs1, lookup_insert_eq. eauto. }
  unfold initialize_database.
  rewrite (bind_ok _ _ _ _ _ (sys_exists_eq file_info w1)).
  rewrite bool_decide_eq_true_2 by done. cbn [negb].
  rewrite (bind_ok _ _ w1 tt w1) by done.
  rewrite (bind_ok _ _ _ _ _ (sys_exists_eq file_event w1)).
  rewrite bool_decide_eq_true_2 by done. cbn [negb].
  by rewrite (bind_ok _ _ w1 tt w1) by done.
Qed.

Lemma initialize_database_keeps_existing_witness :
  let w := Example.world_of [("/db", File Example.store_text 420)] [] in
  let run := initialize_database MiniJson.lib "/db" "/idx" w in
  fs (snd run) !! "/db" = Some (File Example.store_text 420) ∧
  fs (snd run) !! "/idx" = Some (File "{}" mode_600).
Proof.
  destruct (initialize_database_keeps_existing MiniJson.lib "/db" "/idx"
              (Example.world_of [("/db", File Example.store_text 420)] [])
              (snd (initialize_database MiniJson.lib "/db" "/idx"
                      (Example.world_of
                         [("/db", File Example.store_text 420)] [])))
              (fst (initialize_database MiniJson.lib "/db" "/idx"
                      (Example.world_of
                         [("/db", File Example.store_text 420)] []))))
    as (Hk & _).
  - by destruct (initialize_database _ _ _ _).
  - split; [apply Hk; reflexivity|]. vm_compute. reflexivity.
Defined.

(** X15.  On a database that [initialize_database] has just created,
    every query gives its empty answer: nothing is listed, no path is
    monitored and no details are found. *)
Theorem fresh_database_is_empty (L : pylib) (path file_info file_event : string)
    (w w' : world) :
  faults w = [] →
  file_info ≠ file_event →
  fs w !! file_info = None →
  initialize_database L file_info file_event w = (Ret JNull, w') →
  fst (show_all_file_monitored L file_info w') = Ret (JList []) ∧
  fst (is_file_already_monitored L path file_info w') = Ret (JBool false) ∧
  fst (show_file_monitored_info L path file_info w') = Ret JNull ∧
  fst (get_all_monitored_paths L file_info w') = Ret [].
Proof.
  intros Hno Hne Hmiss Hrun.
  destruct (initialize_database_ok L file_info file_event w Hno)
    as (w1 & Hrun1 & Hfs1 & Hno1).
  rewrite Hrun1 in Hrun. injection Hrun as <-.
  assert (Hf : fs w1 !! file_info = Some (File "" mode_600)).
  { rewrite Hfs1, lookup_insert_ne, lookup_insert_eq, Hmiss by done. done. }
  rewrite (show_all_ok L file_info w1 Hno1),
          (member_ok L path file_info w1 Hno1),
          (show_details_ok L path file_info w1 Hno1),
          (paths_ok L file_info w1 Hno1), Hf.
  done.
Qed.

Lemma fresh_database_is_empty_witness :
  let w := Example.world_of [] [] in
  let w' := snd (initialize_database MiniJson.lib "/db" "/idx" w) in
  faults w = [] ∧ "/db" ≠ "/idx" ∧ fs w !! "/db" = None ∧
  fst (is_file_already_monitored MiniJson.lib "/tmp/a" "/db" w')
    = Ret (JBool false).
Proof.
  split; [reflexivity|]. split; [done|]. split; [reflexivity|].
  apply (fresh_database_is_empty MiniJson.lib "/tmp/a" "/db" "/idx"
           (Example.world_of [] [])
           (snd (initialize_database MiniJson.lib "/db" "/idx"
                   (Example.world_of [] [])))).
  - reflexivity.
  - done.
  - reflexivity.
  - vm_compute. reflexivity.
Defined.

(* ===================================================================== *)
(** * Files that are only extended *)
(* ===================================================================== *)

Lemma extended_refl (p : string) w : extended p w w.
Proof.
  split; [done|]. intros c m H. exists "". by rewrite append_empty_r.
Qed.

Lemma extended_trans (p : string) w1 w2 w3 :
  extended p w1 w2 → extended p w2 w3 → extended p w1 w3.
Proof.
  intros [Ho1 Hp1] [Ho2 Hp2]. split.
  - intros q f Hq Hf. by apply Ho2, Ho1.
  - intros c m H. apply Hp1 in H as [x H]. apply Hp2 in H as [y H].
    exists (x ++ y). by rewrite <- append_assoc.
Qed.

Lemma extended_same (p : string) w w' : fs w' = fs w → extended p w w'.
Proof.
  intros H. split.
  - intros q f _. by rewrite H.
  - intros c m Hf. exists "". by rewrite H, append_empty_r.
Qed.

Lemma extended_sys {A : Type} (p : string) (c : syscall)
    (effect : gmap string file → option (A * gmap string file)) w r w' :
  (∀ g a g', effect g = Some (a, g') →
     (∀ q f, q ≠ p → g !! q = Some f → g' !! q = Some f) ∧
     (∀ c m, g !! p = Some (File c m) →
             ∃ x, g' !! p = Some (File (c ++ x) m))) →
  sys c effect w = (r, w') → extended p w w'.
Proof.
  intros He H. apply sys_inv in H as (_ & _ & _ & Hcase).
  destruct Hcase as [(a & _ & Heff & _)|(_ & Hfs & _)].
  - by apply He in Heff.
  - by apply extended_same.
Qed.

Lemma extended_open_append L (p : string) w r w' :
  sys_open_append L p w = (r, w') → extended p w w'.
Proof.
  apply extended_sys. intros g a g' [= _ <-]. split.
  - intros q f Hq Hf. destruct (g !! p); [done|].
    by rewrite lookup_insert_ne.
  - intros c m Hp. rewrite Hp. exists "". by rewrite append_empty_r.
Qed.

Lemma extended_write (p data : string) w r w' :
  sys_write p data w = (r, w') → extended p w w'.
Proof.
  apply extended_sys. intros g a g' Heff.
  destruct (g !! p) as [[c m]|] eqn:Hp; [|done].
  injection Heff as _ <-. split.
  - intros q f Hq Hf. by rewrite lookup_insert_ne.
  - intros c' m' [= <- <-]. exists data. by rewrite lookup_insert_eq.
Qed.

Lemma extended_close (p q : string) w r w' :
  sys_close q w = (r, w') → extended p w w'.
Proof.
  intros H. apply extended_same.
  apply sys_inv in H as (_ & _ & _ & [(a & _ & [= _ ->] & _)|(_ & ? & _)]);
    done.
Qed.

Lemma extended_with_open_append L (p data : string) w r w' :
  with_open_append L p (sys_write p data) w = (r, w') → extended p w w'.
Proof.
  intros H. unfold with_open_append in H.
  apply bind_inv in H as [(u & w1 & Hopen & Hk)|(e & Hopen & _)];
    [|by apply extended_open_append in Hopen].
  apply extended_open_append in Hopen.
  apply (extended_trans p w w1 w'); [done|].
  destruct (sys_write p data w1) as [[u'|e] w2] eqn:Hw.
  - apply extended_write in Hw. apply extended_close with (p := p) in Hk.
    by apply (extended_trans p w1 w2 w').
  - injection Hk as _ <-. apply extended_write in Hw.
    destruct Hw as [Ho Hp]. split; [done|]. done.
Qed.

(* ===================================================================== *)
(** * The first record of a file *)
(* ===================================================================== *)

Lemma save_initial_info_inv L V (path : string) (we am : json) w r w' :
  save_initial_info L V path we am w = (r, w') →
  extended file_info_db w w' ∧ console w' = console w ∧ alerts w' = alerts w ∧
  (r = Ret JNull ∨ r = Raise OSError).
Proof.
  intros H. unfold save_initial_info in H.
  apply bind_inv in H as [(info & w0 & Hinfo & Hk)|(e & Hinfo & ->)].
  2: { injection Hinfo as Hinfo <-. split; [apply extended_refl|].
       split; [done|]. split; [done|]. right. f_equal.
       unfold load_file_info in Hinfo.
       by destruct (os_stat V (abspath L path)); [|injection Hinfo as <-]. }
  injection Hinfo as Hinfo <-.
  apply bind_inv in Hk as [(data & w0 & Hdata & Hk)|(e & Hdata & ->)].
  2: { exfalso. injection Hdata as Hdata _. unfold load_file_info in Hinfo.
       destruct (os_stat V (abspath L path)); [|done].
       by injection Hinfo as <-. }
  injection Hdata as Hdata <-.
  assert (Hplain : plain_io (with_open_append L file_info_db
                               (sys_write file_info_db (dumps L data ++ nl)))).
  { apply plain_with_open_append, plain_sys. }
  apply bind_inv in Hk as [(u & w1 & Happ & Hk)|(e & Happ & ->)].
  - injection Hk as <- <-.
    split; [by apply extended_with_open_append in Happ|].
    apply Hplain in Happ as (? & ? & _). auto.
  - split; [by apply extended_with_open_append in Happ|].
    apply Hplain in Happ as (? & ? & _ & He).
    split; [done|]. split; [done|]. right. f_equal. by apply He.
Qed.

Lemma save_initial_info_ok L V (path : string) (we am info data : json) w :
  faults w = [] →
  load_file_info L V path = Ret info →
  py_setitem info "monitoring" (initial_monitoring V we am) = Ret data →
  ∃ w', save_initial_info L V path we am w = (Ret JNull, w') ∧
        fs w' = <[file_info_db :=
                    File (content_of (fs w !! file_info_db) ++ dumps L data ++ nl)
                         (match fs w !! file_info_db with
                          | Some f => f_mode f
                          | None => create_mode L
                          end)]> (fs w) ∧
        faults w' = [].
Proof.
  intros Hno Hinfo Hdata. unfold save_initial_info, initial_monitoring in *.
  unfold bind at 1. unfold lift at 1. rewrite Hinfo.
  unfold bind at 1. unfold lift at 1. rewrite Hdata.
  set (p := file_info_db). set (line := dumps L data ++ nl).
  set (c := content_of (fs w !! p)).
  set (m := match fs w !! p with Some f => f_mode f | None => create_mode L end).
  destruct (sys_ok (SysOpenWrite p)
              (fun g => Some (tt, match g !! p with
                                  | Some _ => g
                                  | None => <[p := File "" (create_mode L)]> g
                                  end))
              tt (<[p := File c m]> (fs w)) w Hno)
    as (w1 & Hopen & Hfs1 & Hno1 & _).
  { f_equal. f_equal. subst c m. destruct (fs w !! p) as [[c0 m0]|] eqn:Hp.
    - by rewrite insert_id.
    - done. }
  change (sys_open_append L p w = (Ret tt, w1)) in Hopen.
  destruct (sys_ok (SysWrite p line)
              (fun g => f ← g !! p;
                        Some (tt, <[p := File (f_content f ++ line) (f_mode f)]> g))
              tt (<[p := File (c ++ line) m]> (fs w1)) w1 Hno1)
    as (w2 & Hwrite & Hfs2 & Hno2 & _).
  { by rewrite Hfs1, lookup_insert_eq. }
  change (sys_write p line w1 = (Ret tt, w2)) in Hwrite.
  destruct (closing_ok p (sys_write p line) w1 w2 Hno2 Hwrite)
    as (w3 & Hclose & Hfs3 & Hno3 & _).
  exists w3. split.
  - unfold with_open_append, bind, ret. by rewrite Hopen, Hclose.
  - split; [|done]. rewrite Hfs3, Hfs2, Hfs1. by rewrite insert_insert_eq.
Qed.

Lemma find_monitored_app L (q : string) (ls rest : list string) :
  find_monitored L q (ls ++ rest) =
  match find_monitored L q ls with
  | Ret false => find_monitored L q rest
  | r => r
  end.
Proof.
  induction ls as [|raw ls IH]; [done|]. cbn [app find_monitored].
  destruct (str_eqb (strip raw) ""); [done|].
  destruct (loads L (strip raw)) as [data|]; [|done].
  destruct (record_path data) as [pth|e]; cbn [obind]; [|done].
  by destruct (py_eq pth (JStr q)).
Qed.

Lemma record_path_setitem (info data : json) (mon : json) :
  py_setitem info "monitoring" mon = Ret data →
  record_path data = record_path info.
Proof.
  destruct info as [| | | | |d]; try done. intros [= <-].
  unfold record_path. cbn [py_get].
  rewrite dict_get_set_ne by done. done.
Qed.

Lemma load_file_info_path L V (path : string) (info : json) :
  load_file_info L V path = Ret info →
  record_path info = Ret (JStr (abspath L path)).
Proof.
  unfold load_file_info. destruct (os_stat V (abspath L path)); [|done].
  intros [= <-]. apply format_json_path.
Qed.

(** X16.  When nothing fails, the last line of the store is ended and the
    library reads back the line it writes, [save_initial_info] puts one
    line at the end of the store and changes no other file; afterwards
    [is_file_already_monitored] answers as before, except that it answers
    True for the path of the file where it answered False. *)
Theorem added_file_is_monitored (L : pylib) (V : osview) (path : string)
    (watch_event alert_mode info data : json) (w : world) :
  faults w = [] →
  load_file_info L V path = Ret info →
  py_setitem info "monitoring" (initial_monitoring V watch_event alert_mode)
    = Ret data →
  round_trips L data →
  complete (content_of (fs w !! file_info_db)) →
  ∃ w',
    save_initial_info L V path watch_event alert_mode w = (Ret JNull, w') ∧
    content_of (fs w' !! file_info_db) =
      content_of (fs w !! file_info_db) ++ dumps L data ++ nl ∧
    (∀ q f, q ≠ file_info_db → fs w !! q = Some f → fs w' !! q = Some f) ∧
    (∀ q,
       fst (is_file_already_monitored L q file_info_db w') =
       match fst (is_file_already_monitored L q file_info_db w) with
       | Ret (JBool false) =>
           Ret (JBool (bool_decide (abspath L q = abspath L path)))
       | r => r
       end).
Proof.
  intros Hno Hinfo Hdata Hrt Hcomplete.
  destruct (save_initial_info_ok L V path watch_event alert_mode info data w
              Hno Hinfo Hdata) as (w' & Hrun & Hfs & Hno').
  exists w'. split; [done|].
  assert (Hf : fs w' !! file_info_db =
               Some (File (content_of (fs w !! file_info_db) ++ dumps L data ++ nl)
                          (match fs w !! file_info_db with
                           | Some f => f_mode f
                           | None => create_mode L
                           end))).
  { rewrite Hfs. apply lookup_insert_eq. }
  split; [by rewrite Hf|]. split.
  { intros q f Hq Hqf. by rewrite Hfs, lookup_insert_ne. }
  intros q. rewrite (member_ok L q file_info_db w' Hno'), Hf.
  cbn [fst scan_or f_content]. unfold member_scan at 1.
  rewrite (read_lines_app _ _ Hcomplete).
  destruct Hrt as (Hload & Hone & Hstrip & Hne).
  assert (Hline : read_lines (dumps L data ++ nl) = [dumps L data]).
  { pose proof (read_lines_unlines [dumps L data]) as H. cbn [unlines] in H.
    rewrite append_empty_r in H. apply H. by constructor. }
  rewrite Hline, find_monitored_app.
  assert (Hrec : record_path data = Ret (JStr (abspath L path))).
  { rewrite (record_path_setitem _ _ _ Hdata).
    by apply load_file_info_path in Hinfo. }
  assert (Hlast : find_monitored L (abspath L q) [dumps L data] =
                  Ret (bool_decide (abspath L q = abspath L path))).
  { cbn [find_monitored]. rewrite Hstrip, (proj2 (str_eqb_false _ _) Hne).
    rewrite Hload, Hrec. cbn [obind py_eq]. unfold str_eqb.
    case_bool_decide as H1; case_bool_decide as H2; congruence. }
  rewrite (member_ok L q file_info_db w Hno).
  destruct (fs w !! file_info_db) as [f|] eqn:Hdb; cbn [content_of fst].
  - cbn [scan_or]. unfold member_scan.
    destruct (find_monitored L (abspath L q) (read_lines (f_content f)))
      as [[]|e] eqn:Hfind; cbn [obind]; try done.
    + by rewrite Hlast.
    + apply find_monitored_raise in Hfind as ->. done.
  - by rewrite Hlast.
Qed.

Lemma added_file_is_monitored_witness :
  let w := Example.world_of
             [(file_info_db, File (Example.line_b ++ nl) mode_600)] [] in
  let info := format_json (stat_file MiniJson.lib Example.unchanged "/tmp/a"
                             Example.stats_a) in
  let data := match info with
              | JDict d =>
                  JDict (dict_set "monitoring"
                           (initial_monitoring Example.unchanged
                              (JList [JStr "modify"]) (JStr "log")) d)
              | v => v
              end in
  faults w = [] ∧
  load_file_info MiniJson.lib Example.unchanged "/tmp/a" = Ret info ∧
  round_trips MiniJson.lib data ∧
  complete (content_of (fs w !! file_info_db)) ∧
  ∃ w', save_initial_info MiniJson.lib Example.unchanged "/tmp/a"
          (JList [JStr "modify"]) (JStr "log") w = (Ret JNull, w') ∧
        fst (is_file_already_monitored MiniJson.lib "/tmp/a" file_info_db w')
          = Ret (JBool true).
Proof.
  assert (Hrt : round_trips MiniJson.lib
                  match format_json (stat_file MiniJson.lib Example.unchanged
                                       "/tmp/a" Example.stats_a) with
                  | JDict d =>
                      JDict (dict_set "monitoring"
                               (initial_monitoring Example.unchanged
                                  (JList [JStr "modify"]) (JStr "log")) d)
                  | v => v
                  end).
  { split; [vm_compute; reflexivity|]. split; [vm_compute; reflexivity|].
    split; [vm_compute; reflexivity|]. vm_compute. discriminate. }
  assert (Hc : complete
                 (content_of
                    (fs (Example.world_of
                           [(file_info_db, File (Example.line_b ++ nl) mode_600)]
                           []) !! file_info_db))).
  { right. exists Example.line_b. vm_compute. reflexivity. }
  split; [reflexivity|]. split; [reflexivity|]. split; [exact Hrt|].
  split; [exact Hc|].
  destruct (added_file_is_monitored MiniJson.lib Example.unchanged "/tmp/a"
              (JList [JStr "modify"]) (JStr "log") _ _
              (Example.world_of
                 [(file_info_db, File (Example.line_b ++ nl) mode_600)] [])
              eq_refl eq_refl eq_refl Hrt Hc)
    as (w' & Hrun & _ & _ & Hq).
  exists w'. split; [exact Hrun|]. rewrite (Hq "/tmp/a").
  vm_compute. reflexivity.
Defined.

(* ===================================================================== *)
(** * The process level *)
(* ===================================================================== *)

Lemma pbind_inv {A B : Type} (m : proc A) (k : A → proc B) w r out w' :
  pbind m k w = (r, out, w') →
  (∃ a out1 w1 out2,
     m w = (Returned a, out1, w1) ∧ k a w1 = (r, out2, w') ∧
     out = (out1 ++ out2)%list) ∨
  (∃ e, m w = (Raised e, out, w') ∧ r = Raised e) ∨
  (∃ c, m w = (Exited c, out, w') ∧ r = Exited c) ∨
  (m w = (Blocked, out, w') ∧ r = Blocked).
Proof.
  unfold pbind. destruct (m w) as [[[a|e|c|] out1] w1].
  - destruct (k a w1) as [[r2 out2] w2] eqn:Hk. intros [= <- <- <-].
    left. by exists a, out1, w1, out2.
  - intros [= <- <- <-]. right. left. eauto.
  - intros [= <- <- <-]. right. right. left. eauto.
  - intros [= <- <- <-]. right. right. right. eauto.
Qed.

Lemma pbind_ok {A B : Type} (m : proc A) (k : A → proc B) w a out1 w1 :
  m w = (Returned a, out1, w1) →
  pbind m k w = let '(r, out2, w2) := k a w1 in (r, (out1 ++ out2)%list, w2).
Proof. unfold pbind. by intros ->. Qed.

Lemma run_inv {A : Type} (m : io A) w r out w' :
  run m w = (r, out, w') →
  out = [] ∧
  ((∃ a, m w = (Ret a, w') ∧ r = Returned a) ∨
   (∃ e, m w = (Raise e, w') ∧ r = Raised e)).
Proof.
  unfold run. destruct (m w) as [[a|e] w1]; intros [= <- <- <-]; eauto.
Qed.

Lemma run_ok {A : Type} (m : io A) w a w1 :
  m w = (Ret a, w1) → run m w = (Returned a, [], w1).
Proof. unfold run. by intros ->. Qed.

Lemma run_raise {A : Type} (m : io A) w e w1 :
  m w = (Raise e, w1) → run m w = (Raised e, [], w1).
Proof. unfold run. by intros ->. Qed.

Lemma run_bind_ok {A B : Type} (m : io A) (k : A → proc B) w a w1 :
  m w = (Ret a, w1) → pbind (run m) k w = k a w1.
Proof.
  intros H. rewrite (pbind_ok _ _ _ _ _ _ (run_ok _ _ _ _ H)).
  by destruct (k a w1) as [[r out] w2].
Qed.

Lemma run_bind_raise {A B : Type} (m : io A) (k : A → proc B) w e w1 :
  m w = (Raise e, w1) → pbind (run m) k w = (Raised e, [], w1).
Proof. intros H. unfold pbind. by rewrite (run_raise _ _ _ _ H). Qed.

(* ===================================================================== *)
(** * Removal from the index *)
(* ===================================================================== *)

Lemma existsb_key (p : string) (d : list (string * json)) :
  existsb (fun kv => str_eqb p (fst kv)) d = bool_decide (p ∈ dict_keys d).
Proof.
  unfold dict_keys. induction d as [|[k v] d IH]; [done|].
  cbn [existsb map fst]. rewrite IH. apply eq_true_iff_eq.
  rewrite orb_true_iff, !bool_decide_eq_true, str_eqb_true, elem_of_cons.
  done.
Qed.

Lemma dict_get_without (p k : string) (d : list (string * json)) :
  k ≠ p →
  dict_get k (filter (fun kv => negb (str_eqb p (fst kv))) d) = dict_get k d.
Proof.
  intros Hk. induction d as [|[k' v] d IH]; [done|].
  rewrite filter_cons. cbn [fst]. cbn [dict_get].
  destruct (str_eqb p k') eqn:Hp; cbn [negb].
  - apply str_eqb_true in Hp as <-.
    rewrite decide_False by (by intros []).
    rewrite (proj2 (str_eqb_false k p)) by done. done.
  - rewrite decide_True by done. cbn [dict_get]. by rewrite IH.
Qed.

Lemma without_key (p : string) (d : list (string * json)) :
  p ∉ dict_keys (filter (fun kv => negb (str_eqb p (fst kv))) d).
Proof.
  unfold dict_keys. intros ((k & v) & Hk & Hin)%list_elem_of_fmap.
  apply list_elem_of_filter in Hin as [Hne _]. cbn [fst] in *. subst k.
  by rewrite str_eqb_refl in Hne.
Qed.

Lemma without_absent (p : string) (d : list (string * json)) :
  existsb (fun kv => str_eqb p (fst kv)) d = false →
  filter (fun kv => negb (str_eqb p (fst kv))) d = d.
Proof.
  induction d as [|[k v] d IH]; [done|]. cbn [existsb fst].
  intros [Hk Hd]%orb_false_elim. rewrite filter_cons. cbn [fst].
  rewrite Hk. cbn [negb]. rewrite decide_True by done. by rewrite IH.
Qed.

(** The write phase of [remove_file_event] when nothing fails. *)
Lemma index_write_ok L (file : string) (data : json) (removed : bool) w :
  faults w = [] →
  ∃ w', (ok <~ ptry_os
                 (_ <~ run (write_json_block L (tmp_of file) file data);;
                  finish true)
                 (_ <~ run (cleanup_temp (tmp_of file));;
                  _ <~ say NoteErrorUpdatingIndex;;
                  finish false);;
         if ok then finish (JBool removed) else finish (JBool false)) w
        = (Returned (JBool removed), [], w') ∧
        fs w' = <[file := File (dump_indent L data) mode_600]>
                  (delete (tmp_of file) (fs w)) ∧
        faults w' = [] ∧ console w' = console w ∧ alerts w' = alerts w.
Proof.
  intros Hno.
  destruct (json_block_ok L (tmp_of file) file data w Hno (tmp_of_neq _))
    as (w' & Hrun & Hfs & _ & Hc & Ha & Hno').
  exists w'. split; [|done].
  unfold pbind at 1, ptry_os. rewrite (run_bind_ok _ _ _ _ _ Hrun).
  done.
Qed.

Lemma remove_file_event_object L (path index : string) (f : file)
    (d : list (string * json)) w :
  faults w = [] → fs w !! index = Some f →
  loads L (f_content f) = Some (JDict d) →
  ∃ w', remove_file_event L path index w
        = (Returned (JBool (bool_decide (abspath L path ∈ dict_keys d))), [], w') ∧
        fs w' = <[index := File (dump_indent L
                                  (JDict (filter (fun kv =>
                                            negb (str_eqb (abspath L path) (fst kv)))
                                          d)))
                               mode_600]>
                  (delete (tmp_of index) (fs w)) ∧
        faults w' = [] ∧ console w' = console w ∧ alerts w' = alerts w.
Proof.
  intros Hno Hf Hload. unfold remove_file_event.
  rewrite (run_bind_ok _ _ _ _ _ (exists_true _ _ _ Hf)). cbn [negb].
  assert (Hread : try_os (content <- sys_read index;; ret (Some content))
                         (ret None) w
                  = (Ret (Some (f_content f)), log_call (SysOpenRead index) true w)).
  { apply try_os_ok. by rewrite (bind_ok _ _ _ _ _ (sys_read_ok _ _ _ Hno Hf)). }
  rewrite (run_bind_ok _ _ _ _ _ Hread), Hload.
  set (w1 := log_call (SysOpenRead index) true w).
  assert (Hin : lift (py_in (abspath L path) (JDict d)) w1
                = (Ret (existsb (fun kv => str_eqb (abspath L path) (fst kv)) d),
                   w1)) by done.
  rewrite (run_bind_ok _ _ _ _ _ Hin).
  rewrite <- existsb_key.
  destruct (existsb (fun kv => str_eqb (abspath L path) (fst kv)) d) eqn:Hex.
  - assert (Hdel : lift (py_delitem (JDict d) (abspath L path)) w1
                   = (Ret (JDict (filter (fun kv =>
                                    negb (str_eqb (abspath L path) (fst kv))) d)),
                      w1)).
    { unfold lift, py_delitem. by rewrite Hex. }
    unfold pbind at 1. rewrite (run_bind_ok _ _ _ _ _ Hdel).
    unfold finish at 1. cbn [app fst snd].
    destruct (index_write_ok L index
                (JDict (filter (fun kv =>
                          negb (str_eqb (abspath L path) (fst kv))) d))
                true w1 Hno)
      as (w' & Hrun & Hfs & ? & ? & ?).
    exists w'. rewrite Hrun. done.
  - unfold pbind at 1. unfold finish at 1. cbn [app fst snd].
    rewrite (without_absent _ _ Hex).
    destruct (index_write_ok L index (JDict d) false w1 Hno)
      as (w' & Hrun & Hfs & ? & ? & ?).
    exists w'. rewrite Hrun. done.
Qed.

(** X17.  When nothing fails and the index holds a JSON object,
    [remove_file_event] returns whether the path was a key of it and
    leaves, with mode 0o600, the object without that key: the entries of
    the other paths are as they were. *)
Theorem index_entry_removed (L : pylib) (path index : string) (f : file)
    (d : list (string * json)) (w : world) :
  faults w = [] →
  fs w !! index = Some f →
  loads L (f_content f) = Some (JDict d) →
  ∃ w' d',
    remove_file_event L path index w
      = (Returned (JBool (bool_decide (abspath L path ∈ dict_keys d))), [], w') ∧
    fs w' = <[index := File (dump_indent L (JDict d')) mode_600]>
              (delete (tmp_of index) (fs w)) ∧
    (abspath L path ∉ dict_keys d') ∧
    (∀ k, k ≠ abspath L path → dict_get k d' = dict_get k d) ∧
    (abspath L path ∉ dict_keys d → d' = d).
Proof.
  intros Hno Hf Hload.
  destruct (remove_file_event_object L path index f d w Hno Hf Hload)
    as (w' & Hrun & Hfs & _).
  exists w'. eexists. split; [exact Hrun|]. split; [exact Hfs|].
  split; [apply without_key|]. split.
  - intros k Hk. by apply dict_get_without.
  - intros Hnot. apply without_absent. rewrite existsb_key.
    by apply bool_decide_eq_false.
Qed.

Lemma index_entry_removed_witness :
  let w := Example.world_of [("/idx", File Sample.index_text mode_600)] [] in
  faults w = [] ∧
  fs w !! "/idx" = Some (File Sample.index_text mode_600) ∧
  loads MiniJson.lib Sample.index_text = Some (JDict Sample.index_entries) ∧
  ∃ w', remove_file_event MiniJson.lib "/tmp/a" "/idx" w
        = (Returned (JBool true), [], w') ∧
        fs w' !! "/idx" =
          Some (File (MiniJson.dump_indent
                        (JDict [("/tmp/b", Sample.index_entry)])) mode_600).
Proof.
  split; [reflexivity|]. split; [reflexivity|].
  split; [vm_compute; reflexivity|].
  destruct (index_entry_removed MiniJson.lib "/tmp/a" "/idx"
              (File Sample.index_text mode_600) Sample.index_entries
              (Example.world_of [("/idx", File Sample.index_text mode_600)] []))
    as (w' & d' & Hrun & Hfs & _).
  - reflexivity.
  - reflexivity.
  - vm_compute. reflexivity.
  - exists w'. split; [exact Hrun|].
    pose proof (f_equal fst (f_equal fst Hrun)) as Hr.
    pose proof (f_equal snd Hrun) as Hw. cbn [fst snd] in Hr, Hw.
    rewrite <- Hw. vm_compute. reflexivity.
Defined.

(* ===================================================================== *)
(** * The command that removes a file *)
(* ===================================================================== *)

(** [remove_file_event] when nothing fails, whatever the index holds. *)
Lemma remove_file_event_safe L (path index : string) w r out w' :
  faults w = [] →
  remove_file_event L path index w = (r, out, w') →
  out = [] ∧ faults w' = [] ∧
  (∀ q, q ≠ index → q ≠ tmp_of index → fs w' !! q = fs w !! q) ∧
  ((∃ b, r = Returned (JBool b)) ∨ (∃ e, r = Raised e)).
Proof.
  intros Hno Hrun. unfold remove_file_event in Hrun.
  destruct (fs w !! index) as [f|] eqn:Hf.
  2: { rewrite (run_bind_ok _ _ _ _ _ (exists_false _ _ Hf)) in Hrun.
       cbn [negb] in Hrun. injection Hrun as <- <- <-. eauto 10. }
  rewrite (run_bind_ok _ _ _ _ _ (exists_true _ _ _ Hf)) in Hrun.
  cbn [negb] in Hrun.
  assert (Hread : try_os (content <- sys_read index;; ret (Some content))
                         (ret None) w
                  = (Ret (Some (f_content f)), log_call (SysOpenRead index) true w)).
  { apply try_os_ok. by rewrite (bind_ok _ _ _ _ _ (sys_read_ok _ _ _ Hno Hf)). }
  rewrite (run_bind_ok _ _ _ _ _ Hread) in Hrun.
  set (w1 := log_call (SysOpenRead index) true w) in *.
  destruct (loads L (f_content f)) as [data|].
  2: { injection Hrun as <- <- <-. eauto 10. }
  assert (Hwrite : ∀ data' removed,
            ∃ w2, (ok <~ ptry_os
                           (_ <~ run (write_json_block L (tmp_of index) index data');;
                            finish true)
                           (_ <~ run (cleanup_temp (tmp_of index));;
                            _ <~ say NoteErrorUpdatingIndex;;
                            finish false);;
                   if ok then finish (JBool removed) else finish (JBool false)) w1
                  = (Returned (JBool removed), [], w2) ∧
                  faults w2 = [] ∧
                  ∀ q, q ≠ index → q ≠ tmp_of index → fs w2 !! q = fs w !! q).
  { intros data' removed.
    destruct (index_write_ok L index data' removed w1 Hno)
      as (w2 & Hrun2 & Hfs & Hno' & _).
    exists w2. split; [done|]. split; [done|]. intros q H1 H2.
    by rewrite Hfs, lookup_insert_ne, lookup_delete_ne. }
  destruct (py_in (abspath L path) data) as [found|e] eqn:Hin.
  2: { rewrite (run_bind_raise (lift (Raise e)) _ w1 e w1) in Hrun by done.
       injection Hrun as <- <- <-. eauto 10. }
  rewrite (run_bind_ok (lift (Ret found)) _ w1 found w1) in Hrun by done.
  destruct found.
  - destruct (py_delitem data (abspath L path)) as [data'|e] eqn:Hdel.
    + unfold pbind at 1 in Hrun.
      rewrite (run_bind_ok (lift (Ret data')) _ w1 data' w1) in Hrun by done.
      unfold finish at 1 in Hrun. cbn [app fst snd] in Hrun.
      destruct (Hwrite data' true) as (w2 & Hrun2 & ? & ?).
      rewrite Hrun2 in Hrun. injection Hrun as <- <- <-. eauto 10.
    + unfold pbind at 1 in Hrun.
      rewrite (run_bind_raise (lift (Raise e)) _ w1 e w1) in Hrun by done.
      injection Hrun as <- <- <-. eauto 10.
  - unfold pbind at 1 in Hrun. unfold finish at 1 in Hrun.
    cbn [app fst snd] in Hrun.
    destruct (Hwrite data false) as (w2 & Hrun2 & ? & ?).
    rewrite Hrun2 in Hrun. injection Hrun as <- <- <-. eauto 10.
Qed.

Lemma db_files_distinct :
  FILE_INFO_DB ≠ FILE_EVENT_DB ∧ FILE_INFO_DB ≠ tmp_of FILE_EVENT_DB.
Proof. split; done. Qed.

Lemma truthy_bool (b : bool) : truthy (JBool b) = b.
Proof. done. Qed.

(** X18.  When nothing fails, [command_remove] leaves the process with
    code 1, having changed nothing, when [is_file_already_monitored]
    answers False for the path.  When it answers True the command never
    reports a failure: it raises (a record or an index of an unexpected
    shape) or prints that the file was removed, and then, on a store
    whose records are read back from their lines, the path is not
    monitored any more. *)
Theorem command_remove_outcome (L : pylib) (file : string)
    (w w0 w1 w' : world) (v : json) (r : ending unit) (out : list notice) :
  faults w = [] →
  ensure_db_exists L w = (Ret JNull, w0) →
  is_file_already_monitored L (abspath L file) FILE_INFO_DB w0 = (Ret v, w1) →
  command_remove L file w = (r, out, w') →
  (truthy v = false →
   r = Exited 1 ∧ out = [NoteNotMonitored (abspath L file)] ∧ fs w' = fs w0) ∧
  (truthy v = true →
   (∃ e, r = Raised e) ∨
   (r = Returned tt ∧ out = [NoteRemoved (abspath L file)] ∧
    (store_round_trips L (content_of (fs w0 !! FILE_INFO_DB)) →
     fst (is_file_already_monitored L (abspath L file) FILE_INFO_DB w')
       = Ret (JBool false)))).
Proof.
  intros Hno Hens Hmem Hrun.
  assert (Hno0 : faults w0 = []).
  { unfold ensure_db_exists in Hens.
    destruct (initialize_database_ok L FILE_INFO_DB FILE_EVENT_DB w Hno)
      as (w0' & H & _ & ?). rewrite H in Hens. by injection Hens as <-. }
  assert (Hw1 : fs w1 = fs w0 ∧ faults w1 = []).
  { rewrite (member_ok L _ _ w0 Hno0) in Hmem.
    destruct (fs w0 !! FILE_INFO_DB); by injection Hmem as _ <-. }
  destruct Hw1 as [Hfs1 Hno1].
  unfold command_remove in Hrun.
  rewrite (run_bind_ok _ _ _ _ _ Hens) in Hrun. cbv zeta in Hrun.
  rewrite (run_bind_ok _ _ _ _ _ Hmem) in Hrun.
  split; intros Hv; rewrite Hv in Hrun; cbn [negb] in Hrun.
  - injection Hrun as <- <- <-. done.
  - set (p := abspath L file) in *.
    assert (Hdb : ∃ f, fs w1 !! FILE_INFO_DB = Some f ∧
                       content_of (fs w0 !! FILE_INFO_DB) = f_content f ∧
                       find_monitored L (abspath L p) (read_lines (f_content f))
                         = Ret true).
    { rewrite (member_ok L _ _ w0 Hno0) in Hmem. rewrite Hfs1.
      destruct (fs w0 !! FILE_INFO_DB) as [f|]; [|by injection Hmem as <-].
      exists f. split; [done|]. split; [done|].
      injection Hmem as Hscan _. cbn [scan_or] in Hscan. unfold member_scan in Hscan.
      destruct (find_monitored L (abspath L p) (read_lines (f_content f)))
        as [[]|e] eqn:Hfind; cbn [obind] in Hscan; [done| |].
      - injection Hscan as <-. done.
      - apply find_monitored_raise in Hfind as ->. done. }
    destruct Hdb as (f & Hf & Hcontent & Hfind).
    destruct (ofold (remove_step L (abspath L p))
                (read_lines (f_content f)) ([], false))
      as [[lines removed]|e] eqn:Hfold.
    2: { rewrite (run_bind_raise _ _ _ _ _
                    (remove_info_raise L p FILE_INFO_DB f e w1 Hno1 Hf Hfold))
           in Hrun.
         injection Hrun as <- _ _. left. eauto. }
    destruct (remove_info_ok L p FILE_INFO_DB f lines removed w1 Hno1 Hf Hfold)
      as (w2 & Hrem & Hfs2 & Hno2 & _).
    rewrite (run_bind_ok _ _ _ _ _ Hrem) in Hrun.
    pose proof (remove_fold_member L _ _ _ _ _ _ Hfold) as (b & Hb & Hremoved).
    rewrite Hfind in Hb. injection Hb as <-. cbn [orb] in Hremoved. subst removed.
    destruct (remove_file_event L p FILE_EVENT_DB w2) as [[r3 out3] w3] eqn:Hev.
    destruct (remove_file_event_safe L p FILE_EVENT_DB w2 r3 out3 w3 Hno2 Hev)
      as (-> & Hno3 & Hkeep & Hr3).
    unfold pbind in Hrun. rewrite Hev in Hrun.
    destruct Hr3 as [[b ->]|[e ->]].
    + cbn [truthy orb app] in Hrun. unfold say in Hrun.
      injection Hrun as <- <- <-. right. split; [done|]. split; [done|].
      intros Hrt. rewrite Hcontent in Hrt.
      apply (remove_fold_lines L _ _ (store_round_trips_lines L _ Hrt)) in Hfold
        as (new & Hnew & Hone & Hp & _).
      cbn [app] in Hnew. subst new.
      assert (Hf3 : fs w3 !! FILE_INFO_DB = Some (File (unlines lines) mode_600)).
      { rewrite Hkeep by apply db_files_distinct. rewrite Hfs2.
        apply lookup_insert_eq. }
      rewrite (member_ok L p FILE_INFO_DB w3 Hno3), Hf3.
      cbn [fst scan_or f_content]. unfold member_scan.
      by rewrite (read_lines_unlines _ Hone), Hp.
    + injection Hrun as <- _ _. left. eauto.
Qed.

Lemma command_remove_outcome_witness :
  let w := Sample.database in
  let w0 := snd (ensure_db_exists MiniJson.lib w) in
  let w1 := snd (is_file_already_monitored MiniJson.lib "/tmp/a" FILE_INFO_DB w0) in
  let w' := snd (command_remove MiniJson.lib "/tmp/a" w) in
  faults w = [] ∧
  ensure_db_exists MiniJson.lib w = (Ret JNull, w0) ∧
  is_file_already_monitored MiniJson.lib "/tmp/a" FILE_INFO_DB w0
    = (Ret (JBool true), w1) ∧
  command_remove MiniJson.lib "/tmp/a" w
    = (Returned tt, [NoteRemoved "/tmp/a"], w') ∧
  fst (is_file_already_monitored MiniJson.lib "/tmp/a" FILE_INFO_DB w')
    = Ret (JBool false).
Proof.
  split; [reflexivity|]. split; [vm_compute; reflexivity|].
  split; [vm_compute; reflexivity|]. split; [vm_compute; reflexivity|].
  destruct (command_remove_outcome MiniJson.lib "/tmp/a" Sample.database
              (snd (ensure_db_exists MiniJson.lib Sample.database))
              (snd (is_file_already_monitored MiniJson.lib "/tmp/a" FILE_INFO_DB
                      (snd (ensure_db_exists MiniJson.lib Sample.database))))
              (snd (command_remove MiniJson.lib "/tmp/a" Sample.database))
              (JBool true) (Returned tt) [NoteRemoved "/tmp/a"])
    as [_ H].
  - reflexivity.
  - vm_compute. reflexivity.
  - vm_compute. reflexivity.
  - vm_compute. reflexivity.
  - destruct (H eq_refl) as [[e He]|(_ & _ & Hgone)]; [discriminate He|].
    apply Hgone.
    assert (Hc : content_of
                   (fs (snd (ensure_db_exists MiniJson.lib Sample.database))
                      !! FILE_INFO_DB) = Example.store_text)
      by (vm_compute; reflexivity).
    rewrite Hc. exact example_store_round_trips.
Defined.

(* ===================================================================== *)
(** * The command that adds files *)
(* ===================================================================== *)

Lemma only_extends_finish {A : Type} (p : string) (a : A) :
  only_extends p (finish a).
Proof. intros w r out w' [= <- <- <-]. apply extended_refl. Qed.

Lemma only_extends_say (p : string) (n : notice) : only_extends p (say n).
Proof. intros w r out w' [= <- <- <-]. apply extended_refl. Qed.

Lemma only_extends_exit {A : Type} (p : string) (c : Z) :
  only_extends p (@sys_exit A c).
Proof. intros w r out w' [= <- <- <-]. apply extended_refl. Qed.

Lemma only_extends_run {A : Type} (p : string) (m : io A) :
  (∀ w r w', m w = (r, w') → extended p w w') → only_extends p (run m).
Proof.
  intros Hm w r out w' Hrun. unfold run in Hrun.
  destruct (m w) as [[a|e] w1] eqn:H; injection Hrun as <- <- <-; eauto.
Qed.

Lemma only_extends_pbind {A B : Type} (p : string) (m : proc A) (k : A → proc B) :
  only_extends p m → (∀ a, only_extends p (k a)) → only_extends p (pbind m k).
Proof.
  intros Hm Hk w r out w' Hrun.
  apply pbind_inv in Hrun
    as [(a & out1 & w1 & out2 & H1 & H2 & _)|[(e & H & _)|[(c & H & _)|[H _]]]].
  - eapply extended_trans; [by eapply Hm|by eapply Hk].
  - by eapply Hm.
  - by eapply Hm.
  - by eapply Hm.
Qed.

Lemma only_extends_ptry_os {A : Type} (p : string) (m h : proc A) :
  only_extends p m → only_extends p h → only_extends p (ptry_os m h).
Proof.
  intros Hm Hh w r out w' Hrun. unfold ptry_os in Hrun.
  destruct (m w) as [[[a|e|c|] out1] w1] eqn:H1;
    try (injection Hrun as <- <- <-; by eapply Hm).
  destruct e; try (injection Hrun as <- <- <-; by eapply Hm).
  destruct (h w1) as [[r2 out2] w2] eqn:H2. injection Hrun as <- <- <-.
  eapply extended_trans; [by eapply Hm|by eapply Hh].
Qed.

Lemma only_extends_pfold {A B : Type} (p : string) (f : A → B → proc A)
    (l : list B) :
  (∀ a x, only_extends p (f a x)) → ∀ a, only_extends p (pfold f l a).
Proof.
  intros Hf. induction l as [|x l IH]; intros a; cbn [pfold].
  - apply only_extends_finish.
  - apply only_extends_pbind; [apply Hf|apply IH].
Qed.

Lemma only_extends_add_step L V (watch_events : list string) (alert : string)
    (st : list json * Z) (path : string) :
  only_extends FILE_INFO_DB (add_step L V watch_events alert st path).
Proof.
  destruct st as [existing_paths added_count]. unfold add_step.
  repeat match goal with
         | |- only_extends _ (if ?b then _ else _) => destruct b
         | |- only_extends _ (pbind _ _) => apply only_extends_pbind; [|intros ?]
         | |- only_extends _ (say _) => apply only_extends_say
         | |- only_extends _ (finish _) => apply only_extends_finish
         | |- only_extends _ (ptry_os _ _) => apply only_extends_ptry_os
         end.
  apply only_extends_run. intros w r w' H.
  by apply save_initial_info_inv in H as [? _].
Qed.

Lemma only_extends_command_add L V (args : add_args) :
  only_extends FILE_INFO_DB (command_add L V args).
Proof.
  unfold command_add. apply only_extends_pbind; [|intros _].
  { apply only_extends_run. intros w r w' H.
    apply initialize_database_inv in H as [Hkeep _].
    split; [by eauto|]. intros c m Hf. exists "".
    rewrite append_empty_r. by apply Hkeep. }
  cbv zeta. destruct (watch_events_of args) as [|ev evs].
  { repeat (apply only_extends_pbind; [|intros ?]);
      (apply only_extends_say || apply only_extends_exit). }
  apply only_extends_pbind; [|intros valid].
  { apply only_extends_run. intros w r w'. unfold lift.
    intros [= _ <-]. apply extended_refl. }
  destruct valid; cbn [negb].
  2: { repeat (apply only_extends_pbind; [|intros ?]);
         (apply only_extends_say || apply only_extends_exit). }
  apply only_extends_pbind; [|intros existing_paths].
  { apply only_extends_run. intros w r w' H.
    apply (paths_reads_only L FILE_INFO_DB) in H as [Hfs _].
    by apply extended_same. }
  apply only_extends_pbind; [|intros st].
  { apply only_extends_pfold. intros a x. apply only_extends_add_step. }
  destruct (0 <? snd st); apply only_extends_say.
Qed.

(** X19.  However it ends and whatever fails, [command_add] changes no
    file that was there, but for the store, to which it only appends: a
    store that exists keeps its content as a prefix and its mode, and an
    index that exists is left as it is, so the files added get no entry
    in it. *)
Theorem command_add_only_appends (L : pylib) (V : osview) (args : add_args)
    (w w' : world) (r : ending unit) (out : list notice) :
  command_add L V args w = (r, out, w') →
  (∀ q f, q ≠ FILE_INFO_DB → fs w !! q = Some f → fs w' !! q = Some f) ∧
  (∀ c m, fs w !! FILE_INFO_DB = Some (File c m) →
          ∃ x, fs w' !! FILE_INFO_DB = Some (File (c ++ x) m)) ∧
  (∀ f, fs w !! FILE_EVENT_DB = Some f → fs w' !! FILE_EVENT_DB = Some f).
Proof.
  intros Hrun. apply only_extends_command_add in Hrun as [Hother Hstore].
  split; [done|]. split; [done|]. intros f. by apply Hother.
Qed.

Lemma command_add_only_appends_witness :
  let w := Sample.database_b in
  let run := command_add MiniJson.lib Example.unchanged (add_default ["/tmp/a"]) w in
  fst (fst run) = Returned tt ∧
  fs (snd run) !! FILE_EVENT_DB = Some (File Sample.index_text mode_600) ∧
  ∃ x, fs (snd run) !! FILE_INFO_DB
       = Some (File ((Example.line_b ++ nl) ++ x) mode_600).
Proof.
  split; [vm_compute; reflexivity|].
  destruct (command_add_only_appends MiniJson.lib Example.unchanged
              (add_default ["/tmp/a"]) Sample.database_b
              (snd (command_add MiniJson.lib Example.unchanged
                      (add_default ["/tmp/a"]) Sample.database_b))
              (fst (fst (command_add MiniJson.lib Example.unchanged
                           (add_default ["/tmp/a"]) Sample.database_b)))
              (snd (fst (command_add MiniJson.lib Example.unchanged
                           (add_default ["/tmp/a"]) Sample.database_b))))
    as (_ & Hstore & Hindex).
  - by destruct (command_add MiniJson.lib Example.unchanged
                   (add_default ["/tmp/a"]) Sample.database_b) as [[? ?] ?].
  - split.
    + apply Hindex. reflexivity.
    + apply Hstore. reflexivity.
Defined.

(* ===================================================================== *)
(** * The construction of the watcher *)
(* ===================================================================== *)

Lemma load_files_monitored_reads_only L (store : string) :
  reads_only store [] (fun c => ofold (monitored_step L) (read_lines c) [])
             (load_files_monitored L store).
Proof. unfold load_files_monitored. by apply query_reads_only. Qed.

Lemma baselines_missing_store (l : lock_state) L (W : watcher) w :
  fs w !! monitored_files_path W = None →
  load_all_baselines_with l L W w = (Returned W, [], w).
Proof.
  intros Hf. unfold load_all_baselines_with.
  by rewrite (run_bind_ok _ _ _ _ _ (exists_false _ _ Hf)).
Qed.

Lemma baselines_without_lock L (W : watcher) (f : file) w :
  fs w !! monitored_files_path W = Some f →
  load_all_baselines_with LockMissing L W w = (Raised AttributeError, [], w).
Proof.
  intros Hf. unfold load_all_baselines_with.
  by rewrite (run_bind_ok _ _ _ _ _ (exists_true _ _ _ Hf)).
Qed.

Lemma baselines_lock_held L (W : watcher) (f : file) w :
  fs w !! monitored_files_path W = Some f →
  load_all_baselines_with LockHeld L W w = (Blocked, [], w).
Proof.
  intros Hf. unfold load_all_baselines_with.
  by rewrite (run_bind_ok _ _ _ _ _ (exists_true _ _ _ Hf)).
Qed.

(** With the store there, the construction raises. *)
Lemma new_watcher_raises L (store index : string) (f : file) w :
  fs w !! store = Some f →
  ∃ e w', new_watcher L store index w = (Raised e, [], w').
Proof.
  intros Hf. unfold new_watcher.
  destruct (load_files_monitored L store w) as [[m|e] w1] eqn:Hload.
  - rewrite (run_bind_ok _ _ _ _ _ Hload). cbv zeta.
    destruct (load_files_monitored_reads_only L store _ _ _ Hload) as (Hfs & _).
    unfold pbind. rewrite (baselines_without_lock L _ f) by by rewrite Hfs.
    eauto.
  - rewrite (run_bind_raise _ _ _ _ _ Hload). eauto.
Qed.

(** X20.  [FileWatcher.__init__] loads the baselines before it creates
    [cache_lock]: when the store exists the construction raises, with
    [AttributeError] if the configuration could be loaded, and a watcher
    is only got when the store is missing, with nothing monitored and an
    empty cache.  The construction prints nothing and changes no file. *)
Theorem watcher_construction (L : pylib) (store index : string)
    (w w' : world) (r : ending watcher) (out : list notice) :
  new_watcher L store index w = (r, out, w') →
  out = [] ∧ fs w' = fs w ∧
  (fs w !! store = None → r = Returned (Watcher store index [] []) ∧ w' = w) ∧
  (is_Some (fs w !! store) →
   ∃ e, r = Raised e ∧ e ≠ OSError ∧
        ∀ m, fst (load_files_monitored L store w) = Ret m → e = AttributeError).
Proof.
  intros Hrun. unfold new_watcher in Hrun.
  destruct (load_files_monitored L store w) as [[m|e] w1] eqn:Hload.
  - rewrite (run_bind_ok _ _ _ _ _ Hload) in Hrun. cbv zeta in Hrun.
    destruct (load_files_monitored_reads_only L store _ _ _ Hload)
      as (Hfs & _ & _ & _ & Hnone & _).
    destruct (fs w !! store) as [f|] eqn:Hf.
    + unfold pbind in Hrun.
      rewrite (baselines_without_lock L _ f) in Hrun by by rewrite Hfs.
      injection Hrun as <- <- <-. split; [done|]. split; [done|].
      split; [done|]. intros _. exists AttributeError. done.
    + destruct (Hnone eq_refl) as [[= ->] ->].
      unfold pbind in Hrun.
      rewrite (baselines_missing_store LockMissing) in Hrun by done.
      rewrite (baselines_missing_store LockFree) in Hrun by done.
      injection Hrun as <- <- <-. split; [done|]. split; [done|].
      split; [done|]. by intros [? ?].
  - rewrite (run_bind_raise _ _ _ _ _ Hload) in Hrun.
    injection Hrun as <- <- <-.
    destruct (load_files_monitored_reads_only L store _ _ _ Hload)
      as (Hfs & _ & _ & Hos & Hnone & _).
    split; [done|]. split; [done|]. split.
    + intros Hf. by destruct (Hnone Hf).
    + intros _. exists e. split; [done|]. split; [|done].
      intros ->. by apply Hos.
Qed.

Lemma watcher_construction_witness :
  let w := Sample.database in
  let run := new_watcher MiniJson.lib FILE_INFO_DB FILE_EVENT_DB w in
  is_Some (fs w !! FILE_INFO_DB) ∧
  run = (Raised AttributeError, [], snd run).
Proof.
  split; [vm_compute; eauto|].
  destruct (watcher_construction MiniJson.lib FILE_INFO_DB FILE_EVENT_DB
              Sample.database
              (snd (new_watcher MiniJson.lib FILE_INFO_DB FILE_EVENT_DB
                      Sample.database))
              (fst (fst (new_watcher MiniJson.lib FILE_INFO_DB FILE_EVENT_DB
                           Sample.database)))
              (snd (fst (new_watcher MiniJson.lib FILE_INFO_DB FILE_EVENT_DB
                           Sample.database))))
    as (Hout & _ & _ & Hthere).
  - by destruct (new_watcher MiniJson.lib FILE_INFO_DB FILE_EVENT_DB
                   Sample.database) as [[? ?] ?].
  - destruct Hthere as (e & Hr & _ & He); [vm_compute; eauto|].
    assert (e = AttributeError) as -> by (eapply He; vm_compute; reflexivity).
    destruct (new_watcher MiniJson.lib FILE_INFO_DB FILE_EVENT_DB
                Sample.database) as [[r out] w'].
    cbn [fst snd] in *. by subst.
Defined.

(* ===================================================================== *)
(** * Starting the service, reloading the configuration *)
(* ===================================================================== *)

(** A creation block of [initialize_database] that went through leaves
    its file there. *)
Lemma init_block_there L (p : string) (body : io unit) w u w' :
  (if negb (bool_decide (is_Some (fs w !! p)))
   then with_open_write L p body;; sys_chmod p mode_600
   else ret tt) w = (Ret u, w') →
  is_Some (fs w' !! p).
Proof.
  intros Hk. destruct (fs w !! p) as [f|] eqn:Hp.
  - rewrite bool_decide_eq_true_2 in Hk by eauto. injection Hk as _ <-. eauto.
  - rewrite bool_decide_eq_false_2 in Hk by (by intros [? ?]).
    cbn [negb] in Hk.
    apply bind_inv in Hk as [(a & w1 & _ & Hch)|(e & _ & ?)]; [|done].
    apply sys_inv in Hch as (_ & _ & _ & [(a' & Ha' & Heff & Htr)|(? & _)]);
      [|done].
    destruct (fs w1 !! p) as [f|]; [|done]. cbn in Heff.
    destruct a'. injection Heff as Hfs. rewrite <- Hfs, lookup_insert_eq. eauto.
Qed.

Lemma initialize_database_there L (file_info file_event : string) w v w' :
  initialize_database L file_info file_event w = (Ret v, w') →
  is_Some (fs w' !! file_info) ∧ is_Some (fs w' !! file_event).
Proof.
  intros Hrun. unfold initialize_database in Hrun.
  pose proof (respects_write (fun q => q = file_event) file_event
                (dumps L (JDict [])) eq_refl) as Hfr2.
  pose proof (plain_sys (SysWrite file_event (dumps L (JDict [])))
                (fun g => f ← g !! file_event;
                          Some (tt, <[file_event :=
                                        File (f_content f ++ dumps L (JDict []))
                                             (f_mode f)]> g))) as Hpl2.
  apply bind_inv in Hrun as [(e & w0 & He & Hk)|(e & He & _)];
    [|by rewrite sys_exists_eq in He].
  rewrite sys_exists_eq in He. injection He as <- <-.
  apply bind_inv in Hk as [(u & w1 & H1 & Hk)|(e & _ & ?)]; [|done].
  apply init_block_there in H1 as [f1 Hf1].
  apply bind_inv in Hk as [(e & w0 & He & Hk)|(e & He & _)];
    [|by rewrite sys_exists_eq in He].
  rewrite sys_exists_eq in He. injection He as <- <-.
  apply bind_inv in Hk as [(u' & w2 & H2 & Hk)|(e & _ & ?)]; [|done].
  injection Hk as _ <-.
  pose proof (init_block_inv L _ _ _ _ _ Hfr2 Hpl2 H2) as (Hk2 & _).
  apply init_block_there in H2. split; [|done].
  exists f1. by apply Hk2.
Qed.

(** How [command_start] ends, whatever follows the construction of the
    watcher. *)
Lemma command_start_cases L w :
  (∃ e out w', ∀ serve, command_start L serve w = (Raised e, out, w')) ∨
  (∃ w', ∀ serve, command_start L serve w
                  = (Exited 1, [NoteNothingMonitored; NoteAddFirst], w')).
Proof.
  destruct (ensure_db_exists L w) as [[v|e] w0] eqn:Hens.
  2: { left. exists e, [], w0. intros serve. unfold command_start.
       by rewrite (run_bind_raise _ _ _ _ _ Hens). }
  destruct (show_all_file_monitored L FILE_INFO_DB w0) as [[ms|e] w1] eqn:Hall.
  2: { left. exists e, [], w1. intros serve. unfold command_start.
       rewrite (run_bind_ok _ _ _ _ _ Hens).
       by rewrite (run_bind_raise _ _ _ _ _ Hall). }
  destruct (truthy ms) eqn:Hms.
  - assert (Hthere : is_Some (fs w1 !! FILE_INFO_DB)).
    { destruct (show_all_reads_only L FILE_INFO_DB _ _ _ Hall) as (-> & _).
      unfold ensure_db_exists in Hens.
      by apply initialize_database_there in Hens as [? _]. }
    destruct Hthere as [f Hf].
    destruct (new_watcher_raises L FILE_INFO_DB FILE_EVENT_DB f w1 Hf)
      as (e & w2 & Hnew).
    left. exists e, [NoteStarting; NoteRule], w2. intros serve.
    unfold command_start.
    rewrite (run_bind_ok _ _ _ _ _ Hens), (run_bind_ok _ _ _ _ _ Hall), Hms.
    cbn [negb]. unfold pbind at 1 2. unfold say. unfold pbind. by rewrite Hnew.
  - right. exists w1. intros serve. unfold command_start.
    rewrite (run_bind_ok _ _ _ _ _ Hens), (run_bind_ok _ _ _ _ _ Hall), Hms.
    done.
Qed.

(** X21.  [command_start] never gets to what follows the construction of
    the watcher (the signal handlers and [fw.start()]): it leaves with
    code 1 when nothing is monitored, and raises otherwise, the store
    being there after [ensure_db_exists].  Its outcome is the same
    whatever the service would do. *)
Theorem command_start_never_serves (L : pylib) (serve : watcher → proc unit)
    (w w' : world) (r : ending unit) (out : list notice) :
  command_start L serve w = (r, out, w') →
  ((∃ e, r = Raised e) ∨
   (r = Exited 1 ∧ out = [NoteNothingMonitored; NoteAddFirst])) ∧
  ∀ serve', command_start L serve' w = (r, out, w').
Proof.
  intros Hrun.
  destruct (command_start_cases L w) as [(e & out0 & w0 & H)|(w0 & H)];
    rewrite H in Hrun; injection Hrun as <- <- <-; split; eauto.
Qed.

Lemma command_start_never_serves_witness :
  let w := Sample.database in
  let serve := fun _ : watcher => say NoteReloaded in
  let run := command_start MiniJson.lib serve w in
  run = (Raised AttributeError, [NoteStarting; NoteRule], snd run) ∧
  ∀ serve', command_start MiniJson.lib serve' w = run.
Proof.
  split; [vm_compute; reflexivity|].
  destruct (command_start_never_serves MiniJson.lib
              (fun _ : watcher => say NoteReloaded) Sample.database
              (snd (command_start MiniJson.lib
                      (fun _ : watcher => say NoteReloaded) Sample.database))
              (Raised AttributeError) [NoteStarting; NoteRule])
    as [_ H].
  - vm_compute. reflexivity.
  - intros serve'. rewrite H. vm_compute. reflexivity.
Defined.

(** X22.  [reload_watcher_config] calls [load_all_baselines] while it
    holds [cache_lock], which that method takes again: when the store
    exists and the configuration loads, the call never comes back and
    nothing is printed.  It returns, with nothing monitored and an empty
    cache, only when the store is missing.  No file is changed. *)
Theorem reload_never_returns (L : pylib) (W : watcher)
    (w w' : world) (r : ending watcher) (out : list notice) :
  reload_watcher_config L W w = (r, out, w') →
  fs w' = fs w ∧
  (fs w !! monitored_files_path W = None →
   r = Returned (Watcher (monitored_files_path W) (event_file_path W) [] []) ∧
   out = [NoteReloaded] ∧ w' = w) ∧
  (is_Some (fs w !! monitored_files_path W) →
   out = [] ∧
   (r = Blocked ∨ ∃ e, r = Raised e ∧ e ≠ OSError) ∧
   ∀ m, fst (load_files_monitored L (monitored_files_path W) w) = Ret m →
        r = Blocked).
Proof.
  intros Hrun. unfold reload_watcher_config, with_lock in Hrun.
  destruct (load_files_monitored L (monitored_files_path W) w)
    as [[m|e] w1] eqn:Hload.
  - destruct (load_files_monitored_reads_only L _ _ _ _ Hload)
      as (Hfs & _ & _ & _ & Hnone & _).
    unfold pbind at 1 2 in Hrun.
    rewrite (run_ok _ _ _ _ Hload) in Hrun. cbv zeta in Hrun.
    destruct (fs w !! monitored_files_path W) as [f|] eqn:Hf.
    + rewrite (baselines_lock_held L _ f) in Hrun by by rewrite Hfs.
      injection Hrun as <- <- <-. split; [done|]. split; [done|].
      intros _. split; [done|]. split; [by left|done].
    + destruct (Hnone eq_refl) as [[= ->] ->].
      rewrite (baselines_missing_store LockHeld) in Hrun by done.
      injection Hrun as <- <- <-. split; [done|]. split; [done|].
      by intros [? ?].
  - destruct (load_files_monitored_reads_only L _ _ _ _ Hload)
      as (Hfs & _ & _ & Hos & Hnone & _).
    unfold pbind at 1 2 in Hrun.
    rewrite (run_raise _ _ _ _ Hload) in Hrun.
    injection Hrun as <- <- <-. split; [done|]. split.
    + intros Hf. by destruct (Hnone Hf).
    + intros _. split; [done|]. split; [|done].
      right. exists e. split; [done|]. intros ->. by apply Hos.
Qed.

Lemma reload_never_returns_witness :
  let w := Sample.database in
  let W := Watcher FILE_INFO_DB FILE_EVENT_DB [] [] in
  let run := reload_watcher_config MiniJson.lib W w in
  is_Some (fs w !! FILE_INFO_DB) ∧ run = (Blocked, [], snd run).
Proof.
  split; [vm_compute; eauto|].
  destruct (reload_never_returns MiniJson.lib
              (Watcher FILE_INFO_DB FILE_EVENT_DB [] []) Sample.database
              (snd (reload_watcher_config MiniJson.lib
                      (Watcher FILE_INFO_DB FILE_EVENT_DB [] []) Sample.database))
              (fst (fst (reload_watcher_config MiniJson.lib
                      (Watcher FILE_INFO_DB FILE_EVENT_DB [] []) Sample.database)))
              (snd (fst (reload_watcher_config MiniJson.lib
                      (Watcher FILE_INFO_DB FILE_EVENT_DB [] []) Sample.database))))
    as (_ & _ & Hthere).
  - by destruct (reload_watcher_config MiniJson.lib
                   (Watcher FILE_INFO_DB FILE_EVENT_DB [] []) Sample.database)
      as [[? ?] ?].
  - destruct Hthere as (Hout & _ & Hr); [vm_compute; eauto|].
    assert (Hb : fst (fst (reload_watcher_config MiniJson.lib
                      (Watcher FILE_INFO_DB FILE_EVENT_DB [] []) Sample.database))
                 = Blocked) by (eapply Hr; vm_compute; reflexivity).
    destruct (reload_watcher_config MiniJson.lib
                (Watcher FILE_INFO_DB FILE_EVENT_DB [] []) Sample.database)
      as [[r out] w'].
    cbn [fst snd] in *. by subst.
Defined.

(* ===================================================================== *)
(** * The alert modes *)
(* ===================================================================== *)

(** X23.  [AlertManager.dispatch] hands a report to a handler only when
    the report is a dict and the mode one of the strings
    [validate_alert_mode] accepts; of the five valid modes, [log] and
    [silent] are the two that call no handler. *)
Theorem routed_mode_is_valid (report alert_mode : json) (c : channel) :
  alert_route report alert_mode = Some c →
  validate_alert_mode alert_mode = Ret true ∧
  ∃ d mode, report = JDict d ∧ alert_mode = JStr mode ∧
            mode ≠ "log" ∧ mode ≠ "silent".
Proof.
  unfold alert_route. destruct report as [| | | | |d]; try done.
  destruct alert_mode as [| | |mode| |]; try done. intros H.
  assert (Hmode : mode = "system" ∨ mode = "email" ∨ mode = "remote").
  { destruct (str_eqb mode "system") eqn:H1;
      [apply str_eqb_true in H1; auto|].
    destruct (str_eqb mode "log") eqn:H2; [done|].
    destruct (str_eqb mode "email") eqn:H3;
      [apply str_eqb_true in H3; auto|].
    destruct (str_eqb mode "remote") eqn:H4;
      [apply str_eqb_true in H4; auto|].
    by destruct (str_eqb mode "silent"). }
  split.
  - by destruct Hmode as [->|[->| ->]].
  - exists d, mode. by destruct Hmode as [->|[->| ->]].
Qed.

Lemma routed_mode_is_valid_witness :
  alert_route (JDict []) (JStr "email") = Some email_notification ∧
  validate_alert_mode (JStr "email") = Ret true.
Proof.
  split; [reflexivity|].
  apply (routed_mode_is_valid (JDict []) (JStr "email") email_notification).
  reflexivity.
Defined.

(** X24.  Whatever the machine offers, the modes
    [get_available_modes] returns are distinct, all accepted by
    [validate_alert_mode], and [log] and [silent] are among them. *)
Theorem available_modes_are_valid (M : machine) (l : list string) :
  get_available_modes M = Ret l →
  NoDup l ∧ "log" ∈ l ∧ "silent" ∈ l ∧
  ∀ mode, mode ∈ l → validate_alert_mode (JStr mode) = Ret true.
Proof.
  unfold get_available_modes.
  destruct (which_notify_send M) as [found|e]; [|done]. cbn [obind].
  generalize (forallb (env_set M)
                ["SMTP_HOST"; "SMTP_USER"; "SMTP_PASS"; "ALERT_EMAIL_TO"]),
             (forallb (env_set M) ["REMOTE_ALERT_URL"; "REMOTE_ALERT_TOKEN"]).
  intros smtp remote [= <-].
  destruct found, smtp, remote;
    cbn [app];
    (split; [rewrite ?NoDup_cons, ?not_elem_of_cons; repeat split;
             try done; try apply not_elem_of_nil; apply NoDup_nil_2|]);
    (split; [rewrite ?elem_of_cons; auto 10|]);
    (split; [rewrite ?elem_of_cons; auto 10|]);
    intros mode Hm;
    repeat (apply elem_of_cons in Hm as [->|Hm]; [done|]);
    by apply elem_of_nil in Hm.
Qed.

Lemma available_modes_are_valid_witness :
  let M := {| environ := fun _ => None; which_notify_send := Ret true |} in
  get_available_modes M = Ret ["log"; "silent"; "system"] ∧
  validate_alert_mode (JStr "system") = Ret true.
Proof.
  split; [reflexivity|].
  destruct (available_modes_are_valid
              {| environ := fun _ => None; which_notify_send := Ret true |}
              ["log"; "silent"; "system"] eq_refl) as (_ & _ & _ & H).
  apply H. rewrite ?elem_of_cons. auto 10.
Defined.

(* ===================================================================== *)
(** * The directories a file can be added from *)
(* ===================================================================== *)

Lemma prefix_append (a s : string) :
  String.prefix a s = true ↔ ∃ rest, s = a ++ rest.
Proof.
  revert s. induction a as [|c a IH]; intros s.
  - split; [intros _; by exists s|by destruct s].
  - destruct s as [|c' s]; cbn [String.prefix].
    + split; [done|]. by intros [rest ?].
    + destruct (ascii_dec c c') as [<-|Hne].
      * rewrite IH. split; intros [rest H]; exists rest.
        -- by rewrite H.
        -- by injection H.
      * split; [done|]. intros [rest H]. by injection H as -> _.
Qed.

Lemma prefix_comparable (a b s : string) :
  String.prefix a s = true → String.prefix b s = true →
  String.prefix a b = true ∨ String.prefix b a = true.
Proof.
  revert b s. induction a as [|c a IH]; intros b s; [left; by destruct b|].
  destruct b as [|c' b]; [by right|].
  destruct s as [|c'' s]; [done|]. cbn [String.prefix].
  destruct (ascii_dec c c'') as [<-|?]; [|done].
  destruct (ascii_dec c' c) as [->|?]; [|done].
  destruct (ascii_dec c c) as [_|?]; [|done]. apply IH.
Qed.

Lemma allowed_not_forbidden (s : string) :
  existsb (fun d => String.prefix d s) ALLOWED_DIRS = true →
  existsb (fun pattern => String.prefix pattern s) forbidden_patterns = false.
Proof.
  intros (d & Hd & Hpd)%existsb_exists. apply not_true_is_false.
  intros (pat & Hpat & Hpp)%existsb_exists.
  assert (Hall : forallb (fun d => forallb (fun pat =>
                    negb (String.prefix d pat) && negb (String.prefix pat d))
                    forbidden_patterns) ALLOWED_DIRS = true)
    by (vm_compute; reflexivity).
  rewrite forallb_forall in Hall. specialize (Hall d Hd).
  rewrite forallb_forall in Hall. specialize (Hall pat Hpat).
  apply andb_true_iff in Hall as [H1 H2].
  destruct (prefix_comparable d pat s Hpd Hpp) as [H|H]; rewrite H in *; done.
Qed.

(** With directories given, both lists are consulted. *)
Lemma validate_path_listed L (path d : string) (ds : list string) :
  validate_path L path (Some (d :: ds)) =
  existsb (fun d' => String.prefix d' (abspath L path)) (d :: ds) &&
  negb (existsb (fun pattern => String.prefix pattern (abspath L path))
                forbidden_patterns).
Proof.
  unfold validate_path. cbv zeta.
  by destruct (existsb (fun d' => String.prefix d' (abspath L path)) (d :: ds)).
Qed.

(** X25.  With the directories [command_add] allows, [validate_path]
    accepts exactly the paths whose absolute form starts, character by
    character, with one of them: a name that merely begins like an
    allowed directory passes, and the forbidden patterns reject nothing
    more. *)
Theorem allowed_dirs_decide (L : pylib) (path : string) :
  validate_path L path (Some ALLOWED_DIRS) = true ↔
  ∃ d rest, d ∈ ALLOWED_DIRS ∧ abspath L path = d ++ rest.
Proof.
  assert (Heq : validate_path L path (Some ALLOWED_DIRS) =
                existsb (fun d' => String.prefix d' (abspath L path)) ALLOWED_DIRS &&
                negb (existsb (fun pattern =>
                                 String.prefix pattern (abspath L path))
                              forbidden_patterns))
    by apply (validate_path_listed L path "/home").
  rewrite Heq. clear Heq.
  destruct (existsb (fun d' => String.prefix d' (abspath L path)) ALLOWED_DIRS)
    eqn:Hex; cbn [andb].
  - rewrite (allowed_not_forbidden _ Hex). split; [intros _|done].
    apply existsb_exists in Hex as (d & Hd & Hp).
    apply prefix_append in Hp as [rest Hp]. exists d, rest.
    split; [by apply list_elem_of_In|done].
  - split; [done|]. intros (d & rest & Hd & Hp).
    apply not_true_iff_false in Hex. destruct Hex.
    apply existsb_exists. exists d. split; [by apply list_elem_of_In|].
    apply prefix_append. by exists rest.
Qed.

(* ===================================================================== *)
(** * What the command that adds files appends *)
(* ===================================================================== *)

Lemma load_file_info_record L V (p k : string) (info v : json) :
  load_file_info L V p = Ret info → ∃ data, py_setitem info k v = Ret data.
Proof.
  unfold load_file_info. destruct (os_stat V (abspath L p)); [|done].
  intros [= <-]. eexists. reflexivity.
Qed.

Lemma load_file_info_raise L V (p : string) (e : exn) :
  load_file_info L V p = Raise e → e = OSError.
Proof.
  unfold load_file_info. destruct (os_stat V (abspath L p)); [done|].
  by intros [= <-].
Qed.

Lemma save_initial_info_fail L V (p : string) (we am : json) (e : exn) w :
  load_file_info L V p = Raise e →
  save_initial_info L V p we am w = (Raise e, w).
Proof. intros H. unfold save_initial_info, bind, lift. by rewrite H. Qed.

(** One turn of the loop of [command_add] when nothing fails: the file is
    passed over, or its record goes to the end of the store. *)
Lemma add_step_cases L V (we : list string) (alert : string)
    (st : list json * Z) (path : string) w r out w' :
  faults w = [] →
  add_step L V we alert st path w = (r, out, w') →
  faults w' = [] ∧
  ((r = Returned st ∧ fs w' = fs w ∧
    (path_exists V (abspath L path) = true →
     validate_path L (abspath L path) (Some ALLOWED_DIRS) = true →
     (∃ info, load_file_info L V (abspath L path) = Ret info) →
     existsb (py_eq (JStr (abspath L path))) (fst st) = true)) ∨
   (∃ info data,
      path_exists V (abspath L path) = true ∧
      validate_path L (abspath L path) (Some ALLOWED_DIRS) = true ∧
      existsb (py_eq (JStr (abspath L path))) (fst st) = false ∧
      load_file_info L V (abspath L path) = Ret info ∧
      py_setitem info "monitoring"
        (initial_monitoring V (JList (map JStr we)) (JStr alert)) = Ret data ∧
      r = Returned (set_insert (JStr (abspath L path)) (fst st), snd st + 1) ∧
      content_of (fs w' !! FILE_INFO_DB) =
        content_of (fs w !! FILE_INFO_DB) ++ dumps L data ++ nl)).
Proof.
  intros Hno Hrun. destruct st as [existing count]. unfold add_step in Hrun.
  cbn [fst snd]. set (p := abspath L path) in *.
  destruct (path_exists V p) eqn:Hex; cbn [negb] in Hrun.
  2: { injection Hrun as <- <- <-. split; [done|]. left. done. }
  destruct (validate_path L p (Some ALLOWED_DIRS)) eqn:Hval; cbn [negb] in Hrun.
  2: { injection Hrun as <- <- <-. split; [done|]. left. done. }
  destruct (existsb (py_eq (JStr p)) existing) eqn:Hin.
  { injection Hrun as <- <- <-. split; [done|]. left. done. }
  destruct (load_file_info L V p) as [info|e] eqn:Hload.
  - destruct (load_file_info_record L V p "monitoring" info
                (initial_monitoring V (JList (map JStr we)) (JStr alert)) Hload)
      as [data Hdata].
    destruct (save_initial_info_ok L V p _ _ info data w Hno Hload Hdata)
      as (w2 & Hsave & Hfs & Hno2).
    unfold ptry_os in Hrun. rewrite (run_bind_ok _ _ _ _ _ Hsave) in Hrun.
    injection Hrun as <- <- <-. split; [done|]. right. exists info, data.
    do 6 (split; [done|]). rewrite Hfs.
    change FILE_INFO_DB with file_info_db. by rewrite lookup_insert_eq.
  - pose proof (load_file_info_raise _ _ _ _ Hload) as ->.
    unfold ptry_os in Hrun.
    rewrite (run_bind_raise _ _ _ _ _
               (save_initial_info_fail L V p _ _ _ w Hload)) in Hrun.
    injection Hrun as <- <- <-. split; [done|]. left.
    split; [done|]. split; [done|]. by intros _ _ [info ?].
Qed.

(** The loop of [command_add] when nothing fails: the state it ends in
    and the records it has appended, with the path of each. *)
Lemma add_fold_cases L V (we : list string) (alert : string)
    (files : list string) :
  ∀ st w r out w',
    faults w = [] →
    pfold (add_step L V we alert) files st w = (r, out, w') →
    ∃ (added : list (string * json)) st',
      r = Returned st' ∧ faults w' = [] ∧
      content_of (fs w' !! FILE_INFO_DB) =
        content_of (fs w !! FILE_INFO_DB) ++
        unlines (map (fun pd => dumps L (snd pd)) added) ∧
      snd st' = snd st + Z.of_nat (length added) ∧
      (∀ q, existsb (py_eq (JStr q)) (fst st') =
            existsb (py_eq (JStr q)) (fst st) || bool_decide (q ∈ map fst added)) ∧
      NoDup (map fst added) ∧
      (∀ p data, (p, data) ∈ added →
         p ∈ map (abspath L) files ∧
         path_exists V p = true ∧
         validate_path L p (Some ALLOWED_DIRS) = true ∧
         existsb (py_eq (JStr p)) (fst st) = false ∧
         ∃ info, load_file_info L V p = Ret info ∧
                 py_setitem info "monitoring"
                   (initial_monitoring V (JList (map JStr we)) (JStr alert))
                 = Ret data) ∧
      (∀ p, p ∈ map (abspath L) files →
         path_exists V p = true →
         validate_path L p (Some ALLOWED_DIRS) = true →
         (∃ info, load_file_info L V p = Ret info) →
         existsb (py_eq (JStr p)) (fst st') = true).
Proof.
  induction files as [|x files IH]; intros st w r out w' Hno Hrun.
  - cbn [pfold] in Hrun. injection Hrun as <- <- <-. exists [], st.
    cbn [map unlines length]. rewrite append_empty_r, Z.add_0_r.
    do 4 (split; [done|]). split.
    { intros q. rewrite bool_decide_eq_false_2, orb_false_r; [done|].
      apply not_elem_of_nil. }
    split; [apply NoDup_nil_2|]. split.
    + intros p data Hin. by apply elem_of_nil in Hin.
    + intros p Hin. by apply elem_of_nil in Hin.
  - cbn [pfold] in Hrun.
    destruct (add_step L V we alert st x w) as [[r1 out1] w1] eqn:Hstep.
    destruct (add_step_cases _ _ _ _ _ _ _ _ _ _ Hno Hstep) as [Hno1 Hcase].
    unfold pbind in Hrun. rewrite Hstep in Hrun.
    destruct Hcase as [(-> & Hfs1 & Hskip)|
                       (info & data & Hex & Hval & Hnew & Hload & Hdata & -> & Hc1)].
    + destruct (pfold (add_step L V we alert) files st w1)
        as [[r2 out2] w2] eqn:Hrest.
      injection Hrun as <- <- <-.
      destruct (IH _ _ _ _ _ Hno1 Hrest)
        as (added & st' & -> & Hno2 & Hc & Hn & Hm & Hnd & Hrec & Hall).
      exists added, st'. split; [done|]. split; [done|].
      split; [by rewrite Hc, Hfs1|]. split; [done|]. split; [done|].
      split; [done|]. split.
      * intros p d Hin. destruct (Hrec p d Hin) as (Hp & ?).
        split; [|done]. cbn [map]. by apply elem_of_cons; right.
      * intros p Hp H1 H2 H3. cbn [map] in Hp.
        apply elem_of_cons in Hp as [->|Hp]; [|by apply Hall].
        rewrite Hm, (Hskip H1 H2 H3). done.
    + set (p0 := abspath L x) in *.
      destruct (pfold (add_step L V we alert) files
                  (set_insert (JStr p0) (fst st), snd st + 1) w1)
        as [[r2 out2] w2] eqn:Hrest.
      injection Hrun as <- <- <-.
      destruct (IH _ _ _ _ _ Hno1 Hrest)
        as (added & st' & -> & Hno2 & Hc & Hn & Hm & Hnd & Hrec & Hall).
      cbn [fst snd] in *.
      exists ((p0, data) :: added), st'. split; [done|]. split; [done|].
      split.
      { rewrite Hc, Hc1. cbn [map unlines snd]. by rewrite !append_assoc. }
      split.
      { rewrite Hn. cbn [length]. lia. }
      split.
      { intros q. rewrite Hm, existsb_set_insert_str. cbn [map fst py_eq].
        rewrite <- orb_assoc. f_equal. apply eq_true_iff_eq.
        rewrite orb_true_iff, !bool_decide_eq_true, elem_of_cons, str_eqb_true.
        tauto. }
      split.
      { cbn [map fst]. apply NoDup_cons. split; [|done].
        intros ((p' & d') & Hp' & Hin)%list_elem_of_fmap. cbn [fst] in Hp'.
        subst p'. destruct (Hrec _ _ Hin) as (_ & _ & _ & Hfalse & _).
        rewrite existsb_set_insert_str in Hfalse. cbn [py_eq] in Hfalse.
        by rewrite str_eqb_refl, orb_true_r in Hfalse. }
      split.
      * intros p d Hin. apply elem_of_cons in Hin as [[= -> ->]|Hin].
        -- split; [cbn [map]; by apply elem_of_cons; left|].
           split; [done|]. split; [done|]. split; [done|]. by exists info.
        -- destruct (Hrec p d Hin) as (Hp & H1 & H2 & Hfalse & H3).
           split; [cbn [map]; by apply elem_of_cons; right|].
           split; [done|]. split; [done|]. split; [|done].
           rewrite existsb_set_insert_str in Hfalse.
           by apply orb_false_elim in Hfalse as [? _].
      * intros p Hp H1 H2 H3. cbn [map] in Hp.
        apply elem_of_cons in Hp as [->|Hp]; [|by apply Hall].
        rewrite Hm, existsb_set_insert_str. cbn [py_eq].
        by rewrite str_eqb_refl, orb_true_r.
Qed.

(** The monitored paths are the same before and after the set-up. *)
Lemma paths_after_set_up L (v : json) w w0 :
  faults w = [] →
  ensure_db_exists L w = (Ret v, w0) →
  faults w0 = [] ∧
  content_of (fs w0 !! FILE_INFO_DB) = content_of (fs w !! FILE_INFO_DB) ∧
  fst (get_all_monitored_paths L FILE_INFO_DB w0) =
  fst (get_all_monitored_paths L FILE_INFO_DB w).
Proof.
  intros Hno Hens. unfold ensure_db_exists in Hens.
  destruct (initialize_database_ok L FILE_INFO_DB FILE_EVENT_DB w Hno)
    as (w0' & Hrun & Hfs & Hno0).
  rewrite Hrun in Hens. injection Hens as _ <-. split; [done|].
  assert (Hf : fs w0' !! FILE_INFO_DB
               = Some (default (File "" mode_600) (fs w !! FILE_INFO_DB))).
  { rewrite Hfs, lookup_insert_ne by done. apply lookup_insert_eq. }
  rewrite (paths_ok L _ w0' Hno0), (paths_ok L _ w Hno), Hf.
  by destruct (fs w !! FILE_INFO_DB).
Qed.

(** X26.  When nothing fails and [command_add] returns, what it has
    appended to the store is one record for each file it was given that
    exists, lies in an allowed directory, can be inspected and was not
    monitored before, and nothing else: no path gets two records, even
    when it is given twice, and the last line printed counts the records. *)
Theorem command_add_adds_each_path_once (L : pylib) (V : osview)
    (args : add_args) (w w1 w' : world) (existing : list json)
    (out : list notice) :
  faults w = [] →
  get_all_monitored_paths L FILE_INFO_DB w = (Ret existing, w1) →
  command_add L V args w = (Returned tt, out, w') →
  ∃ added : list (string * json),
    content_of (fs w' !! FILE_INFO_DB) =
      content_of (fs w !! FILE_INFO_DB) ++
      unlines (map (fun pd => dumps L (snd pd)) added) ∧
    NoDup (map fst added) ∧
    (∀ p data, (p, data) ∈ added →
       ∃ info, load_file_info L V p = Ret info ∧
               py_setitem info "monitoring"
                 (initial_monitoring V (JList (map JStr (watch_events_of args)))
                                     (JStr (add_alert args)))
               = Ret data) ∧
    (∀ p, p ∈ map fst added ↔
          p ∈ map (abspath L) (add_files args) ∧
          path_exists V p = true ∧
          validate_path L p (Some ALLOWED_DIRS) = true ∧
          (∃ info, load_file_info L V p = Ret info) ∧
          JStr p ∉ existing) ∧
    last out = Some (match added with
                     | [] => NoteNoFilesAdded
                     | _ :: _ => NoteAddedCount (Z.of_nat (length added))
                     end).
Proof.
  intros Hno Hpaths Hrun. unfold command_add in Hrun.
  destruct (ensure_db_exists L w) as [[v|e] w0] eqn:Hens.
  2: { by rewrite (run_bind_raise _ _ _ _ _ Hens) in Hrun. }
  rewrite (run_bind_ok _ _ _ _ _ Hens) in Hrun. cbv zeta in Hrun.
  destruct (paths_after_set_up L v w w0 Hno Hens) as (Hno0 & Hc0 & Hsame).
  rewrite Hpaths in Hsame. cbn [fst] in Hsame.
  destruct (watch_events_of args) as [|ev evs] eqn:Hwe; [done|].
  rewrite <- Hwe in *. clear Hwe ev evs.
  unfold validate_alert_mode in Hrun. cbn [hashable] in Hrun.
  rewrite (run_bind_ok (lift (Ret _)) _ w0 _ w0) in Hrun by done.
  destruct (existsb (py_eq (JStr (add_alert args))) (map JStr valid_modes));
    [|done].
  cbn [negb] in Hrun.
  destruct (get_all_monitored_paths L FILE_INFO_DB w0) as [[ex|e] w2] eqn:Hp0.
  2: { by rewrite (run_bind_raise _ _ _ _ _ Hp0) in Hrun. }
  cbn [fst] in Hsame. injection Hsame as ->.
  rewrite (run_bind_ok _ _ _ _ _ Hp0) in Hrun.
  assert (Hw2 : fs w2 = fs w0 ∧ faults w2 = []).
  { rewrite (paths_ok L _ w0 Hno0) in Hp0.
    destruct (fs w0 !! FILE_INFO_DB); by injection Hp0 as _ <-. }
  destruct Hw2 as [Hfs2 Hno2].
  destruct (pfold (add_step L V (watch_events_of args) (add_alert args))
              (add_files args) (existing, 0) w2) as [[r3 out3] w3] eqn:Hfold.
  destruct (add_fold_cases _ _ _ _ _ _ _ _ _ _ Hno2 Hfold)
    as (added & st' & -> & Hno3 & Hc & Hn & Hm & Hnd & Hrec & Hall).
  cbn [fst snd] in *.
  unfold pbind in Hrun. rewrite Hfold in Hrun.
  assert (Hout : ∃ n, out = (out3 ++ [n])%list ∧ w' = w3 ∧
                      n = match added with
                          | [] => NoteNoFilesAdded
                          | _ :: _ => NoteAddedCount (Z.of_nat (length added))
                          end).
  { rewrite Hn in Hrun. destruct added as [|a added].
    - cbn in Hrun. injection Hrun as <- <-. eauto.
    - destruct (0 <? 0 + Z.of_nat (length (a :: added))) eqn:Hpos.
      + cbn in Hrun. injection Hrun as <- <-. eexists. split; [done|].
        split; [done|]. f_equal.
      + apply Z.ltb_ge in Hpos. cbn [length] in Hpos. lia. }
  destruct Hout as (n & -> & -> & ->).
  exists added. split; [by rewrite Hc, Hfs2, Hc0|]. split; [done|]. split.
  { intros p data Hin. by destruct (Hrec p data Hin) as (_ & _ & _ & _ & ?). }
  split; [|apply last_snoc].
  intros p. split.
  - intros ((p' & d) & Hp' & Hin)%list_elem_of_fmap. cbn [fst] in Hp'. subst p'.
    destruct (Hrec p d Hin) as (H1 & H2 & H3 & H4 & info & H5 & _).
    do 3 (split; [done|]). split; [by exists info|].
    rewrite existsb_py_eq_str in H4. by apply bool_decide_eq_false in H4.
  - intros (H1 & H2 & H3 & H4 & H5).
    pose proof (Hall p H1 H2 H3 H4) as Hin. rewrite Hm in Hin.
    rewrite existsb_py_eq_str, bool_decide_eq_false_2 in Hin by done.
    cbn [orb] in Hin. by apply bool_decide_eq_true in Hin.
Qed.

Lemma command_add_adds_each_path_once_witness :
  let w := Sample.database_b in
  let args := add_default ["/tmp/a"; "/tmp/a"] in
  let run := command_add MiniJson.lib Example.unchanged args w in
  faults w = [] ∧
  fst (get_all_monitored_paths MiniJson.lib FILE_INFO_DB w) = Ret [JStr "/tmp/b"] ∧
  fst (fst run) = Returned tt ∧
  ∃ added : list (string * json),
    NoDup (map fst added) ∧ "/tmp/a" ∈ map fst added ∧
    content_of (fs (snd run) !! FILE_INFO_DB) =
      (Example.line_b ++ nl) ++
      unlines (map (fun pd => MiniJson.dumps (snd pd)) added).
Proof.
  split; [reflexivity|]. split; [vm_compute; reflexivity|].
  split; [vm_compute; reflexivity|].
  destruct (command_add_adds_each_path_once MiniJson.lib Example.unchanged
              (add_default ["/tmp/a"; "/tmp/a"]) Sample.database_b
              (snd (get_all_monitored_paths MiniJson.lib FILE_INFO_DB
                      Sample.database_b))
              (snd (command_add MiniJson.lib Example.unchanged
                      (add_default ["/tmp/a"; "/tmp/a"]) Sample.database_b))
              [JStr "/tmp/b"]
              (snd (fst (command_add MiniJson.lib Example.unchanged
                           (add_default ["/tmp/a"; "/tmp/a"]) Sample.database_b))))
    as (added & Hc & Hnd & _ & Hin & _).
  - reflexivity.
  - vm_compute. reflexivity.
  - vm_compute. reflexivity.
  - exists added. split; [exact Hnd|]. split; [|exact Hc].
    apply Hin. split; [apply list_elem_of_here|].
    split; [vm_compute; reflexivity|]. split; [vm_compute; reflexivity|].
    split; [eexists; vm_compute; reflexivity|].
    intros H. apply list_elem_of_singleton in H. discriminate H.
Defined.

(* ===================================================================== *)
(** * Corrupt lines of an ASCII store *)
(* ===================================================================== *)










